(** * Hydro-Sentinel data preparation: a shallow embedding

    The four preparation scripts (precipitation model, observed
    precipitation, observed flow, observed volume) and the batch
    consolidator of the desktop front end are embedded as Rocq
    functions.  Station codes and timestamps are integers ([Z], a
    timestamp being a number of seconds), measured values are exact
    rationals ([Q]) with [None] standing for a pandas null (NaN), text
    is a list of Unicode code points, Python dictionaries are [gmap]s
    and DataFrames in long format are lists of records in row order. *)

From Stdlib Require Import ZArith QArith Qround Lia Ascii String.
From stdpp Require Import gmap strings list sorting.

Open Scope Z_scope.

(** ** Python built-ins *)

Module Py.

(** [sorted(l)] on integers. *)
Definition sorted (l : list Z) : list Z := merge_sort Z.le l.

(** [sorted(set(l))]: the distinct elements in ascending order. *)
Definition sorted_set (l : list Z) : list Z := sorted (remove_dups l).

(** [sorted(set(a) | set(b))]. *)
Definition sorted_union (a b : list Z) : list Z := sorted_set (a ++ b).

(** [sorted(set(a) - set(b))]. *)
Definition sorted_diff (a b : list Z) : list Z :=
  sorted_set (filter (λ x, x ∉ b) a).

(** [int(q)] on a finite number: truncation towards zero. *)
Definition int (q : Q) : Z :=
  if Qle_bool 0 q then Qfloor q else Qceiling q.

End Py.

(** ** Spreadsheet cells as openpyxl returns them *)

Inductive cell :=
| CNone
| CNum (q : Q)
| CBool (b : bool)
| CStr (s : list N).

(** [isinstance(v, (int, float))]: numbers, and booleans since [bool]
    is a subclass of [int]. *)
Definition cell_number (v : cell) : option Q :=
  match v with
  | CNum q => Some q
  | CBool b => Some (if b then 1%Q else 0%Q)
  | _ => None
  end.

(** A worksheet is its grid of rows; [ws.cell(r, c).value] with the
    1-based indices of openpyxl, an absent cell reading [None]. *)
Definition sheet := list (list cell).

Definition cell_value (ws : sheet) (r c : nat) : cell :=
  nth (c - 1) (nth (r - 1) ws []) CNone.

Definition max_row (ws : sheet) : nat := length ws.

Definition max_column (ws : sheet) : nat :=
  foldr (λ row acc, Nat.max (length row) acc) 0%nat ws.

(** Columns [2 .. max_column] of a sheet, as [range(2, max_column + 1)]. *)
Definition data_columns (ws : sheet) : list nat :=
  seq 2 (max_column ws - 1).

(** ** Long-format frames and the pandas operations used on them *)

Record record := mkRecord {
  r_time : Z;
  r_station : Z;
  r_value : option Q
}.

Record matrix := mkMatrix {
  m_index : list Z;
  m_columns : list Z;
  m_data : list (list (option Q))
}.

Module Pandas.

(** [df.pivot_table(index="time", columns="station_id", values=...,
    aggfunc="last")]: per (time, station) group the last non-null
    value in row order; a group without any non-null value is dropped
    (pandas' default [dropna=True]). *)
Definition pivot_cells (df : list record) : gmap (Z * Z) Q :=
  foldl (λ m r, match r_value r with
                | Some v => <[(r_time r, r_station r) := v]> m
                | None => m
                end) ∅ df.

(** The row labels of the pivot after [sort_index()]. *)
Definition pivot_index (df : list record) : list Z :=
  Py.sorted_set (omap (λ r, match r_value r with
                            | Some _ => Some (r_time r)
                            | None => None
                            end) df).

(** [pivot.reindex(columns=cols)]: exactly the requested columns in the
    requested order, a code absent from the pivot giving a null column. *)
Definition reindex_columns (df : list record) (cols : list Z) : matrix :=
  let piv := pivot_cells df in
  {| m_index := pivot_index df;
     m_columns := cols;
     m_data := map (λ t, map (λ c, piv !! (t, c)) cols) (pivot_index df) |}.

Definition fillna (fill : Q) (m : matrix) : matrix :=
  {| m_index := m_index m;
     m_columns := m_columns m;
     m_data := map (map (λ o, Some (default fill o))) (m_data m) |}.

(** [matrix.to_numpy().ravel()] and [Series.dropna()]. *)
Definition ravel (m : matrix) : list (option Q) := concat (m_data m).

Definition dropna (l : list (option Q)) : list Q := omap id l.

(** [int(matrix.isna().sum().sum())]. *)
Definition isna_count (m : matrix) : nat :=
  length (filter (λ o, o = None) (ravel m)).

Definition shape0 (m : matrix) : nat := length (m_index m).
Definition shape1 (m : matrix) : nat := length (m_columns m).

End Pandas.

(** ** pandas Series reductions

    A Series is a list of possibly-null numbers.  Every reduction skips
    nulls (pandas' default [skipna=True]) and yields a null ([None]) on
    a Series without any valid value. *)

Module Series.

Definition dropna (s : list (option Q)) : list (option Q) :=
  filter (λ o, is_Some o) s.

Definition values (s : list (option Q)) : list Q := omap id s.

Definition qmin (a b : Q) : Q := if Qle_bool a b then a else b.
Definition qmax (a b : Q) : Q := if Qle_bool a b then b else a.

Definition min (s : list (option Q)) : option Q :=
  match values s with
  | [] => None
  | x :: l => Some (foldl qmin x l)
  end.

Definition max (s : list (option Q)) : option Q :=
  match values s with
  | [] => None
  | x :: l => Some (foldl qmax x l)
  end.

Definition total (l : list Q) : Q := foldl Qplus 0%Q l.

Definition count (s : list (option Q)) : nat := length (values s).

(** [sum(min_count=1)]: null when there is no valid value. *)
Definition sum (s : list (option Q)) : option Q :=
  match values s with
  | [] => None
  | l => Some (total l)
  end.

Definition mean (s : list (option Q)) : option Q :=
  match values s with
  | [] => None
  | l => Some (total l / inject_Z (Z.of_nat (length l)))%Q
  end.

(** [last()]: the last valid value in row order. *)
Definition last (s : list (option Q)) : option Q :=
  List.last (map Some (values s)) None.

Fixpoint insert_sorted (x : Q) (l : list Q) : list Q :=
  match l with
  | [] => [x]
  | y :: l' => if Qle_bool x y then x :: l else y :: insert_sorted x l'
  end.

Definition sort_values (l : list Q) : list Q := foldr insert_sorted [] l.

(** [quantile(p)] with pandas' default linear interpolation between
    the two order statistics around position [p * (n - 1)]. *)
Definition quantile (p : Q) (s : list (option Q)) : option Q :=
  match sort_values (values s) with
  | [] => None
  | (x0 :: _) as srt =>
      let pos := (p * (inject_Z (Z.of_nat (length srt)) - 1))%Q in
      let lo := Qfloor pos in
      let frac := (pos - inject_Z lo)%Q in
      let a := nth (Z.to_nat lo) srt x0 in
      let b := nth (Z.to_nat lo + 1) srt a in
      Some (a + frac * (b - a))%Q
  end.

Definition median (s : list (option Q)) : option Q := quantile (1 # 2) s.

End Series.

(** The statistics block that every matrix builder records. *)
Record matrix_stats := mkStats {
  output_rows : nat;
  output_station_columns : nat;
  pre_fill_missing_cells : nat;
  fill_missing_value : option Q;
  stat_min : option Q;
  stat_max : option Q;
  stat_mean : option Q;
  stat_p95 : option Q;
  stat_p99 : option Q
}.

(** ** Observed flow: prepare_flow_observed.py (matrix part) *)

Module Flow.

Definition extract_template_data_codes (ws_data : sheet) : list Z :=
  omap (λ c, Py.int <$> cell_number (cell_value ws_data 3 c))
       (data_columns ws_data).

Definition build_matrix (df : list record) (target_codes : list Z)
    (fill_missing : option Q) : matrix * matrix_stats :=
  let matrix := Pandas.reindex_columns df target_codes in
  let pre_fill_missing := Pandas.isna_count matrix in
  let matrix := match fill_missing with
                | Some f => Pandas.fillna f matrix
                | None => matrix
                end in
  let flat := Pandas.ravel matrix in
  let valid := Series.dropna flat in
  let guard (x : option Q) := if bool_decide (length valid ≠ 0%nat) then x else None in
  (matrix,
   {| output_rows := Pandas.shape0 matrix;
      output_station_columns := Pandas.shape1 matrix;
      pre_fill_missing_cells := pre_fill_missing;
      fill_missing_value := fill_missing;
      stat_min := guard (Series.min valid);
      stat_max := guard (Series.max valid);
      stat_mean := guard (Series.mean valid);
      stat_p95 := guard (Series.quantile (95 # 100) valid);
      stat_p99 := guard (Series.quantile (99 # 100) valid) |}).

(** [main], lines 543 and 550: the target codes and the matrix built
    from the processed frame. *)
Definition target_codes (station_codes_sheet existing_data_codes : list Z)
    : list Z :=
  Py.sorted_union station_codes_sheet existing_data_codes.

Definition main_matrix (station_codes_sheet : list Z) (ws_data : sheet)
    (processed_df : list record) (fill_missing : option Q)
    : matrix * matrix_stats :=
  build_matrix processed_df
    (target_codes station_codes_sheet (extract_template_data_codes ws_data))
    fill_missing.

End Flow.

(** ** Text: Python [str] methods over code points

    The Unicode character database (case mapping, compatibility
    decomposition, combining classes, white space) belongs to the Python
    runtime; it is an interface here.  [str.lower] and NFKD are applied
    code point by code point: the canonical reordering done by
    [unicodedata.normalize] only permutes combining marks, all of which the
    normalizers drop right after. *)

Class UnicodeDB := {
  lower_char : N → list N;
  nfkd_char : N → list N;
  combining : N → bool;
  is_space : N → bool
}.

(** An ASCII literal as code points. *)
Definition u (s : string) : list N :=
  N_of_ascii <$> list_ascii_of_string s.

Module Str.
Section Str.
Context `{UnicodeDB}.

Definition lower (s : list N) : list N := s ≫= lower_char.

Definition nfkd (s : list N) : list N := s ≫= nfkd_char.

Fixpoint lstrip (s : list N) : list N :=
  match s with
  | c :: s' => if is_space c then lstrip s' else s
  | [] => []
  end.

Definition strip (s : list N) : list N :=
  reverse (lstrip (reverse (lstrip s))).

Fixpoint starts_with (p s : list N) : bool :=
  match p, s with
  | [], _ => true
  | a :: p', b :: s' => (a =? b)%N && starts_with p' s'
  | _ :: _, [] => false
  end.

(** [s.replace(old, new)] for a non-empty [old]: occurrences are replaced
    from left to right without overlap; [skip] counts the code points of
    the occurrence being stepped over. *)
Fixpoint replace_from (old new : list N) (skip : nat) (s : list N) : list N :=
  match s with
  | [] => []
  | c :: s' =>
      match skip with
      | S k => replace_from old new k s'
      | O => if starts_with old s
             then new ++ replace_from old new (length old - 1) s'
             else c :: replace_from old new 0 s'
      end
  end.

Definition replace (old new s : list N) : list N := replace_from old new 0 s.

(** [s.split()]: the maximal runs of non-space code points. *)
Fixpoint split_from (cur : list N) (s : list N) : list (list N) :=
  match s with
  | [] => match cur with [] => [] | _ => [reverse cur] end
  | c :: s' =>
      if is_space c
      then match cur with
           | [] => split_from [] s'
           | _ => reverse cur :: split_from [] s'
           end
      else split_from (c :: cur) s'
  end.

Definition split (s : list N) : list (list N) := split_from [] s.

(** [" ".join(tokens)]. *)
Fixpoint join (tokens : list (list N)) : list N :=
  match tokens with
  | [] => []
  | [t] => t
  | t :: rest => t ++ 32%N :: join rest
  end.

(** The character class [[a-z0-9 ]]. *)
Definition in_class (c : N) : bool :=
  ((97 <=? c) && (c <=? 122) || (48 <=? c) && (c <=? 57) || (c =? 32))%N.

(** [re.sub(r"[^a-z0-9 ]+", " ", s)]: every maximal run outside the class
    becomes one space. *)
Fixpoint sub_outside_class (in_run : bool) (s : list N) : list N :=
  match s with
  | [] => []
  | c :: s' =>
      if in_class c then c :: sub_outside_class false s'
      else if in_run then sub_outside_class true s'
      else 32%N :: sub_outside_class true s'
  end.

Definition drop_combining (s : list N) : list N :=
  filter (λ ch, combining ch = false) s.

(** Lexicographic comparison of [str] values. *)
Fixpoint ltb (a b : list N) : bool :=
  match a, b with
  | _, [] => false
  | [], _ :: _ => true
  | x :: a', y :: b' => (x <? y)%N || ((x =? y)%N && ltb a' b')
  end.

Definition leb (a b : list N) : bool := negb (ltb b a).

End Str.
End Str.

#[global] Instance text_le_dec (a b : list N) : Decision (Is_true (Str.leb a b)).
Proof. apply _. Defined.

(** [sorted(labels.unique())] on strings. *)
Definition sorted_labels (l : list (list N)) : list (list N) :=
  merge_sort (λ a b, Is_true (Str.leb a b)) (remove_dups l).

(** The text normalizers of the scripts and of the front end.  The
    argument is [None] for Python's [None] and the [str] of the object
    otherwise. *)

Definition e_acute : N := 233%N.

Module FlowText.
Section FlowText.
Context `{UnicodeDB}.

Definition normalize_text (value : option (list N)) : list N :=
  match value with
  | None => []
  | Some v =>
      let s := Str.lower (Str.strip v) in
      let s := Str.nfkd s in
      let s := Str.drop_combining s in
      let s := Str.replace (u "d" ++ e_acute :: u "bit") (u "debit") s in
      let s := Str.replace (u "(m3/s)") [] s in
      let s := Str.replace (u "_") (u " ") s in
      let s := Str.sub_outside_class false s in
      Str.join (Str.split s)
  end.

End FlowText.
End FlowText.

Module VolumeText.
Section VolumeText.
Context `{UnicodeDB}.

Definition normalize_text (v : option (list N)) : list N :=
  match v with
  | None => []
  | Some v =>
      let s := Str.lower (Str.strip v) in
      let s := Str.nfkd s in
      let s := Str.drop_combining s in
      let s := Str.replace (u "_") (u " ") s in
      let s := Str.replace (u "(mm 3)") [] (Str.replace (u "(mm3)") [] s) in
      let s := Str.replace (u "(hm 3)") [] (Str.replace (u "(hm3)") [] s) in
      let s := Str.sub_outside_class false s in
      Str.join (Str.split s)
  end.

End VolumeText.
End VolumeText.

Module PrecipObsText.
Section PrecipObsText.
Context `{UnicodeDB}.

Definition normalize_text (value : option (list N)) : list N :=
  match value with
  | None => []
  | Some v =>
      Str.join (Str.split (Str.replace (u "_") (u " ") (Str.lower (Str.strip v))))
  end.

End PrecipObsText.
End PrecipObsText.

Module UIText.
Section UIText.
Context `{UnicodeDB}.

Definition normalize_text (value : option (list N)) : list N :=
  match value with
  | None => []
  | Some v =>
      let s := Str.lower (Str.strip v) in
      let s := Str.nfkd s in
      let s := Str.drop_combining s in
      let s := Str.replace (u "d" ++ e_acute :: u "bit") (u "debit") s in
      let s := Str.replace (u "remplissage") (u "remplissage") s in
      let s := Str.replace (u "(m3/s)") [] s in
      let s := Str.replace (u "(mm3)") [] s in
      let s := Str.replace (u "(hm3)") [] s in
      let s := Str.replace (u "_") (u " ") s in
      let s := Str.sub_outside_class false s in
      Str.join (Str.split s)
  end.

End UIText.
End UIText.

(** ** difflib

    [SequenceMatcher] belongs to the Python library; its three similarity
    measures are an interface, the first argument being the candidate
    ([set_seq1]) and the second the word looked up ([set_seq2]). *)

Class SequenceMatcher := {
  real_quick_ratio : list N → list N → Q;
  quick_ratio : list N → list N → Q;
  ratio : list N → list N → Q
}.

Module Difflib.
Section Difflib.
Context `{SequenceMatcher}.

(** The tuple order of Python on [(score, x)] pairs. *)
Definition pair_ltb (a b : Q * list N) : bool :=
  negb (Qle_bool b.1 a.1) || (Qeq_bool a.1 b.1 && Str.ltb a.2 b.2).

(** [max(result)]: the first of the largest elements. *)
Definition py_max (l : list (Q * list N)) : option (Q * list N) :=
  foldl (λ best x, match best with
                   | None => Some x
                   | Some b => if pair_ltb b x then Some x else Some b
                   end) None l.

Definition passes (cutoff : Q) (word x : list N) : bool :=
  Qle_bool cutoff (real_quick_ratio x word)
  && Qle_bool cutoff (quick_ratio x word)
  && Qle_bool cutoff (ratio x word).

(** [difflib.get_close_matches(word, possibilities, n=1, cutoff=cutoff)]. *)
Definition get_close_matches (word : list N) (possibilities : list (list N))
    (cutoff : Q) : list (list N) :=
  let result :=
    omap (λ x, if passes cutoff word x then Some (ratio x word, x) else None)
         possibilities in
  match py_max result with
  | Some (_, x) => [x]
  | None => []
  end.

End Difflib.
End Difflib.

(** ** Warnings

    Each warning message of the scripts, with the data it is formatted
    from. *)

Inductive warning :=
| WFuzzyMapping (details : list (list N * Z * list N * list N))
| WUnmapped (cols : list (list N))
| WInvalidTimestamps (n : nat)
| WInvalidStation (n : nat)
| WNonNumeric (n : nat)
| WNegative (n : nat)
| WDuplicates (n : nat)
| WStationsAbsent (codes : list Z)
| WTimeGaps (n : nat)
| WNoCodeRow
| WColumnsAdded (codes : list Z)
| WInputNotInStationsSheet (codes : list Z)
| WStationsSheetNotInInput (codes : list Z)
| WRateColumnsIgnored (cols : list (list N))
| WOtherColumnsIgnored (cols : list (list N)).

(** ** Station resolution *)

(** One cell of the long-format input: raw time, source column label and
    raw value. *)
Record raw_row := mkRaw {
  raw_time : cell;
  source_col : list N;
  raw_value : cell
}.

(** A row that received a station code. *)
Record mapped_row := mkMapped {
  mp_time : cell;
  mp_source_col : list N;
  mp_value : cell;
  station_id : Z
}.

Inductive method := Exact | Fuzzy | Unmapped.

(** The accumulators of the resolution loop. *)
Record resolver_state := mkResolver {
  col_to_code : gmap (list N) Z;
  exact_matches : nat;
  fuzzy_matches : nat;
  fuzzy_details : list (list N * Z * list N * list N);
  unmapped_cols : list (list N)
}.

Definition resolver_init : resolver_state :=
  mkResolver ∅ 0 0 [] [].

Record mapping_stats := mkMappingStats {
  source_station_columns : nat;
  exact_column_matches : nat;
  fuzzy_column_matches : nat;
  unmapped_station_columns : list (list N);
  rows_dropped_unmapped : nat
}.

(** [out["station_id"] = out["source_col"].map(col_to_code)] followed by
    [dropna(subset=["station_id"])]. *)
Definition assign_codes (col_to_code : gmap (list N) Z) (df : list raw_row)
    : list mapped_row :=
  omap (λ r, (λ code, mkMapped (raw_time r) (source_col r) (raw_value r) code)
               <$> col_to_code !! source_col r) df.

Definition count_unmapped_rows (col_to_code : gmap (list N) Z)
    (df : list raw_row) : nat :=
  length (filter (λ r, col_to_code !! source_col r = None) df).

Definition record_exact (st : resolver_state) (col : list N) (code : Z) :=
  mkResolver (<[col := code]> (col_to_code st)) (S (exact_matches st))
             (fuzzy_matches st) (fuzzy_details st) (unmapped_cols st).

Definition record_fuzzy (st : resolver_state) (col : list N) (code : Z)
    (name b : list N) :=
  mkResolver (<[col := code]> (col_to_code st)) (exact_matches st)
             (S (fuzzy_matches st))
             (fuzzy_details st ++ [(col, code, name, b)]) (unmapped_cols st).

Definition record_unmapped (st : resolver_state) (col : list N) :=
  mkResolver (col_to_code st) (exact_matches st) (fuzzy_matches st)
             (fuzzy_details st) (unmapped_cols st ++ [col]).

Definition resolver_warnings (st : resolver_state) : list warning :=
  (match fuzzy_details st with [] => [] | d => [WFuzzyMapping d] end)
  ++ (match unmapped_cols st with [] => [] | c => [WUnmapped c] end).

Module FlowResolver.
Section FlowResolver.
Context `{UnicodeDB} `{SequenceMatcher}.

Definition cutoff : Q := 82 # 100.

(** The body of the loop over [source_cols].  [alias_to_code[b]] cannot
    raise: [b] is drawn from the keys; the model leaves the column
    unmapped in that unreachable case. *)
Definition resolve_column (alias_to_code : gmap (list N) Z)
    (code_to_name : gmap Z (list N)) (known_aliases : list (list N))
    (st : resolver_state) (col : list N) : resolver_state :=
  let norm := FlowText.normalize_text (Some col) in
  match alias_to_code !! norm with
  | Some code => record_exact st col code
  | None =>
      let best := match known_aliases with
                  | [] => []
                  | _ => Difflib.get_close_matches norm known_aliases cutoff
                  end in
      match best with
      | b :: _ =>
          match alias_to_code !! b with
          | Some code =>
              record_fuzzy st col code (default [] (code_to_name !! code)) b
          | None => record_unmapped st col
          end
      | [] => record_unmapped st col
      end
  end.

Definition map_columns_to_codes (df : list raw_row)
    (alias_to_code : gmap (list N) Z) (code_to_name : gmap Z (list N))
    (warnings : list warning)
    : list mapped_row * mapping_stats * list warning :=
  let source_cols := sorted_labels (source_col <$> df) in
  let known_aliases := (map_to_list alias_to_code).*1 in
  let st := foldl (resolve_column alias_to_code code_to_name known_aliases)
                  resolver_init source_cols in
  let warnings := warnings ++ resolver_warnings st in
  (assign_codes (col_to_code st) df,
   {| source_station_columns := length source_cols;
      exact_column_matches := exact_matches st;
      fuzzy_column_matches := fuzzy_matches st;
      unmapped_station_columns := unmapped_cols st;
      rows_dropped_unmapped := count_unmapped_rows (col_to_code st) df |},
   warnings).

End FlowResolver.
End FlowResolver.

Module VolumeResolver.
Section VolumeResolver.
Context `{UnicodeDB} `{SequenceMatcher}.

Definition cutoff : Q := 8 # 10.

Definition resolve_column (alias_to_code : gmap (list N) Z)
    (code_to_name : gmap Z (list N)) (aliases : list (list N))
    (st : resolver_state) (c : list N) : resolver_state :=
  let n := VolumeText.normalize_text (Some c) in
  match alias_to_code !! n with
  | Some code => record_exact st c code
  | None =>
      match Difflib.get_close_matches n aliases cutoff with
      | b :: _ =>
          match alias_to_code !! b with
          | Some code =>
              record_fuzzy st c code (default [] (code_to_name !! code)) b
          | None => record_unmapped st c
          end
      | [] => record_unmapped st c
      end
  end.

Definition map_stations (long_df : list raw_row)
    (alias_to_code : gmap (list N) Z) (code_to_name : gmap Z (list N))
    (warnings : list warning)
    : list mapped_row * mapping_stats * list warning :=
  let source_cols := sorted_labels (source_col <$> long_df) in
  let aliases := (map_to_list alias_to_code).*1 in
  let st := foldl (resolve_column alias_to_code code_to_name aliases)
                  resolver_init source_cols in
  let warnings := warnings ++ resolver_warnings st in
  (assign_codes (col_to_code st) long_df,
   {| source_station_columns := length source_cols;
      exact_column_matches := exact_matches st;
      fuzzy_column_matches := fuzzy_matches st;
      unmapped_station_columns := unmapped_cols st;
      rows_dropped_unmapped := count_unmapped_rows (col_to_code st) long_df |},
   warnings).

End VolumeResolver.
End VolumeResolver.

(** ** Exceptions and results *)

Inductive exn :=
| ValueError (msg : string)
| IndexError
| KeyError (key : list N)
| SystemExit (code : Z).

Inductive result (A : Type) :=
| Ok (a : A)
| Raise (e : exn).
Arguments Ok {A} a.
Arguments Raise {A} e.

#[global] Instance result_ret : MRet result := λ A a, Ok a.

#[global] Instance result_bind : MBind result := λ A B f r,
  match r with
  | Ok a => f a
  | Raise e => Raise e
  end.

(** ** Cleaning primitives *)

Definition key_of (r : record) : Z * Z := (r_time r, r_station r).

(** [df.duplicated(subset=["time", "station_id"], keep="last")]: a row is
    marked when a later row carries the same key. *)
Fixpoint duplicated_last (l : list record) : list bool :=
  match l with
  | [] => []
  | r :: l' => bool_decide (key_of r ∈ key_of <$> l') :: duplicated_last l'
  end.

(** [int(mask.sum())]. *)
Definition mask_sum (mask : list bool) : nat :=
  length (filter (λ b, b = true) mask).

(** [df.loc[~mask]]. *)
Definition loc_not {A} (mask : list bool) (l : list A) : list A :=
  (filter (λ p, p.2 = false) (zip l mask)).*1.

(** A stable sort, as [sort_values] on several columns. *)
Fixpoint insert_by {A} (le : A → A → bool) (x : A) (l : list A) : list A :=
  match l with
  | [] => [x]
  | y :: l' => if le x y then x :: l else y :: insert_by le x l'
  end.

Definition stable_sort {A} (le : A → A → bool) (l : list A) : list A :=
  foldr (insert_by le) [] l.

Definition le_time_station (a b : record) : bool :=
  (r_time a <? r_time b) || ((r_time a =? r_time b) && (r_station a <=? r_station b)).

Definition le_station_time (a b : record) : bool :=
  (r_station a <? r_station b)
  || ((r_station a =? r_station b) && (r_time a <=? r_time b)).

(** [int((s < 0).sum(skipna=True))]. *)
Definition is_negative (r : record) : bool :=
  match r_value r with
  | Some v => negb (Qle_bool 0 v)
  | None => false
  end.

Definition count_negative (l : list record) : nat :=
  length (filter (λ r, is_negative r = true) l).

Definition count_null (l : list record) : nat :=
  length (filter (λ r, r_value r = None) l).

(** [nunique()] of a column. *)
Definition nunique (l : list Z) : nat := length (remove_dups l).

Definition list_min (l : list Z) : option Z :=
  match l with [] => None | x :: l' => Some (foldl Z.min x l') end.

Definition list_max (l : list Z) : option Z :=
  match l with [] => None | x :: l' => Some (foldl Z.max x l') end.

(** ** Precipitation model: prepare_precip_model.py *)

Module PrecipModel.

Definition REQUIRED_COLUMNS : list string :=
  ["time"; "echance"; "station_id"; "name"; "station_name"; "rr"]%string.

Record input_row := mkInput {
  in_time : cell;
  in_station_id : cell;
  in_rr : cell
}.

Record input_frame := mkFrame {
  columns : list string;
  rows : list input_row
}.

Inductive error :=
| MissingColumns (cols : list string)
| NoValidRows.

Record ValidationResult := mkValidation {
  warnings : list warning;
  errors : list error
}.

Record input_stats := mkInputStats {
  raw_rows : nat;
  rows_after_cleaning : nat;
  invalid_time_rows : nat;
  invalid_station_rows : nat;
  invalid_rr_rows : nat;
  negative_rr_rows : nat;
  duplicate_rows_removed : nat;
  input_station_count : nat;
  input_time_count : nat;
  input_time_min : option Z;
  input_time_max : option Z
}.

Section Cleaning.
(** [pd.to_datetime(x, errors="coerce")] and
    [pd.to_numeric(x, errors="coerce")] on one cell. *)
Variable to_datetime : cell → option Z.
Variable to_numeric : cell → option Q.

Definition warn_if (n : nat) (w : nat → warning) : list warning :=
  if bool_decide (0 < n)%nat then [w n] else [].

(** The three coercions, each followed by the drop of the rows it could
    not coerce ([rr] is coerced but its nulls are kept). *)
Definition coerce_time (rows : list input_row) : list (option Z * input_row) :=
  (λ r, (to_datetime (in_time r), r)) <$> rows.

Definition valid_time (timed : list (option Z * input_row)) : list (Z * input_row) :=
  omap (λ p, (λ t, (t, p.2)) <$> p.1) timed.

Definition coerce_station (timed : list (Z * input_row))
    : list (Z * option Q * input_row) :=
  (λ p, (p.1, to_numeric (in_station_id p.2), p.2)) <$> timed.

Definition valid_station (coded : list (Z * option Q * input_row))
    : list (Z * Z * input_row) :=
  omap (λ p, (λ s, (p.1.1, Py.int s, p.2)) <$> p.1.2) coded.

Definition coerce_rr (coded : list (Z * Z * input_row)) : list record :=
  (λ p, mkRecord p.1.1 p.1.2 (to_numeric (in_rr p.2))) <$> coded.

Definition coerced (rows : list input_row) : list record :=
  coerce_rr (valid_station (coerce_station (valid_time (coerce_time rows)))).

Definition validate_and_clean_input (df : input_frame)
    : list record * ValidationResult * option input_stats :=
  let missing_cols := filter (λ c, c ∉ columns df) REQUIRED_COLUMNS in
  match missing_cols with
  | _ :: _ => ([], mkValidation [] [MissingColumns missing_cols], None)
  | [] =>
      let raw_rows := length (rows df) in
      let timed := coerce_time (rows df) in
      let invalid_time := length (filter (λ p, p.1 = None) timed) in
      let w1 := warn_if invalid_time WInvalidTimestamps in
      let coded := coerce_station (valid_time timed) in
      let invalid_station := length (filter (λ p, p.1.2 = None) coded) in
      let w2 := warn_if invalid_station WInvalidStation in
      let clean := coerce_rr (valid_station coded) in
      let invalid_rr := count_null clean in
      let w3 := warn_if invalid_rr WNonNumeric in
      let negative_rr := count_negative clean in
      let w4 := warn_if negative_rr WNegative in
      let dup_mask := duplicated_last clean in
      let duplicate_rows_removed := mask_sum dup_mask in
      let w5 := warn_if duplicate_rows_removed WDuplicates in
      let clean := if bool_decide (0 < duplicate_rows_removed)%nat
                   then loc_not dup_mask clean else clean in
      let clean := stable_sort le_time_station clean in
      let stats :=
        {| raw_rows := raw_rows;
           rows_after_cleaning := length clean;
           invalid_time_rows := invalid_time;
           invalid_station_rows := invalid_station;
           invalid_rr_rows := invalid_rr;
           negative_rr_rows := negative_rr;
           duplicate_rows_removed := duplicate_rows_removed;
           input_station_count := nunique (r_station <$> clean);
           input_time_count := nunique (r_time <$> clean);
           input_time_min := list_min (r_time <$> clean);
           input_time_max := list_max (r_time <$> clean) |} in
      let errors := match clean with [] => [NoValidRows] | _ => [] end in
      (clean, mkValidation (w1 ++ w2 ++ w3 ++ w4 ++ w5) errors, Some stats)
  end.

End Cleaning.

(** [_extract_numeric_codes_from_row]: the dictionary from code to the
    last column holding it. *)
Definition _extract_numeric_codes_from_row (ws : sheet) (row_idx : nat)
    (start_col : nat) : gmap Z nat :=
  foldl (λ code_to_col col,
           match cell_number (cell_value ws row_idx col) with
           | Some value => <[Py.int value := col]> code_to_col
           | None => code_to_col
           end)
        ∅ (seq start_col (max_column ws + 1 - start_col)).

(** [[code for code, _col in sorted(items, key=lambda kv: kv[1])]]. *)
Definition le_column (a b : Z * nat) : Prop := (a.2 <= b.2)%nat.

#[global] Instance le_column_dec a b : Decision (le_column a b).
Proof. unfold le_column. apply _. Defined.

Definition order_by_column (code_to_col : gmap Z nat) : list Z :=
  (merge_sort le_column (map_to_list code_to_col)).*1.

(** [_extract_station_catalog]: code to name, a missing name reading as
    the empty string. *)
Definition cell_text (v : cell) : list N :=
  match v with
  | CStr s => s
  | _ => []
  end.

Definition _extract_station_catalog (ws : sheet) (code_col name_col start_row : nat)
    : gmap Z (list N) :=
  foldl (λ catalog row,
           match cell_number (cell_value ws row code_col) with
           | Some code =>
               <[Py.int code := cell_text (cell_value ws row name_col)]> catalog
           | None => catalog
           end)
        ∅ (seq start_row (max_row ws + 1 - start_row)).

Definition build_station_order (existing_order stations_sheet_codes input_codes : list Z)
    : list Z * list Z :=
  let to_add :=
    Py.sorted_set (filter (λ c, c ∉ existing_order)
                          (stations_sheet_codes ++ input_codes)) in
  (existing_order ++ to_add, to_add).

(** The fill value is a [float]; [None] stands for the NaN that
    [--fill-missing nan] yields, which [fillna] leaves as it is. *)
Definition dataframe_to_matrix (clean : list record)
    (target_station_order : list Z) (fill_missing : option Q)
    : matrix * matrix_stats :=
  let pivot := Pandas.reindex_columns clean target_station_order in
  let pre_fill_missing := Pandas.isna_count pivot in
  let matrix := match fill_missing with
                | Some f => Pandas.fillna f pivot
                | None => pivot
                end in
  let rr_series := Pandas.ravel matrix in
  let guard (x : option Q) :=
    if bool_decide (length rr_series ≠ 0%nat) then x else None in
  (matrix,
   {| output_rows := Pandas.shape0 matrix;
      output_station_columns := Pandas.shape1 matrix;
      pre_fill_missing_cells := pre_fill_missing;
      fill_missing_value := fill_missing;
      stat_min := guard (Series.min rr_series);
      stat_max := guard (Series.max rr_series);
      stat_mean := guard (Series.mean rr_series);
      stat_p95 := guard (Series.quantile (95 # 100) rr_series);
      stat_p99 := guard (Series.quantile (99 # 100) rr_series) |}).

(** [main], lines 369 to 412: from the template sheets and the cleaned
    frame to the station order and the matrix. *)
Definition existing_order (ws_data : sheet) : list Z :=
  order_by_column (_extract_numeric_codes_from_row ws_data 3 2).

Definition station_sheet_codes (ws_st : sheet) : list Z :=
  Py.sorted (map_to_list (_extract_station_catalog ws_st 1 2 2)).*1.

Definition input_codes (clean_df : list record) : list Z :=
  Py.sorted_set (r_station <$> clean_df).

Definition main_station_order (ws_data ws_st : sheet) (clean_df : list record)
    : list Z * list Z :=
  build_station_order (existing_order ws_data) (station_sheet_codes ws_st)
                      (input_codes clean_df).

Definition main_matrix (ws_data ws_st : sheet) (clean_df : list record)
    (fill_missing : option Q) : matrix * matrix_stats :=
  dataframe_to_matrix clean_df (main_station_order ws_data ws_st clean_df).1
                      fill_missing.

End PrecipModel.

(** ** Resampling: [groupby("station_id")["value"].resample(rule)]

    The rule is a fixed-width frequency of [w] seconds.  pandas anchors
    the grid of each group at midnight of the day of its first timestamp
    ([origin="start_day"]), labels each bucket by its left edge and emits
    every bucket between the first and the last one, the empty ones
    reducing to a null. *)

Module Resample.

Definition day : Z := 86400.

Definition origin_of (tmin : Z) : Z := (tmin / day) * day.

Definition bucket_of (w origin t : Z) : Z := origin + ((t - origin) / w) * w.

Definition buckets (w : Z) (times : list Z) : list Z :=
  match list_min times, list_max times with
  | Some tmin, Some tmax =>
      let first := bucket_of w (origin_of tmin) tmin in
      let last := bucket_of w (origin_of tmin) tmax in
      (λ k, first + Z.of_nat k * w) <$> seq 0 (Z.to_nat ((last - first) / w) + 1)
  | _, _ => []
  end.

(** The label of the bucket of a group that the time [t] falls in. *)
Definition label (w : Z) (group : list record) (t : Z) : Z :=
  match list_min (r_time <$> group) with
  | Some tmin => bucket_of w (origin_of tmin) t
  | None => t
  end.

(** The values of a group that fall in the bucket labelled [b], in row
    order. *)
Definition bucket_values (w : Z) (group : list record) (b : Z)
    : list (option Q) :=
  r_value <$> filter (λ r, label w group (r_time r) = b) group.

Definition resample_group (w : Z) (reduce : list (option Q) → option Q)
    (station : Z) (group : list record) : list record :=
  (λ b, mkRecord b station (reduce (bucket_values w group b)))
    <$> buckets w (r_time <$> group).

Definition group_of (station : Z) (df : list record) : list record :=
  filter (λ r, r_station r = station) df.

(** Groups come out in ascending key order, each with its buckets in
    ascending order ([reset_index()] of the result). *)
Definition groupby_resample (w : Z) (reduce : list (option Q) → option Q)
    (df : list record) : list record :=
  Py.sorted_set (r_station <$> df)
    ≫= λ s, resample_group w reduce s (group_of s df).

(** [groupby("station_id")["time"].diff().dropna()] in minutes, on a
    frame sorted by station. *)
Fixpoint group_diffs (prev : option record) (l : list record) : list (option Q) :=
  match l with
  | [] => []
  | r :: l' =>
      match prev with
      | Some p =>
          if bool_decide (r_station p = r_station r)
          then Some (inject_Z (r_time r - r_time p) / 60)%Q :: group_diffs (Some r) l'
          else group_diffs (Some r) l'
      | None => group_diffs (Some r) l'
      end
  end.

End Resample.

Record processing_stats := mkProcStats {
  rows_after_cleaning_and_resample : nat;
  native_step_minutes_median : option Q;
  proc_resample_rule : string;
  proc_resample_agg : string;
  proc_invalid_time_rows : nat;
  proc_invalid_value_rows : nat;
  proc_negative_value_rows : nat;
  proc_duplicate_rows_removed : nat;
  proc_time_min : option Z;
  proc_time_max : option Z;
  proc_station_count : nat;
  proc_time_count : nat
}.

(** The time and value coercions shared by the observed-data scripts:
    invalid timestamps are counted and dropped, values are coerced and
    the nulls and negatives counted. *)
Section Coercion.
Variable to_datetime : cell → option Z.
Variable to_numeric : cell → option Q.

Definition coerce_times (df : list mapped_row) : list (option Z * mapped_row) :=
  (λ r, (to_datetime (mp_time r), r)) <$> df.

Definition count_bad_time (timed : list (option Z * mapped_row)) : nat :=
  length (filter (λ p, p.1 = None) timed).

Definition coerce_values (timed : list (option Z * mapped_row)) : list record :=
  omap (λ p, (λ t, mkRecord t (station_id p.2) (to_numeric (mp_value p.2)))
               <$> p.1) timed.

End Coercion.

Definition warn_when (n : nat) (w : nat → warning) : list warning :=
  match n with
  | O => []
  | _ => [w n]
  end.

(** ** Observed precipitation: prepare_precip_observed.py *)

Module PrecipObs.

Record cleaning_stats := mkCleaningStats {
  rows_after_cleaning : nat;
  invalid_time_rows : nat;
  invalid_rr_rows : nat;
  negative_rr_rows : nat;
  duplicate_rows_removed : nat;
  time_min : option Z;
  time_max : option Z;
  station_count_detected : nat;
  time_count_detected : nat
}.

Section Cleaning.
(** [pd.to_datetime(x, errors="coerce", dayfirst=True)], and
    [pd.to_numeric] applied to [str(x).replace(",", ".")]. *)
Variable to_datetime : cell → option Z.
Variable to_numeric : cell → option Q.

Definition clean_values (df : list mapped_row) (warnings : list warning)
    : list record * cleaning_stats * list warning :=
  let timed := coerce_times to_datetime df in
  let invalid_time := count_bad_time timed in
  let w1 := warn_when invalid_time WInvalidTimestamps in
  let clean := coerce_values to_numeric timed in
  let invalid_rr := count_null clean in
  let w2 := warn_when invalid_rr WNonNumeric in
  let neg_rr := count_negative clean in
  let w3 := warn_when neg_rr WNegative in
  let dup := duplicated_last clean in
  let dup_count := mask_sum dup in
  let w4 := warn_when dup_count WDuplicates in
  let clean := match dup_count with
               | O => clean
               | _ => loc_not dup clean
               end in
  let clean := stable_sort le_time_station clean in
  (clean,
   {| rows_after_cleaning := length clean;
      invalid_time_rows := invalid_time;
      invalid_rr_rows := invalid_rr;
      negative_rr_rows := neg_rr;
      duplicate_rows_removed := dup_count;
      time_min := list_min (r_time <$> clean);
      time_max := list_max (r_time <$> clean);
      station_count_detected := nunique (r_station <$> clean);
      time_count_detected := nunique (r_time <$> clean) |},
   warnings ++ w1 ++ w2 ++ w3 ++ w4).

End Cleaning.

Definition extract_template_data_codes (ws_data : sheet) : list Z :=
  omap (λ col, Py.int <$> cell_number (cell_value ws_data 3 col))
       (data_columns ws_data).

Definition build_matrix (clean : list record) (target_codes : list Z)
    (fill_missing : option Q) : matrix * matrix_stats :=
  let matrix := Pandas.reindex_columns clean target_codes in
  let pre_fill_missing := Pandas.isna_count matrix in
  let matrix := match fill_missing with
                | Some f => Pandas.fillna f matrix
                | None => matrix
                end in
  let flat := Pandas.ravel matrix in
  let guard (x : option Q) :=
    if bool_decide (length (Series.dropna flat) ≠ 0%nat) then x else None in
  (matrix,
   {| output_rows := Pandas.shape0 matrix;
      output_station_columns := Pandas.shape1 matrix;
      pre_fill_missing_cells := pre_fill_missing;
      fill_missing_value := fill_missing;
      stat_min := guard (Series.min flat);
      stat_max := guard (Series.max flat);
      stat_mean := guard (Series.mean flat);
      stat_p95 := guard (Series.quantile (95 # 100) flat);
      stat_p99 := guard (Series.quantile (99 # 100) flat) |}).

Definition target_codes (stations_sheet_codes data_sheet_codes : list Z)
    : list Z :=
  Py.sorted_union stations_sheet_codes data_sheet_codes.

Definition main_matrix (stations_sheet_codes : list Z) (ws_data : sheet)
    (clean_df : list record) (fill_missing : option Q)
    : matrix * matrix_stats :=
  build_matrix clean_df
    (target_codes stations_sheet_codes (extract_template_data_codes ws_data))
    fill_missing.

End PrecipObs.

(** ** Observed flow: cleaning and resampling *)

Module FlowClean.

Definition agg_choices : list string :=
  ["mean"; "last"; "sum"; "max"; "min"; "median"]%string.

(** The [--agg] option of [parse_args]: [mean] by default, and argparse
    exits with status 2 on a value outside [choices]. *)
Definition parse_agg (given : option string) : result string :=
  match given with
  | None => Ok "mean"%string
  | Some a => if bool_decide (a ∈ agg_choices) then Ok a else Raise (SystemExit 2)
  end.

Section Cleaning.
Variable to_datetime : cell → option Z.
Variable to_numeric : cell → option Q.
(** [pd.Timedelta(rule)] in seconds. *)
Variable to_timedelta : string → Z.

Definition select_agg (agg : string)
    : result (list (option Q) → option Q) :=
  if bool_decide (agg = "mean"%string) then Ok Series.mean
  else if bool_decide (agg = "last"%string) then Ok Series.last
  else if bool_decide (agg = "sum"%string) then Ok Series.sum
  else if bool_decide (agg = "max"%string) then Ok Series.max
  else if bool_decide (agg = "min"%string) then Ok Series.min
  else if bool_decide (agg = "median"%string) then Ok Series.median
  else Raise (ValueError "Unsupported aggregation").

Definition clean_and_resample (df : list mapped_row) (resample_rule agg : string)
    (warnings : list warning)
    : result (list record * processing_stats * list warning) :=
  let timed := coerce_times to_datetime df in
  let bad_time := count_bad_time timed in
  let w1 := warn_when bad_time WInvalidTimestamps in
  let out := coerce_values to_numeric timed in
  let bad_val := count_null out in
  let w2 := warn_when bad_val WNonNumeric in
  let negative_count := count_negative out in
  let w3 := warn_when negative_count WNegative in
  let out := stable_sort le_station_time out in
  let d := Resample.group_diffs None out in
  let step_minutes := match d with [] => None | _ => Series.median d end in
  out ← (if bool_decide (resample_rule ≠ ""%string)
         then reduce ← select_agg agg;
              mret (Resample.groupby_resample (to_timedelta resample_rule) reduce out)
         else mret out);
  let dup := duplicated_last out in
  let dup_count := mask_sum dup in
  let w4 := warn_when dup_count WDuplicates in
  let out := match dup_count with
             | O => out
             | _ => loc_not dup out
             end in
  let out := stable_sort le_time_station out in
  mret (out,
        {| rows_after_cleaning_and_resample := length out;
           native_step_minutes_median := step_minutes;
           proc_resample_rule := resample_rule;
           proc_resample_agg := agg;
           proc_invalid_time_rows := bad_time;
           proc_invalid_value_rows := bad_val;
           proc_negative_value_rows := negative_count;
           proc_duplicate_rows_removed := dup_count;
           proc_time_min := list_min (r_time <$> out);
           proc_time_max := list_max (r_time <$> out);
           proc_station_count := nunique (r_station <$> out);
           proc_time_count := nunique (r_time <$> out) |},
        warnings ++ w1 ++ w2 ++ w3 ++ w4).

End Cleaning.
End FlowClean.

(** ** Observed volume: cleaning, resampling and matrix *)

Module Volume.

Definition agg_choices : list string :=
  ["mean"; "last"; "min"; "max"; "median"]%string.

Definition parse_agg (given : option string) : result string :=
  match given with
  | None => Ok "mean"%string
  | Some a => if bool_decide (a ∈ agg_choices) then Ok a else Raise (SystemExit 2)
  end.

Section Cleaning.
Variable to_datetime : cell → option Z.
Variable to_numeric : cell → option Q.
Variable to_timedelta : string → Z.

Definition select_agg (agg : string) : list (option Q) → option Q :=
  if bool_decide (agg = "mean"%string) then Series.mean
  else if bool_decide (agg = "last"%string) then Series.last
  else if bool_decide (agg = "min"%string) then Series.min
  else if bool_decide (agg = "max"%string) then Series.max
  else Series.median.

Definition clean_and_resample (df : list mapped_row) (rule agg : string)
    (warnings : list warning)
    : list record * processing_stats * list warning :=
  let timed := coerce_times to_datetime df in
  let bad_time := count_bad_time timed in
  let w1 := warn_when bad_time WInvalidTimestamps in
  let out := coerce_values to_numeric timed in
  let bad_val := count_null out in
  let w2 := warn_when bad_val WNonNumeric in
  let neg := count_negative out in
  let w3 := warn_when neg WNegative in
  let out := stable_sort le_station_time out in
  let steps := Resample.group_diffs None out in
  let step_median := match steps with [] => None | _ => Series.median steps end in
  let out := Resample.groupby_resample (to_timedelta rule) (select_agg agg) out in
  (out,
   {| rows_after_cleaning_and_resample := length out;
      native_step_minutes_median := step_median;
      proc_resample_rule := rule;
      proc_resample_agg := agg;
      proc_invalid_time_rows := bad_time;
      proc_invalid_value_rows := bad_val;
      proc_negative_value_rows := neg;
      proc_duplicate_rows_removed := 0;
      proc_time_min := list_min (r_time <$> out);
      proc_time_max := list_max (r_time <$> out);
      proc_station_count := nunique (r_station <$> out);
      proc_time_count := nunique (r_time <$> out) |},
   warnings ++ w1 ++ w2 ++ w3).

End Cleaning.

Definition extract_data_codes (ws_data : sheet) : list Z :=
  omap (λ c, Py.int <$> cell_number (cell_value ws_data 3 c))
       (data_columns ws_data).

Definition build_matrix (df : list record) (target_codes : list Z)
    (fill_missing : option Q) : matrix * matrix_stats :=
  let matrix := Pandas.reindex_columns df target_codes in
  let pre_fill := Pandas.isna_count matrix in
  let matrix := match fill_missing with
                | Some f => Pandas.fillna f matrix
                | None => matrix
                end in
  let valid := Series.dropna (Pandas.ravel matrix) in
  let guard (x : option Q) := if bool_decide (length valid ≠ 0%nat) then x else None in
  (matrix,
   {| output_rows := Pandas.shape0 matrix;
      output_station_columns := Pandas.shape1 matrix;
      pre_fill_missing_cells := pre_fill;
      fill_missing_value := fill_missing;
      stat_min := guard (Series.min valid);
      stat_max := guard (Series.max valid);
      stat_mean := guard (Series.mean valid);
      stat_p95 := guard (Series.quantile (95 # 100) valid);
      stat_p99 := guard (Series.quantile (99 # 100) valid) |}).

Definition target_codes (station_codes_sheet data_codes_before : list Z)
    : list Z :=
  Py.sorted_union station_codes_sheet data_codes_before.

Definition main_matrix (station_codes_sheet : list Z) (ws_data : sheet)
    (proc_df : list record) (fill_missing : option Q)
    : matrix * matrix_stats :=
  build_matrix proc_df
    (target_codes station_codes_sheet (extract_data_codes ws_data))
    fill_missing.

End Volume.

(** ** Format adapters of the flow script *)

(** A wide DataFrame: column labels and rows of cells. *)
Record wide_frame := mkWide {
  wide_columns : list (list N);
  wide_rows : list (list cell)
}.

(** [df.shape[1]] and [df.empty]. *)
Definition wide_width (df : wide_frame) : nat := length (wide_columns df).

Definition wide_empty (df : wide_frame) : bool :=
  bool_decide (wide_columns df = [] ∨ wide_rows df = []).

(** [raw.melt(id_vars=[first column], var_name="source_col",
    value_name="value")] with the first column renamed to [time]: the
    value columns one after the other, each over all rows. *)
Definition melt (df : wide_frame) : list raw_row :=
  imap (λ j label, (j, label)) (drop 1 (wide_columns df))
    ≫= λ p, (λ row, mkRaw (nth 0 row CNone) p.2 (nth (S p.1) row CNone))
              <$> wide_rows df.

Module FlowAdapter.

(** [parse_html_xls].  The regular-expression scan belongs to [re]: the
    argument holds, for each [<tr>] element of the file, its cell texts
    after tags are stripped, entities unescaped and blanks trimmed. *)
Definition parse_html_xls (table_rows : list (list (list N)))
    : result wide_frame :=
  let rows := filter (λ cleaned, cleaned ≠ []) table_rows in
  if bool_decide (length rows < 2)%nat
  then Raise (ValueError "Could not parse HTML table from .xls input.")
  else
    match rows with
    | header :: data =>
        let width := length header in
        let data := filter (λ r, length r = width) data in
        Ok (mkWide header ((λ r : list (list N), CStr <$> r) <$> data))
    | [] => Raise IndexError
    end.

(** [first_line.count(ch)]. *)
Definition count_char (ch : N) (s : list N) : nat :=
  length (filter (λ c, c = ch) s).

Section Csv.
(** [pd.read_csv(path, sep=sep, dtype=str)] on the lines of the file. *)
Variable read_csv : list (list N) → N → wide_frame.

Definition parse_csv (lines : list (list N)) : result (list raw_row) :=
  match lines with
  | [] => Raise IndexError
  | first_line :: _ =>
      let sep := if bool_decide (count_char 44 first_line ≤ count_char 59 first_line)%nat
                 then 59%N else 44%N in
      let raw := read_csv lines sep in
      if bool_decide (wide_width raw < 2)%nat
      then Raise (ValueError "CSV needs one time column + station columns.")
      else Ok (melt raw)
  end.

End Csv.
End FlowAdapter.

(** ** Files, logs and the disk *)

Abbreviation workbook := (list (list N * sheet)).

Definition sheetnames (wb : workbook) : list (list N) := wb.*1.

Definition get_sheet (wb : workbook) (name : list N) : option sheet :=
  (λ p, p.2.2) <$> list_find (λ p, p.1 = name) wb.

(** The name of the data sheet, [Données]. *)
Definition Donnees : list N := u "Donn" ++ e_acute :: u "es".

Inductive level := INFO | WARNING | ERROR.

Inductive log_message :=
| MsgText (text : string)
| MsgWarning (w : warning).

Record report := mkReport {
  report_run_id : string;
  report_stats : list matrix_stats;
  report_warnings : list warning;
  report_strict_mode : option bool
}.

Inductive file :=
| FInput
| FWorkbook (wb : workbook)
| FReportJson (r : report)
| FReportTxt (r : report)
| FLog (lines : list (level * log_message)).

(** [outdir / name]. *)
Definition path_join (outdir name : string) : string :=
  (outdir ++ "/" ++ name)%string.

(** A record appended to the log file by the file handler. *)
Definition log_to (log_path : string) (lv : level) (msg : log_message)
    (fs : gmap string file) : gmap string file :=
  alter (λ f, match f with
              | FLog lines => FLog (lines ++ [(lv, msg)])
              | other => other
              end) log_path fs.

Definition log_text (log_path : string) (lv : level) (text : string)
    (fs : gmap string file) : gmap string file :=
  log_to log_path lv (MsgText text) fs.

(** [logging.FileHandler(path)] opens the log file in append mode. *)
Definition setup_logger (log_path : string) (fs : gmap string file)
    : gmap string file :=
  match fs !! log_path with
  | Some _ => fs
  | None => <[log_path := FLog []]> fs
  end.

(** [openpyxl.load_workbook(path)]. *)
Definition load_workbook (fs : gmap string file) (path : string)
    : option workbook :=
  match fs !! path with
  | Some (FWorkbook wb) => Some wb
  | _ => None
  end.

(** What the stages between the template checks and [wb.save] deliver:
    an early [return 1] with its log line, or the filled workbook with
    the statistics and the warnings accumulated so far. *)
Inductive stage_outcome :=
| Stopped (reason : string)
| Produced (wb : workbook) (stats : list matrix_stats) (warnings : list warning).

Record args := mkArgs {
  arg_input : string;
  arg_template : string;
  arg_outdir : string;
  arg_sheet_data : list N;
  arg_sheet_stations : list N;
  arg_model : string;
  arg_strict : bool
}.

Definition with_strict (b : bool) (a : args) : args :=
  mkArgs (arg_input a) (arg_template a) (arg_outdir a) (arg_sheet_data a)
         (arg_sheet_stations a) (arg_model a) b.

(** The state of a run when it reaches the strict-mode test: either it
    has already returned a status, or it carries its warnings. *)
Inductive progress :=
| Returned (status : Z)
| Reached (warnings : list warning) (stats : list matrix_stats).

Definition nonempty {A} (l : list A) : bool :=
  match l with
  | [] => false
  | _ => true
  end.

Definition log_warnings (log_path : string) (lv : level) (ws : list warning)
    (fs : gmap string file) : gmap string file :=
  foldl (λ fs w, log_to log_path lv (MsgWarning w) fs) fs ws.

(** ** The [main] functions

    Each [main] is split at its strict-mode test: [produce] runs the
    script up to that test and [main] finishes it.  The stages between
    the template checks and [wb.save] are a parameter; an exception they
    raise is not caught by the script, so the interpreter exits with
    status 1.  The functions below take the parsed arguments and start
    at the existence tests (at the opening of the log in the
    precipitation-model script); what [main] does before, [parse_args()],
    the fill value and the output directory, is in the module [Script]
    further down. *)

Module FlowMain.
Section FlowMain.
Variable stages : workbook → result stage_outcome.

Definition base (run_id : string) : string := ("flow_observed_" ++ run_id)%string.

Definition out_xlsx (a : args) (run_id : string) : string :=
  path_join (arg_outdir a)
    ("template_multi_station_flow_m3s_observed_" ++ run_id ++ ".xlsx").
Definition out_json (a : args) (run_id : string) : string :=
  path_join (arg_outdir a) (base run_id ++ "_report.json").
Definition out_txt (a : args) (run_id : string) : string :=
  path_join (arg_outdir a) (base run_id ++ "_report.txt").
Definition log_path (a : args) (run_id : string) : string :=
  path_join (arg_outdir a) (base run_id ++ ".log").

Definition produce (a : args) (run_id : string) (fs : gmap string file)
    : progress * gmap string file :=
  let log := log_path a run_id in
  if bool_decide (fs !! arg_input a = None) then (Returned 2, fs)
  else if bool_decide (fs !! arg_template a = None) then (Returned 2, fs)
  else
    let fs := setup_logger log fs in
    let fs := log_text log INFO "Loading template" fs in
    match load_workbook fs (arg_template a) with
    | None => (Returned 1, fs)
    | Some wb =>
        if bool_decide (arg_sheet_data a ∉ sheetnames wb)
        then (Returned 1, log_text log ERROR "Template data sheet not found" fs)
        else if bool_decide (arg_sheet_stations a ∉ sheetnames wb)
        then (Returned 1, log_text log ERROR "Template stations sheet not found" fs)
        else
          let fs := log_text log INFO "Reading input" fs in
          match stages wb with
          | Raise _ => (Returned 1, fs)
          | Ok (Stopped reason) => (Returned 1, log_text log ERROR reason fs)
          | Ok (Produced wb' stats warnings) =>
              let fs := <[out_xlsx a run_id := FWorkbook wb']> fs in
              let fs := log_text log INFO "Output workbook written" fs in
              let fs := log_warnings log WARNING warnings fs in
              let report := mkReport run_id stats warnings (Some (arg_strict a)) in
              let fs := <[out_json a run_id := FReportJson report]> fs in
              let fs := <[out_txt a run_id := FReportTxt report]> fs in
              let fs := log_text log INFO "Report JSON written" fs in
              let fs := log_text log INFO "Report TXT written" fs in
              (Reached warnings stats, fs)
          end
    end.

Definition main (a : args) (run_id : string) (fs : gmap string file)
    : Z * gmap string file :=
  let log := log_path a run_id in
  match produce a run_id fs with
  | (Returned status, fs) => (status, fs)
  | (Reached warnings stats, fs) =>
      if arg_strict a && nonempty warnings
      then (1, log_text log ERROR "Strict mode enabled and warnings were detected." fs)
      else (0, log_text log INFO "Done." fs)
  end.

End FlowMain.
End FlowMain.

Module PrecipObsMain.
Section PrecipObsMain.
Variable stages : workbook → result stage_outcome.

Definition base (run_id : string) : string := ("precip_observed_" ++ run_id)%string.

Definition log_path (a : args) (run_id : string) : string :=
  path_join (arg_outdir a) (base run_id ++ ".log").
Definition out_xlsx (a : args) (run_id : string) : string :=
  path_join (arg_outdir a)
    ("template_multi_station_precip_mm_observed_" ++ run_id ++ ".xlsx").
Definition out_json (a : args) (run_id : string) : string :=
  path_join (arg_outdir a) (base run_id ++ "_report.json").
Definition out_txt (a : args) (run_id : string) : string :=
  path_join (arg_outdir a) (base run_id ++ "_report.txt").

Definition produce (a : args) (run_id : string) (fs : gmap string file)
    : progress * gmap string file :=
  let log := log_path a run_id in
  if bool_decide (fs !! arg_input a = None) then (Returned 2, fs)
  else if bool_decide (fs !! arg_template a = None) then (Returned 2, fs)
  else
    let fs := setup_logger log fs in
    let fs := log_text log INFO "Loading template" fs in
    match load_workbook fs (arg_template a) with
    | None => (Returned 1, fs)
    | Some wb_tpl =>
        if bool_decide (arg_sheet_data a ∉ sheetnames wb_tpl)
        then (Returned 1, log_text log ERROR "Template data sheet not found" fs)
        else if bool_decide (arg_sheet_stations a ∉ sheetnames wb_tpl)
        then (Returned 1, log_text log ERROR "Template stations sheet not found" fs)
        else
          let fs := log_text log INFO "Reading input DataTable" fs in
          match stages wb_tpl with
          | Raise _ => (Returned 1, fs)
          | Ok (Stopped reason) => (Returned 1, log_text log ERROR reason fs)
          | Ok (Produced wb' stats warnings) =>
              let fs := <[out_xlsx a run_id := FWorkbook wb']> fs in
              let fs := log_text log INFO "Output workbook written" fs in
              let fs := log_warnings log WARNING warnings fs in
              let report := mkReport run_id stats warnings (Some (arg_strict a)) in
              let fs := <[out_json a run_id := FReportJson report]> fs in
              let fs := <[out_txt a run_id := FReportTxt report]> fs in
              let fs := log_text log INFO "Report JSON written" fs in
              let fs := log_text log INFO "Report TXT written" fs in
              (Reached warnings stats, fs)
          end
    end.

Definition main (a : args) (run_id : string) (fs : gmap string file)
    : Z * gmap string file :=
  let log := log_path a run_id in
  match produce a run_id fs with
  | (Returned status, fs) => (status, fs)
  | (Reached warnings stats, fs) =>
      if arg_strict a && nonempty warnings
      then (1, log_text log ERROR "Strict mode enabled and warnings were detected." fs)
      else (0, log_text log INFO "Done." fs)
  end.

End PrecipObsMain.
End PrecipObsMain.

Module VolumeMain.
Section VolumeMain.
Variable stages : workbook → result stage_outcome.

Definition base (run_id : string) : string := ("volume_observed_" ++ run_id)%string.

Definition out_xlsx (a : args) (run_id : string) : string :=
  path_join (arg_outdir a)
    ("template_multi_station_volume_hm3_observed_" ++ run_id ++ ".xlsx").
Definition out_json (a : args) (run_id : string) : string :=
  path_join (arg_outdir a) (base run_id ++ "_report.json").
Definition out_txt (a : args) (run_id : string) : string :=
  path_join (arg_outdir a) (base run_id ++ "_report.txt").
Definition log_path (a : args) (run_id : string) : string :=
  path_join (arg_outdir a) (base run_id ++ ".log").

Definition produce (a : args) (run_id : string) (fs : gmap string file)
    : progress * gmap string file :=
  let log := log_path a run_id in
  if bool_decide (fs !! arg_input a = None) then (Returned 2, fs)
  else if bool_decide (fs !! arg_template a = None) then (Returned 2, fs)
  else
    let fs := setup_logger log fs in
    let fs := log_text log INFO "Loading template" fs in
    match load_workbook fs (arg_template a) with
    | None => (Returned 1, fs)
    | Some wb =>
        if bool_decide (arg_sheet_data a ∉ sheetnames wb
                        ∨ arg_sheet_stations a ∉ sheetnames wb)
        then (Returned 1, log_text log ERROR "Template sheets missing" fs)
        else
          let fs := log_text log INFO "Reading input" fs in
          match stages wb with
          | Raise _ => (Returned 1, fs)
          | Ok (Stopped reason) => (Returned 1, log_text log ERROR reason fs)
          | Ok (Produced wb' stats warnings) =>
              let fs := <[out_xlsx a run_id := FWorkbook wb']> fs in
              let fs := log_text log INFO "Output workbook written" fs in
              let fs := log_warnings log WARNING warnings fs in
              let report := mkReport run_id stats warnings (Some (arg_strict a)) in
              let fs := <[out_json a run_id := FReportJson report]> fs in
              let fs := <[out_txt a run_id := FReportTxt report]> fs in
              let fs := log_text log INFO "Report JSON written" fs in
              let fs := log_text log INFO "Report TXT written" fs in
              (Reached warnings stats, fs)
          end
    end.

Definition main (a : args) (run_id : string) (fs : gmap string file)
    : Z * gmap string file :=
  let log := log_path a run_id in
  match produce a run_id fs with
  | (Returned status, fs) => (status, fs)
  | (Reached warnings stats, fs) =>
      if arg_strict a && nonempty warnings
      then (1, log_text log ERROR "Strict mode enabled and warnings detected" fs)
      else (0, log_text log INFO "Done." fs)
  end.

End VolumeMain.
End VolumeMain.

Module PrecipModelMain.
Section PrecipModelMain.
(** The outcome of [read_input_csv] and [validate_and_clean_input]: the
    validation errors, or an exception of the CSV reader. *)
Variable validation : result (list PrecipModel.error).
Variable stages : workbook → result stage_outcome.

(** [arg_model] holds the model label in lower case, as the file names
    use it. *)
Definition base_stem (a : args) (run_id : string) : string :=
  ("precip_" ++ arg_model a ++ "_" ++ run_id)%string.

Definition output_xlsx (a : args) (run_id : string) : string :=
  path_join (arg_outdir a)
    ("template_multi_station_precip_mm_" ++ arg_model a ++ "_" ++ run_id ++ ".xlsx").
Definition report_json (a : args) (run_id : string) : string :=
  path_join (arg_outdir a) (base_stem a run_id ++ "_report.json").
Definition report_txt (a : args) (run_id : string) : string :=
  path_join (arg_outdir a) (base_stem a run_id ++ "_report.txt").
Definition log_path (a : args) (run_id : string) : string :=
  path_join (arg_outdir a) (base_stem a run_id ++ ".log").

(** Up to [wb.save(output_xlsx)]: the strict-mode test comes right after
    it, before the warnings are logged and the report is written. *)
Definition produce (a : args) (run_id : string) (fs : gmap string file)
    : progress * gmap string file :=
  let log := log_path a run_id in
  let fs := setup_logger log fs in
  if bool_decide (fs !! arg_input a = None)
  then (Returned 2, log_text log ERROR "Input file not found" fs)
  else if bool_decide (fs !! arg_template a = None)
  then (Returned 2, log_text log ERROR "Template file not found" fs)
  else
    let fs := log_text log INFO "Reading input CSV" fs in
    match validation with
    | Raise _ => (Returned 1, fs)
    | Ok (e :: errors) =>
        (Returned 1,
         foldl (λ fs _, log_text log ERROR "validation error" fs) fs (e :: errors))
    | Ok [] =>
        let fs := log_text log INFO "Loading template workbook" fs in
        match load_workbook fs (arg_template a) with
        | None => (Returned 1, fs)
        | Some wb =>
            if bool_decide (arg_sheet_data a ∉ sheetnames wb)
            then (Returned 1, log_text log ERROR "Data sheet not found" fs)
            else if bool_decide (arg_sheet_stations a ∉ sheetnames wb)
            then (Returned 1, log_text log ERROR "Station sheet not found" fs)
            else
              match stages wb with
              | Raise _ => (Returned 1, fs)
              | Ok (Stopped reason) => (Returned 1, log_text log ERROR reason fs)
              | Ok (Produced wb' stats warnings) =>
                  let fs := <[output_xlsx a run_id := FWorkbook wb']> fs in
                  let fs := log_text log INFO "Output workbook written" fs in
                  (Reached warnings stats, fs)
              end
        end
    end.

(** The report written by a run that passes the strict-mode test; it
    has no [strict_mode] entry. *)
Definition write_reports (a : args) (run_id : string) (warnings : list warning)
    (stats : list matrix_stats) (fs : gmap string file) : gmap string file :=
  let report := mkReport run_id stats warnings None in
  let fs := <[report_json a run_id := FReportJson report]> fs in
  <[report_txt a run_id := FReportTxt report]> fs.

Definition main (a : args) (run_id : string) (fs : gmap string file)
    : Z * gmap string file :=
  let log := log_path a run_id in
  match produce a run_id fs with
  | (Returned status, fs') => (status, fs')
  | (Reached warnings stats, fs') =>
      if arg_strict a && nonempty warnings
      then
        let fs' := log_text log ERROR "Strict mode enabled and warnings were detected." fs' in
        (1, log_warnings log ERROR warnings fs')
      else
        let fs' := log_warnings log WARNING warnings fs' in
        let fs' := write_reports a run_id warnings stats fs' in
        let fs' := log_text log INFO "Report JSON written" fs' in
        let fs' := log_text log INFO "Report TXT written" fs' in
        (0, log_text log INFO "Done." fs')
  end.

End PrecipModelMain.
End PrecipModelMain.

(** ** Batch consolidation: [HydroSentinelUI._consolidate_outputs] *)

Module Consolidate.

Section Consolidate.
(** [pd.to_datetime(tval, errors="coerce")] on a cell, and Python's
    [float] on a string ([None] when it raises [ValueError]). *)
Variable to_datetime : cell → option Z.
Variable float_of_str : list N → option Q.

(** The numeric codes of the header row, in column order. *)
Definition header_codes (ws : sheet) : list Z :=
  omap (λ c, Py.int <$> cell_number (cell_value ws 3 c)) (data_columns ws).

Definition header_columns (ws : sheet) : gmap Z nat :=
  foldl (λ code_to_col c,
           match cell_number (cell_value ws 3 c) with
           | Some v => <[Py.int v := c]> code_to_col
           | None => code_to_col
           end) ∅ (data_columns ws).

(** [float(val)]. *)
Definition to_float (val : cell) : result Q :=
  match val with
  | CNum q => Ok q
  | CBool b => Ok (if b then 1%Q else 0%Q)
  | CStr s => match float_of_str s with
              | Some q => Ok q
              | None => Raise (ValueError "could not convert string to float")
              end
  | CNone => Raise (ValueError "float() argument")
  end.

Record accumulator := mkAcc {
  values_by_ts_code : gmap (Z * Z) Q;
  all_ts : gset Z
}.

(** The loop over [ordered_codes] for one data row. *)
Definition merge_cells (ws : sheet) (code_to_col : gmap Z nat) (r : nat) (ts : Z)
    (ordered_codes : list Z) (values : gmap (Z * Z) Q)
    : result (gmap (Z * Z) Q) :=
  foldl (λ acc code,
           values ← acc;
           match code_to_col !! code with
           | None => Ok values
           | Some col =>
               match cell_value ws r col with
               | CNone => Ok values
               | val => v ← to_float val; Ok (<[(ts, code) := v]> values)
               end
           end) (Ok values) ordered_codes.

(** The loop over the data rows [4 .. max_row] of one workbook. *)
Definition merge_row (ws : sheet) (code_to_col : gmap Z nat)
    (ordered_codes : list Z) (acc : result accumulator) (r : nat)
    : result accumulator :=
  a ← acc;
  match cell_value ws r 1 with
  | CNone => Ok a
  | CStr [] => Ok a
  | tval =>
      match to_datetime tval with
      | None => Ok a
      | Some ts =>
          values ← merge_cells ws code_to_col r ts ordered_codes (values_by_ts_code a);
          Ok (mkAcc values ({[ts]} ∪ all_ts a))
      end
  end.

Definition merge_file (ordered_codes : list Z) (acc : result accumulator)
    (wb : workbook) : result accumulator :=
  a ← acc;
  match get_sheet wb Donnees with
  | None => Ok a
  | Some ws =>
      foldl (merge_row ws (header_columns ws) ordered_codes) (Ok a)
            (seq 4 (max_row ws - 3))
  end.

(** The merged content: header codes, sorted timestamps and one row of
    cells per timestamp, as written from row 4 of the template sheet. *)
Definition _consolidate_outputs (wb_tpl : workbook) (generated_files : list workbook)
    : result matrix :=
  match get_sheet wb_tpl Donnees with
  | None => Raise (KeyError Donnees)
  | Some ws_tpl =>
      let ordered_codes := header_codes ws_tpl in
      a ← foldl (merge_file ordered_codes) (Ok (mkAcc ∅ ∅)) generated_files;
      let sorted_ts := Py.sorted (elements (all_ts a)) in
      Ok {| m_index := sorted_ts;
            m_columns := ordered_codes;
            m_data := (λ ts, (λ code, values_by_ts_code a !! (ts, code))
                               <$> ordered_codes) <$> sorted_ts |}
  end.

(** The end of [_run_worker]: consolidation is attempted when requested
    and at least one job produced an output; the only lines logged about
    it are the success line or the error line. *)
Inductive worker_log :=
| LogConsolidated
| LogConsolidationError (e : exn).

Definition run_worker_tail (consolidate : bool) (ok ko : nat)
    (template : option workbook) (generated_xlsx : list workbook)
    : option matrix * nat * list worker_log :=
  match template with
  | Some wb_tpl =>
      if consolidate && bool_decide (0 < ok)%nat && nonempty generated_xlsx
      then match _consolidate_outputs wb_tpl generated_xlsx with
           | Ok m => (Some m, ko, [LogConsolidated])
           | Raise e => (None, S ko, [LogConsolidationError e])
           end
      else (None, ko, [])
  | None => (None, ko, [])
  end.

End Consolidate.
End Consolidate.

(** ** A character database for Basic Latin and Latin-1

    The entries of the Unicode database for the code points below
    U+0100 and for the combining diacritical marks U+0300..U+036F; code
    points outside these blocks are left alone. *)

Module Latin1.

Definition lower_char (c : N) : list N :=
  if ((65 <=? c) && (c <=? 90))%N then [(c + 32)%N]
  else if ((192 <=? c) && (c <=? 222) && negb (c =? 215))%N then [(c + 32)%N]
  else [c].

(** The decompositions of the accented capital letters. *)
Definition decompose_upper (c : N) : option (N * N) :=
  match c with
  | 192 => Some (65, 768) | 193 => Some (65, 769) | 194 => Some (65, 770)
  | 195 => Some (65, 771) | 196 => Some (65, 776) | 197 => Some (65, 778)
  | 199 => Some (67, 807)
  | 200 => Some (69, 768) | 201 => Some (69, 769) | 202 => Some (69, 770)
  | 203 => Some (69, 776)
  | 204 => Some (73, 768) | 205 => Some (73, 769) | 206 => Some (73, 770)
  | 207 => Some (73, 776)
  | 209 => Some (78, 771)
  | 210 => Some (79, 768) | 211 => Some (79, 769) | 212 => Some (79, 770)
  | 213 => Some (79, 771) | 214 => Some (79, 776)
  | 217 => Some (85, 768) | 218 => Some (85, 769) | 219 => Some (85, 770)
  | 220 => Some (85, 776) | 221 => Some (89, 769)
  | _ => None
  end%N.

Definition nfkd_char (c : N) : list N :=
  match decompose_upper c with
  | Some (base, mark) => [base; mark]
  | None =>
      match decompose_upper (c - 32) with
      | Some (base, mark) =>
          if (224 <=? c)%N then [(base + 32)%N; mark] else [c]
      | None =>
          match c with
          | 160 => [32]
          | 168 => [32; 776]
          | 170 => [97]
          | 175 => [32; 772]
          | 178 => [50]
          | 179 => [51]
          | 180 => [32; 769]
          | 181 => [956]
          | 184 => [32; 807]
          | 185 => [49]
          | 186 => [111]
          | 188 => [49; 8260; 52]
          | 189 => [49; 8260; 50]
          | 190 => [51; 8260; 52]
          | 255 => [121; 776]
          | _ => [c]
          end%N
      end
  end.

Definition combining (c : N) : bool := ((768 <=? c) && (c <=? 879))%N.

Definition is_space (c : N) : bool :=
  ((9 <=? c) && (c <=? 13) || (28 <=? c) && (c <=? 32)
   || (c =? 133) || (c =? 160))%N.

End Latin1.

#[global] Instance latin1_db : UnicodeDB := {|
  lower_char := Latin1.lower_char;
  nfkd_char := Latin1.nfkd_char;
  combining := Latin1.combining;
  is_space := Latin1.is_space
|}.

(** ** difflib's [SequenceMatcher] without junk

    The matcher of the Python library for sequences of fewer than 200
    elements, where its automatic junk heuristic is off. *)

Module PyDifflib.

(** One row of the table of [find_longest_match]: entry [j] is the
    length of the longest common run ending at [x] and [b[j]]. *)
Definition next_row (x : N) (b : list N) (prev : list nat) : list nat :=
  zip_with (λ bj p, if (x =? bj)%N then S p else O) b (O :: prev).

(** Scanning a row from the left, a strictly longer run replaces the
    best block [(besti, bestj, bestsize)]. *)
Definition scan_row (i : nat) (row : list nat) (best : nat * nat * nat)
    : nat * nat * nat :=
  foldl (λ best p,
           let '(j, k) := p in
           if (best.2 <? k)%nat then (i + 1 - k, j + 1 - k, k)%nat else best)
        best (imap (λ j k, (j, k)) row).

Fixpoint longest_from (i : nat) (a b : list N) (prev : list nat)
    (best : nat * nat * nat) : nat * nat * nat :=
  match a with
  | [] => best
  | x :: a' =>
      let row := next_row x b prev in
      longest_from (S i) a' b row (scan_row i row best)
  end.

Definition find_longest_match (a b : list N) : nat * nat * nat :=
  longest_from 0 a b (replicate (length b) O) (0, 0, 0)%nat.

(** The total size of the matching blocks: the longest block, then the
    pieces on its left and on its right. *)
Fixpoint matches (fuel : nat) (a b : list N) : nat :=
  match fuel with
  | O => O
  | S fuel' =>
      let '(i, j, k) := find_longest_match a b in
      match k with
      | O => O
      | _ =>
          (k + matches fuel' (take i a) (take j b)
             + matches fuel' (drop (i + k) a) (drop (j + k) b))%nat
      end
  end.

Definition calculate_ratio (m length : nat) : Q :=
  match length with
  | O => 1
  | _ => (2 * Z.of_nat m) # Pos.of_nat length
  end.

Definition ratio (a b : list N) : Q :=
  calculate_ratio (matches (S (length a)) a b) (length a + length b).

(** [quick_ratio]: the size of the multiset intersection. *)
Fixpoint remove_one (x : N) (l : list N) : option (list N) :=
  match l with
  | [] => None
  | y :: l' => if (x =? y)%N then Some l'
               else cons y <$> remove_one x l'
  end.

Fixpoint common (a avail : list N) : nat :=
  match a with
  | [] => O
  | x :: a' =>
      match remove_one x avail with
      | Some avail' => S (common a' avail')
      | None => common a' avail
      end
  end.

Definition quick_ratio (a b : list N) : Q :=
  calculate_ratio (common a b) (length a + length b).

Definition real_quick_ratio (a b : list N) : Q :=
  calculate_ratio (Nat.min (length a) (length b)) (length a + length b).

End PyDifflib.

#[global] Instance py_difflib : SequenceMatcher := {|
  real_quick_ratio := PyDifflib.real_quick_ratio;
  quick_ratio := PyDifflib.quick_ratio;
  ratio := PyDifflib.ratio
|}.

(** ** Vocabulary of the statements *)

(** [cols] is the ascending, duplicate-free union of [a] and [b]. *)
Definition ascending_union (cols a b : list Z) : Prop :=
  cols = Py.sorted_union a b
  ∧ StronglySorted Z.lt cols
  ∧ ∀ c, c ∈ cols ↔ c ∈ a ∨ c ∈ b.

(** The numeric codes of the header row of a data sheet, in the order of
    their columns, a code that the row repeats being listed each time. *)
Definition header_row_codes (ws_data : sheet) : list Z :=
  omap (λ c, Py.int <$> cell_number (cell_value ws_data 3 c)) (data_columns ws_data).

(** The five recorded statistics, and the same reductions of a Series. *)
Definition recorded (st : matrix_stats) : list (option Q) :=
  [stat_min st; stat_max st; stat_mean st; stat_p95 st; stat_p99 st].

Definition summary (s : list (option Q)) : list (option Q) :=
  [Series.min s; Series.max s; Series.mean s;
   Series.quantile (95 # 100) s; Series.quantile (99 # 100) s].

(** The matrix a builder returns for a fill policy. *)
Definition filled (fill_missing : option Q) (m : matrix) : matrix :=
  match fill_missing with
  | Some f => Pandas.fillna f m
  | None => m
  end.

(** The matrix builders of the four scripts. *)
Definition builders : list (list record → list Z → option Q → matrix * matrix_stats) :=
  [Flow.build_matrix; Volume.build_matrix; PrecipObs.build_matrix;
   PrecipModel.dataframe_to_matrix].

(** The last record of a stream that carries the key [k], if any. *)
Definition last_occurrence (k : Z * Z) (l : list record) : option record :=
  last (filter (λ r, key_of r = k) l).

(** The records of a stream that carry the key [k]. *)
Definition with_key (k : Z * Z) (l : list record) : list record :=
  filter (λ r, key_of r = k) l.

(** Cell parsers used in the worked examples: a numeric cell is its own
    value, and its integer part as a timestamp. *)
Definition numeric_cell (c : cell) : option Q := cell_number c.

Definition timestamp_cell (c : cell) : option Z := Py.int <$> cell_number c.

(** The six aggregations of the specification, and an hourly rule. *)
Definition six_aggregations : list string :=
  ["mean"; "last"; "sum"; "min"; "max"; "median"]%string.

Definition hourly (rule : string) : Z := 3600.

(** The stream that the resampling of both scripts starts from. *)
Definition sorted_input (to_datetime : cell → option Z)
    (to_numeric : cell → option Q) (df : list mapped_row) : list record :=
  stable_sort le_station_time
    (coerce_values to_numeric (coerce_times to_datetime df)).

(** [out] is the per-(station, bucket) reduction of [input] by [reduce]
    on the grid of width [w]: every row of [out] carries the reduction of
    the values of its station that fall in its bucket, and every record of
    [input] falls in the bucket of one row of [out]. *)
Definition reduces_buckets (w : Z) (reduce : list (option Q) → option Q)
    (input out : list record) : Prop :=
  (∀ r, r ∈ out →
     r_station r ∈ r_station <$> input
     ∧ r_value r
       = reduce (Resample.bucket_values w
                   (Resample.group_of (r_station r) input) (r_time r)))
  ∧ (0 < w →
     ∀ x, x ∈ input →
       ∃ r, r ∈ out
         ∧ r_station r = r_station x
         ∧ r_time r
           = Resample.label w (Resample.group_of (r_station x) input) (r_time x)).

(** Three observations of station 1 within the hour that starts at
    3600 s, with the values 1, 2 and 3. *)
Definition one_bucket : list mapped_row :=
  [mkMapped (CNum 3600) (u "A") (CNum 1) 1;
   mkMapped (CNum 3700) (u "A") (CNum 2) 1;
   mkMapped (CNum 3800) (u "A") (CNum 3) 1].

(** The frame has the single row [(t, s, v)] with [v] equal to [q]. *)
Definition single_row (out : list record) (t s : Z) (q : Q) : Prop :=
  ∃ v, out = [mkRecord t s (Some v)] ∧ (v == q)%Q.

(** How a source column label was resolved, with the code, the station
    name and the alias key of a fuzzy resolution. *)
Inductive resolution :=
| ResolvedExact (code : Z)
| ResolvedFuzzy (code : Z) (name b : list N)
| Unresolved.

Definition record_resolution (st : resolver_state) (col : list N)
    (res : resolution) : resolver_state :=
  match res with
  | ResolvedExact code => record_exact st col code
  | ResolvedFuzzy code name b => record_fuzzy st col code name b
  | Unresolved => record_unmapped st col
  end.

Definition resolution_code (res : resolution) : option Z :=
  match res with
  | ResolvedExact code | ResolvedFuzzy code _ _ => Some code
  | Unresolved => None
  end.

(** The rows of a label in the input and in the mapped frame. *)
Definition rows_of (col : list N) (df : list raw_row) : list raw_row :=
  filter (λ r, source_col r = col) df.

Definition mapped_rows_of (col : list N) (out : list mapped_row) : list mapped_row :=
  filter (λ r, mp_source_col r = col) out.

(** Every row of the label is kept and carries the code. *)
Definition kept_with (col : list N) (code : Z) (df : list raw_row)
    (out : list mapped_row) : Prop :=
  mapped_rows_of col out
  = (λ r, mkMapped (raw_time r) col (raw_value r) code) <$> rows_of col df.

(** Every row of the label is dropped. *)
Definition dropped (col : list N) (out : list mapped_row) : Prop :=
  mapped_rows_of col out = [].

(** The warning list reports the fuzzy resolution, or the unmapped
    label. *)
Definition warns_fuzzy (ws : list warning) (col : list N) (code : Z)
    (b : list N) : Prop :=
  ∃ details name, WFuzzyMapping details ∈ ws ∧ (col, code, name, b) ∈ details.

Definition warns_unmapped (ws : list warning) (col : list N) : Prop :=
  ∃ cols, WUnmapped cols ∈ ws ∧ col ∈ cols.

(** The order of Python on [(score, x)] pairs, as a proposition. *)
Definition pair_lt (a b : Q * list N) : Prop :=
  (a.1 < b.1)%Q ∨ ((a.1 == b.1)%Q ∧ Str.ltb a.2 b.2 = true).

Definition fuzzy_detail (col : list N) (res : resolution)
    : option (list N * Z * list N * list N) :=
  match res with
  | ResolvedFuzzy code name b => Some (col, code, name, b)
  | _ => None
  end.

Section ResolutionOf.
Context `{UnicodeDB} `{SequenceMatcher}.

(** The outcome of the flow loop body for one label. *)
Definition flow_resolution (alias_to_code : gmap (list N) Z)
    (code_to_name : gmap Z (list N)) (col : list N) : resolution :=
  let norm := FlowText.normalize_text (Some col) in
  match alias_to_code !! norm with
  | Some code => ResolvedExact code
  | None =>
      match Difflib.get_close_matches norm (map_to_list alias_to_code).*1
              FlowResolver.cutoff with
      | b :: _ =>
          match alias_to_code !! b with
          | Some code => ResolvedFuzzy code (default [] (code_to_name !! code)) b
          | None => Unresolved
          end
      | [] => Unresolved
      end
  end.

(** The outcome of the volume loop body for one label. *)
Definition volume_resolution (alias_to_code : gmap (list N) Z)
    (code_to_name : gmap Z (list N)) (c : list N) : resolution :=
  let n := VolumeText.normalize_text (Some c) in
  match alias_to_code !! n with
  | Some code => ResolvedExact code
  | None =>
      match Difflib.get_close_matches n (map_to_list alias_to_code).*1
              VolumeResolver.cutoff with
      | b :: _ =>
          match alias_to_code !! b with
          | Some code => ResolvedFuzzy code (default [] (code_to_name !! code)) b
          | None => Unresolved
          end
      | [] => Unresolved
      end
  end.

(** What the specification says of one source column label [col] with
    normal form [norm]: an exact alias decides alone; without one, the
    label takes the code of an alias key that reaches the cutoff and that
    no other key passing the cutoff tests exceeds, or it is unmapped and
    its rows are dropped, which is the case whenever no key reaches the
    cutoff. *)
Definition resolves_label (norm : list N) (cutoff : Q)
    (alias_to_code : gmap (list N) Z) (df : list raw_row)
    (out : list mapped_row * mapping_stats * list warning) (col : list N)
    : Prop :=
  (∀ code, alias_to_code !! norm = Some code →
     kept_with col code df out.1.1
     ∧ col ∉ unmapped_station_columns out.1.2)
  ∧ (alias_to_code !! norm = None →
     (∃ b code,
         alias_to_code !! b = Some code
         ∧ (cutoff <= ratio b norm)%Q
         ∧ (∀ x, is_Some (alias_to_code !! x) →
                 Difflib.passes cutoff norm x = true →
                 (ratio x norm <= ratio b norm)%Q)
         ∧ kept_with col code df out.1.1
         ∧ warns_fuzzy out.2 col code b)
     ∨ ((∀ x, is_Some (alias_to_code !! x) →
              Difflib.passes cutoff norm x = false)
        ∧ dropped col out.1.1
        ∧ col ∈ unmapped_station_columns out.1.2
        ∧ warns_unmapped out.2 col))
  ∧ (alias_to_code !! norm = None →
     (∀ x, is_Some (alias_to_code !! x) → ¬ (cutoff <= ratio x norm)%Q) →
     dropped col out.1.1
     ∧ col ∈ unmapped_station_columns out.1.2
     ∧ warns_unmapped out.2 col).

End ResolutionOf.

(** The catalogue and the input of the worked example: the aliases
    [zrarda debit] (code 7) and [el malha debit] (code 3), and three
    labels. *)
Definition example_aliases : gmap (list N) Z :=
  <[u "zrarda debit" := 7]> (<[u "el malha debit" := 3]> ∅).

Definition example_names : gmap Z (list N) :=
  <[7 := u "Zrarda"]> (<[3 := u "El Malha"]> ∅).

Definition example_input : list raw_row :=
  [mkRaw (CNum 3600) (u "Zerarda debit") (CNum 1);
   mkRaw (CNum 3600) (u "El Malha_D" ++ e_acute :: u "bit (m3/s)") (CNum 2);
   mkRaw (CNum 3600) (u "Unknown Col") (CNum 3)].

(** ** The facts about the character database that the normalizers rely on

    They hold of the Unicode database: the ASCII capital letters are the
    only ASCII code points that [str.lower] changes, lower-casing yields
    code points that it leaves alone, white space has no case, ASCII is
    its own compatibility decomposition and holds no combining mark, the
    ASCII white space is U+0009..U+000D and U+001C..U+0020, and U+00E9
    decomposes into [e] and the combining acute accent U+0301. *)
Class UnicodeLaws `{UnicodeDB} : Prop := {
  lower_ascii_upper : ∀ c, (65 ≤ c ≤ 90)%N → lower_char c = [(c + 32)%N];
  lower_ascii_other : ∀ c, (c < 128)%N → ¬ (65 ≤ c ≤ 90)%N → lower_char c = [c];
  lower_stable : ∀ c c', c' ∈ lower_char c → lower_char c' = [c'];
  lower_keeps_non_space :
    ∀ c c', is_space c = false → c' ∈ lower_char c → is_space c' = false;
  nfkd_ascii : ∀ c, (c < 128)%N → nfkd_char c = [c];
  combining_ascii : ∀ c, (c < 128)%N → combining c = false;
  space_ascii :
    ∀ c, (c < 128)%N →
         is_space c = ((9 <=? c) && (c <=? 13) || (28 <=? c) && (c <=? 32))%N;
  lower_e_acute : lower_char e_acute = [e_acute];
  nfkd_e_acute : nfkd_char e_acute = [101%N; 769%N];
  combining_acute : combining 769%N = true;
  e_acute_no_space : is_space e_acute = false
}.

(** The ASCII small letters turned into capitals, other code points
    unchanged. *)
Definition upper_ascii (s : list N) : list N :=
  (λ c, if ((97 <=? c) && (c <=? 122))%N then (c - 32)%N else c) <$> s.

(** Tokens as [str.split] yields them: non-empty and free of white
    space. *)
Definition tokens_ok `{UnicodeDB} (tokens : list (list N)) : Prop :=
  Forall (λ t, t ≠ [] ∧ Forall (λ c, is_space c = false) t) tokens.

(** The four normalizers of the scripts and the one of the front end. *)
Definition normalizers `{UnicodeDB} : list (option (list N) → list N) :=
  [FlowText.normalize_text; VolumeText.normalize_text;
   PrecipObsText.normalize_text; UIText.normalize_text].

(** The label [Débit (m3/s)]. *)
Definition debit_label : list N := u "D" ++ e_acute :: u "bit (m3/s)".

(** The code points the laws determine: ASCII and U+00E9. *)
Definition plain (c : N) : Prop := (c < 128)%N ∨ c = e_acute.

(** The code points met after decomposition: ASCII and U+0301. *)
Definition decomposed (c : N) : Prop := (c < 128)%N ∨ c = 769%N.

#[global] Instance plain_dec c : Decision (plain c).
Proof. unfold plain. apply _. Defined.

#[global] Instance decomposed_dec c : Decision (decomposed c).
Proof. unfold decomposed. apply _. Defined.

(** The ASCII code points. *)
Definition ascii_points : list N := N.of_nat <$> seq 0 128.

(** The separator that [parse_csv] infers from the first line: a
    semicolon unless the commas outnumber the semicolons. *)
Definition inferred_sep (first_line : list N) : N :=
  if bool_decide (count_occ N.eq_dec first_line 44%N
                  ≤ count_occ N.eq_dec first_line 59%N)%nat
  then 59%N else 44%N.

(** The table rows that [parse_html_xls] keeps: those with a cell. *)
Definition kept_rows (table_rows : list (list (list N))) : list (list (list N)) :=
  filter (λ cleaned, cleaned ≠ []) table_rows.

(** A CSV reader that yields a given table, for the worked examples. *)
Definition reads (raw : wide_frame) (lines : list (list N)) (sep : N) : wide_frame :=
  raw.

(** The function raises (whatever the exception). *)
Definition raises {A} (r : result A) : Prop := ∃ e, r = Raise e.

(** The last character of a path. *)
Fixpoint last_char (s : string) : option ascii :=
  match s with
  | EmptyString => None
  | String c EmptyString => Some c
  | String _ s' => last_char s'
  end.

(** The file, if any, is a report that lists the warnings [ws]. *)
Definition is_report (f : option file) (ws : list warning) : Prop :=
  ∃ r, (f = Some (FReportJson r) ∨ f = Some (FReportTxt r))
       ∧ report_warnings r = ws.

(** Strict mode, for one script split into [produce] and [main]: when
    the run reaches the strict-mode test with warnings and [--strict], it
    exits with status 1 and leaves every file but the log as it was at
    that point, the output workbook among them and, where [written] says
    so, the two reports listing the warnings (otherwise the report paths
    are as they were before the run); a run without warnings exits with 0,
    a run that returned earlier keeps its status, and the strict flag
    never changes how far a run gets, so that without warnings it does not
    change the exit status. *)
Definition strict_mode_ok
    (produce : args → string → gmap string file → progress * gmap string file)
    (main : args → string → gmap string file → Z * gmap string file)
    (log_path xlsx : args → string → string)
    (reports : list (args → string → string)) (written : bool) : Prop :=
  ∀ a run_id fs,
    let p := produce a run_id fs in
    (∀ ws stats,
       p.1 = Reached ws stats → ws ≠ [] → arg_strict a = true →
       (main a run_id fs).1 = 1
       ∧ (∀ path, path ≠ log_path a run_id →
                  (main a run_id fs).2 !! path = p.2 !! path)
       ∧ (∃ wb, p.2 !! xlsx a run_id = Some (FWorkbook wb))
       ∧ Forall (λ rp : args → string → string,
                   if written then is_report (p.2 !! rp a run_id) ws
                   else p.2 !! rp a run_id = fs !! rp a run_id) reports)
    ∧ (∀ stats, p.1 = Reached [] stats → (main a run_id fs).1 = 0)
    ∧ (∀ status, p.1 = Returned status → (main a run_id fs).1 = status)
    ∧ (∀ b, (produce (with_strict b a) run_id fs).1 = p.1)
    ∧ (∀ b, (∀ ws stats, p.1 = Reached ws stats → ws = []) →
            (main (with_strict b a) run_id fs).1 = (main a run_id fs).1).

(** A run of the worked examples: an input and a template on disk, and
    stages that deliver a workbook with one warning. *)
Definition example_args : args :=
  mkArgs "in.csv" "tpl.xlsx" "out" Donnees (u "Stations") "arome" true.

Definition example_disk : gmap string file :=
  <["in.csv"%string := FInput]>
    (<["tpl.xlsx"%string := FWorkbook [(Donnees, []); (u "Stations", [])]]> ∅).

Definition example_stages (wb : workbook) : result stage_outcome :=
  Ok (Produced wb [] [WTimeGaps 1]).

(** ** Vocabulary of the consolidation claims *)

Section ConsolidationSpec.
Variable to_datetime : cell → option Z.
Variable float_of_str : list N → option Q.

(** The data rows [4 .. max_row] of a sheet. *)
Definition data_rows (ws : sheet) : list nat := seq 4 (max_row ws - 3).

(** The timestamp under which a data row is merged, if any. *)
Definition row_timestamp (ws : sheet) (r : nat) : option Z :=
  match cell_value ws r 1 with
  | CNone => None
  | CStr [] => None
  | tval => to_datetime tval
  end.

(** The timestamps found in a generated file. *)
Definition file_timestamps (wb : workbook) : list Z :=
  match get_sheet wb Donnees with
  | None => []
  | Some ws => omap (row_timestamp ws) (data_rows ws)
  end.

Definition has_value (val : cell) : bool :=
  match val with CNone => false | _ => true end.

(** The cell of row [r] in the column whose header holds [code]. *)
Definition column_cell (ws : sheet) (code : Z) (r : nat) : option cell :=
  (λ col, cell_value ws r col) <$> Consolidate.header_columns ws !! code.

(** The cell a file contributes to [(ts, code)]: in the column of its
    data sheet whose header holds [code], the last cell with a value among
    the rows of timestamp [ts]. *)
Definition file_cell (wb : workbook) (ts code : Z) : option cell :=
  ws ← get_sheet wb Donnees;
  col ← Consolidate.header_columns ws !! code;
  last (filter (λ val, has_value val = true)
          ((λ r, cell_value ws r col)
             <$> filter (λ r, row_timestamp ws r = Some ts) (data_rows ws))).

(** [float(val)] when it does not raise. *)
Definition float_value (val : cell) : option Q :=
  match Consolidate.to_float float_of_str val with
  | Ok v => Some v
  | Raise _ => None
  end.

(** The value of the last file, in processing order, that contributes
    to [(ts, code)]. *)
Definition later_value (files : list workbook) (ts code : Z) : option Q :=
  last (omap (λ wb, file_cell wb ts code) files) ≫= float_value.

(** The cells that the loops read and convert for one row and for one
    file, in the order of the assignments
    [values_by_ts_code[(ts, code)] = float(val)]. *)
Definition row_assignments (codes : list Z) (ws : sheet) (r : nat)
    : list (Z * Z * cell) :=
  match row_timestamp ws r with
  | None => []
  | Some ts =>
      code ← codes;
      match column_cell ws code r with
      | Some val => if has_value val then [((ts, code), val)] else []
      | None => []
      end
  end.

Definition assignments (codes : list Z) (wb : workbook) : list (Z * Z * cell) :=
  match get_sheet wb Donnees with
  | None => []
  | Some ws => data_rows ws ≫= row_assignments codes ws
  end.

(** Every cell read for the template codes converts to a float. *)
Definition convertible (codes : list Z) (files : list workbook) : Prop :=
  Forall (λ w, is_Some (float_value w.2)) (files ≫= assignments codes).

(** A run of assignments on the dictionary. *)
Definition assign (acc : result (gmap (Z * Z) Q)) (w : Z * Z * cell)
    : result (gmap (Z * Z) Q) :=
  values ← acc;
  v ← Consolidate.to_float float_of_str w.2;
  Ok (<[w.1 := v]> values).

Definition assign_all (acc : result (gmap (Z * Z) Q)) (ws : list (Z * Z * cell))
    : result (gmap (Z * Z) Q) :=
  foldl assign acc ws.

End ConsolidationSpec.

(** The cell of a matrix at a row label and a column label. *)
Definition position (x : Z) (l : list Z) : option nat :=
  fst <$> list_find (λ y, y = x) l.

Definition cell_at (m : matrix) (ts code : Z) : option Q :=
  i ← position ts (m_index m);
  j ← position code (m_columns m);
  row ← m_data m !! i;
  mjoin (row !! j).

(** Two sheets that agree on their number of rows, on their time column
    and on the columns of the given codes. *)
Definition agree_on (codes : list Z) (ws ws' : sheet) : Prop :=
  max_row ws = max_row ws'
  ∧ (∀ r, cell_value ws r 1 = cell_value ws' r 1)
  ∧ (∀ code r, code ∈ codes → column_cell ws code r = column_cell ws' code r).

(** The worked example: a template of codes 101 and 102, and two
    generated files that both hold a value for code 101 at time 10. *)
Definition example_datetime (val : cell) : option Z :=
  match val with
  | CNum q => Some (Qfloor q)
  | _ => None
  end.

Definition example_float (s : list N) : option Q := None.

Definition example_template : workbook :=
  [(Donnees, [[]; []; [CStr (u "timestamp"); CNum 101; CNum 102]])].

Definition example_file (v : Q) (t : Z) : workbook :=
  [(Donnees, [[]; []; [CStr (u "timestamp"); CNum 101; CNum 999];
              [CNum (inject_Z t); CNum v; CStr (u "n/a")]])].

Definition example_other : workbook := [(u "Stations", [])].

(** ** Writing a matrix into the data sheet *)

(** [range(a, b)] on integers, and [enumerate(l, start)]. *)
Definition py_range (a b : Z) : list Z :=
  (λ k, a + Z.of_nat k) <$> seq 0 (Z.to_nat (b - a)).

Definition enumerate_from {A} (start : Z) (l : list A) : list (Z * A) :=
  imap (λ i x, (start + Z.of_nat i, x)) l.

Module Openpyxl.

(** [if value is not None: cell.value = value] of [Worksheet.cell]: a
    [None] leaves the value that the cell holds. *)
Definition assign (v old : cell) : cell :=
  match v with
  | CNone => old
  | _ => v
  end.

(** The grid after [ws.cell(r, c, value=v)] for [r] and [c] from 1: the
    cell is created when it is absent, which extends the sheet to row [r]
    and column [c], and the value is assigned unless it is [None]. *)
Definition set_cell (ws : sheet) (r c : nat) (v : cell) : sheet :=
  alter (λ row, alter (assign v) (c - 1)%nat
                  (row ++ replicate (c - length row) CNone))
        (r - 1)%nat (ws ++ replicate (r - length ws) []).

(** [ws.cell(row, column, value)] raises [ValueError] on an index below 1. *)
Definition cell_set (ws : sheet) (r c : Z) (v : cell) : result sheet :=
  if bool_decide (r < 1 ∨ c < 1)
  then Raise (ValueError "Row or column values must be at least 1")
  else Ok (set_cell ws (Z.to_nat r) (Z.to_nat c) v).

(** The workbook after the sheet [name] has been modified in place. *)
Definition set_sheet (wb : workbook) (name : list N) (ws : sheet) : workbook :=
  (λ p, if decide (p.1 = name) then (p.1, ws) else p) <$> wb.

End Openpyxl.

Record write_stats := mkWriteStats {
  written_rows : nat;
  written_station_columns : nat;
  first_output_row : Z;
  last_output_row : Z
}.

(** [None if pd.isna(v) else float(v)]. *)
Definition float_cell (v : option Q) : cell :=
  match v with
  | Some q => CNum q
  | None => CNone
  end.

Module FlowWriter.
Section FlowWriter.
(** [pd.Timestamp(ts).strftime(TIMESTAMP_FMT)]. *)
Variable strftime : Z → list N.

(** Every call of the loop passes [value=None]: it creates the cells of
    the region and assigns nothing. *)
Definition clear_data_region (ws : sheet) (start_row max_col : Z) : result sheet :=
  foldl (λ acc r,
           foldl (λ acc c, ws ← acc; Openpyxl.cell_set ws r c CNone)
                 acc (py_range 1 (max_col + 1)))
        (Ok ws) (py_range start_row (Z.of_nat (max_row ws) + 1)).

Definition write_row (acc : result (sheet * Z)) (item : Z * list (option Q))
    : result (sheet * Z) :=
  '(ws, r) ← acc;
  ws ← Openpyxl.cell_set ws r 1 (CStr (strftime item.1));
  ws ← foldl (λ acc cv, ws ← acc; Openpyxl.cell_set ws r cv.1 (float_cell cv.2))
             (Ok ws) (enumerate_from 2 item.2);
  Ok (ws, r + 1).

Definition write_template (wb : workbook) (sheet_data : list N) (matrix : matrix)
    (target_codes : list Z) (start_row : Z) : result (workbook * write_stats) :=
  match get_sheet wb sheet_data with
  | None => Raise (KeyError sheet_data)
  | Some ws =>
      ws ← Openpyxl.cell_set ws 3 1 (CStr (u "timestamp"));
      ws ← foldl (λ acc ic, ws ← acc;
                            Openpyxl.cell_set ws 3 ic.1 (CNum (inject_Z ic.2)))
                 (Ok ws) (enumerate_from 2 target_codes);
      let max_col := Z.of_nat (length target_codes) + 1 in
      ws ← clear_data_region ws start_row max_col;
      '(ws, r) ← foldl write_row (Ok (ws, start_row))
                       (zip (m_index matrix) (m_data matrix));
      Ok (Openpyxl.set_sheet wb sheet_data ws,
          {| written_rows := Pandas.shape0 matrix;
             written_station_columns := Pandas.shape1 matrix;
             first_output_row := start_row;
             last_output_row := r - 1 |})
  end.

End FlowWriter.
End FlowWriter.

Module VolumeWriter.
Section VolumeWriter.
Variable strftime : Z → list N.

Definition clear_region (ws : sheet) (start_row max_col : Z) : result sheet :=
  foldl (λ acc r,
           foldl (λ acc c, ws ← acc; Openpyxl.cell_set ws r c CNone)
                 acc (py_range 1 (max_col + 1)))
        (Ok ws) (py_range start_row (Z.of_nat (max_row ws) + 1)).

Definition write_row (acc : result (sheet * Z)) (item : Z * list (option Q))
    : result (sheet * Z) :=
  '(ws, row) ← acc;
  ws ← Openpyxl.cell_set ws row 1 (CStr (strftime item.1));
  ws ← foldl (λ acc cv, ws ← acc; Openpyxl.cell_set ws row cv.1 (float_cell cv.2))
             (Ok ws) (enumerate_from 2 item.2);
  Ok (ws, row + 1).

Definition write_template (wb : workbook) (sheet : list N) (matrix : matrix)
    (target_codes : list Z) (start_row : Z) : result (workbook * write_stats) :=
  match get_sheet wb sheet with
  | None => Raise (KeyError sheet)
  | Some ws =>
      ws ← Openpyxl.cell_set ws 3 1 (CStr (u "timestamp"));
      ws ← foldl (λ acc ic, ws ← acc;
                            Openpyxl.cell_set ws 3 ic.1 (CNum (inject_Z ic.2)))
                 (Ok ws) (enumerate_from 2 target_codes);
      let max_col := Z.of_nat (length target_codes) + 1 in
      ws ← clear_region ws start_row max_col;
      '(ws, row) ← foldl write_row (Ok (ws, start_row))
                         (zip (m_index matrix) (m_data matrix));
      Ok (Openpyxl.set_sheet wb sheet ws,
          {| written_rows := Pandas.shape0 matrix;
             written_station_columns := Pandas.shape1 matrix;
             first_output_row := start_row;
             last_output_row := row - 1 |})
  end.

End VolumeWriter.
End VolumeWriter.

Module PrecipObsWriter.
Section PrecipObsWriter.
Variable strftime : Z → list N.

Definition clear_data_region (ws : sheet) (start_row max_col : Z) : result sheet :=
  foldl (λ acc r,
           foldl (λ acc c, ws ← acc; Openpyxl.cell_set ws r c CNone)
                 acc (py_range 1 (max_col + 1)))
        (Ok ws) (py_range start_row (Z.of_nat (max_row ws) + 1)).

Definition write_row (acc : result (sheet * Z)) (item : Z * list (option Q))
    : result (sheet * Z) :=
  '(ws, row) ← acc;
  ws ← Openpyxl.cell_set ws row 1 (CStr (strftime item.1));
  ws ← foldl (λ acc cv, ws ← acc;
                        match cv.2 with
                        | None => Openpyxl.cell_set ws row cv.1 CNone
                        | Some v => Openpyxl.cell_set ws row cv.1 (CNum v)
                        end)
             (Ok ws) (enumerate_from 2 item.2);
  Ok (ws, row + 1).

Definition write_output_template (wb : workbook) (sheet_data : list N)
    (matrix : matrix) (target_codes : list Z) (data_start_row : Z)
    : result (workbook * write_stats) :=
  match get_sheet wb sheet_data with
  | None => Raise (KeyError sheet_data)
  | Some ws =>
      ws ← Openpyxl.cell_set ws 3 1 (CStr (u "timestamp"));
      ws ← foldl (λ acc ic, ws ← acc;
                            Openpyxl.cell_set ws 3 ic.1 (CNum (inject_Z ic.2)))
                 (Ok ws) (enumerate_from 2 target_codes);
      let max_col := Z.of_nat (length target_codes) + 1 in
      ws ← clear_data_region ws data_start_row max_col;
      '(ws, row) ← foldl write_row (Ok (ws, data_start_row))
                         (zip (m_index matrix) (m_data matrix));
      Ok (Openpyxl.set_sheet wb sheet_data ws,
          {| written_rows := Pandas.shape0 matrix;
             written_station_columns := Pandas.shape1 matrix;
             first_output_row := data_start_row;
             last_output_row := row - 1 |})
  end.

End PrecipObsWriter.
End PrecipObsWriter.

(** The cell writes of a run of [write_template], as (row, column, value)
    triples in the order they are made. *)
Definition apply_writes (ws : sheet) (writes : list (nat * nat * cell)) : sheet :=
  foldl (λ ws w, Openpyxl.set_cell ws w.1.1 w.1.2 w.2) ws writes.

Definition line_writes {A} (value : A → cell) (r col : nat) (xs : list A)
    : list (nat * nat * cell) :=
  imap (λ j x, (r, (col + j)%nat, value x)) xs.

Definition header_writes (target_codes : list Z) : list (nat * nat * cell) :=
  (3%nat, 1%nat, CStr (u "timestamp"))
    :: line_writes (λ code, CNum (inject_Z code)) 3 2 target_codes.

Definition clear_writes (first count width : nat) : list (nat * nat * cell) :=
  r ← seq first count; (λ c, (r, c, CNone)) <$> seq 1 width.

Definition row_writes (strftime : Z → list N) (r : nat)
    (item : Z * list (option Q)) : list (nat * nat * cell) :=
  (r, 1%nat, CStr (strftime item.1)) :: line_writes float_cell r 2 item.2.

Definition data_writes (strftime : Z → list N) (first : nat)
    (items : list (Z * list (option Q))) : list (nat * nat * cell) :=
  concat (imap (λ k item, row_writes strftime (first + k) item) items).

(** The sheet that [write_template] leaves for a start row from 1. *)
Definition written_sheet (strftime : Z → list N) (ws : sheet) (m : matrix)
    (target_codes : list Z) (start_row : nat) : sheet :=
  let ws1 := apply_writes ws (header_writes target_codes) in
  let ws2 := apply_writes ws1
               (clear_writes start_row (max_row ws1 + 1 - start_row)
                             (length target_codes + 1)) in
  apply_writes ws2 (data_writes strftime start_row (zip (m_index m) (m_data m))).

(** The header codes that a sheet holds to the right of column [n + 1]. *)
Definition stale_codes (ws : sheet) (n : nat) : list Z :=
  omap (λ c, Py.int <$> cell_number (cell_value ws 3 c))
       (seq (n + 2) (max_column ws - (n + 1))).

(** A sheet that holds no value from the row [start] on. *)
Definition empty_from (ws : sheet) (start : nat) : Prop :=
  ∀ r c, (start ≤ r)%nat → cell_value ws r c = CNone.

(** A matrix with one row of cells per row label and one cell per column
    in every row. *)
Definition well_shaped (m : matrix) : Prop :=
  length (m_data m) = length (m_index m)
  ∧ Forall (λ row, length row = length (m_columns m)) (m_data m).

(** The sheet writers of the observed-data scripts. *)
Definition writers (strftime : Z → list N)
    : list (workbook → list N → matrix → list Z → Z
            → result (workbook * write_stats)) :=
  [FlowWriter.write_template strftime;
   VolumeWriter.write_template strftime;
   PrecipObsWriter.write_output_template strftime].

(** The header readers of the observed-data scripts. *)
Definition header_readers : list (sheet → list Z) :=
  [Flow.extract_template_data_codes; Volume.extract_data_codes;
   PrecipObs.extract_template_data_codes].

(** A formatter and a parser of timestamps for the worked examples: a
    sign and a magnitude. *)
Definition example_strftime (ts : Z) : list N :=
  [if ts <? 0 then 45%N else 43%N; Z.to_N (Z.abs ts)].

Definition example_strptime (val : cell) : option Z :=
  match val with
  | CStr [s; n] => Some (if (s =? 45)%N then - Z.of_N n else Z.of_N n)
  | _ => None
  end.

Definition example_matrix : matrix :=
  mkMatrix [10; 20] [101; 102] [[Some 1%Q; None]; [Some 2%Q; Some 3%Q]].

(** A generated file as the batch run of the front end obtains it: the
    matrix [job.2] written from row 4 into the data sheet of the
    workbook [job.1], which holds no value from row 4 on and whose header
    holds nothing to the right of the written columns. *)
Definition written_by (strftime : Z → list N) (to_datetime : cell → option Z)
    (job : workbook * matrix) (file : workbook) : Prop :=
  ∃ ws stats,
    get_sheet job.1 Donnees = Some ws
    ∧ empty_from ws 4
    ∧ (max_column ws ≤ length (m_columns job.2) + 1)%nat
    ∧ NoDup (m_columns job.2)
    ∧ NoDup (m_index job.2)
    ∧ well_shaped job.2
    ∧ Forall (λ ts, strftime ts ≠ [] ∧ to_datetime (CStr (strftime ts)) = Some ts)
             (m_index job.2)
    ∧ FlowWriter.write_template strftime job.1 Donnees job.2 (m_columns job.2) 4
      = Ok (file, stats).

(** The value of the last matrix, in processing order, that holds one
    at [(ts, code)]. *)
Definition last_value (ms : list matrix) (ts code : Z) : option Q :=
  last (omap (λ m, cell_at m ts code) ms).

(** The workbook that the flow writer returns for the worked example. *)
Definition example_written : workbook :=
  [(Donnees,
    [[]; []; [CStr (u "timestamp"); CNum 101; CNum 102];
     [CStr (example_strftime 10); CNum 1; CNone];
     [CStr (example_strftime 20); CNum 2; CNum 3]])].

(** The target codes of the observed-data scripts: the ascending union
    of the station-sheet codes and the header codes. *)
Definition target_coders : list (list Z → list Z → list Z) :=
  [Flow.target_codes; Volume.target_codes; PrecipObs.target_codes].

(** ** Vocabulary of the cleaned frames *)

(** The strict order of the keys by time, then station, and by station,
    then time. *)
Definition key_lt (a b : Z * Z) : Prop :=
  a.1 < b.1 ∨ (a.1 = b.1 ∧ a.2 < b.2).

Definition key_lt_station (a b : Z * Z) : Prop :=
  a.2 < b.2 ∨ (a.2 = b.2 ∧ a.1 < b.1).

(** A frame whose rows come in strictly ascending order of (time,
    station): no key is carried twice. *)
Definition ascending_keys (df : list record) : Prop :=
  StronglySorted key_lt (key_of <$> df).

(** The same, by (station, time). *)
Definition ascending_station_keys (df : list record) : Prop :=
  StronglySorted key_lt_station (key_of <$> df).

(** No duplicate warning is added to the list. *)
Definition no_new_duplicate_warning (before after : list warning) : Prop :=
  ∀ n, WDuplicates n ∈ after → WDuplicates n ∈ before.

(** Two observations of station 1, an hour and a half apart. *)
Definition two_buckets : list mapped_row :=
  [mkMapped (CNum 3600) (u "A") (CNum 1) 1;
   mkMapped (CNum 9000) (u "A") (CNum 2) 1].

(** ** Time gaps: [compute_time_gaps] and [time_gaps]

    A gap message is kept as the three values it is formatted from: the
    difference and the two consecutive timestamps. *)
Record gap := mkGap {
  gap_delta : Z;
  gap_prev : Z;
  gap_curr : Z
}.

(** [diffs[diffs != target]] over [uniq.diff().dropna()], each with the
    two timestamps [uniq.iloc[idx-1]] and [uniq.iloc[idx]]. *)
Fixpoint gaps_between (target prev : Z) (uniq : list Z) : list gap :=
  match uniq with
  | [] => []
  | t :: uniq' =>
      (if bool_decide (t - prev ≠ target) then [mkGap (t - prev) prev t] else [])
        ++ gaps_between target t uniq'
  end.

Module FlowGaps.
Section FlowGaps.
(** [pd.Timedelta(expected_step)] in seconds. *)
Variable to_timedelta : string → Z.

Definition compute_time_gaps (times : list Z) (expected_step : string) : list gap :=
  match times with
  | [] => []
  | _ =>
      match Py.sorted_set times with
      | [] => []
      | t0 :: uniq => gaps_between (to_timedelta expected_step) t0 uniq
      end
  end.

End FlowGaps.
End FlowGaps.

Module VolumeGaps.
Section VolumeGaps.
Variable to_timedelta : string → Z.

Definition time_gaps (times : list Z) (expected : string) : list gap :=
  match times with
  | [] => []
  | _ =>
      match Py.sorted_set times with
      | [] => []
      | t0 :: uniq => gaps_between (to_timedelta expected) t0 uniq
      end
  end.

End VolumeGaps.
End VolumeGaps.

Module PrecipObsGaps.

(** The expected step is [pd.Timedelta(hours=1)]. *)
Definition compute_time_gaps (times : list Z) : list gap :=
  match times with
  | [] => []
  | _ =>
      match Py.sorted_set times with
      | [] => []
      | t0 :: uniq => gaps_between 3600 t0 uniq
      end
  end.

End PrecipObsGaps.

Module PrecipModelGaps.

Definition compute_time_gaps (times : list Z) : list gap :=
  match times with
  | [] => []
  | _ =>
      match Py.sorted_set times with
      | [] => []
      | t0 :: uniq =>
          match gaps_between 3600 t0 uniq with
          | [] => []
          | gaps => gaps
          end
      end
  end.

End PrecipModelGaps.

(** The timestamps [t0, t0 + step, ..., t0 + (n - 1) * step]. *)
Definition regular_grid (t0 step : Z) (n : nat) : list Z :=
  (λ k, t0 + Z.of_nat k * step) <$> seq 0 n.

(** The pairs of neighbours of a list. *)
Definition neighbours (l : list Z) : list (Z * Z) :=
  zip l (drop 1 l).

(** The gap detectors of the four scripts, at a target step. *)
Definition gap_detectors (to_timedelta : string → Z) (expected : string)
    : list (list Z → list gap) :=
  [λ times, FlowGaps.compute_time_gaps to_timedelta times expected;
   λ times, VolumeGaps.time_gaps to_timedelta times expected].

Definition hourly_gap_detectors : list (list Z → list gap) :=
  [PrecipObsGaps.compute_time_gaps; PrecipModelGaps.compute_time_gaps].

(** Two observations of station 1, four hours apart. *)
Definition sparse_station : list mapped_row :=
  [mkMapped (CNum 3600) (u "A") (CNum 1) 1;
   mkMapped (CNum 18000) (u "A") (CNum 2) 1].


(** ** Exit status and files of a run *)

(** What a run of a script leaves behind, for one script given by its
    [main] and its four paths.  The status is 0, 1 or 2; it is 2 only
    when the input or the template is missing, and then always ([early]
    tells that the log file is opened before the two tests, so that a path
    equal to the log path exists by then), and no file other than the log
    is touched.  With status 0 the workbook and the two reports are on
    disk, and the reports list the same warnings.  In every case the only
    paths written are the log, the workbook and the two reports. *)
Definition run_outcome_ok
    (main : args → string → gmap string file → Z * gmap string file)
    (log_path xlsx json txt : args → string → string) (early : bool) : Prop :=
  ∀ a run_id fs,
    let status := (main a run_id fs).1 in
    let fs' := (main a run_id fs).2 in
    (status = 0 ∨ status = 1 ∨ status = 2)
    ∧ (status = 2 → fs !! arg_input a = None ∨ fs !! arg_template a = None)
    ∧ (fs !! arg_input a = None ∨ fs !! arg_template a = None →
       (early = true →
        arg_input a ≠ log_path a run_id ∧ arg_template a ≠ log_path a run_id) →
       status = 2)
    ∧ (status = 2 →
       ∀ path, (early = true → path ≠ log_path a run_id) → fs' !! path = fs !! path)
    ∧ (status = 0 →
       ∃ wb ws,
         fs' !! xlsx a run_id = Some (FWorkbook wb)
         ∧ is_report (fs' !! json a run_id) ws
         ∧ is_report (fs' !! txt a run_id) ws)
    ∧ (∀ path,
         path ∉ [log_path a run_id; xlsx a run_id; json a run_id; txt a run_id] →
         fs' !! path = fs !! path).

(** A run of the worked examples without [--strict]. *)
Definition lenient_args : args := with_strict false example_args.

(** ** The start of [main]: command line, fill value, output directory *)

(** What [parse_args()] makes of the command line.  [argparse] ends the
    process itself, with status 2 on a command line that it rejects (a
    missing [--input], an [--agg] outside the choices, ...) and with
    status 0 after [--help]; otherwise it returns the arguments, among
    them the text given to [--fill-missing]. *)
Inductive command_line :=
| ArgparseExit (status : Z)
| Namespace (a : args) (fill_missing : list N).

(** The process of a script, from [raise SystemExit(main())]: the start
    of [main] and then the body that the modules [FlowMain],
    [VolumeMain], [PrecipObsMain] and [PrecipModelMain] embed from the
    existence tests on (from [setup_logging] on in the
    precipitation-model script).  An exception that [main] does not
    catch ends the process with status 1. *)
Module Script.
Section Script.
Context `{UnicodeDB}.
Variable parse_args : list string → command_line.
(** Python's [float] on a text, [None] when it raises [ValueError]. *)
Variable float_of_str : list N → option Q.
(** Whether [outdir.mkdir(parents=True, exist_ok=True)] returns on a
    disk; it raises an [OSError] otherwise. *)
Variable mkdir : gmap string file → string → bool.

(** [parse_fill_value] ([parse_fill] in the volume script). *)
Definition parse_fill_value (raw : list N) : result (option Q) :=
  let low := Str.lower (Str.strip raw) in
  if bool_decide (low ∈ [[]; u "nan"; u "none"; u "null"])
  then Ok None
  else match float_of_str raw with
       | Some q => Ok (Some q)
       | None => Raise (ValueError "could not convert string to float")
       end.

Definition fill_accepted (raw : list N) : bool :=
  match parse_fill_value raw with
  | Ok _ => true
  | Raise _ => false
  end.

(** The three observed-data scripts: [parse_args()], the fill value,
    [outdir.mkdir], then the existence tests and the rest. *)
Definition observed
    (main : args → string → gmap string file → Z * gmap string file)
    (argv : list string) (run_id : string) (fs : gmap string file)
    : Z * gmap string file :=
  match parse_args argv with
  | ArgparseExit status => (status, fs)
  | Namespace a raw =>
      match parse_fill_value raw with
      | Raise _ => (1, fs)
      | Ok _ => if mkdir fs (arg_outdir a) then main a run_id fs else (1, fs)
      end
  end.

(** The precipitation-model script: [parse_args()], which converts
    [--fill-missing] itself, [outdir.mkdir], then the log and the rest. *)
Definition precip_model
    (main : args → string → gmap string file → Z * gmap string file)
    (argv : list string) (run_id : string) (fs : gmap string file)
    : Z * gmap string file :=
  match parse_args argv with
  | ArgparseExit status => (status, fs)
  | Namespace a _ => if mkdir fs (arg_outdir a) then main a run_id fs else (1, fs)
  end.

End Script.
End Script.

(** What a run of a script leaves behind, from the command line on.  When
    [argparse] ends the process the status is its own and nothing is
    written.  When the arguments are not [accepted] (the fill value does
    not convert, the output directory cannot be made) the status is 1 and
    nothing is written.  Otherwise the run reaches the existence tests
    and ends as [run_outcome_ok] tells: status 0, 1 or 2; 2 exactly when
    the input or the template is missing, the log alone being touched
    then, and only where it is opened before the tests; with status 0
    the workbook and the two reports are on disk; and in every case only
    the log, the workbook and the two reports are written. *)
Definition script_outcome_ok (parse_args : list string → command_line)
    (accepted : args → list N → gmap string file → bool)
    (script : list string → string → gmap string file → Z * gmap string file)
    (log_path xlsx json txt : args → string → string) (early : bool) : Prop :=
  ∀ argv run_id fs,
    let status := (script argv run_id fs).1 in
    let fs' := (script argv run_id fs).2 in
    match parse_args argv with
    | ArgparseExit code => status = code ∧ fs' = fs
    | Namespace a raw =>
        if accepted a raw fs
        then (status = 0 ∨ status = 1 ∨ status = 2)
             ∧ (status = 2 → fs !! arg_input a = None ∨ fs !! arg_template a = None)
             ∧ (fs !! arg_input a = None ∨ fs !! arg_template a = None →
                (early = true →
                 arg_input a ≠ log_path a run_id
                 ∧ arg_template a ≠ log_path a run_id) →
                status = 2)
             ∧ (status = 2 →
                ∀ path, (early = true → path ≠ log_path a run_id) →
                        fs' !! path = fs !! path)
             ∧ (status = 0 →
                ∃ wb ws,
                  fs' !! xlsx a run_id = Some (FWorkbook wb)
                  ∧ is_report (fs' !! json a run_id) ws
                  ∧ is_report (fs' !! txt a run_id) ws)
             ∧ (∀ path,
                  path ∉ [log_path a run_id; xlsx a run_id; json a run_id;
                          txt a run_id] →
                  fs' !! path = fs !! path)
        else status = 1 ∧ fs' = fs
    end.

(** A command line of the worked examples, and a disk on which every
    directory can be made. *)
Definition example_parse_args (argv : list string) : command_line :=
  match argv with
  | [] => ArgparseExit 2
  | _ => Namespace lenient_args (u "nan")
  end.

Definition any_directory (fs : gmap string file) (outdir : string) : bool := true.

(** ** Observed precipitation: reading the DataTable and mapping stations *)

(** [str(v)] of a cell value: a text is itself, a number or a boolean is
    printed by Python ([repr]). *)
Definition py_str (repr : cell → list N) (v : cell) : list N :=
  match v with
  | CStr s => s
  | other => repr other
  end.

(** The argument of a text normalizer for a cell value. *)
Definition cell_arg (repr : cell → list N) (v : cell) : option (list N) :=
  match v with
  | CNone => None
  | other => Some (py_str repr other)
  end.

(** [str(v) if v is not None else ""]. *)
Definition label_of (repr : cell → list N) (v : cell) : list N :=
  match v with
  | CNone => []
  | other => py_str repr other
  end.

(** [v is None]. *)
Definition is_none (v : cell) : bool :=
  match v with
  | CNone => true
  | _ => false
  end.

Module PrecipObsInput.

(** A record of the raw frame: [time], [station_id] (or [None]), [rr]
    and [source_col]. *)
Record obs_row := mkObs {
  obs_time : cell;
  obs_station : option Z;
  obs_rr : cell;
  obs_source_col : list N
}.

(** The raw frame.  [pd.DataFrame.from_records] of an empty list has no
    column at all; [obs_columns] tells whether the four columns exist. *)
Record obs_frame := mkObsFrame {
  obs_columns : bool;
  obs_rows : list obs_row
}.

Record input_stats := mkInputStats {
  input_rows_raw : nat;
  input_station_cols_raw : nat
}.

Record mapping_stats := mkMappingStats {
  rows_with_code_from_input : nat;
  rows_mapped_by_name : nat;
  rows_unmapped_dropped : nat;
  unmapped_input_columns : list (list N)
}.

Section Input.
Context `{UnicodeDB}.
Variable repr : cell → list N.

(** The rows [first .. max_row] whose first cell is not [None]. *)
Definition timed_rows (ws : sheet) (first : nat) : list nat :=
  filter (λ row, is_none (cell_value ws row 1) = false) (seq first (max_row ws + 1 - first)).

Definition parse_excel_datatable (wb : workbook) (input_sheet : list N)
    (warnings : list warning)
    : result (obs_frame * input_stats * list warning) :=
  if bool_decide (input_sheet ∉ sheetnames wb)
  then Raise (ValueError "Input sheet not found")
  else
    match get_sheet wb input_sheet with
    | None => Raise (KeyError input_sheet)
    | Some ws =>
        let first := cell_value ws 1 1 in
        let has_code_row :=
          bool_decide (PrecipObsText.normalize_text (cell_arg repr first) = u "code") in
        if has_code_row
        then
          let col_meta :=
            (λ col, (col, Py.int <$> cell_number (cell_value ws 1 col),
                     label_of repr (cell_value ws 2 col))) <$> data_columns ws in
          let recognized_cols := length (filter (λ m, m.1.2 ≠ None) col_meta) in
          let records :=
            timed_rows ws 3 ≫= λ row,
              omap (λ m, (λ code, mkObs (cell_value ws row 1) (Some code)
                                        (cell_value ws row m.1.1) m.2) <$> m.1.2)
                   col_meta in
          Ok (mkObsFrame (nonempty records) records,
              mkInputStats (length records) recognized_cols,
              warnings)
        else
          let col_meta :=
            (λ col, (col, label_of repr (cell_value ws 1 col))) <$> data_columns ws in
          let recognized_cols :=
            length (filter (λ col, is_none (cell_value ws 1 col) = false) (data_columns ws)) in
          let warnings := warnings ++ [WNoCodeRow] in
          let records :=
            timed_rows ws 2 ≫= λ row,
              (λ m, mkObs (cell_value ws row 1) None (cell_value ws row m.1) m.2)
                <$> col_meta in
          Ok (mkObsFrame (nonempty records) records,
              mkInputStats (length records) recognized_cols,
              warnings)
    end.

Section Csv.
(** [pd.read_csv(input_path, sep=";", dtype=str)]. *)
Variable read_csv : wide_frame.

Definition parse_csv_datatable : result (obs_frame * input_stats) :=
  let raw := read_csv in
  if bool_decide (wide_width raw < 2)%nat
  then Raise (ValueError "CSV must contain datetime column + at least one station column.")
  else
    let melted := (λ r, mkObs (raw_time r) None (raw_value r) (source_col r))
                    <$> melt raw in
    Ok (mkObsFrame true melted,
        mkInputStats (length melted) (length (drop 1 (wide_columns raw)))).

End Csv.

(** The code of a row after the mapping by name. *)
Definition resolved (name_to_code : gmap (list N) Z) (r : obs_row) : option Z :=
  match obs_station r with
  | Some code => Some code
  | None => name_to_code !! PrecipObsText.normalize_text (Some (obs_source_col r))
  end.

Definition map_stations (df : obs_frame) (name_to_code : gmap (list N) Z)
    (warnings : list warning)
    : result (list mapped_row * mapping_stats * list warning) :=
  if negb (obs_columns df) then Raise (KeyError (u "station_id"))
  else
    let rows := obs_rows df in
    let from_code := length (filter (λ r, obs_station r ≠ None) rows) in
    let unresolved_after := filter (λ r, resolved name_to_code r = None) rows in
    let unresolved_names := sorted_labels (obs_source_col <$> unresolved_after) in
    let warnings := match unresolved_names with
                    | [] => warnings
                    | _ => warnings ++ [WUnmapped unresolved_names]
                    end in
    let out :=
      omap (λ r, (λ code, mkMapped (obs_time r) (obs_source_col r) (obs_rr r) code)
                   <$> resolved name_to_code r) rows in
    Ok (out,
        mkMappingStats from_code
          (length (filter (λ r, obs_station r = None) rows) - length unresolved_after)
          (length unresolved_after)
          unresolved_names,
        warnings).

End Input.
End PrecipObsInput.

(** The examples read texts only where a label is expected, so that the
    printing of numbers is not exercised. *)
Definition text_only (v : cell) : list N := [].

(** A DataTable with a code row: column 3 has no code, row 4 has no
    timestamp. *)
Definition example_datatable : workbook :=
  [(u "DataTable",
    [[CStr (u "Code"); CNum 101; CStr (u "n/a"); CNum 102];
     [CStr (u "Date"); CStr (u "A"); CStr (u "B"); CStr (u "C")];
     [CNum 3600; CNum 1; CNum 9; CNum 2];
     [CNone; CNum 1; CNum 1; CNum 1];
     [CNum 7200; CNum 0; CNum 0; CNone]])].

(** A frame of three records: one with a code, one whose label is in the
    name table, one whose label is not. *)
Definition example_obs_frame : PrecipObsInput.obs_frame :=
  PrecipObsInput.mkObsFrame true
    [PrecipObsInput.mkObs (CNum 3600) (Some 7) (CNum 1) (u "Ain Sebou");
     PrecipObsInput.mkObs (CNum 3600) None (CNum 2) (u "Ain_Sebou");
     PrecipObsInput.mkObs (CNum 3600) None (CNum 3) (u "Zrarda")].

Definition example_name_table : gmap (list N) Z :=
  <[u "ain sebou" := 12]> ∅.

(** ** The station sheet of the template: [extract_template_stations] *)

(** A Python dict with integer keys, in insertion order: assigning to a
    key that is present keeps the position of the key. *)
Fixpoint dict_set (k : Z) (v : list N) (d : list (Z * list N)) : list (Z * list N) :=
  match d with
  | [] => [(k, v)]
  | (k', v') :: d' =>
      if decide (k' = k) then (k, v) :: d' else (k', v') :: dict_set k v d'
  end.

Definition dict_get (k : Z) (d : list (Z * list N)) : option (list N) :=
  (λ p, p.2.2) <$> list_find (λ p, p.1 = k) d.

(** [for a in aliases: if a and a not in alias_to_code:
    alias_to_code[a] = code].  The aliases are a Python set; they are
    listed here in the order of the source. *)
Definition add_aliases (alias_to_code : gmap (list N) Z) (aliases : list (list N))
    (code : Z) : gmap (list N) Z :=
  foldl (λ m a, match a with
                | [] => m
                | _ => match m !! a with
                       | Some _ => m
                       | None => <[a := code]> m
                       end
                end) alias_to_code aliases.

(** The truth value of a cell value. *)
Definition truthy (v : cell) : bool :=
  match v with
  | CNone => false
  | CNum q => negb (Qeq_bool q 0)
  | CBool b => b
  | CStr s => nonempty s
  end.

Module FlowStations.
Section FlowStations.
Context `{UnicodeDB}.
Variable repr : cell → list N.
(** [int(s)] on a text, [None] when it raises ValueError. *)
Variable int_of_str : list N → option Z.

Definition aliases_of (name_str : list N) : list (list N) :=
  [FlowText.normalize_text (Some name_str);
   FlowText.normalize_text (Some (name_str ++ u " debit"));
   FlowText.normalize_text (Some (name_str ++ u " d" ++ e_acute :: u "bit"));
   FlowText.normalize_text (Some (name_str ++ u "_Debit (m3/s)"));
   FlowText.normalize_text (Some (name_str ++ u "_D" ++ e_acute :: u "bit (m3/s)"))].

Definition station_step (ws_st : sheet)
    (acc : result (list Z * list (Z * list N) * gmap (list N) Z)) (r : nat)
    : result (list Z * list (Z * list N) * gmap (list N) Z) :=
  '(codes, code_to_name, alias_to_code) ← acc;
  let code := cell_value ws_st r 1 in
  let name := cell_value ws_st r 2 in
  if is_none code || is_none name then Ok (codes, code_to_name, alias_to_code)
  else
    match int_of_str (Str.strip (py_str repr code)) with
    | None => Raise (ValueError "invalid literal for int()")
    | Some code_int =>
        let name_str := Str.strip (py_str repr name) in
        Ok (codes ++ [code_int], dict_set code_int name_str code_to_name,
            add_aliases alias_to_code (aliases_of name_str) code_int)
    end.

(** Key: the label variant seen in observed files; value: the name of
    the station in the template. *)
Definition manual_alias_to_station : list (list N * list N) :=
  [(u "brg de garde debit", u "Bge Garde de Sebou");
   (u "barrage de garde debit", u "Bge Garde de Sebou");
   (u "pont elmalha debit", u "El Malha");
   (u "pont el malha debit", u "El Malha");
   (u "pont sebbou debit", u "Ain Sebou")].

Definition add_manual (name_to_code : gmap (list N) Z)
    (alias_to_code : gmap (list N) Z) (p : list N * list N) : gmap (list N) Z :=
  match name_to_code !! FlowText.normalize_text (Some p.2) with
  | Some target_code =>
      match FlowText.normalize_text (Some p.1) with
      | [] => alias_to_code
      | alias_norm =>
          match alias_to_code !! alias_norm with
          | Some _ => alias_to_code
          | None => <[alias_norm := target_code]> alias_to_code
          end
      end
  | None => alias_to_code
  end.

Definition extract_template_stations (ws_st : sheet)
    : result (list Z * list (Z * list N) * gmap (list N) Z) :=
  '(codes, code_to_name, alias_to_code) ←
    foldl (station_step ws_st) (Ok ([], [], ∅)) (seq 2 (max_row ws_st - 1));
  let name_to_code :=
    foldl (λ m kv, <[FlowText.normalize_text (Some kv.2) := kv.1]> m) ∅ code_to_name in
  let alias_to_code := foldl (add_manual name_to_code) alias_to_code
                             manual_alias_to_station in
  Ok (Py.sorted_set codes, code_to_name, alias_to_code).

End FlowStations.
End FlowStations.

Module VolumeStations.
Section VolumeStations.
Context `{UnicodeDB}.
Variable repr : cell → list N.
Variable int_of_str : list N → option Z.

Definition aliases_of (name_s : list N) : list (list N) :=
  [VolumeText.normalize_text (Some name_s);
   VolumeText.normalize_text (Some (name_s ++ u " volume"));
   VolumeText.normalize_text (Some (u "brg " ++ name_s ++ u " volume"));
   VolumeText.normalize_text (Some (name_s ++ u "_volume"))].

Definition station_step (ws_st : sheet)
    (acc : result (list Z * list (Z * list N) * gmap (list N) Z)) (r : nat)
    : result (list Z * list (Z * list N) * gmap (list N) Z) :=
  '(codes, code_to_name, alias_to_code) ← acc;
  let code := cell_value ws_st r 1 in
  let name := cell_value ws_st r 2 in
  if is_none code || is_none name then Ok (codes, code_to_name, alias_to_code)
  else
    match int_of_str (Str.strip (py_str repr code)) with
    | None => Raise (ValueError "invalid literal for int()")
    | Some code_i =>
        let name_s := Str.strip (py_str repr name) in
        Ok (codes ++ [code_i], dict_set code_i name_s code_to_name,
            add_aliases alias_to_code (aliases_of name_s) code_i)
    end.

Definition extract_template_stations (ws_st : sheet)
    : result (list Z * list (Z * list N) * gmap (list N) Z) :=
  '(codes, code_to_name, alias_to_code) ←
    foldl (station_step ws_st) (Ok ([], [], ∅)) (seq 2 (max_row ws_st - 1));
  Ok (Py.sorted_set codes, code_to_name, alias_to_code).

End VolumeStations.
End VolumeStations.

Module PrecipObsStations.
Section PrecipObsStations.
Context `{UnicodeDB}.
Variable repr : cell → list N.

(** The four name variants of a station row. *)
Definition variants (nom var_name : cell) : list (list N) :=
  [PrecipObsText.normalize_text (cell_arg repr var_name);
   PrecipObsText.normalize_text (cell_arg repr nom);
   PrecipObsText.normalize_text
     (if truthy nom then Some (py_str repr nom ++ u "_Pluie 1hr (mm)") else None);
   PrecipObsText.normalize_text
     (if truthy nom then Some (py_str repr nom ++ u " Pluie 1hr (mm)") else None)].

Definition station_step (ws_st : sheet)
    (acc : list Z * list (Z * list N) * gmap (list N) Z) (row : nat)
    : list Z * list (Z * list N) * gmap (list N) Z :=
  let '(codes, code_to_label, name_to_code) := acc in
  match cell_number (cell_value ws_st row 1) with
  | None => acc
  | Some code =>
      let code := Py.int code in
      let nom := cell_value ws_st row 2 in
      let var_name := cell_value ws_st row 4 in
      let label := if truthy var_name then py_str repr var_name
                   else if truthy nom then py_str repr nom
                   else repr (CNum (inject_Z code)) in
      (codes ++ [code], dict_set code label code_to_label,
       add_aliases name_to_code (variants nom var_name) code)
  end.

Definition extract_template_stations (ws_st : sheet)
    : list Z * list (Z * list N) * gmap (list N) Z :=
  let '(codes, code_to_label, name_to_code) :=
    foldl (station_step ws_st) ([], [], ∅) (seq 2 (max_row ws_st - 1)) in
  (Py.sorted_set codes, code_to_label, name_to_code).

End PrecipObsStations.
End PrecipObsStations.

(** The station rows of a sheet as the flow and volume scripts read
    them: the rows from the second one with a code and a name.  An entry
    is the code read as an integer ([None] where [int] raises) with the
    trimmed name. *)
Definition station_rows (repr : cell → list N) (ws_st : sheet)
    : list (cell * cell) :=
  omap (λ r, if is_none (cell_value ws_st r 1) || is_none (cell_value ws_st r 2)
             then None
             else Some (cell_value ws_st r 1, cell_value ws_st r 2))
       (seq 2 (max_row ws_st - 1)).

Definition station_entry `{UnicodeDB} (repr : cell → list N)
    (int_of_str : list N → option Z) (p : cell * cell) : option (Z * list N) :=
  (λ code, (code, Str.strip (py_str repr p.2)))
    <$> int_of_str (Str.strip (py_str repr p.1)).

(** The code that the first entry with the alias [a] carries. *)
Definition first_with_alias {A} (aliases_of : A → list (list N))
    (entries : list (Z * A)) (a : list N) : option Z :=
  (λ p, p.2.1) <$> list_find (λ e, a ∈ aliases_of e.2) entries.

(** [int] on a text of decimal digits, for the worked examples. *)
Definition decimal (s : list N) : option Z :=
  match s with
  | [] => None
  | _ =>
      foldl (λ acc c, n ← acc;
                      if ((48 <=? c) && (c <=? 57))%N
                      then Some (10 * n + Z.of_N (c - 48))
                      else None) (Some 0) s
  end.

(** A station sheet: two stations, a row without code, and a second row
    for code 12 under another spelling. *)
Definition example_station_sheet : sheet :=
  [[CStr (u "Code"); CStr (u "Nom")];
   [CStr (u "12"); CStr (u "Ain Sebou")];
   [CStr (u "7"); CStr (u "El Malha")];
   [CNone; CStr (u "Zrarda")];
   [CStr (u "12"); CStr (u "Ain_Sebou ")]].

(** The station rows as the observed-precipitation script reads them:
    the rows from the second one whose code is a number, with the cells of
    the columns 2 and 4. *)
Definition precip_station_entries (ws_st : sheet) : list (Z * (cell * cell)) :=
  omap (λ row, (λ code, (Py.int code, (cell_value ws_st row 2, cell_value ws_st row 4)))
                 <$> cell_number (cell_value ws_st row 1))
       (seq 2 (max_row ws_st - 1)).

(** A station sheet of the precipitation template: two stations of the
    same name, and a row whose code is not a number. *)
Definition example_precip_stations : sheet :=
  [[CStr (u "Code"); CStr (u "Nom"); CStr (u "Bassin"); CStr (u "Variable")];
   [CNum 101; CStr (u "Ain Sebou"); CNone; CStr (u "P_AinSebou")];
   [CStr (u "n/a"); CStr (u "Zrarda"); CNone; CNone];
   [CNum 102; CStr (u "Ain Sebou"); CNone; CNone]].


(** ** Vocabulary of the matrix cells *)

(** The last non-null value among the records of [df] at the time [ts]
    and the station [code], if any. *)
Definition group_last (df : list record) (ts code : Z) : option Q :=
  last (omap r_value (with_key (ts, code) df)).

(** A cell after the fill policy. *)
Definition fill_value (fill_missing : option Q) (v : option Q) : option Q :=
  match fill_missing with
  | Some f => Some (default f v)
  | None => v
  end.

(** The cell in row [k] and column [j] of a matrix, counted from 0. *)
Definition cell_by_position (m : matrix) (k j : nat) : option (option Q) :=
  m_data m !! k ≫= λ row, row !! j.

(** Three records for the worked example: station 101 at 10 with the
    values 1 and then 2, station 102 at 20 without value. *)
Definition example_records : list record :=
  [mkRecord 10 101 (Some 1%Q); mkRecord 10 101 (Some 2%Q); mkRecord 20 102 None].

(** ** Observed precipitation: the stages of [main]

    From the template checks to [wb.save]: the station sheet and the
    header are read, the input is parsed according to its suffix, mapped
    and cleaned, the matrix is built over the target codes and written
    into the data sheet. *)

Module PrecipObsPipeline.

(** The input file as [main] reads it. *)
Inductive input_table :=
| InputXlsx (wb : workbook)
| InputCsv (raw : wide_frame)
| InputOther.

(** The options [--input-sheet], [--data-start-row] and
    [--fill-missing] after [parse_fill_value]. *)
Record options := mkOptions {
  opt_input_sheet : list N;
  opt_data_start_row : Z;
  opt_fill_missing : option Q
}.

Section Pipeline.
Context `{UnicodeDB}.
Variable repr : cell → list N.
Variable to_datetime : cell → option Z.
Variable to_numeric : cell → option Q.
Variable strftime : Z → list N.

Definition parse_input (opts : options) (input : input_table)
    : result (option (PrecipObsInput.obs_frame * list warning)) :=
  match input with
  | InputXlsx wb =>
      '(raw_df, _, warnings) ←
        PrecipObsInput.parse_excel_datatable repr wb (opt_input_sheet opts) [];
      Ok (Some (raw_df, warnings))
  | InputCsv raw =>
      '(raw_df, _) ← PrecipObsInput.parse_csv_datatable raw;
      Ok (Some (raw_df, []))
  | InputOther => Ok None
  end.

Definition stages (opts : options) (a : args) (input : input_table)
    (wb_tpl : workbook) : result stage_outcome :=
  match get_sheet wb_tpl (arg_sheet_data a), get_sheet wb_tpl (arg_sheet_stations a) with
  | Some ws_data, Some ws_st =>
      let '(stations_sheet_codes, code_to_label, name_to_code) :=
        PrecipObsStations.extract_template_stations repr ws_st in
      let data_sheet_codes := PrecipObs.extract_template_data_codes ws_data in
      parsed ← parse_input opts input;
      match parsed with
      | None => Ok (Stopped "Unsupported input format")
      | Some (raw_df, warnings) =>
          '(mapped_df, _, warnings) ←
            PrecipObsInput.map_stations raw_df name_to_code warnings;
          let '(clean_df, _, warnings) :=
            PrecipObs.clean_values to_datetime to_numeric mapped_df warnings in
          match clean_df with
          | [] => Ok (Stopped "No valid data after mapping/cleaning.")
          | _ =>
              let target_codes :=
                PrecipObs.target_codes stations_sheet_codes data_sheet_codes in
              let missing_from_input :=
                Py.sorted_diff target_codes (r_station <$> clean_df) in
              let warnings := match missing_from_input with
                              | [] => warnings
                              | _ => warnings ++ [WStationsAbsent missing_from_input]
                              end in
              let '(matrix, output_stats) :=
                PrecipObs.build_matrix clean_df target_codes (opt_fill_missing opts) in
              let gaps := PrecipObsGaps.compute_time_gaps (r_time <$> clean_df) in
              let warnings := match gaps with
                              | [] => warnings
                              | _ => warnings ++ [WTimeGaps (length gaps)]
                              end in
              '(wb', _) ←
                PrecipObsWriter.write_output_template strftime wb_tpl
                  (arg_sheet_data a) matrix target_codes (opt_data_start_row opts);
              Ok (Produced wb' [output_stats] warnings)
          end
      end
  | None, _ => Raise (KeyError (arg_sheet_data a))
  | _, None => Raise (KeyError (arg_sheet_stations a))
  end.

(** The records that the cleaning starts from: the raw frame mapped to
    station codes, with its timestamps and values coerced. *)
Definition coerced (mapped_df : list mapped_row) : list record :=
  coerce_values to_numeric (coerce_times to_datetime mapped_df).

End Pipeline.
End PrecipObsPipeline.

(** The sheet [ws] holds the matrix [m] from the row [start], written
    over the sheet [ws0]: the row [start + k] reads the formatted time of
    the row [k] of the matrix and its numbers; outside the header row,
    where the matrix has a null and below the matrix the cells are those
    of [ws0]. *)
Definition sheet_holds (strftime : Z → list N) (ws0 ws : sheet) (start : nat)
    (m : matrix) : Prop :=
  (∀ k ts, m_index m !! k = Some ts →
           cell_value ws (start + k) 1 = CStr (strftime ts)
           ∧ (∀ j q, cell_by_position m k j = Some (Some q) →
                     cell_value ws (start + k) (2 + j) = CNum q)
           ∧ ((start + k)%nat ≠ 3%nat →
              ∀ j, cell_by_position m k j = Some None →
                   cell_value ws (start + k) (2 + j)
                   = cell_value ws0 (start + k) (2 + j)))
  ∧ (∀ r c, (start + length (m_index m) ≤ r)%nat → r ≠ 3%nat → (1 ≤ c)%nat →
            cell_value ws r c = cell_value ws0 r c).

(** The header row of the sheet reads [timestamp] and the codes. *)
Definition header_holds (ws : sheet) (codes : list Z) : Prop :=
  cell_value ws 3 1 = CStr (u "timestamp")
  ∧ ∀ j c, codes !! j = Some c → cell_value ws 3 (2 + j) = CNum (inject_Z c).

(** The value of the last record of a stream at a time and a station,
    a null when that record has none. *)
Definition last_record_value (l : list record) (ts code : Z) : option Q :=
  last_occurrence (ts, code) l ≫= r_value.

(** A run of the worked examples: the DataTable with its code row, a
    template whose station sheet lists the codes 101 and 102 and whose
    data sheet still holds the row of an earlier run. *)
Definition example_precip_template : workbook :=
  [(Donnees,
    [[]; []; [CStr (u "timestamp"); CNum 101];
     [CStr (example_strftime 0); CNum 5]; [CStr (example_strftime 1); CNum 6];
     [CStr (example_strftime 2); CNum 7]]);
   (u "Stations", example_precip_stations)].

Definition example_precip_disk : gmap string file :=
  <["in.csv"%string := FInput]>
    (<["tpl.xlsx"%string := FWorkbook example_precip_template]> ∅).

Definition example_options : PrecipObsPipeline.options :=
  PrecipObsPipeline.mkOptions (u "DataTable") 4 None.

Definition example_precip_run : Z * gmap string file :=
  PrecipObsMain.main
    (PrecipObsPipeline.stages text_only timestamp_cell numeric_cell example_strftime
       example_options lenient_args (PrecipObsPipeline.InputXlsx example_datatable))
    lenient_args "r" example_precip_disk.


(** ** The worker of the front end: [HydroSentinelUI._run_worker] *)

Module Worker.

(** [fnmatch] for a pattern whose only special character is [*], as the
    patterns of [_output_pattern_for_workflow] are; letters are compared
    as they are, as on a POSIX file system. *)
Fixpoint glob_match (pattern : string) : string → bool :=
  match pattern with
  | EmptyString => λ name, bool_decide (name = EmptyString)
  | String c pattern' =>
      if bool_decide (c = "*"%char)
      then fix star (name : string) : bool :=
             glob_match pattern' name
             || match name with
                | EmptyString => false
                | String _ name' => star name'
                end
      else λ name,
             match name with
             | EmptyString => false
             | String d name' => bool_decide (c = d) && glob_match pattern' name'
             end
  end.

Fixpoint strip_prefix (pre s : string) : option string :=
  match pre with
  | EmptyString => Some s
  | String c pre' =>
      match s with
      | EmptyString => None
      | String d s' => if bool_decide (c = d) then strip_prefix pre' s' else None
      end
  end.

Fixpoint has_slash (s : string) : bool :=
  match s with
  | EmptyString => false
  | String c s' => bool_decide (c = "/"%char) || has_slash s'
  end.

(** The name of [path] when it is an entry of the directory [outdir]. *)
Definition entry_name (outdir path : string) : option string :=
  match strip_prefix (outdir ++ "/") path with
  | Some name => if has_slash name then None else Some name
  | None => None
  end.

Definition matches (outdir pattern path : string) : bool :=
  match entry_name outdir path with
  | Some name => glob_match pattern name
  | None => false
  end.

(** [outdir.glob(pattern)]: the entries of [outdir] whose name matches. *)
Definition glob (outdir pattern : string) (fs : gmap string file) : list string :=
  filter (λ path, matches outdir pattern path = true) (map_to_list fs).*1.

Definition _output_pattern_for_workflow (workflow_key : string) : string :=
  if bool_decide (workflow_key = "flow_observed"%string)
  then "template_multi_station_flow_m3s_observed_*.xlsx"
  else if bool_decide (workflow_key = "volume_observed"%string)
  then "template_multi_station_volume_hm3_observed_*.xlsx"
  else if bool_decide (workflow_key = "precip_observed"%string)
  then "template_multi_station_precip_mm_observed_*.xlsx"
  else if bool_decide (workflow_key = "precip_model"%string)
  then "template_multi_station_precip_mm_*.xlsx"
  else "".

(** [max(new_outputs, key=lambda p: p.stat().st_mtime)]: the first path
    with the greatest modification time. *)
Definition latest (mtime : string → Z) (new_outputs : list string) : option string :=
  foldl (λ best p, match best with
                   | None => Some p
                   | Some b => if mtime b <? mtime p then Some p else Some b
                   end) None new_outputs.

Record state := mkState {
  ok : nat;
  ko : nat;
  generated_xlsx : list string;
  disk : gmap string file
}.

Section Worker.
(** The modification time of a path on a disk. *)
Variable st_mtime : gmap string file → string → Z.

(** One turn of the loop over the commands.  [job] is the command: the
    process it starts takes the disk to a new disk and returns its exit
    status, 1 standing for a process that could not be started. *)
Definition run_job (outdir pattern : string) (st : state)
    (job : gmap string file → Z * gmap string file) : state :=
  let existing_outputs :=
    if bool_decide (pattern ≠ ""%string) then glob outdir pattern (disk st) else [] in
  let '(rc, fs) := job (disk st) in
  if bool_decide (rc = 0)
  then
    if bool_decide (pattern ≠ ""%string)
    then
      let after_outputs := glob outdir pattern fs in
      let new_outputs := filter (λ p, p ∉ existing_outputs) after_outputs in
      match new_outputs with
      | [] => mkState (S (ok st)) (ko st) (generated_xlsx st) fs
      | _ =>
          mkState (S (ok st)) (ko st)
            (generated_xlsx st ++ option_list (latest (st_mtime fs) new_outputs)) fs
      end
    else mkState (S (ok st)) (ko st) (generated_xlsx st) fs
  else mkState (ok st) (S (ko st)) (generated_xlsx st) fs.

Definition run_jobs (outdir workflow_key : string) (fs : gmap string file)
    (commands : list (gmap string file → Z * gmap string file)) : state :=
  foldl (run_job outdir (_output_pattern_for_workflow workflow_key))
        (mkState 0 0 [] fs) commands.

End Worker.
End Worker.

(** One script as the worker starts it: its [main] and the name of the
    workbook it saves.  A command of the script adds one success and the
    saved workbook to the list of generated files when it returns 0 and
    no file of that name existed; when such a file existed the workbook is
    overwritten and the success counted, but nothing is added to the
    list; a command that returns another status counts as a failure. *)
Definition detects_outputs (st_mtime : gmap string file → string → Z)
    (workflow_key : string)
    (main : args → string → gmap string file → Z * gmap string file)
    (xlsx_name : args → string → string) : Prop :=
  ∀ (a : args) (run_id : string) (st : Worker.state),
    Worker.has_slash (xlsx_name a run_id) = false →
    let xlsx := path_join (arg_outdir a) (xlsx_name a run_id) in
    let st' := Worker.run_job st_mtime (arg_outdir a)
                 (Worker._output_pattern_for_workflow workflow_key) st
                 (main a run_id) in
    Worker.disk st' = (main a run_id (Worker.disk st)).2
    ∧ ((main a run_id (Worker.disk st)).1 = 0 →
       Worker.ok st' = S (Worker.ok st) ∧ Worker.ko st' = Worker.ko st
       ∧ (∃ wb, Worker.disk st' !! xlsx = Some (FWorkbook wb))
       ∧ (Worker.disk st !! xlsx = None →
          Worker.generated_xlsx st' = Worker.generated_xlsx st ++ [xlsx])
       ∧ (Worker.disk st !! xlsx ≠ None →
          Worker.generated_xlsx st' = Worker.generated_xlsx st))
    ∧ ((main a run_id (Worker.disk st)).1 ≠ 0 →
       Worker.ok st' = Worker.ok st ∧ Worker.ko st' = S (Worker.ko st)
       ∧ Worker.generated_xlsx st' = Worker.generated_xlsx st).

(** A text without [*]. *)
Fixpoint no_star (s : string) : bool :=
  match s with
  | EmptyString => true
  | String c s' => negb (bool_decide (c = "*"%char)) && no_star s'
  end.

(** The names of the workbooks that the four scripts save. *)
Definition flow_xlsx_name (a : args) (run_id : string) : string :=
  ("template_multi_station_flow_m3s_observed_" ++ run_id ++ ".xlsx")%string.
Definition volume_xlsx_name (a : args) (run_id : string) : string :=
  ("template_multi_station_volume_hm3_observed_" ++ run_id ++ ".xlsx")%string.
Definition precip_obs_xlsx_name (a : args) (run_id : string) : string :=
  ("template_multi_station_precip_mm_observed_" ++ run_id ++ ".xlsx")%string.
Definition precip_model_xlsx_name (a : args) (run_id : string) : string :=
  ("template_multi_station_precip_mm_" ++ arg_model a ++ "_" ++ run_id ++ ".xlsx")%string.

(** A batch of one script: each job has its stages, its arguments and
    its run identifier; all jobs write into [outdir], save workbooks of
    pairwise distinct names without [/], and no file of one of these
    names exists on the disk [fs] before the batch.  Then every command
    counts as a success or as a failure, the generated files are, in the
    order of the jobs, workbooks that jobs of the batch saved, one per
    success, each still on disk when the batch ends, and no path other
    than the logs, the workbooks and the reports of the jobs has
    changed. *)
Definition batch_detection (st_mtime : gmap string file → string → Z)
    (workflow_key : string)
    (main : (workbook → result stage_outcome) → args → string
            → gmap string file → Z * gmap string file)
    (xlsx_name : args → string → string)
    (written : args → string → list string) : Prop :=
  ∀ (jobs : list ((workbook → result stage_outcome) * args * string))
    (outdir : string) (fs : gmap string file),
    Forall (λ j, arg_outdir j.1.2 = outdir
                 ∧ Worker.has_slash (xlsx_name j.1.2 j.2) = false
                 ∧ fs !! path_join outdir (xlsx_name j.1.2 j.2) = None) jobs →
    NoDup ((λ j, xlsx_name j.1.2 j.2) <$> jobs) →
    let st := Worker.run_jobs st_mtime outdir workflow_key fs
                ((λ j, main j.1.1 j.1.2 j.2) <$> jobs) in
    (Worker.ok st + Worker.ko st)%nat = length jobs
    ∧ length (Worker.generated_xlsx st) = Worker.ok st
    ∧ Worker.generated_xlsx st
      `sublist_of` (λ j, path_join outdir (xlsx_name j.1.2 j.2)) <$> jobs
    ∧ (∀ p, p ∈ Worker.generated_xlsx st →
            ∃ wb, Worker.disk st !! p = Some (FWorkbook wb))
    ∧ (∀ p, p ∉ jobs ≫= (λ j, written j.1.2 j.2) →
            Worker.disk st !! p = fs !! p).

(** Two flow jobs of the worked examples, and a clock that does not
    tell the files apart. *)
Definition example_jobs : list ((workbook → result stage_outcome) * args * string) :=
  [(example_stages, lenient_args, "r1"%string);
   (example_stages, lenient_args, "r2"%string)].

Definition still_clock (fs : gmap string file) (path : string) : Z := 0.

(** * Properties *)

(** ** Sorting and sets *)

Section SortedSet.

Lemma sorted_Permutation (l : list Z) : Py.sorted l ≡ₚ l.
Proof. apply merge_sort_Permutation. Qed.

Lemma elem_of_sorted (l : list Z) (x : Z) : x ∈ Py.sorted l ↔ x ∈ l.
Proof. by rewrite sorted_Permutation. Qed.

Lemma sorted_StronglySorted (l : list Z) : StronglySorted Z.le (Py.sorted l).
Proof.
  apply StronglySorted_merge_sort; apply _.
Qed.

Lemma elem_of_sorted_set (l : list Z) (x : Z) : x ∈ Py.sorted_set l ↔ x ∈ l.
Proof. unfold Py.sorted_set. by rewrite elem_of_sorted, elem_of_remove_dups. Qed.

Lemma NoDup_sorted_set (l : list Z) : NoDup (Py.sorted_set l).
Proof.
  unfold Py.sorted_set. rewrite sorted_Permutation. apply NoDup_remove_dups.
Qed.

Lemma StronglySorted_le_lt (l : list Z) :
  StronglySorted Z.le l → NoDup l → StronglySorted Z.lt l.
Proof.
  induction 1 as [|x l Hs IH Hall]; intros Hnd; [constructor|].
  apply NoDup_cons in Hnd as [Hx Hnd].
  constructor; [by apply IH|].
  rewrite Forall_forall in Hall |- *. intros y Hy.
  specialize (Hall y Hy).
  assert (x ≠ y) by (intros ->; done). lia.
Qed.

Lemma sorted_set_ascending (l : list Z) : StronglySorted Z.lt (Py.sorted_set l).
Proof.
  apply StronglySorted_le_lt; [apply sorted_StronglySorted|apply NoDup_sorted_set].
Qed.

(** The sorted set depends on the elements only. *)
Lemma sorted_set_ext (l l' : list Z) :
  (∀ x, x ∈ l ↔ x ∈ l') → Py.sorted_set l = Py.sorted_set l'.
Proof.
  intros Hext.
  apply (StronglySorted_unique Z.le); try apply sorted_StronglySorted.
  apply NoDup_Permutation; try apply NoDup_sorted_set.
  intros x. by rewrite !elem_of_sorted_set.
Qed.

Lemma elem_of_sorted_union (a b : list Z) (x : Z) :
  x ∈ Py.sorted_union a b ↔ x ∈ a ∨ x ∈ b.
Proof. unfold Py.sorted_union. by rewrite elem_of_sorted_set, elem_of_app. Qed.

End SortedSet.

(** ** Station columns of the built matrix *)

Lemma sorted_union_ascending (a b : list Z) :
  ascending_union (Py.sorted_union a b) a b.
Proof.
  repeat split.
  - apply sorted_set_ascending.
  - by intros ?%elem_of_sorted_union.
  - by intros ?%elem_of_sorted_union.
Qed.

Lemma flow_build_matrix_columns df codes fill :
  m_columns (Flow.build_matrix df codes fill).1 = codes.
Proof. by destruct fill. Qed.

Lemma volume_build_matrix_columns df codes fill :
  m_columns (Volume.build_matrix df codes fill).1 = codes.
Proof. by destruct fill. Qed.

Lemma precip_obs_build_matrix_columns df codes fill :
  m_columns (PrecipObs.build_matrix df codes fill).1 = codes.
Proof. by destruct fill. Qed.

Lemma dataframe_to_matrix_columns df codes fill :
  m_columns (PrecipModel.dataframe_to_matrix df codes fill).1 = codes.
Proof. by destruct fill. Qed.

Lemma input_codes_Permutation (df df' : list record) :
  df ≡ₚ df' → PrecipModel.input_codes df = PrecipModel.input_codes df'.
Proof.
  intros Hp. apply sorted_set_ext. intros x.
  by rewrite Hp.
Qed.

Lemma seq_ascending (a n : nat) : StronglySorted lt (seq a n).
Proof.
  revert a. induction n as [|n IH]; intros a; [constructor|].
  cbn. constructor; [apply IH|].
  apply Forall_forall. intros k Hk%elem_of_seq. lia.
Qed.

Section HeaderOrder.

#[local] Instance le_column_trans : Transitive PrecipModel.le_column.
Proof. intros a b c. unfold PrecipModel.le_column. lia. Qed.

#[local] Instance le_column_total : Total PrecipModel.le_column.
Proof. intros a b. unfold PrecipModel.le_column. lia. Qed.

(** Two lists of pairs with the same entries and the same second
    components in the same order, these being distinct, are equal. *)
Lemma pairs_by_column (l1 l2 : list (Z * nat)) :
  l1 ≡ₚ l2 → l1.*2 = l2.*2 → NoDup (l1.*2) → l1 = l2.
Proof.
  revert l2. induction l1 as [|p1 l1 IH]; intros l2 Hperm Hcols Hnd.
  - by apply Permutation_nil_l in Hperm.
  - destruct l2 as [|p2 l2]; [done|].
    rewrite !fmap_cons in Hcols. injection Hcols as Hcol Hcols.
    rewrite fmap_cons in Hnd. apply NoDup_cons in Hnd as [Hnotin Hnd].
    assert (Hp : p1 = p2).
    { assert (Hin : p1 ∈ p2 :: l2) by (rewrite <- Hperm; by left).
      apply elem_of_cons in Hin as [?|Hin]; [done|].
      exfalso. apply Hnotin. rewrite Hcols. apply list_elem_of_fmap.
      by exists p1. }
    subst p2. f_equal. apply IH; [|done|done].
    by apply Permutation_cons_inv in Hperm.
Qed.

(** [f c] is the code that the header holds in column [c]. *)
Variable f : nat → option Z.

Lemma code_columns_foldl (cols : list nat) (init : gmap Z nat) (code : Z) :
  foldl (λ code_to_col c,
           match f c with
           | Some v => <[v := c]> code_to_col
           | None => code_to_col
           end) init cols !! code
  = match last (filter (λ c, f c = Some code) cols) with
    | Some c => Some c
    | None => init !! code
    end.
Proof.
  induction cols as [|c cols IH] using rev_ind; [done|].
  rewrite foldl_app, filter_app, last_app. cbn [foldl].
  rewrite filter_cons, filter_nil.
  destruct (f c) as [v|].
  - destruct (decide (Some v = Some code)) as [[= <-]|Hne].
    + cbn [last]. by rewrite lookup_insert_eq.
    + cbn [last]. rewrite lookup_insert_ne by congruence. apply IH.
  - rewrite decide_False by done. cbn [last]. apply IH.
Qed.

Lemma last_column_elem_of (cols : list nat) (code : Z) :
  code ∈ omap f cols ↔
  ∃ c, last (filter (λ c, f c = Some code) cols) = Some c.
Proof.
  split.
  - intros (c & Hc & Hcode)%list_elem_of_omap.
    destruct (last (filter _ cols)) as [c'|] eqn:Hlast; [by exists c'|].
    apply last_None in Hlast.
    assert (Hin : c ∈ filter (λ c, f c = Some code) cols)
      by by apply list_elem_of_filter.
    rewrite Hlast in Hin. by apply elem_of_nil in Hin.
  - intros (c & Hlast). apply last_Some_elem_of, list_elem_of_filter in Hlast.
    apply list_elem_of_omap. exists c. tauto.
Qed.

Lemma last_column_cons (c : nat) (cols : list nat) (code : Z) :
  code ∈ omap f cols →
  last (filter (λ c, f c = Some code) (c :: cols))
  = last (filter (λ c, f c = Some code) cols).
Proof.
  intros (c' & Hlast)%last_column_elem_of.
  rewrite filter_cons. case_decide; [|done].
  destruct (filter _ cols) as [|x l] eqn:Hf; [done|]. done.
Qed.

(** The columns of the last occurrences ascend along [remove_dups], which
    keeps the last occurrence of every code. *)
Lemma last_columns_ascending (cols : list nat) :
  StronglySorted lt cols →
  StronglySorted lt
    ((λ code, default 0%nat (last (filter (λ c, f c = Some code) cols)))
       <$> remove_dups (omap f cols))
  ∧ Forall (λ c, c ∈ cols)
      ((λ code, default 0%nat (last (filter (λ c, f c = Some code) cols)))
         <$> remove_dups (omap f cols)).
Proof.
  induction 1 as [|c cols Hsorted [IH1 IH2] Hall]; [by split; constructor|].
  assert (Hext : (λ code, default 0%nat
                            (last (filter (λ c, f c = Some code) (c :: cols))))
                   <$> remove_dups (omap f cols)
                 = (λ code, default 0%nat (last (filter (λ c, f c = Some code) cols)))
                     <$> remove_dups (omap f cols)).
  { apply list_fmap_ext. intros i code Hcode. cbv beta.
    rewrite last_column_cons; [done|].
    apply elem_of_remove_dups. by eapply list_elem_of_lookup_2. }
  assert (Htail : Forall (λ c', c' ∈ c :: cols)
                    ((λ code, default 0%nat
                                (last (filter (λ c, f c = Some code) cols)))
                       <$> remove_dups (omap f cols))).
  { eapply Forall_impl; [exact IH2|]. intros c' Hc'. by right. }
  cbn [omap list_omap].
  destruct (f c) as [code|] eqn:Hcode.
  2:{ rewrite Hext. by split. }
  cbn [remove_dups]. destruct (decide_rel elem_of code (omap f cols)) as [Hin|Hin].
  { rewrite Hext. by split. }
  rewrite fmap_cons, Hext.
  assert (Hhead : last (filter (λ c, f c = Some code) (c :: cols)) = Some c).
  { rewrite filter_cons, decide_True by done.
    destruct (filter _ cols) as [|x l] eqn:Hf; [done|]. exfalso. apply Hin.
    apply last_column_elem_of. rewrite Hf. destruct (last (x :: l)) eqn:E; [by eexists|].
    by apply last_None in E. }
  rewrite Hhead. cbn [default from_option id]. split.
  - constructor; [done|].
    rewrite Forall_forall in IH2 |- *. intros c' Hc'.
    rewrite Forall_forall in Hall. apply Hall, IH2, Hc'.
  - constructor; [by left|done].
Qed.

(** The codes of a dictionary filled along ascending columns, sorted by
    their column: the header codes, a repeated code standing once, at
    its last occurrence. *)
Lemma order_by_column_spec (cols : list nat) :
  StronglySorted lt cols →
  PrecipModel.order_by_column
    (foldl (λ code_to_col c,
              match f c with
              | Some v => <[v := c]> code_to_col
              | None => code_to_col
              end) ∅ cols)
  = remove_dups (omap f cols).
Proof.
  intros Hsorted. unfold PrecipModel.order_by_column.
  set (m := foldl _ ∅ cols).
  set (col := λ code, default 0%nat (last (filter (λ c, f c = Some code) cols))).
  set (T := (λ code, (code, col code)) <$> remove_dups (omap f cols)).
  assert (HT1 : T.*1 = remove_dups (omap f cols)).
  { unfold T. rewrite <- list_fmap_compose. apply list_fmap_id. }
  assert (HT2 : T.*2 = col <$> remove_dups (omap f cols)).
  { unfold T. by rewrite <- list_fmap_compose. }
  destruct (last_columns_ascending cols Hsorted) as [Hasc _]. fold col in Hasc.
  assert (Hlook : ∀ code c, m !! code = Some c ↔ (code, c) ∈ T).
  { intros code c. unfold m. rewrite code_columns_foldl, lookup_empty.
    unfold T. rewrite list_elem_of_fmap. split.
    - intros Hc. exists code. unfold col.
      destruct (last _) as [c'|] eqn:Hlast; [|done]. injection Hc as ->.
      split; [done|]. apply elem_of_remove_dups, last_column_elem_of. by eexists.
    - intros (code' & [= <- ->] & Hin).
      apply elem_of_remove_dups, last_column_elem_of in Hin as [c Hc].
      unfold col. by rewrite Hc. }
  assert (Hperm : merge_sort PrecipModel.le_column (map_to_list m) ≡ₚ T).
  { rewrite merge_sort_Permutation. apply NoDup_Permutation.
    - apply NoDup_map_to_list.
    - apply (NoDup_fmap_1 fst). rewrite HT1. apply NoDup_remove_dups.
    - intros [code c]. rewrite elem_of_map_to_list. apply Hlook. }
  rewrite <- HT1. f_equal. apply pairs_by_column; [done| |].
  - apply (StronglySorted_unique le).
    + apply (StronglySorted_fmap _ PrecipModel.le_column).
      * intros a b. done.
      * apply StronglySorted_merge_sort; apply _.
    + rewrite HT2. clear -Hasc.
      induction Hasc as [|x l _ IH Hall]; constructor; [done|].
      eapply Forall_impl; [exact Hall|]. intros y Hy. cbn in Hy. lia.
    + by rewrite Hperm.
  - rewrite Hperm, HT2. clear -Hasc.
    induction Hasc as [|x l _ IH Hall]; constructor; [|done].
    intros Hx. rewrite Forall_forall in Hall. specialize (Hall x Hx). lia.
Qed.

End HeaderOrder.

(** The order in which the precipitation-model script finds the codes in
    the template: the codes of the header row in column order, a code
    that the row repeats standing once, at its last occurrence
    ([remove_dups] keeps the last occurrence). *)
Lemma existing_order_spec (ws_data : sheet) :
  PrecipModel.existing_order ws_data = remove_dups (header_row_codes ws_data).
Proof.
  unfold PrecipModel.existing_order, PrecipModel._extract_numeric_codes_from_row,
    header_row_codes, data_columns.
  replace (max_column ws_data + 1 - 2)%nat with (max_column ws_data - 1)%nat by lia.
  rewrite <- (order_by_column_spec
                (λ c, Py.int <$> cell_number (cell_value ws_data 3 c)))
    by apply seq_ascending.
  f_equal. generalize (∅ : gmap Z nat).
  induction (seq 2 (max_column ws_data - 1)) as [|c cols IH]; intros init; [done|].
  cbn [foldl]. rewrite IH. by destruct (cell_number (cell_value ws_data 3 c)).
Qed.

Lemma remove_dups_NoDup (l : list Z) : NoDup l → remove_dups l = l.
Proof.
  induction 1 as [|x l Hx _ IH]; [done|].
  cbn [remove_dups]. destruct (decide_rel elem_of x l); [done|]. by rewrite IH.
Qed.

(** C1, as the code has it.  In the observed-flow, observed-volume and
    observed-precipitation workflows the station columns of the built
    matrix are the ascending, duplicate-free union of the station-sheet
    codes and of the codes of the template header row, whatever the input
    frame and the fill policy.  In the precipitation-model workflow the
    columns are the codes of the template header row in their column
    order, a code that the row repeats standing once, at its last
    occurrence (so, for a header without repeated codes, the header codes
    as they stand), followed by the ascending codes of the station sheet
    and of the input that the header lacks; they do not depend on the row
    order of the input. *)
Theorem C1_matrix_columns :
  (∀ station_codes_sheet ws_data df fill,
     ascending_union
       (m_columns (Flow.main_matrix station_codes_sheet ws_data df fill).1)
       station_codes_sheet (Flow.extract_template_data_codes ws_data))
  ∧ (∀ station_codes_sheet ws_data df fill,
       ascending_union
         (m_columns (Volume.main_matrix station_codes_sheet ws_data df fill).1)
         station_codes_sheet (Volume.extract_data_codes ws_data))
  ∧ (∀ stations_sheet_codes ws_data df fill,
       ascending_union
         (m_columns (PrecipObs.main_matrix stations_sheet_codes ws_data df fill).1)
         stations_sheet_codes (PrecipObs.extract_template_data_codes ws_data))
  ∧ (∀ ws_data ws_st df fill,
       m_columns (PrecipModel.main_matrix ws_data ws_st df fill).1
       = remove_dups (header_row_codes ws_data)
         ++ Py.sorted_set
              (filter (λ c, c ∉ header_row_codes ws_data)
                      (PrecipModel.station_sheet_codes ws_st
                       ++ PrecipModel.input_codes df))
       ∧ (NoDup (header_row_codes ws_data) →
          m_columns (PrecipModel.main_matrix ws_data ws_st df fill).1
          = header_row_codes ws_data
            ++ Py.sorted_set
                 (filter (λ c, c ∉ header_row_codes ws_data)
                         (PrecipModel.station_sheet_codes ws_st
                          ++ PrecipModel.input_codes df))))
  ∧ (∀ ws_data ws_st df df' fill fill',
       df ≡ₚ df' →
       m_columns (PrecipModel.main_matrix ws_data ws_st df fill).1
       = m_columns (PrecipModel.main_matrix ws_data ws_st df' fill').1)
  ∧ m_columns (PrecipModel.main_matrix
                 [[]; []; [CStr (u "timestamp"); CNum 5; CNum 3; CNum 5]] []
                 [mkRecord 0 9 (Some 1%Q)] None).1 = [3; 5; 9].
Proof.
  assert (Hmodel : ∀ ws_data ws_st df fill,
            m_columns (PrecipModel.main_matrix ws_data ws_st df fill).1
            = remove_dups (header_row_codes ws_data)
              ++ Py.sorted_set
                   (filter (λ c, c ∉ header_row_codes ws_data)
                           (PrecipModel.station_sheet_codes ws_st
                            ++ PrecipModel.input_codes df))).
  { intros. unfold PrecipModel.main_matrix. rewrite dataframe_to_matrix_columns.
    unfold PrecipModel.main_station_order, PrecipModel.build_station_order.
    cbn [fst]. rewrite existing_order_spec. do 2 f_equal.
    apply list_filter_iff. intros c. by rewrite elem_of_remove_dups. }
  repeat split_and; intros.
  - unfold Flow.main_matrix. rewrite flow_build_matrix_columns.
    apply sorted_union_ascending.
  - unfold Volume.main_matrix. rewrite volume_build_matrix_columns.
    apply sorted_union_ascending.
  - unfold PrecipObs.main_matrix. rewrite precip_obs_build_matrix_columns.
    apply sorted_union_ascending.
  - split; [apply Hmodel|].
    intros Hnd. rewrite Hmodel. f_equal. by apply remove_dups_NoDup.
  - unfold PrecipModel.main_matrix. rewrite !dataframe_to_matrix_columns.
    unfold PrecipModel.main_station_order.
    by rewrite (input_codes_Permutation df df').
  - vm_compute. reflexivity.
Qed.

(** The same columns for two inputs that list the stations in opposite
    orders. *)
Lemma C1_matrix_columns_witness :
  m_columns (PrecipModel.main_matrix [] []
               [mkRecord 0 7 (Some 1%Q); mkRecord 0 4 (Some 2%Q)] (Some 0%Q)).1
  = m_columns (PrecipModel.main_matrix [] []
                 [mkRecord 0 4 (Some 2%Q); mkRecord 0 7 (Some 1%Q)] None).1.
Proof.
  apply (proj1 (proj2 (proj2 (proj2 (proj2 C1_matrix_columns))))).
  apply Permutation_swap.
Defined.

(** A template whose header row reads 5, 3 and an input that brings
    station 9: the precipitation-model matrix has the columns 5, 3, 9,
    which is not the ascending union 3, 5 of the template codes. *)
Lemma C1_precip_model_counterexample :
  let ws_data := [[]; []; [CStr (u "timestamp"); CNum 5; CNum 3]] in
  let ws_st := [[CStr (u "code"); CStr (u "name")]; [CNum 3; CStr (u "A")]] in
  let df := [mkRecord 0 9 (Some 1%Q)] in
  m_columns (PrecipModel.main_matrix ws_data ws_st df (Some 0%Q)).1 = [5; 3; 9]
  ∧ Py.sorted_union (PrecipModel.station_sheet_codes ws_st)
                    (Flow.extract_template_data_codes ws_data) = [3; 5]
  ∧ ¬ ascending_union
        (m_columns (PrecipModel.main_matrix ws_data ws_st df (Some 0%Q)).1)
        (PrecipModel.station_sheet_codes ws_st)
        (Flow.extract_template_data_codes ws_data).
Proof.
  assert (H1 : m_columns (PrecipModel.main_matrix
                 [[]; []; [CStr (u "timestamp"); CNum 5; CNum 3]]
                 [[CStr (u "code"); CStr (u "name")]; [CNum 3; CStr (u "A")]]
                 [mkRecord 0 9 (Some 1%Q)] (Some 0%Q)).1 = [5; 3; 9])
    by (vm_compute; reflexivity).
  assert (H2 : Py.sorted_union
                 (PrecipModel.station_sheet_codes
                    [[CStr (u "code"); CStr (u "name")]; [CNum 3; CStr (u "A")]])
                 (Flow.extract_template_data_codes
                    [[]; []; [CStr (u "timestamp"); CNum 5; CNum 3]]) = [3; 5])
    by (vm_compute; reflexivity).
  cbv zeta. split_and!; [exact H1|exact H2|].
  intros [Heq _]. rewrite H1, H2 in Heq. discriminate.
Qed.

(** ** Summary statistics of the built matrix *)

Lemma values_dropna (s : list (option Q)) :
  Series.values (Series.dropna s) = Series.values s.
Proof.
  unfold Series.values, Series.dropna.
  induction s as [|o s IH]; [done|].
  rewrite filter_cons. destruct o as [q|]; case_decide as Hd; simpl.
  - by f_equal.
  - destruct Hd; eauto.
  - by destruct Hd.
  - done.
Qed.

Lemma summary_dropna (s : list (option Q)) :
  summary (Series.dropna s) = summary s.
Proof.
  unfold summary, Series.min, Series.max, Series.mean, Series.quantile.
  by rewrite values_dropna.
Qed.

Lemma length_dropna (s : list (option Q)) :
  length (Series.dropna s) = length (Series.values s).
Proof.
  unfold Series.values, Series.dropna.
  induction s as [|o s IH]; [done|].
  rewrite filter_cons. destruct o as [q|]; case_decide as Hd; simpl.
  - by f_equal.
  - destruct Hd; eauto.
  - by destruct Hd.
  - done.
Qed.

Lemma summary_no_values (s : list (option Q)) :
  Series.values s = [] → summary s = [None; None; None; None; None].
Proof.
  intros Hv. unfold summary, Series.min, Series.max, Series.mean, Series.quantile.
  by rewrite Hv.
Qed.

(** The guard [x if len(valid) else None] changes nothing: a reduction of
    a Series without valid value is null already. *)
Lemma guarded_summary (n : nat) (s : list (option Q)) :
  (n = 0%nat → Series.values s = []) →
  let guard (x : option Q) := if bool_decide (n ≠ 0%nat) then x else None in
  [guard (Series.min s); guard (Series.max s); guard (Series.mean s);
   guard (Series.quantile (95 # 100) s); guard (Series.quantile (99 # 100) s)]
  = summary s.
Proof.
  intros Hn guard. subst guard. cbv beta. case_bool_decide as Hd; [done|].
  assert (n = 0%nat) as Hz by lia.
  by rewrite (summary_no_values s (Hn Hz)).
Qed.

Lemma values_nil_of_length (s : list (option Q)) :
  length s = 0%nat → Series.values s = [].
Proof. by destruct s. Qed.

Lemma values_nil_of_dropna (s : list (option Q)) :
  length (Series.dropna s) = 0%nat → Series.values s = [].
Proof. rewrite length_dropna. by destruct (Series.values s). Qed.

Lemma flow_recorded df codes fill :
  recorded (Flow.build_matrix df codes fill).2
  = summary (Pandas.ravel (Flow.build_matrix df codes fill).1).
Proof.
  unfold Flow.build_matrix, recorded. cbn -[summary Series.min Series.max Series.mean Series.quantile].
  set (flat := Pandas.ravel _).
  rewrite <- (summary_dropna flat).
  apply (guarded_summary (length (Series.dropna flat)) (Series.dropna flat)).
  rewrite values_dropna. apply values_nil_of_dropna.
Qed.

Lemma volume_recorded df codes fill :
  recorded (Volume.build_matrix df codes fill).2
  = summary (Pandas.ravel (Volume.build_matrix df codes fill).1).
Proof.
  unfold Volume.build_matrix, recorded. cbn -[summary Series.min Series.max Series.mean Series.quantile].
  set (flat := Pandas.ravel _).
  rewrite <- (summary_dropna flat).
  apply (guarded_summary (length (Series.dropna flat)) (Series.dropna flat)).
  rewrite values_dropna. apply values_nil_of_dropna.
Qed.

Lemma precip_obs_recorded df codes fill :
  recorded (PrecipObs.build_matrix df codes fill).2
  = summary (Pandas.ravel (PrecipObs.build_matrix df codes fill).1).
Proof.
  unfold PrecipObs.build_matrix, recorded. cbn -[summary Series.min Series.max Series.mean Series.quantile].
  set (flat := Pandas.ravel _).
  apply (guarded_summary (length (Series.dropna flat)) flat).
  apply values_nil_of_dropna.
Qed.

Lemma precip_model_recorded df codes fill :
  recorded (PrecipModel.dataframe_to_matrix df codes fill).2
  = summary (Pandas.ravel (PrecipModel.dataframe_to_matrix df codes fill).1).
Proof.
  unfold PrecipModel.dataframe_to_matrix, recorded. cbn -[summary Series.min Series.max Series.mean Series.quantile].
  set (flat := Pandas.ravel _).
  apply (guarded_summary (length flat) flat).
  apply values_nil_of_length.
Qed.

Lemma ravel_fillna f m :
  Pandas.ravel (Pandas.fillna f m) = (λ o, Some (default f o)) <$> Pandas.ravel m.
Proof.
  unfold Pandas.ravel, Pandas.fillna. simpl.
  induction (m_data m) as [|row rows IH]; simpl; [done|].
  by rewrite fmap_app, IH.
Qed.

Lemma values_fillna f m :
  Series.values (Pandas.ravel (Pandas.fillna f m)) = default f <$> Pandas.ravel m.
Proof.
  rewrite ravel_fillna. unfold Series.values.
  induction (Pandas.ravel m) as [|o l IH]; simpl; [done|]. by f_equal.
Qed.

Lemma builder_matrix (b : list record → list Z → option Q → matrix * matrix_stats)
    df codes fill :
  b ∈ builders →
  (b df codes fill).1 = filled fill (Pandas.reindex_columns df codes)
  ∧ pre_fill_missing_cells (b df codes fill).2
    = Pandas.isna_count (Pandas.reindex_columns df codes).
Proof.
  unfold builders. rewrite !elem_of_cons, elem_of_nil.
  intros [->|[->|[->|[->|[]]]]]; by destruct fill.
Qed.

Lemma builder_recorded (b : list record → list Z → option Q → matrix * matrix_stats)
    df codes fill :
  b ∈ builders →
  recorded (b df codes fill).2 = summary (Pandas.ravel (b df codes fill).1).
Proof.
  unfold builders. rewrite !elem_of_cons, elem_of_nil.
  intros [->|[->|[->|[->|[]]]]].
  - apply flow_recorded.
  - apply volume_recorded.
  - apply precip_obs_recorded.
  - apply precip_model_recorded.
Qed.

(** C5, as the code has it.  Every matrix builder counts the missing
    cells before the fill, substitutes the fill value, and only then
    reduces the cells of the matrix it returns: the recorded minimum,
    maximum, mean and 95th and 99th percentiles are those of the non-null
    cells of the filled matrix.  Under the leave-null policy these are the
    valid cells alone; under a numeric fill every missing cell takes part
    with the fill value. *)
Theorem C5_statistics_of_filled_matrix
    (b : list record → list Z → option Q → matrix * matrix_stats)
    (df : list record) (codes : list Z) (fill : option Q) :
  b ∈ builders →
  let pivot := Pandas.reindex_columns df codes in
  (b df codes fill).1 = filled fill pivot
  ∧ pre_fill_missing_cells (b df codes fill).2 = Pandas.isna_count pivot
  ∧ recorded (b df codes fill).2 = summary (Pandas.ravel (filled fill pivot))
  ∧ (fill = None →
     recorded (b df codes fill).2 = summary (Pandas.ravel pivot))
  ∧ (∀ f, fill = Some f →
     Series.values (Pandas.ravel (filled fill pivot))
     = default f <$> Pandas.ravel pivot).
Proof.
  intros Hb pivot.
  destruct (builder_matrix b df codes fill Hb) as [Hm Hpre].
  pose proof (builder_recorded b df codes fill Hb) as Hrec.
  rewrite Hm in Hrec. split_and!; try done.
  - intros ->. exact Hrec.
  - intros f ->. apply values_fillna.
Qed.

Lemma C5_statistics_of_filled_matrix_witness :
  Flow.build_matrix ∈ builders
  ∧ recorded (Flow.build_matrix [mkRecord 0 1 (Some 10%Q)] [1; 2] (Some 0%Q)).2
    = summary (Pandas.ravel
                 (filled (Some 0%Q)
                    (Pandas.reindex_columns [mkRecord 0 1 (Some 10%Q)] [1; 2]))).
Proof.
  assert (Hb : Flow.build_matrix ∈ builders) by (unfold builders; set_solver).
  split; [exact Hb|].
  exact (proj1 (proj2 (proj2
    (C5_statistics_of_filled_matrix Flow.build_matrix
       [mkRecord 0 1 (Some 10%Q)] [1; 2] (Some 0%Q) Hb)))).
Defined.

(** One value 10 for station 1 and no value for station 2: with the fill
    value 0 the recorded minimum is 0 and the mean 10/2, while the valid
    cells alone give 10 for both; the fill value changes the statistics. *)
Lemma C5_fill_changes_statistics :
  let df := [mkRecord 0 1 (Some 10%Q)] in
  let codes := [1; 2] in
  recorded (Flow.build_matrix df codes (Some 0%Q)).2
    = [Some 0%Q; Some 10%Q; Some (10 # 2)%Q; Some (950 # 100)%Q; Some (990 # 100)%Q]
  ∧ summary (Pandas.ravel (Pandas.reindex_columns df codes))
    = [Some 10%Q; Some 10%Q; Some 10%Q; Some (1000 # 100)%Q; Some (1000 # 100)%Q]
  ∧ recorded (Flow.build_matrix df codes (Some 0%Q)).2
    ≠ summary (Pandas.ravel (Pandas.reindex_columns df codes))
  ∧ recorded (Flow.build_matrix df codes (Some 0%Q)).2
    ≠ recorded (Flow.build_matrix df codes None).2
  ∧ recorded (PrecipModel.dataframe_to_matrix df codes (Some 0%Q)).2
    ≠ summary (Pandas.ravel (Pandas.reindex_columns df codes)).
Proof.
  cbv zeta. split_and!; vm_compute; (reflexivity || discriminate).
Qed.

(** ** Duplicates on (time, station) *)

Section Duplicates.

Implicit Types (l : list record) (r : record) (k : Z * Z).

Lemma loc_not_duplicated_cons r l :
  loc_not (duplicated_last (r :: l)) (r :: l)
  = if bool_decide (key_of r ∈ key_of <$> l)
    then loc_not (duplicated_last l) l
    else r :: loc_not (duplicated_last l) l.
Proof.
  unfold loc_not. simpl.
  destruct (bool_decide (key_of r ∈ key_of <$> l)) eqn:E.
  - by rewrite filter_cons_False by (simpl; congruence).
  - by rewrite filter_cons_True by done.
Qed.

Lemma with_key_absent k l : k ∉ key_of <$> l → with_key k l = [].
Proof.
  unfold with_key. induction l as [|r l IH]; [done|].
  rewrite fmap_cons, not_elem_of_cons. intros [Hne Hl].
  rewrite filter_cons_False by congruence. by apply IH.
Qed.

Lemma with_key_present k l : k ∈ key_of <$> l → with_key k l ≠ [].
Proof.
  unfold with_key. induction l as [|r l IH]; [by intros ?%elem_of_nil|].
  rewrite fmap_cons, elem_of_cons. intros Hk.
  rewrite filter_cons. case_decide; [done|].
  destruct Hk as [->|Hk]; [done|]. by apply IH.
Qed.

Lemma last_cons_nonempty {A} (x : A) (l : list A) : l ≠ [] → last (x :: l) = last l.
Proof. by destruct l. Qed.

(** After the drop, each key is carried by its last occurrence alone. *)
Lemma with_key_drop_duplicates k l :
  with_key k (loc_not (duplicated_last l) l) = option_list (last_occurrence k l).
Proof.
  induction l as [|r l IH]; [done|].
  rewrite loc_not_duplicated_cons.
  pose proof (with_key_present k l) as Hpres.
  pose proof (with_key_absent k l) as Habs.
  unfold last_occurrence, with_key in *.
  rewrite (filter_cons _ r l).
  case_bool_decide as Hin.
  - rewrite IH. case_decide as Hk; [|done].
    rewrite last_cons_nonempty; [done|]. apply Hpres. by rewrite <- Hk.
  - rewrite filter_cons. case_decide as Hk.
    + rewrite IH. rewrite Habs by (by rewrite <- Hk). done.
    + apply IH.
Qed.

Lemma mask_sum_cons (b : bool) (mask : list bool) :
  mask_sum (b :: mask) = ((if b then 1 else 0) + mask_sum mask)%nat.
Proof.
  unfold mask_sum. rewrite filter_cons. destruct b; case_decide; simpl; congruence.
Qed.

Lemma length_loc_not_duplicated l :
  (length (loc_not (duplicated_last l) l) + mask_sum (duplicated_last l))%nat
  = length l.
Proof.
  induction l as [|r l IH]; [done|].
  rewrite loc_not_duplicated_cons. simpl duplicated_last. rewrite mask_sum_cons.
  case_bool_decide; simpl; lia.
Qed.

Lemma loc_not_no_duplicates l :
  mask_sum (duplicated_last l) = 0%nat → loc_not (duplicated_last l) l = l.
Proof.
  induction l as [|r l IH]; [done|].
  rewrite loc_not_duplicated_cons. simpl duplicated_last. rewrite mask_sum_cons.
  case_bool_decide; simpl; [lia|]. intros Hz. f_equal. by apply IH.
Qed.

(** The conditional drop of the scripts is the drop itself. *)
Lemma conditional_drop l :
  match mask_sum (duplicated_last l) with
  | O => l
  | _ => loc_not (duplicated_last l) l
  end = loc_not (duplicated_last l) l.
Proof.
  destruct (mask_sum (duplicated_last l)) eqn:E; [|done].
  by rewrite loc_not_no_duplicates.
Qed.

Lemma conditional_drop_decide l :
  (if bool_decide (0 < mask_sum (duplicated_last l))%nat
   then loc_not (duplicated_last l) l else l)
  = loc_not (duplicated_last l) l.
Proof.
  case_bool_decide; [done|].
  rewrite loc_not_no_duplicates; [done|lia].
Qed.

Lemma insert_by_Permutation {A} (le : A → A → bool) (x : A) (l : list A) :
  insert_by le x l ≡ₚ x :: l.
Proof.
  induction l as [|y l IH]; [done|]. simpl.
  destruct (le x y); [done|]. rewrite IH. apply Permutation_swap.
Qed.

Lemma stable_sort_Permutation {A} (le : A → A → bool) (l : list A) :
  stable_sort le l ≡ₚ l.
Proof.
  induction l as [|x l IH]; [done|]. simpl.
  by rewrite insert_by_Permutation, IH.
Qed.

Lemma with_key_sorted k (le : record → record → bool) l :
  (length (with_key k l) ≤ 1)%nat →
  with_key k (stable_sort le l) = with_key k l.
Proof.
  intros Hlen.
  assert (Hp : with_key k (stable_sort le l) ≡ₚ with_key k l).
  { unfold with_key. by rewrite stable_sort_Permutation. }
  destruct (with_key k l) as [|r [|r' rest]]; simpl in Hlen; [| |lia].
  - by apply Permutation_nil_r in Hp.
  - by apply Permutation_singleton_r in Hp.
Qed.

Lemma length_option_list {A} (o : option A) : (length (option_list o) ≤ 1)%nat.
Proof. destruct o; simpl; lia. Qed.

(** Drop then sort: the cleaned stream of both precipitation scripts. *)
Lemma with_key_cleaned k l :
  with_key k (stable_sort le_time_station (loc_not (duplicated_last l) l))
  = option_list (last_occurrence k l).
Proof.
  rewrite with_key_sorted; rewrite with_key_drop_duplicates;
    [done|apply length_option_list].
Qed.

Lemma length_cleaned l :
  (length (stable_sort le_time_station (loc_not (duplicated_last l) l))
   + mask_sum (duplicated_last l))%nat = length l.
Proof. rewrite stable_sort_Permutation. apply length_loc_not_duplicated. Qed.

End Duplicates.

Lemma no_missing_columns (df : PrecipModel.input_frame) :
  (∀ c, c ∈ PrecipModel.REQUIRED_COLUMNS → c ∈ PrecipModel.columns df) →
  filter (λ c, c ∉ PrecipModel.columns df) PrecipModel.REQUIRED_COLUMNS = [].
Proof.
  intros Hall. induction PrecipModel.REQUIRED_COLUMNS as [|c l IH]; [done|].
  rewrite filter_cons_False.
  - apply IH. intros c' Hc'. apply Hall. by right.
  - intros Hc. apply Hc, Hall. by left.
Qed.

(** C7, as the code has it.  In the cleaning of the precipitation
    scripts, for every key (time, station) the cleaned stream holds
    exactly the last record of the coerced stream that carries the key,
    in file order, and nothing else for that key (the flow and volume
    scripts, which resample, aggregate such records instead); the
    number of dropped records is the recorded
    [duplicate_rows_removed], which a warning repeats when it is not zero.
    Two rows for the same key with the values 10 then 12 are cleaned into
    the single value 12, one duplicate being counted. *)
Theorem C7_duplicates_keep_last
    (to_datetime : cell → option Z) (to_numeric : cell → option Q) :
  (∀ df warnings k,
     let parsed := coerce_values to_numeric (coerce_times to_datetime df) in
     let out := PrecipObs.clean_values to_datetime to_numeric df warnings in
     with_key k out.1.1 = option_list (last_occurrence k parsed)
     ∧ (length out.1.1 + PrecipObs.duplicate_rows_removed out.1.2)%nat
       = length parsed
     ∧ (PrecipObs.duplicate_rows_removed out.1.2 ≠ 0%nat →
        WDuplicates (PrecipObs.duplicate_rows_removed out.1.2) ∈ out.2))
  ∧ (∀ df k,
       (∀ c, c ∈ PrecipModel.REQUIRED_COLUMNS → c ∈ PrecipModel.columns df) →
       let parsed := PrecipModel.coerced to_datetime to_numeric (PrecipModel.rows df) in
       let out := PrecipModel.validate_and_clean_input to_datetime to_numeric df in
       with_key k out.1.1 = option_list (last_occurrence k parsed)
       ∧ ∃ stats, out.2 = Some stats
           ∧ (length out.1.1 + PrecipModel.duplicate_rows_removed stats)%nat
             = length parsed
           ∧ (PrecipModel.duplicate_rows_removed stats ≠ 0%nat →
              WDuplicates (PrecipModel.duplicate_rows_removed stats)
                ∈ PrecipModel.warnings out.1.2))
  ∧ (PrecipObs.clean_values timestamp_cell numeric_cell
       [mkMapped (CNum 3600) (u "A") (CNum 10) 1;
        mkMapped (CNum 3600) (u "A") (CNum 12) 1] []).1.1
     = [mkRecord 3600 1 (Some 12%Q)]
  ∧ (PrecipModel.validate_and_clean_input timestamp_cell numeric_cell
       (PrecipModel.mkFrame PrecipModel.REQUIRED_COLUMNS
          [PrecipModel.mkInput (CNum 3600) (CNum 1) (CNum 10);
           PrecipModel.mkInput (CNum 3600) (CNum 1) (CNum 12)])).1.1
     = [mkRecord 3600 1 (Some 12%Q)].
Proof.
  split_and!.
  - intros df warnings k parsed out. subst out.
    unfold PrecipObs.clean_values. cbn [fst snd PrecipObs.duplicate_rows_removed].
    fold parsed. rewrite conditional_drop.
    split_and!.
    + apply with_key_cleaned.
    + apply length_cleaned.
    + intros Hne. rewrite !elem_of_app. do 4 right.
      destruct (mask_sum (duplicated_last parsed)); [by destruct Hne|].
      simpl. by left.
  - intros df k Hcols parsed out. subst out.
    unfold PrecipModel.validate_and_clean_input.
    rewrite (no_missing_columns df Hcols).
    cbn [fst snd PrecipModel.warnings].
    unfold PrecipModel.coerced in parsed. fold parsed.
    rewrite conditional_drop_decide.
    split; [apply with_key_cleaned|].
    eexists. split; [reflexivity|].
    cbn [PrecipModel.duplicate_rows_removed]. split; [apply length_cleaned|].
    intros Hne. rewrite !elem_of_app. do 4 right.
    unfold PrecipModel.warn_if. case_bool_decide; [by left|lia].
  - vm_compute. reflexivity.
  - vm_compute. reflexivity.
Qed.

Lemma C7_duplicates_keep_last_witness :
  let df := PrecipModel.mkFrame PrecipModel.REQUIRED_COLUMNS
              [PrecipModel.mkInput (CNum 3600) (CNum 1) (CNum 10);
               PrecipModel.mkInput (CNum 3600) (CNum 1) (CNum 12)] in
  (∀ c, c ∈ PrecipModel.REQUIRED_COLUMNS → c ∈ PrecipModel.columns df)
  ∧ with_key (3600, 1)
      (PrecipModel.validate_and_clean_input timestamp_cell numeric_cell df).1.1
    = option_list
        (last_occurrence (3600, 1)
           (PrecipModel.coerced timestamp_cell numeric_cell (PrecipModel.rows df))).
Proof.
  cbv zeta. split; [done|].
  refine (proj1 (proj1 (proj2 (C7_duplicates_keep_last timestamp_cell numeric_cell))
                   _ (3600, 1) _)).
  done.
Defined.

(** ** Resampling *)

Section Resampling.

Lemma foldl_min_le (x : Z) (l : list Z) :
  foldl Z.min x l ≤ x ∧ ∀ t, t ∈ l → foldl Z.min x l ≤ t.
Proof.
  revert x. induction l as [|y l IH]; intros x; simpl.
  - split; [lia|]. by intros t ?%elem_of_nil.
  - destruct (IH (Z.min x y)) as [H1 H2]. split; [lia|].
    intros t [->|Ht]%elem_of_cons; [lia|]. by apply H2.
Qed.

Lemma foldl_max_ge (x : Z) (l : list Z) :
  x ≤ foldl Z.max x l ∧ ∀ t, t ∈ l → t ≤ foldl Z.max x l.
Proof.
  revert x. induction l as [|y l IH]; intros x; simpl.
  - split; [lia|]. by intros t ?%elem_of_nil.
  - destruct (IH (Z.max x y)) as [H1 H2]. split; [lia|].
    intros t [->|Ht]%elem_of_cons; [lia|]. by apply H2.
Qed.

Lemma list_min_bound (l : list Z) (t : Z) :
  t ∈ l → ∃ m, list_min l = Some m ∧ m ≤ t.
Proof.
  destruct l as [|x l]; [by intros ?%elem_of_nil|].
  intros Ht. eexists. split; [done|].
  destruct (foldl_min_le x l) as [H1 H2].
  apply elem_of_cons in Ht as [->|Ht]; [done|by apply H2].
Qed.

Lemma list_max_bound (l : list Z) (t : Z) :
  t ∈ l → ∃ m, list_max l = Some m ∧ t ≤ m.
Proof.
  destruct l as [|x l]; [by intros ?%elem_of_nil|].
  intros Ht. eexists. split; [done|].
  destruct (foldl_max_ge x l) as [H1 H2].
  apply elem_of_cons in Ht as [->|Ht]; [done|by apply H2].
Qed.

(** On a grid of positive width the bucket of every time of the group is
    among the emitted buckets. *)
Lemma bucket_in_grid (w o tmin tmax t : Z) :
  0 < w → tmin ≤ t → t ≤ tmax →
  Resample.bucket_of w o t
  ∈ (λ k : nat, Resample.bucket_of w o tmin + Z.of_nat k * w)
      <$> seq 0 (Z.to_nat ((Resample.bucket_of w o tmax
                            - Resample.bucket_of w o tmin) / w) + 1).
Proof.
  intros Hw Hlo Hhi. unfold Resample.bucket_of.
  set (a := (tmin - o) / w). set (c := (tmax - o) / w). set (q := (t - o) / w).
  assert (a ≤ q) by (apply Z.div_le_mono; lia).
  assert (q ≤ c) by (apply Z.div_le_mono; lia).
  replace (o + c * w - (o + a * w)) with ((c - a) * w) by ring.
  rewrite Z.div_mul by lia.
  apply list_elem_of_fmap. exists (Z.to_nat (q - a)). split.
  - rewrite Z2Nat.id by lia. ring.
  - apply elem_of_seq. lia.
Qed.

Lemma label_in_buckets (w : Z) (group : list record) (x : record) :
  0 < w → x ∈ group →
  Resample.label w group (r_time x) ∈ Resample.buckets w (r_time <$> group).
Proof.
  intros Hw Hx.
  assert (Ht : r_time x ∈ r_time <$> group) by (by apply list_elem_of_fmap_2).
  destruct (list_min_bound _ _ Ht) as (tmin & Hmin & Hlo).
  destruct (list_max_bound _ _ Ht) as (tmax & Hmax & Hhi).
  unfold Resample.label, Resample.buckets. rewrite Hmin, Hmax.
  by apply bucket_in_grid.
Qed.

Lemma elem_of_groupby_resample w reduce (df : list record) (r : record) :
  r ∈ Resample.groupby_resample w reduce df ↔
  ∃ s b, s ∈ r_station <$> df
    ∧ b ∈ Resample.buckets w (r_time <$> Resample.group_of s df)
    ∧ r = mkRecord b s (reduce (Resample.bucket_values w (Resample.group_of s df) b)).
Proof.
  unfold Resample.groupby_resample, Resample.resample_group.
  rewrite list_elem_of_bind. split.
  - intros (s & Hr & Hs). rewrite elem_of_sorted_set in Hs.
    apply list_elem_of_fmap in Hr as (b & -> & Hb). by exists s, b.
  - intros (s & b & Hs & Hb & ->). exists s. split.
    + apply list_elem_of_fmap. by exists b.
    + by apply elem_of_sorted_set.
Qed.

Lemma elem_of_loc_not {A} (mask : list bool) (l : list A) (x : A) :
  x ∈ loc_not mask l → x ∈ l.
Proof.
  unfold loc_not. intros (p & -> & Hp)%list_elem_of_fmap.
  apply list_elem_of_filter in Hp as [_ Hp].
  destruct p as [y b]. by apply elem_of_zip_l in Hp.
Qed.

Lemma last_occurrence_present (k : Z * Z) (l : list record) :
  k ∈ key_of <$> l →
  ∃ r, last_occurrence k l = Some r ∧ r ∈ l ∧ key_of r = k.
Proof.
  intros Hk. apply with_key_present in Hk.
  unfold last_occurrence. fold (with_key k l).
  apply last_is_Some in Hk as [r Hr]. exists r. split; [done|].
  apply last_Some_elem_of in Hr. unfold with_key in Hr.
  by apply list_elem_of_filter in Hr as [? ?].
Qed.

(** Resampling, then the drop of duplicates and the sort by time and
    station: the rows are the per-bucket reductions. *)
Lemma resample_reduces w reduce (input : list record) :
  let rs := Resample.groupby_resample w reduce input in
  reduces_buckets w reduce input
    (stable_sort le_time_station (loc_not (duplicated_last rs) rs)).
Proof.
  intros rs. split.
  - intros r Hr. rewrite stable_sort_Permutation in Hr.
    apply elem_of_loc_not in Hr.
    apply elem_of_groupby_resample in Hr as (s & b & Hs & Hb & ->). by split.
  - intros Hw x Hx.
    set (s := r_station x). set (g := Resample.group_of s input).
    assert (Hxg : x ∈ g) by (by apply list_elem_of_filter).
    set (b := Resample.label w g (r_time x)).
    assert (Hrow : mkRecord b s (reduce (Resample.bucket_values w g b)) ∈ rs).
    { apply elem_of_groupby_resample. exists s, b. split_and!; [|by apply label_in_buckets|done].
      by apply list_elem_of_fmap_2. }
    destruct (last_occurrence_present (b, s) rs) as (r & Hlast & Hr & Hkey).
    { apply list_elem_of_fmap. eexists. split; [|exact Hrow]. done. }
    exists r. split_and!.
    + assert (Hin : r ∈ with_key (b, s)
                (stable_sort le_time_station (loc_not (duplicated_last rs) rs))).
      { rewrite with_key_cleaned, Hlast. simpl. by left. }
      unfold with_key in Hin. by apply list_elem_of_filter in Hin as [_ ?].
    + unfold key_of in Hkey. congruence.
    + unfold key_of in Hkey. subst b. congruence.
Qed.

(** Without the drop and the sort, as in the volume script. *)
Lemma resample_reduces_plain w reduce (input : list record) :
  reduces_buckets w reduce input (Resample.groupby_resample w reduce input).
Proof.
  split.
  - intros r Hr.
    apply elem_of_groupby_resample in Hr as (s & b & Hs & Hb & ->). by split.
  - intros Hw x Hx.
    set (s := r_station x). set (g := Resample.group_of s input).
    assert (Hxg : x ∈ g) by (by apply list_elem_of_filter).
    exists (mkRecord (Resample.label w g (r_time x)) s
              (reduce (Resample.bucket_values w g (Resample.label w g (r_time x))))).
    split_and!; [|done|done].
    apply elem_of_groupby_resample. eexists s, _.
    split_and!; [|by apply label_in_buckets|done].
    by apply list_elem_of_fmap_2.
Qed.

End Resampling.

Lemma flow_select_agg_choices (agg : string) :
  agg ∈ FlowClean.agg_choices → ∃ reduce, FlowClean.select_agg agg = Ok reduce.
Proof.
  unfold FlowClean.agg_choices. rewrite !elem_of_cons, elem_of_nil.
  intros [->|[->|[->|[->|[->|[->|[]]]]]]]; by eexists.
Qed.

Lemma flow_clean_and_resample_ok to_datetime to_numeric to_timedelta
    (df : list mapped_row) (rule agg : string) (ws : list warning) reduce :
  rule ≠ ""%string → FlowClean.select_agg agg = Ok reduce →
  ∃ out stats ws',
    FlowClean.clean_and_resample to_datetime to_numeric to_timedelta df rule agg ws
    = Ok (out, stats, ws')
    ∧ reduces_buckets (to_timedelta rule) reduce
        (sorted_input to_datetime to_numeric df) out.
Proof.
  intros Hrule Hsel. unfold FlowClean.clean_and_resample.
  rewrite bool_decide_true by done. rewrite Hsel.
  cbn [mbind result_bind mret result_ret].
  rewrite conditional_drop.
  do 3 eexists. split; [reflexivity|].
  apply resample_reduces.
Qed.

(** C8, as the code has it.  The flow script accepts each of the six
    aggregations mean, last, sum, min, max and median and dispatches it to
    the reduction of that name; the volume script accepts mean, last, min,
    max and median only, its argument parser rejecting sum with exit
    status 2.  In both, resampling with a non-empty rule reduces, for
    every station and every bucket of the grid, the values of that station
    falling in that bucket with the selected reduction alone, and every
    coerced record falls in one bucket of the result.  The values 1, 2, 3
    in one hourly bucket give 2 under mean and 6 under sum. *)
Theorem C8_resampling_reduces_buckets
    (to_datetime : cell → option Z) (to_numeric : cell → option Q)
    (to_timedelta : string → Z) :
  (FlowClean.select_agg "mean" = Ok Series.mean
   ∧ FlowClean.select_agg "last" = Ok Series.last
   ∧ FlowClean.select_agg "sum" = Ok Series.sum
   ∧ FlowClean.select_agg "min" = Ok Series.min
   ∧ FlowClean.select_agg "max" = Ok Series.max
   ∧ FlowClean.select_agg "median" = Ok Series.median)
  ∧ (∀ agg, agg ∈ six_aggregations → FlowClean.parse_agg (Some agg) = Ok agg)
  ∧ (∀ df rule agg ws,
       rule ≠ ""%string → agg ∈ six_aggregations →
       ∃ reduce out stats ws',
         FlowClean.select_agg agg = Ok reduce
         ∧ FlowClean.clean_and_resample to_datetime to_numeric to_timedelta
             df rule agg ws = Ok (out, stats, ws')
         ∧ reduces_buckets (to_timedelta rule) reduce
             (sorted_input to_datetime to_numeric df) out)
  ∧ (Volume.select_agg "mean" = Series.mean
     ∧ Volume.select_agg "last" = Series.last
     ∧ Volume.select_agg "min" = Series.min
     ∧ Volume.select_agg "max" = Series.max
     ∧ Volume.select_agg "median" = Series.median)
  ∧ (∀ agg, Volume.parse_agg (Some agg) = Ok agg ↔
            agg ∈ six_aggregations ∧ agg ≠ "sum"%string)
  ∧ Volume.parse_agg (Some "sum"%string) = Raise (SystemExit 2)
  ∧ (∀ df rule agg ws,
       reduces_buckets (to_timedelta rule) (Volume.select_agg agg)
         (sorted_input to_datetime to_numeric df)
         (Volume.clean_and_resample to_datetime to_numeric to_timedelta
            df rule agg ws).1.1)
  ∧ (∃ stats ws',
       FlowClean.clean_and_resample timestamp_cell numeric_cell hourly
         one_bucket "1h" "mean" [] = Ok ([mkRecord 3600 1 (Some (6 # 3)%Q)], stats, ws')
       ∧ single_row [mkRecord 3600 1 (Some (6 # 3)%Q)] 3600 1 2)
  ∧ (∃ stats ws',
       FlowClean.clean_and_resample timestamp_cell numeric_cell hourly
         one_bucket "1h" "sum" [] = Ok ([mkRecord 3600 1 (Some 6%Q)], stats, ws')
       ∧ single_row [mkRecord 3600 1 (Some 6%Q)] 3600 1 6).
Proof.
  split_and!; try done.
  - unfold six_aggregations. intros agg. rewrite !elem_of_cons, elem_of_nil.
    intros [->|[->|[->|[->|[->|[->|[]]]]]]]; done.
  - intros df rule agg ws Hrule Hagg.
    destruct (flow_select_agg_choices agg) as [reduce Hsel].
    { revert Hagg. unfold six_aggregations, FlowClean.agg_choices.
      rewrite !elem_of_cons, elem_of_nil. tauto. }
    destruct (flow_clean_and_resample_ok to_datetime to_numeric to_timedelta
                df rule agg ws reduce Hrule Hsel) as (out & stats & ws' & Hok & Hred).
    by exists reduce, out, stats, ws'.
  - intros agg. unfold Volume.parse_agg, Volume.agg_choices, six_aggregations.
    case_bool_decide as Hin.
    + split; [intros _|done]. revert Hin. rewrite !elem_of_cons, elem_of_nil.
      intros [->|[->|[->|[->|[->|[]]]]]]; split; (done || set_solver).
    + split; [done|]. intros [Hsix Hsum]. exfalso. apply Hin.
      revert Hsix. rewrite !elem_of_cons, elem_of_nil. tauto.
  - intros df rule agg ws. apply resample_reduces_plain.
  - do 2 eexists. split; [vm_compute; reflexivity|].
    eexists. split; [reflexivity|]. reflexivity.
  - do 2 eexists. split; [vm_compute; reflexivity|].
    eexists. split; [reflexivity|]. reflexivity.
Qed.

Lemma C8_resampling_reduces_buckets_witness :
  ("1h" ≠ "" ∧ "sum" ∈ six_aggregations)%string
  ∧ ∃ reduce out stats ws',
      FlowClean.select_agg "sum" = Ok reduce
      ∧ FlowClean.clean_and_resample timestamp_cell numeric_cell hourly
          one_bucket "1h" "sum" [] = Ok (out, stats, ws')
      ∧ reduces_buckets (hourly "1h") reduce
          (sorted_input timestamp_cell numeric_cell one_bucket) out.
Proof.
  assert (H1 : ("1h" ≠ "")%string) by done.
  assert (H2 : ("sum" ∈ six_aggregations)%string)
    by (unfold six_aggregations; set_solver).
  split; [by split|].
  exact (proj1 (proj2 (proj2
    (C8_resampling_reduces_buckets timestamp_cell numeric_cell hourly)))
    one_bucket "1h"%string "sum"%string [] H1 H2).
Defined.

(** The six aggregations are not all selectable in the volume workflow:
    its parser rejects [sum], which the flow parser accepts. *)
Lemma C8_volume_rejects_sum :
  ("sum" ∈ six_aggregations)%string
  ∧ FlowClean.parse_agg (Some "sum"%string) = Ok "sum"%string
  ∧ Volume.parse_agg (Some "sum"%string) = Raise (SystemExit 2)
  ∧ ¬ (∀ agg, agg ∈ six_aggregations →
              ∃ a, Volume.parse_agg (Some agg) = Ok a).
Proof.
  assert (H : ("sum" ∈ six_aggregations)%string)
    by (unfold six_aggregations; set_solver).
  split_and!; [done|done|done|].
  intros Hall. destruct (Hall "sum"%string H) as [a Ha]. discriminate.
Qed.

(** C7 does not hold of every cleaned stream.  The flow script resamples
    before its duplicate test and the volume script has no duplicate
    test: two rows of one (time, station) carrying 10 then 12 meet in one
    hourly bucket and are aggregated, giving the single value 11 under
    the default mean, not 12; no duplicate is counted and no warning is
    raised. *)
Lemma C7_resampling_aggregates_duplicates :
  (∃ stats,
     FlowClean.clean_and_resample timestamp_cell numeric_cell hourly
       [mkMapped (CNum 3600) (u "A") (CNum 10) 1;
        mkMapped (CNum 3600) (u "A") (CNum 12) 1] "1h" "mean" []
     = Ok ([mkRecord 3600 1 (Some (22 # 2)%Q)], stats, [])
     ∧ proc_duplicate_rows_removed stats = 0%nat)
  ∧ (Volume.clean_and_resample timestamp_cell numeric_cell hourly
       [mkMapped (CNum 3600) (u "A") (CNum 10) 1;
        mkMapped (CNum 3600) (u "A") (CNum 12) 1] "1h" "mean" []).1.1
    = [mkRecord 3600 1 (Some (22 # 2)%Q)]
  ∧ (Volume.clean_and_resample timestamp_cell numeric_cell hourly
       [mkMapped (CNum 3600) (u "A") (CNum 10) 1;
        mkMapped (CNum 3600) (u "A") (CNum 12) 1] "1h" "mean" []).2 = [].
Proof.
  split_and!.
  - eexists. split; vm_compute; reflexivity.
  - vm_compute. reflexivity.
  - vm_compute. reflexivity.
Qed.

(** ** Station resolution *)

Section TupleOrder.

Lemma ltb_irrefl (a : list N) : Str.ltb a a = false.
Proof.
  induction a as [|x a IH]; [done|]. simpl.
  rewrite N.ltb_irrefl, N.eqb_refl. by rewrite IH.
Qed.

Lemma ltb_cons (x y : N) (a b : list N) :
  Str.ltb (x :: a) (y :: b) = true ↔ (x < y)%N ∨ (x = y ∧ Str.ltb a b = true).
Proof.
  simpl. rewrite orb_true_iff, andb_true_iff, N.ltb_lt, N.eqb_eq. done.
Qed.

Lemma ltb_trans (a b c : list N) :
  Str.ltb a b = true → Str.ltb b c = true → Str.ltb a c = true.
Proof.
  revert b c. induction a as [|x a IH]; intros [|y b] [|z c]; try done.
  rewrite !ltb_cons. intros [?|[-> ?]] [?|[-> ?]]; try (left; lia).
  right. split; [done|]. by eapply IH.
Qed.

Lemma ltb_neg_trans (a b c : list N) :
  Str.ltb a c = true → Str.ltb a b = true ∨ Str.ltb b c = true.
Proof.
  revert b c. induction a as [|x a IH]; intros [|y b] [|z c]; try done;
    try (by left); try (by right).
  rewrite !ltb_cons. intros [Hlt|[-> Hlt]].
  - destruct (N.lt_trichotomy x y) as [?|[->|?]].
    + left. by left.
    + right. by left.
    + right. left. lia.
  - destruct (N.lt_trichotomy z y) as [?|[->|?]].
    + by left; left.
    + destruct (IH b c Hlt); [left|right]; by right.
    + by right; left.
Qed.

Lemma pair_ltb_spec (a b : Q * list N) :
  Difflib.pair_ltb a b = true ↔ pair_lt a b.
Proof.
  unfold Difflib.pair_ltb, pair_lt.
  rewrite orb_true_iff, andb_true_iff, negb_true_iff, Qeq_bool_iff.
  rewrite <- not_true_iff_false, Qle_bool_iff.
  split; (intros [H|H]; [left|by right]).
  - by apply Qnot_le_lt.
  - by apply Qlt_not_le.
Qed.

Lemma pair_lt_trans (a b c : Q * list N) :
  pair_lt a b → pair_lt b c → pair_lt a c.
Proof.
  unfold pair_lt. intros [H1|[H1 S1]] [H2|[H2 S2]].
  - left. by eapply Qlt_trans.
  - left. by rewrite <- H2.
  - left. by rewrite H1.
  - right. split; [by rewrite H1|by eapply ltb_trans].
Qed.

Lemma pair_lt_neg_trans (a b c : Q * list N) :
  pair_lt a c → pair_lt a b ∨ pair_lt b c.
Proof.
  unfold pair_lt. intros [H|[H S]].
  - destruct (Qlt_le_dec a.1 b.1) as [?|Hle]; [by left; left|].
    right. left. by eapply Qle_lt_trans.
  - destruct (Q_dec a.1 b.1) as [[?|?]|Heq].
    + by left; left.
    + right. left. by rewrite <- H.
    + destruct (ltb_neg_trans a.2 b.2 c.2 S).
      * left. by right.
      * right. right. split; [by rewrite <- Heq|done].
Qed.

Lemma pair_lt_score (a b : Q * list N) : ¬ pair_lt a b → (b.1 <= a.1)%Q.
Proof.
  intros Hn. apply Qnot_lt_le. intros Hlt. apply Hn. by left.
Qed.

End TupleOrder.

Section CloseMatches.
Context `{SequenceMatcher}.

Lemma foldl_keep (b : Q * list N) (l : list (Q * list N)) :
  ∃ m, foldl (λ best x, match best with
                        | None => Some x
                        | Some b => if Difflib.pair_ltb b x then Some x else Some b
                        end) (Some b) l = Some m
    ∧ m ∈ b :: l ∧ ¬ pair_lt m b ∧ ∀ x, x ∈ l → ¬ pair_lt m x.
Proof.
  revert b. induction l as [|x l IH]; intros b; simpl.
  - exists b. split_and!; [done|by left| |by intros ? ?%elem_of_nil].
    intros [Hlt|[_ Hs]]; [by apply Qlt_irrefl in Hlt|by rewrite ltb_irrefl in Hs].
  - destruct (Difflib.pair_ltb b x) eqn:E.
    + apply pair_ltb_spec in E.
      destruct (IH x) as (m & Hm & Hin & Hx & Hl). exists m. split_and!; [done| | |].
      * by right.
      * intros Hmb. apply Hx. by eapply pair_lt_trans.
      * intros y [->|Hy]%elem_of_cons; [done|by apply Hl].
    + assert (Hbx : ¬ pair_lt b x).
      { intros Hlt%pair_ltb_spec. congruence. }
      destruct (IH b) as (m & Hm & Hin & Hb & Hl). exists m. split_and!; [done| |done|].
      * apply elem_of_cons in Hin as [->|Hin]; [by left|by do 2 right].
      * intros y [->|Hy]%elem_of_cons; [|by apply Hl].
        intros Hmx. by destruct (pair_lt_neg_trans m b x Hmx).
Qed.

Lemma py_max_spec (l : list (Q * list N)) :
  match Difflib.py_max l with
  | Some m => m ∈ l ∧ ∀ x, x ∈ l → ¬ pair_lt m x
  | None => l = []
  end.
Proof.
  unfold Difflib.py_max. destruct l as [|b l]; [done|]. simpl.
  destruct (foldl_keep b l) as (m & Hm & Hin & Hb & Hl).
  rewrite Hm. split; [done|].
  intros x [->|Hx]%elem_of_cons; [done|by apply Hl].
Qed.

Lemma passes_cutoff (cutoff : Q) (word x : list N) :
  Difflib.passes cutoff word x = true → (cutoff <= ratio x word)%Q.
Proof.
  unfold Difflib.passes. rewrite !andb_true_iff. intros [_ Hr].
  by apply Qle_bool_iff.
Qed.

(** [get_close_matches] with [n=1]: nothing when no candidate passes the
    three cutoff tests, otherwise one candidate that passes them and whose
    ratio no other passing candidate exceeds. *)
Lemma get_close_matches_spec (word : list N) (possibilities : list (list N))
    (cutoff : Q) :
  match Difflib.get_close_matches word possibilities cutoff with
  | [] => ∀ x, x ∈ possibilities → Difflib.passes cutoff word x = false
  | b :: rest =>
      rest = [] ∧ b ∈ possibilities
      ∧ Difflib.passes cutoff word b = true
      ∧ (cutoff <= ratio b word)%Q
      ∧ ∀ x, x ∈ possibilities → Difflib.passes cutoff word x = true →
             (ratio x word <= ratio b word)%Q
  end.
Proof.
  unfold Difflib.get_close_matches.
  set (result := omap _ possibilities).
  assert (Hres : ∀ p, p ∈ result ↔
            ∃ x, x ∈ possibilities ∧ Difflib.passes cutoff word x = true
                 ∧ p = (ratio x word, x)).
  { intros p. unfold result. rewrite list_elem_of_omap. split.
    - intros (x & Hx & Hp). exists x. destruct (Difflib.passes cutoff word x); naive_solver.
    - intros (x & Hx & Hpass & ->). exists x. by rewrite Hpass. }
  pose proof (py_max_spec result) as Hmax.
  destruct (Difflib.py_max result) as [[score b]|].
  - destruct Hmax as [Hin Hbest].
    apply Hres in Hin as (x & Hx & Hpass & [= -> ->]).
    split_and!; [done|done|done|by apply passes_cutoff|].
    intros y Hy Hpy.
    apply (pair_lt_score (ratio x word, x) (ratio y word, y)).
    apply Hbest, Hres. by exists y.
  - intros x Hx. destruct (Difflib.passes cutoff word x) eqn:E; [|done].
    assert (Hin : (ratio x word, x) ∈ result) by (apply Hres; by exists x).
    rewrite Hmax in Hin. by apply elem_of_nil in Hin.
Qed.

Lemma no_close_match (word : list N) (possibilities : list (list N))
    (cutoff : Q) :
  (∀ x, x ∈ possibilities → ¬ (cutoff <= ratio x word)%Q) →
  Difflib.get_close_matches word possibilities cutoff = [].
Proof.
  intros Hnone. pose proof (get_close_matches_spec word possibilities cutoff) as Hs.
  destruct (Difflib.get_close_matches word possibilities cutoff) as [|b rest]; [done|].
  destruct Hs as (_ & Hb & _ & Hcut & _). by destruct (Hnone b Hb).
Qed.

End CloseMatches.

Section ResolutionLoop.

Variable res : list N → resolution.

Lemma loop_col_to_code (st : resolver_state) (cols : list (list N)) (col : list N) :
  col_to_code (foldl (λ st c, record_resolution st c (res c)) st cols) !! col
  = if decide (col ∈ cols)
    then match resolution_code (res col) with
         | Some code => Some code
         | None => col_to_code st !! col
         end
    else col_to_code st !! col.
Proof.
  revert st. induction cols as [|c cols IH]; intros st; cbn [foldl].
  - case_decide as Hin; [by apply elem_of_nil in Hin|done].
  - rewrite IH. destruct (decide (col = c)) as [->|Hne].
    + destruct (res c) as [code|code name b|] eqn:E; simpl;
        rewrite ?lookup_insert_eq; repeat case_decide; try done;
        exfalso; set_solver.
    + assert (Hst : col_to_code (record_resolution st c (res c)) !! col
                    = col_to_code st !! col).
      { destruct (res c); simpl; by rewrite ?lookup_insert_ne. }
      rewrite Hst. case_decide as Hin; case_decide as Hin'; try done.
      * destruct Hin'. by right.
      * by apply elem_of_cons in Hin' as [?|?].
Qed.

Lemma loop_unmapped_cols (st : resolver_state) (cols : list (list N)) :
  unmapped_cols (foldl (λ st c, record_resolution st c (res c)) st cols)
  = unmapped_cols st ++ filter (λ c, resolution_code (res c) = None) cols.
Proof.
  revert st. induction cols as [|c cols IH]; intros st; cbn [foldl].
  - by rewrite filter_nil, app_nil_r.
  - rewrite IH, filter_cons.
    destruct (res c);
      cbn [record_resolution resolution_code unmapped_cols record_exact
           record_fuzzy record_unmapped];
      case_decide; try done.
    by rewrite <- app_assoc.
Qed.

Lemma loop_fuzzy_details (st : resolver_state) (cols : list (list N)) :
  fuzzy_details (foldl (λ st c, record_resolution st c (res c)) st cols)
  = fuzzy_details st ++ omap (λ c, fuzzy_detail c (res c)) cols.
Proof.
  revert st. induction cols as [|c cols IH]; intros st; simpl.
  - by rewrite app_nil_r.
  - rewrite IH. destruct (res c); simpl; try done.
    by rewrite <- app_assoc.
Qed.

End ResolutionLoop.

Lemma elem_of_sorted_labels (l : list (list N)) (col : list N) :
  col ∈ sorted_labels l ↔ col ∈ l.
Proof.
  unfold sorted_labels. by rewrite merge_sort_Permutation, elem_of_remove_dups.
Qed.

Lemma mapped_rows_of_assign (m : gmap (list N) Z) (df : list raw_row) (col : list N) :
  mapped_rows_of col (assign_codes m df)
  = match m !! col with
    | Some code => (λ r, mkMapped (raw_time r) col (raw_value r) code) <$> rows_of col df
    | None => []
    end.
Proof.
  unfold mapped_rows_of, assign_codes, rows_of.
  induction df as [|r df IH].
  - by destruct (m !! col).
  - rewrite (filter_cons _ r df). cbn [omap list_omap].
    destruct (m !! source_col r) as [code|] eqn:E; cbn [fmap option_fmap option_map].
    + rewrite filter_cons. cbn [mp_source_col]. case_decide as Hc.
      * rewrite IH. subst col. rewrite E. by rewrite fmap_cons.
      * by rewrite IH.
    + case_decide as Hc; [|done].
      subst col. rewrite E in IH |- *. done.
Qed.

Lemma elem_of_keys (m : gmap (list N) Z) (x : list N) :
  x ∈ (map_to_list m).*1 ↔ is_Some (m !! x).
Proof.
  rewrite list_elem_of_fmap. split.
  - intros ([k v] & -> & Hkv). apply elem_of_map_to_list in Hkv. by eexists.
  - intros [v Hv]. exists (x, v). split; [done|]. by apply elem_of_map_to_list.
Qed.

Section Resolvers.
Context `{UnicodeDB} `{SequenceMatcher}.

Lemma flow_resolve_column_eq alias_to_code code_to_name st col :
  FlowResolver.resolve_column alias_to_code code_to_name
    (map_to_list alias_to_code).*1 st col
  = record_resolution st col (flow_resolution alias_to_code code_to_name col).
Proof.
  unfold FlowResolver.resolve_column, flow_resolution.
  destruct (alias_to_code !! FlowText.normalize_text (Some col)); [done|].
  destruct ((map_to_list alias_to_code).*1) as [|k ks] eqn:E.
  - done.
  - destruct (Difflib.get_close_matches _ _ _) as [|b rest]; [done|].
    by destruct (alias_to_code !! b).
Qed.

Lemma volume_resolve_column_eq alias_to_code code_to_name st c :
  VolumeResolver.resolve_column alias_to_code code_to_name
    (map_to_list alias_to_code).*1 st c
  = record_resolution st c (volume_resolution alias_to_code code_to_name c).
Proof.
  unfold VolumeResolver.resolve_column, volume_resolution.
  destruct (alias_to_code !! VolumeText.normalize_text (Some c)); [done|].
  destruct (Difflib.get_close_matches _ _ _) as [|b rest]; [done|].
  by destruct (alias_to_code !! b).
Qed.

Lemma foldl_resolution_ext (step : resolver_state → list N → resolver_state)
    (res : list N → resolution) (st : resolver_state) (cols : list (list N)) :
  (∀ st c, step st c = record_resolution st c (res c)) →
  foldl step st cols = foldl (λ st c, record_resolution st c (res c)) st cols.
Proof.
  intros Hstep. revert st. induction cols as [|c cols IH]; intros st; simpl; [done|].
  by rewrite Hstep, IH.
Qed.

(** The loop of either script, seen through the resolution of each
    label. *)
Lemma resolution_loop_spec (norm : list N) (cutoff : Q)
    (alias_to_code : gmap (list N) Z) (code_to_name : gmap Z (list N))
    (res : list N → resolution) (df : list raw_row) (ws : list warning)
    (col : list N) :
  col ∈ source_col <$> df →
  res col
  = match alias_to_code !! norm with
    | Some code => ResolvedExact code
    | None =>
        match Difflib.get_close_matches norm (map_to_list alias_to_code).*1 cutoff with
        | b :: _ =>
            match alias_to_code !! b with
            | Some code => ResolvedFuzzy code (default [] (code_to_name !! code)) b
            | None => Unresolved
            end
        | [] => Unresolved
        end
    end →
  let st := foldl (λ st c, record_resolution st c (res c)) resolver_init
                  (sorted_labels (source_col <$> df)) in
  ∀ stats,
    unmapped_station_columns stats = unmapped_cols st →
    resolves_label norm cutoff alias_to_code df
      (assign_codes (col_to_code st) df, stats, ws ++ resolver_warnings st) col.
Proof.
  intros Hcol Hres st stats Hstats.
  assert (Hin : col ∈ sorted_labels (source_col <$> df))
    by (by apply elem_of_sorted_labels).
  assert (Hcode : col_to_code st !! col = resolution_code (res col)).
  { unfold st. rewrite loop_col_to_code, decide_True by done.
    by destruct (resolution_code (res col)). }
  assert (Hunm : ∀ c, c ∈ unmapped_cols st ↔
            c ∈ sorted_labels (source_col <$> df) ∧ resolution_code (res c) = None).
  { intros c. unfold st. rewrite loop_unmapped_cols. simpl.
    rewrite list_elem_of_filter. tauto. }
  assert (Hdet : ∀ d, d ∈ fuzzy_details st ↔
            ∃ c, c ∈ sorted_labels (source_col <$> df) ∧ fuzzy_detail c (res c) = Some d).
  { intros d. unfold st. rewrite loop_fuzzy_details. simpl.
    by rewrite list_elem_of_omap. }
  assert (Hdrop : resolution_code (res col) = None →
            dropped col (assign_codes (col_to_code st) df)
            ∧ col ∈ unmapped_station_columns stats
            ∧ warns_unmapped (ws ++ resolver_warnings st) col).
  { intros Hnone. split_and!.
    - unfold dropped. by rewrite mapped_rows_of_assign, Hcode, Hnone.
    - rewrite Hstats. by apply Hunm.
    - assert (Hc : col ∈ unmapped_cols st) by (by apply Hunm).
      exists (unmapped_cols st). split; [|done].
      rewrite elem_of_app. right. unfold resolver_warnings.
      rewrite elem_of_app. right.
      destruct (unmapped_cols st); [by apply elem_of_nil in Hc|by left]. }
  pose proof (get_close_matches_spec norm (map_to_list alias_to_code).*1 cutoff) as Hgcm.
  unfold resolves_label. cbn [fst snd]. split_and!.
  - intros code Hex. rewrite Hex in Hres. split.
    + unfold kept_with. by rewrite mapped_rows_of_assign, Hcode, Hres.
    + rewrite Hstats, Hunm, Hres. simpl. by intros [_ ?].
  - intros Hnone. rewrite Hnone in Hres.
    destruct (Difflib.get_close_matches _ _ _) as [|b rest].
    + right. split; [|apply Hdrop; by rewrite Hres].
      intros x Hx. apply Hgcm. by apply elem_of_keys.
    + destruct Hgcm as (_ & Hb & Hpass & Hcut & Hbest).
      apply elem_of_keys in Hb as [code Hb]. rewrite Hb in Hres.
      left. exists b, code. split_and!; [done|done| | |].
      * intros x Hx. apply Hbest. by apply elem_of_keys.
      * unfold kept_with. by rewrite mapped_rows_of_assign, Hcode, Hres.
      * exists (fuzzy_details st), (default [] (code_to_name !! code)).
        assert (Hd : (col, code, default [] (code_to_name !! code), b)
                       ∈ fuzzy_details st).
        { apply Hdet. exists col. split; [done|]. by rewrite Hres. }
        split; [|done].
        rewrite elem_of_app. right. unfold resolver_warnings.
        rewrite elem_of_app. left.
        destruct (fuzzy_details st); [by apply elem_of_nil in Hd|by left].
  - intros Hnone Hlow. apply Hdrop. rewrite Hres, Hnone.
    rewrite no_close_match; [done|].
    intros x Hx. apply Hlow. by apply elem_of_keys.
Qed.

End Resolvers.

(** C2.  For every source column label of the input, the flow resolver
    (cutoff 0.82) and the volume resolver (cutoff 0.80) normalize the
    label and look it up in the alias table; an exact hit decides the code
    and the fuzzy match is not consulted.  Without an exact hit the label
    takes the code of an alias key whose similarity ratio reaches the
    cutoff and is the largest among the keys passing the cutoff tests
    (reported as a fuzzy mapping), or else it is unmapped, reported so,
    and all its rows are dropped; it is unmapped whenever no alias key has
    a ratio at or above the cutoff. *)
Theorem C2_station_resolution `{UnicodeDB} `{SequenceMatcher}
    (df : list raw_row) (alias_to_code : gmap (list N) Z)
    (code_to_name : gmap Z (list N)) (ws : list warning) (col : list N) :
  col ∈ source_col <$> df →
  (FlowResolver.cutoff == 82 # 100)%Q
  ∧ (VolumeResolver.cutoff == 80 # 100)%Q
  ∧ resolves_label (FlowText.normalize_text (Some col)) FlowResolver.cutoff
      alias_to_code df
      (FlowResolver.map_columns_to_codes df alias_to_code code_to_name ws) col
  ∧ resolves_label (VolumeText.normalize_text (Some col)) VolumeResolver.cutoff
      alias_to_code df
      (VolumeResolver.map_stations df alias_to_code code_to_name ws) col.
Proof.
  intros Hcol. split_and!; [done|done| |].
  - unfold FlowResolver.map_columns_to_codes.
    rewrite (foldl_resolution_ext _ (flow_resolution alias_to_code code_to_name))
      by apply flow_resolve_column_eq.
    by apply (resolution_loop_spec _ _ alias_to_code code_to_name).
  - unfold VolumeResolver.map_stations.
    rewrite (foldl_resolution_ext _ (volume_resolution alias_to_code code_to_name))
      by apply volume_resolve_column_eq.
    by apply (resolution_loop_spec _ _ alias_to_code code_to_name).
Qed.

(** The label [Zerarda debit] against the aliases [zrarda debit] and
    [el malha debit], with the Latin-1 tables and difflib's matcher. *)
Lemma C2_station_resolution_witness :
  u "Zerarda debit" ∈ source_col <$> example_input
  ∧ resolves_label (FlowText.normalize_text (Some (u "Zerarda debit")))
      FlowResolver.cutoff example_aliases example_input
      (FlowResolver.map_columns_to_codes example_input example_aliases
         example_names []) (u "Zerarda debit").
Proof.
  assert (Hin : u "Zerarda debit" ∈ source_col <$> example_input)
    by (vm_compute; by left).
  split; [exact Hin|].
  exact (proj1 (proj2 (proj2
    (C2_station_resolution example_input example_aliases example_names []
       (u "Zerarda debit") Hin)))).
Defined.

(** The worked example of the specification: [Zerarda debit] has no exact
    alias and resolves to code 7 through the alias [zrarda debit], whose
    ratio 24/25 is above 0.82; the label with the unit suffix resolves
    exactly to code 3; [Unknown Col] is unmapped and its row is dropped. *)
Lemma zerarda_resolves_by_fuzzy_match :
  example_aliases !! FlowText.normalize_text (Some (u "Zerarda debit")) = None
  ∧ ratio (u "zrarda debit") (FlowText.normalize_text (Some (u "Zerarda debit")))
    = (24 # 25)%Q
  ∧ flow_resolution example_aliases example_names (u "Zerarda debit")
    = ResolvedFuzzy 7 (u "Zrarda") (u "zrarda debit")
  ∧ flow_resolution example_aliases example_names
      (u "El Malha_D" ++ e_acute :: u "bit (m3/s)") = ResolvedExact 3
  ∧ flow_resolution example_aliases example_names (u "Unknown Col") = Unresolved
  ∧ station_id <$> (FlowResolver.map_columns_to_codes example_input
                      example_aliases example_names []).1.1 = [7; 3].
Proof. split_and!; vm_compute; reflexivity. Qed.

(** ** Text normalization *)

Section Strings.
Context `{UnicodeDB}.

Implicit Types (s t : list N) (tokens : list (list N)).

Lemma split_from_app cur t s :
  Forall (λ c, is_space c = false) t →
  Str.split_from cur (t ++ s) = Str.split_from (reverse t ++ cur) s.
Proof.
  revert cur. induction t as [|c t IH]; intros cur Ht; [done|].
  apply Forall_cons in Ht as [Hc Ht]. simpl. rewrite Hc, IH by done.
  by rewrite reverse_cons, <- app_assoc.
Qed.

Lemma split_from_nil cur :
  Str.split_from cur [] = match cur with [] => [] | _ => [reverse cur] end.
Proof. done. Qed.

Lemma split_from_space cur c s :
  is_space c = true →
  Str.split_from cur (c :: s)
  = match cur with [] => [] | _ => [reverse cur] end ++ Str.split_from [] s.
Proof. intros Hc. simpl. rewrite Hc. by destruct cur. Qed.

(** What [split] yields: no empty token, no white space. *)
Lemma split_from_tokens_ok cur s :
  Forall (λ c, is_space c = false) cur → tokens_ok (Str.split_from cur s).
Proof.
  revert cur. induction s as [|c s IH]; intros cur Hcur; simpl.
  - destruct cur as [|x cur]; [constructor|].
    constructor; [|constructor]. split.
    + intros Hnil. apply (f_equal length) in Hnil.
      rewrite length_reverse in Hnil. done.
    + by rewrite Forall_reverse.
  - destruct (is_space c) eqn:Hc.
    + destruct cur as [|x cur]; [by apply IH|].
      constructor; [|by apply IH]. split.
      * intros Hnil. apply (f_equal length) in Hnil.
        rewrite length_reverse in Hnil. done.
      * by rewrite Forall_reverse.
    + apply IH. by constructor.
Qed.

Lemma split_tokens_ok s : tokens_ok (Str.split s).
Proof. by apply split_from_tokens_ok. Qed.

(** The code points of the tokens come from the string. *)
Lemma split_from_elem_of cur s t c :
  t ∈ Str.split_from cur s → c ∈ t → c ∈ cur ∨ c ∈ s.
Proof.
  revert cur. induction s as [|x s IH]; intros cur; simpl.
  - destruct cur as [|y cur]; [by intros ?%elem_of_nil|].
    intros ->%list_elem_of_singleton Hc. left. by rewrite elem_of_reverse in Hc.
  - destruct (is_space x).
    + destruct cur as [|y cur].
      * intros Ht Hc. destruct (IH [] Ht Hc) as [?%elem_of_nil|?]; [done|].
        right. by right.
      * intros [->|Ht]%elem_of_cons Hc.
        -- left. by rewrite elem_of_reverse in Hc.
        -- destruct (IH [] Ht Hc) as [?%elem_of_nil|?]; [done|]. right. by right.
    + intros Ht Hc. destruct (IH (x :: cur) Ht Hc) as [[->|?]%elem_of_cons|?].
      * right. by left.
      * by left.
      * right. by right.
Qed.

Lemma split_elem_of s t c : t ∈ Str.split s → c ∈ t → c ∈ s.
Proof.
  intros Ht Hc. by destruct (split_from_elem_of [] s t c Ht Hc) as [?%elem_of_nil|?].
Qed.

Lemma join_cons t tokens :
  Str.join (t :: tokens)
  = match tokens with [] => t | _ => t ++ 32%N :: Str.join tokens end.
Proof. done. Qed.

(** Splitting a joined list of good tokens gives the tokens back. *)
Lemma split_join tokens :
  is_space 32%N = true → tokens_ok tokens → Str.split (Str.join tokens) = tokens.
Proof.
  intros H32. unfold Str.split. induction 1 as [|t tokens [Hne Ht] Hok IH]; [done|].
  rewrite join_cons. destruct tokens as [|t' tokens].
  - rewrite <- (app_nil_r t) at 1. rewrite split_from_app by done.
    rewrite app_nil_r, split_from_nil.
    destruct (reverse t) eqn:E; [|by rewrite <- E, reverse_involutive].
    apply (f_equal length) in E. rewrite length_reverse in E. by destruct t.
  - rewrite split_from_app by done. rewrite app_nil_r, split_from_space by done.
    rewrite IH. destruct (reverse t) eqn:E.
    + apply (f_equal length) in E. rewrite length_reverse in E. by destruct t.
    + by rewrite <- E, reverse_involutive.
Qed.

Lemma lstrip_non_space c s : is_space c = false → Str.lstrip (c :: s) = c :: s.
Proof. intros Hc. simpl. by rewrite Hc. Qed.

Lemma join_head tokens :
  tokens_ok tokens →
  Str.join tokens = [] ∨ ∃ c s, Str.join tokens = c :: s ∧ is_space c = false.
Proof.
  destruct 1 as [|t tokens [Hne Ht] Hok]; [by left|]. right.
  destruct t as [|c t]; [done|]. apply Forall_cons in Ht as [Hc _].
  rewrite join_cons. destruct tokens; by eauto.
Qed.

Lemma join_last tokens :
  tokens_ok tokens →
  Str.join tokens = [] ∨ ∃ c s, Str.join tokens = s ++ [c] ∧ is_space c = false.
Proof.
  induction 1 as [|t tokens [Hne Ht] Hok IH]; [by left|]. right.
  rewrite join_cons. destruct tokens as [|t' tokens].
  - destruct (reverse t) as [|c r] eqn:E.
    + apply (f_equal length) in E. rewrite length_reverse in E. by destruct t.
    + apply (f_equal reverse) in E. rewrite reverse_involutive, reverse_cons in E.
      exists c, (reverse r). split; [done|].
      rewrite Forall_forall in Ht. apply Ht. rewrite E.
      apply elem_of_app. right. by left.
  - destruct IH as [Hnil|(c & s & Hs & Hc)].
    + apply Forall_cons in Hok as [[Hne' _] _].
      rewrite join_cons in Hnil. destruct t'; [done|]. by destruct tokens.
    + exists c, (t ++ 32%N :: s). split; [|done].
      rewrite Hs. by rewrite <- app_assoc.
Qed.

(** A joined list of good tokens has nothing to strip. *)
Lemma strip_join tokens :
  tokens_ok tokens → Str.strip (Str.join tokens) = Str.join tokens.
Proof.
  intros Hok. unfold Str.strip.
  assert (Hl : Str.lstrip (Str.join tokens) = Str.join tokens).
  { destruct (join_head tokens Hok) as [->|(c & s & -> & Hc)]; [done|].
    by apply lstrip_non_space. }
  rewrite Hl.
  destruct (join_last tokens Hok) as [->|(c & s & -> & Hc)]; [done|].
  rewrite reverse_app, reverse_singleton.
  change ([c] ++ reverse s) with (c :: reverse s).
  rewrite lstrip_non_space by done.
  by rewrite reverse_cons, reverse_involutive.
Qed.

(** [" ".join(s.split())] is a fixed point of itself. *)
Lemma join_split_join tokens :
  is_space 32%N = true → tokens_ok tokens →
  Str.join (Str.split (Str.join tokens)) = Str.join tokens.
Proof. intros. by rewrite split_join. Qed.

End Strings.

Section Replace.
Context `{UnicodeDB}.

Implicit Types (s old new : list N).

Lemma starts_with_elem_of old s c :
  Str.starts_with old s = true → c ∈ old → c ∈ s.
Proof.
  revert s. induction old as [|a old IH]; intros [|b s]; simpl;
    try done; [by intros _ ?%elem_of_nil|].
  rewrite andb_true_iff, N.eqb_eq. intros [-> Hs] [->|Hc]%elem_of_cons.
  - by left.
  - right. by apply IH.
Qed.

(** A pattern holding a code point that the string lacks does not occur
    in it. *)
Lemma replace_from_absent old new s c :
  c ∈ old → c ∉ s → Str.replace_from old new 0 s = s.
Proof.
  intros Hold. induction s as [|x s IH]; intros Hs; [done|]. simpl.
  destruct old as [|a old]; [by apply elem_of_nil in Hold|].
  destruct (Str.starts_with (a :: old) (x :: s)) eqn:E.
  - exfalso. apply Hs. by eapply starts_with_elem_of.
  - f_equal. apply IH. intros ?. apply Hs. by right.
Qed.

Lemma replace_absent old new s c :
  c ∈ old → c ∉ s → Str.replace old new s = s.
Proof. apply replace_from_absent. Qed.

Lemma starts_with_app old s :
  Str.starts_with old s = true → s = old ++ drop (length old) s.
Proof.
  revert s. induction old as [|a old IH]; intros [|b s]; simpl; try done.
  rewrite andb_true_iff, N.eqb_eq. intros [-> Hs]. f_equal. by apply IH.
Qed.

Lemma replace_from_skip old new k s :
  Str.replace_from old new k s = Str.replace_from old new 0 (drop k s).
Proof.
  revert k. induction s as [|x s IH]; intros [|k]; try done.
  simpl. by rewrite IH.
Qed.

(** Replacing a pattern by itself changes nothing. *)
Lemma replace_same old s : old ≠ [] → Str.replace old old s = s.
Proof.
  intros Hold. unfold Str.replace.
  remember (length s) as n eqn:Hn. revert s Hn.
  induction n as [n IH] using lt_wf_ind. intros s ->.
  destruct s as [|x s]; [done|]. simpl.
  destruct old as [|a old]; [done|].
  destruct (Str.starts_with (a :: old) (x :: s)) eqn:E.
  - rewrite replace_from_skip.
    pose proof (starts_with_app _ _ E) as Hs. simpl in Hs.
    injection Hs as -> Hs.
    replace (length (a :: old) - 1)%nat with (length old) by (simpl; lia).
    rewrite (IH (length (drop (length old) s))); [|rewrite length_drop; simpl; lia|done].
    simpl. by rewrite <- Hs.
  - f_equal. apply (IH (length s)); [simpl; lia|done].
Qed.

(** Replacing one code point by another is a map. *)
Lemma replace_char a b s :
  Str.replace [a] [b] s = (λ c, if (a =? c)%N then b else c) <$> s.
Proof.
  unfold Str.replace. induction s as [|x s IH]; [done|]. simpl.
  rewrite andb_true_r. destruct (a =? x)%N; simpl; by rewrite IH.
Qed.

Lemma sub_outside_class_in_class b s :
  Forall (λ c, Str.in_class c = true) (Str.sub_outside_class b s).
Proof.
  revert b. induction s as [|x s IH]; intros b; simpl; [constructor|].
  destruct (Str.in_class x) eqn:E; [by constructor|].
  destruct b; [done|]. by constructor.
Qed.

Lemma sub_outside_class_fixed b s :
  Forall (λ c, Str.in_class c = true) s → Str.sub_outside_class b s = s.
Proof.
  intros Hs. revert b. induction Hs as [|x s Hx Hs IH]; intros b; simpl; [done|].
  by rewrite Hx, IH.
Qed.

Lemma bind_fixed (f : N → list N) s :
  Forall (λ c, f c = [c]) s → s ≫= f = s.
Proof.
  induction 1 as [|x s Hx Hs IH]; [done|].
  rewrite bind_cons, Hx, IH. done.
Qed.

Lemma drop_combining_fixed s :
  Forall (λ c, combining c = false) s → Str.drop_combining s = s.
Proof.
  unfold Str.drop_combining. induction 1 as [|x s Hx Hs IH]; [done|].
  by rewrite filter_cons_True, IH.
Qed.

End Replace.

Section Normalizers.
Context `{UnicodeLaws}.

Implicit Types (s y : list N).

Lemma space_32 : is_space 32%N = true.
Proof. by rewrite space_ascii. Qed.

Lemma in_class_ascii c :
  Str.in_class c = true → (c < 128)%N ∧ ¬ (65 ≤ c ≤ 90)%N.
Proof.
  unfold Str.in_class.
  rewrite !orb_true_iff, !andb_true_iff, !N.leb_le, N.eqb_eq. lia.
Qed.

Lemma in_class_lower c : Str.in_class c = true → lower_char c = [c].
Proof. intros [? ?]%in_class_ascii. by apply lower_ascii_other. Qed.

Lemma in_class_nfkd c : Str.in_class c = true → nfkd_char c = [c].
Proof. intros [? ?]%in_class_ascii. by apply nfkd_ascii. Qed.

Lemma in_class_combining c : Str.in_class c = true → combining c = false.
Proof. intros [? ?]%in_class_ascii. by apply combining_ascii. Qed.

Lemma not_in_class_absent c y :
  Str.in_class c = false → Forall (λ c, Str.in_class c = true) y → c ∉ y.
Proof.
  intros Hc Hy Hin. rewrite Forall_forall in Hy. specialize (Hy c Hin). congruence.
Qed.

Lemma Forall_join (P : N → Prop) tokens :
  P 32%N → Forall (Forall P) tokens → Forall P (Str.join tokens).
Proof.
  intros H32. induction 1 as [|t tokens Ht Hts IH]; [constructor|].
  rewrite join_cons. destruct tokens; [done|].
  apply Forall_app. split; [done|]. by constructor.
Qed.

Lemma Forall_split (P : N → Prop) s :
  Forall P s → Forall (Forall P) (Str.split s).
Proof.
  intros Hs. rewrite Forall_forall. intros t Ht.
  rewrite Forall_forall. intros c Hc.
  rewrite Forall_forall in Hs. apply Hs. by eapply split_elem_of.
Qed.

(** The last two steps of the three normalizers that decompose: the
    result is a joined list of good tokens over the class [[a-z0-9 ]]. *)
Lemma collapse_in_class s :
  Forall (λ c, Str.in_class c = true)
         (Str.join (Str.split (Str.sub_outside_class false s))).
Proof.
  apply Forall_join; [done|].
  apply Forall_split, sub_outside_class_in_class.
Qed.

(** All the steps of the three normalizers leave such a result alone. *)
Section Fixed.
Variable tokens : list (list N).
Hypothesis Hok : tokens_ok tokens.
Hypothesis Hclass : Forall (λ c, Str.in_class c = true) (Str.join tokens).

Lemma fixed_strip : Str.strip (Str.join tokens) = Str.join tokens.
Proof. by apply strip_join. Qed.

Lemma fixed_lower : Str.lower (Str.join tokens) = Str.join tokens.
Proof.
  apply bind_fixed. eapply Forall_impl; [exact Hclass|]. apply in_class_lower.
Qed.

Lemma fixed_nfkd : Str.nfkd (Str.join tokens) = Str.join tokens.
Proof.
  apply bind_fixed. eapply Forall_impl; [exact Hclass|]. apply in_class_nfkd.
Qed.

Lemma fixed_drop_combining :
  Str.drop_combining (Str.join tokens) = Str.join tokens.
Proof.
  apply drop_combining_fixed. eapply Forall_impl; [exact Hclass|].
  apply in_class_combining.
Qed.

Lemma fixed_replace old new c :
  c ∈ old → Str.in_class c = false →
  Str.replace old new (Str.join tokens) = Str.join tokens.
Proof.
  intros Hc Hout. apply (replace_absent old new _ c Hc).
  by apply not_in_class_absent.
Qed.

Lemma fixed_sub :
  Str.sub_outside_class false (Str.join tokens) = Str.join tokens.
Proof. by apply sub_outside_class_fixed. Qed.

Lemma fixed_collapse :
  Str.join (Str.split (Str.join tokens)) = Str.join tokens.
Proof. apply join_split_join; [apply space_32|done]. Qed.

End Fixed.

Lemma paren_outside : Str.in_class 40%N = false.
Proof. done. Qed.

Lemma underscore_outside : Str.in_class 95%N = false.
Proof. done. Qed.

Lemma e_acute_outside : Str.in_class e_acute = false.
Proof. done. Qed.

Lemma flow_normalize_idempotent (x : option (list N)) :
  FlowText.normalize_text (Some (FlowText.normalize_text x)) = FlowText.normalize_text x.
Proof.
  destruct x as [v|]; [|by vm_compute].
  unfold FlowText.normalize_text at 2 3.
  set (tokens := Str.split _).
  assert (Hok : tokens_ok tokens) by apply split_tokens_ok.
  assert (Hclass : Forall (λ c, Str.in_class c = true) (Str.join tokens))
    by apply collapse_in_class.
  unfold FlowText.normalize_text.
  rewrite (fixed_strip tokens Hok), (fixed_lower tokens Hclass),
    (fixed_nfkd tokens Hclass), (fixed_drop_combining tokens Hclass).
  rewrite (fixed_replace tokens Hclass _ _ e_acute) by (done || (vm_compute; set_solver)).
  rewrite (fixed_replace tokens Hclass _ _ 40%N) by (done || (vm_compute; set_solver)).
  rewrite (fixed_replace tokens Hclass _ _ 95%N) by (done || (vm_compute; set_solver)).
  rewrite (fixed_sub tokens Hclass). by apply fixed_collapse.
Qed.

Lemma volume_normalize_idempotent (x : option (list N)) :
  VolumeText.normalize_text (Some (VolumeText.normalize_text x))
  = VolumeText.normalize_text x.
Proof.
  destruct x as [v|]; [|by vm_compute].
  unfold VolumeText.normalize_text at 2 3.
  set (tokens := Str.split _).
  assert (Hok : tokens_ok tokens) by apply split_tokens_ok.
  assert (Hclass : Forall (λ c, Str.in_class c = true) (Str.join tokens))
    by apply collapse_in_class.
  unfold VolumeText.normalize_text.
  rewrite (fixed_strip tokens Hok), (fixed_lower tokens Hclass),
    (fixed_nfkd tokens Hclass), (fixed_drop_combining tokens Hclass).
  rewrite (fixed_replace tokens Hclass _ _ 95%N) by (done || (vm_compute; set_solver)).
  rewrite !(fixed_replace tokens Hclass _ _ 40%N) by (done || (vm_compute; set_solver)).
  rewrite (fixed_sub tokens Hclass). by apply fixed_collapse.
Qed.

Lemma ui_normalize_idempotent (x : option (list N)) :
  UIText.normalize_text (Some (UIText.normalize_text x)) = UIText.normalize_text x.
Proof.
  destruct x as [v|]; [|by vm_compute].
  unfold UIText.normalize_text at 2 3.
  set (tokens := Str.split _).
  assert (Hok : tokens_ok tokens) by apply split_tokens_ok.
  assert (Hclass : Forall (λ c, Str.in_class c = true) (Str.join tokens))
    by apply collapse_in_class.
  unfold UIText.normalize_text.
  rewrite (fixed_strip tokens Hok), (fixed_lower tokens Hclass),
    (fixed_nfkd tokens Hclass), (fixed_drop_combining tokens Hclass).
  rewrite (fixed_replace tokens Hclass _ _ e_acute) by (done || (vm_compute; set_solver)).
  rewrite replace_same by done.
  rewrite !(fixed_replace tokens Hclass _ _ 40%N) by (done || (vm_compute; set_solver)).
  rewrite (fixed_replace tokens Hclass _ _ 95%N) by (done || (vm_compute; set_solver)).
  rewrite (fixed_sub tokens Hclass). by apply fixed_collapse.
Qed.

(** The observed-precipitation normalizer: its result is a joined list
    of good tokens whose code points are stable under [lower] and differ
    from the underscore. *)
Lemma lower_stable_Forall s :
  Forall (λ c, lower_char c = [c]) (Str.lower s).
Proof.
  rewrite Forall_forall. intros c' Hc'.
  apply list_elem_of_bind in Hc' as (c & Hc' & _). by eapply lower_stable.
Qed.

Lemma precip_obs_normalize_idempotent (x : option (list N)) :
  PrecipObsText.normalize_text (Some (PrecipObsText.normalize_text x))
  = PrecipObsText.normalize_text x.
Proof.
  destruct x as [v|]; [|by vm_compute].
  unfold PrecipObsText.normalize_text at 2 3.
  set (inner := Str.replace (u "_") (u " ") (Str.lower (Str.strip v))).
  set (tokens := Str.split inner).
  assert (Hok : tokens_ok tokens) by apply split_tokens_ok.
  assert (Hinner : Forall (λ c, lower_char c = [c] ∧ c ≠ 95%N) inner).
  { unfold inner. change (u "_") with [95%N]. change (u " ") with [32%N].
    rewrite replace_char. apply Forall_fmap.
    eapply Forall_impl; [apply lower_stable_Forall|]. intros c Hc.
    cbv beta delta [compose] in *.
    destruct (N.eqb_spec 95 c) as [<-|Hne].
    - split; [apply lower_ascii_other; lia|done].
    - by split. }
  assert (Hy : Forall (λ c, lower_char c = [c] ∧ c ≠ 95%N) (Str.join tokens)).
  { apply Forall_join; [split; [apply lower_ascii_other; lia|done]|].
    by apply Forall_split. }
  unfold PrecipObsText.normalize_text.
  rewrite (strip_join tokens Hok).
  assert (Hlow : Str.lower (Str.join tokens) = Str.join tokens).
  { apply bind_fixed. eapply Forall_impl; [exact Hy|]. by intros c [? ?]. }
  rewrite Hlow.
  rewrite (replace_absent _ _ _ 95%N); [| by vm_compute; left |].
  - apply join_split_join; [apply space_32|done].
  - intros Hin. rewrite Forall_forall in Hy. by destruct (Hy _ Hin).
Qed.

(** Case: the ASCII capitals of a string do not matter. *)
Lemma is_space_upper c :
  is_space (if ((97 <=? c) && (c <=? 122))%N then (c - 32)%N else c) = is_space c.
Proof.
  destruct ((97 <=? c) && (c <=? 122))%N eqn:E; [|done].
  apply andb_true_iff in E as [?%N.leb_le ?%N.leb_le].
  rewrite !space_ascii by lia.
  replace (9 <=? c - 32)%N with true by (symmetry; apply N.leb_le; lia).
  replace (c - 32 <=? 13)%N with false by (symmetry; apply N.leb_gt; lia).
  replace (28 <=? c - 32)%N with true by (symmetry; apply N.leb_le; lia).
  replace (c - 32 <=? 32)%N with false by (symmetry; apply N.leb_gt; lia).
  replace (c <=? 13)%N with false by (symmetry; apply N.leb_gt; lia).
  replace (c <=? 32)%N with false by (symmetry; apply N.leb_gt; lia).
  by rewrite !andb_false_r.
Qed.

Lemma lstrip_upper s : Str.lstrip (upper_ascii s) = upper_ascii (Str.lstrip s).
Proof.
  unfold upper_ascii. induction s as [|c s IH]; [done|].
  cbn [fmap list_fmap Str.lstrip]. rewrite is_space_upper.
  destruct (is_space c); [apply IH|done].
Qed.

Lemma strip_upper s : Str.strip (upper_ascii s) = upper_ascii (Str.strip s).
Proof.
  unfold Str.strip. rewrite lstrip_upper.
  unfold upper_ascii at 1. rewrite <- fmap_reverse. fold (upper_ascii (reverse (Str.lstrip s))).
  rewrite lstrip_upper. unfold upper_ascii. by rewrite fmap_reverse.
Qed.

Lemma lower_char_upper c :
  lower_char (if ((97 <=? c) && (c <=? 122))%N then (c - 32)%N else c) = lower_char c.
Proof.
  destruct ((97 <=? c) && (c <=? 122))%N eqn:E; [|done].
  apply andb_true_iff in E as [?%N.leb_le ?%N.leb_le].
  rewrite lower_ascii_upper by lia. rewrite lower_ascii_other by lia.
  f_equal. lia.
Qed.

Lemma lower_upper s : Str.lower (upper_ascii s) = Str.lower s.
Proof.
  unfold Str.lower, upper_ascii. induction s as [|c s IH]; [done|].
  rewrite fmap_cons, !bind_cons, IH. by rewrite lower_char_upper.
Qed.

Lemma normalizers_ignore_case (normalize : option (list N) → list N) s :
  normalize ∈ normalizers → normalize (Some (upper_ascii s)) = normalize (Some s).
Proof.
  unfold normalizers. rewrite !elem_of_cons, elem_of_nil.
  intros [->|[->|[->|[->|[]]]]];
    unfold FlowText.normalize_text, VolumeText.normalize_text,
      PrecipObsText.normalize_text, UIText.normalize_text;
    by rewrite strip_upper, lower_upper.
Qed.

Lemma normalizers_idempotent (normalize : option (list N) → list N) x :
  normalize ∈ normalizers → normalize (Some (normalize x)) = normalize x.
Proof.
  unfold normalizers. rewrite !elem_of_cons, elem_of_nil.
  intros [->|[->|[->|[->|[]]]]].
  - apply flow_normalize_idempotent.
  - apply volume_normalize_idempotent.
  - apply precip_obs_normalize_idempotent.
  - apply ui_normalize_idempotent.
Qed.

End Normalizers.

(** ** Agreement of a lawful database with the Latin-1 tables *)

Lemma ascii_cases (P : N → Prop) :
  Forall P ascii_points → ∀ c, (c < 128)%N → P c.
Proof.
  intros HP c Hc. rewrite Forall_forall in HP. apply HP.
  unfold ascii_points. apply list_elem_of_fmap. exists (N.to_nat c). split.
  - by rewrite N2Nat.id.
  - apply elem_of_seq. lia.
Qed.

Lemma latin1_lower_ascii c :
  (c < 128)%N →
  Latin1.lower_char c = (if ((65 <=? c) && (c <=? 90))%N then [(c + 32)%N] else [c])
  ∧ Forall plain (Latin1.lower_char c).
Proof.
  revert c.
  apply (ascii_cases (λ c,
    Latin1.lower_char c
      = (if ((65 <=? c) && (c <=? 90))%N then [(c + 32)%N] else [c])
    ∧ Forall plain (Latin1.lower_char c))).
  apply (bool_decide_unpack _). by vm_compute.
Qed.

Lemma latin1_nfkd_ascii c :
  (c < 128)%N → Latin1.nfkd_char c = [c].
Proof.
  revert c. apply (ascii_cases (λ c, Latin1.nfkd_char c = [c])).
  apply (bool_decide_unpack _). by vm_compute.
Qed.

Lemma latin1_space_ascii c :
  (c < 128)%N →
  Latin1.is_space c = ((9 <=? c) && (c <=? 13) || (28 <=? c) && (c <=? 32))%N.
Proof.
  revert c.
  apply (ascii_cases (λ c, Latin1.is_space c
           = ((9 <=? c) && (c <=? 13) || (28 <=? c) && (c <=? 32))%N)).
  apply (bool_decide_unpack _). by vm_compute.
Qed.

Lemma latin1_combining_ascii c : (c < 128)%N → Latin1.combining c = false.
Proof.
  revert c. apply (ascii_cases (λ c, Latin1.combining c = false)).
  apply (bool_decide_unpack _). by vm_compute.
Qed.

(** The Latin-1 tables satisfy the laws. *)
#[global] Instance latin1_laws : @UnicodeLaws latin1_db.
Proof.
  split; simpl.
  - intros c Hc. destruct (latin1_lower_ascii c) as [-> _]; [lia|].
    replace ((65 <=? c) && (c <=? 90))%N with true; [done|].
    symmetry. apply andb_true_iff. split; apply N.leb_le; lia.
  - intros c Hc Hn. destruct (latin1_lower_ascii c Hc) as [-> _].
    replace ((65 <=? c) && (c <=? 90))%N with false; [done|].
    symmetry. apply andb_false_iff.
    destruct (N.leb_spec 65 c); [right; apply N.leb_gt; lia|by left].
  - intros c c'. unfold Latin1.lower_char.
    destruct ((65 <=? c) && (c <=? 90))%N eqn:E1.
    { apply andb_true_iff in E1 as [?%N.leb_le ?%N.leb_le].
      intros ->%list_elem_of_singleton.
      replace ((65 <=? c + 32) && (c + 32 <=? 90))%N with false
        by (symmetry; apply andb_false_iff; right; apply N.leb_gt; lia).
      replace ((192 <=? c + 32) && (c + 32 <=? 222) && negb (c + 32 =? 215))%N
        with false; [done|].
      symmetry. rewrite !andb_false_iff. left. left. apply N.leb_gt. lia. }
    destruct ((192 <=? c) && (c <=? 222) && negb (c =? 215))%N eqn:E2.
    { apply andb_true_iff in E2 as [[?%N.leb_le ?%N.leb_le]%andb_true_iff _].
      intros ->%list_elem_of_singleton.
      replace ((65 <=? c + 32) && (c + 32 <=? 90))%N with false
        by (symmetry; apply andb_false_iff; right; apply N.leb_gt; lia).
      replace ((192 <=? c + 32) && (c + 32 <=? 222) && negb (c + 32 =? 215))%N
        with false; [done|].
      symmetry. rewrite !andb_false_iff. left. right. apply N.leb_gt. lia. }
    intros ->%list_elem_of_singleton. by rewrite E1, E2.
  - intros c c' Hs. unfold Latin1.lower_char, Latin1.is_space in *.
    destruct ((65 <=? c) && (c <=? 90))%N eqn:E1.
    { apply andb_true_iff in E1 as [?%N.leb_le ?%N.leb_le].
      intros ->%list_elem_of_singleton.
      rewrite !orb_false_iff, !andb_false_iff, !N.leb_gt, !N.eqb_neq. lia. }
    destruct ((192 <=? c) && (c <=? 222) && negb (c =? 215))%N eqn:E2.
    { apply andb_true_iff in E2 as [[?%N.leb_le ?%N.leb_le]%andb_true_iff _].
      intros ->%list_elem_of_singleton.
      rewrite !orb_false_iff, !andb_false_iff, !N.leb_gt, !N.eqb_neq. lia. }
    by intros ->%list_elem_of_singleton.
  - apply latin1_nfkd_ascii.
  - apply latin1_combining_ascii.
  - apply latin1_space_ascii.
  - done.
  - done.
  - done.
  - done.
Qed.

Section Agreement.
Context `{UnicodeLaws}.

Implicit Types (s : list N).

Lemma agree_space c : plain c → is_space c = Latin1.is_space c.
Proof.
  intros [Hc| ->].
  - by rewrite space_ascii, latin1_space_ascii.
  - by rewrite e_acute_no_space.
Qed.

Lemma agree_lower c :
  plain c → lower_char c = Latin1.lower_char c ∧ Forall plain (lower_char c).
Proof.
  intros [Hc| ->].
  - destruct (latin1_lower_ascii c Hc) as [Heq Hpl].
    assert (Hl : lower_char c = Latin1.lower_char c).
    { rewrite Heq. destruct ((65 <=? c) && (c <=? 90))%N eqn:E.
      - apply andb_true_iff in E as [?%N.leb_le ?%N.leb_le].
        by apply lower_ascii_upper.
      - apply lower_ascii_other; [done|].
        apply andb_false_iff in E as [?%N.leb_gt|?%N.leb_gt]; lia. }
    by rewrite Hl.
  - rewrite lower_e_acute. split; [done|]. constructor; [by right|constructor].
Qed.

Lemma agree_nfkd c :
  plain c → nfkd_char c = Latin1.nfkd_char c ∧ Forall decomposed (nfkd_char c).
Proof.
  intros [Hc| ->].
  - rewrite nfkd_ascii, latin1_nfkd_ascii by done. split; [done|].
    constructor; [by left|constructor].
  - rewrite nfkd_e_acute. split; [done|].
    constructor; [by left|]. constructor; [by right|constructor].
Qed.

Lemma agree_combining c : decomposed c → combining c = Latin1.combining c.
Proof.
  intros [Hc| ->].
  - by rewrite combining_ascii, latin1_combining_ascii.
  - by rewrite combining_acute.
Qed.

Lemma lstrip_agree s :
  Forall plain s →
  Str.lstrip s = @Str.lstrip latin1_db s ∧ Forall plain (Str.lstrip s).
Proof.
  induction 1 as [|c s Hc Hs IH]; [done|]. cbn [Str.lstrip].
  change (@is_space latin1_db c) with (Latin1.is_space c).
  rewrite (agree_space c Hc). destruct (Latin1.is_space c); [done|].
  split; [done|by constructor].
Qed.

Lemma strip_agree s :
  Forall plain s →
  Str.strip s = @Str.strip latin1_db s ∧ Forall plain (Str.strip s).
Proof.
  intros Hs. unfold Str.strip.
  destruct (lstrip_agree s Hs) as [<- Hl].
  assert (Hr : Forall plain (reverse (Str.lstrip s))) by (by apply Forall_reverse).
  destruct (lstrip_agree _ Hr) as [<- Hl'].
  split; [done|by apply Forall_reverse].
Qed.

Lemma lower_agree s :
  Forall plain s →
  Str.lower s = @Str.lower latin1_db s ∧ Forall plain (Str.lower s).
Proof.
  unfold Str.lower. induction 1 as [|c s Hc Hs [IH1 IH2]]; [done|].
  rewrite !bind_cons. destruct (agree_lower c Hc) as [Heq Hpl].
  change (@lower_char latin1_db c) with (Latin1.lower_char c).
  rewrite <- Heq, <- IH1. split; [done|]. by apply Forall_app.
Qed.

Lemma nfkd_agree s :
  Forall plain s →
  Str.nfkd s = @Str.nfkd latin1_db s ∧ Forall decomposed (Str.nfkd s).
Proof.
  unfold Str.nfkd. induction 1 as [|c s Hc Hs [IH1 IH2]]; [done|].
  rewrite !bind_cons. destruct (agree_nfkd c Hc) as [Heq Hpl].
  change (@nfkd_char latin1_db c) with (Latin1.nfkd_char c).
  rewrite <- Heq, <- IH1. split; [done|]. by apply Forall_app.
Qed.

Lemma drop_combining_agree s :
  Forall decomposed s → Str.drop_combining s = @Str.drop_combining latin1_db s.
Proof.
  unfold Str.drop_combining. induction 1 as [|c s Hc Hs IH]; [done|].
  rewrite !filter_cons. change (@combining latin1_db c) with (Latin1.combining c).
  rewrite (agree_combining c Hc), IH. done.
Qed.

Lemma split_from_agree cur s :
  Forall plain s → Str.split_from cur s = @Str.split_from latin1_db cur s.
Proof.
  intros Hs. revert cur. induction Hs as [|c s Hc Hs IH]; intros cur; [done|].
  cbn [Str.split_from]. change (@is_space latin1_db c) with (Latin1.is_space c).
  rewrite (agree_space c Hc), !IH. done.
Qed.

Lemma split_agree s : Forall plain s → Str.split s = @Str.split latin1_db s.
Proof. apply split_from_agree. Qed.

Lemma in_class_plain s : Forall (λ c, Str.in_class c = true) s → Forall plain s.
Proof.
  intros Hs. eapply Forall_impl; [exact Hs|].
  intros c [? ?]%in_class_ascii. by left.
Qed.

Lemma collapse_agree s :
  Str.join (Str.split (Str.sub_outside_class false s))
  = Str.join (@Str.split latin1_db (Str.sub_outside_class false s)).
Proof.
  rewrite split_agree; [done|]. apply in_class_plain, sub_outside_class_in_class.
Qed.

Lemma replace_char_plain a b s :
  plain b → Forall plain s → Forall plain (Str.replace [a] [b] s).
Proof.
  intros Hb Hs. rewrite replace_char. apply Forall_fmap.
  eapply Forall_impl; [exact Hs|]. intros c Hc. cbv beta delta [compose].
  by destruct (a =? c)%N.
Qed.

(** On strings of ASCII and U+00E9 the normalizers are those of the
    Latin-1 tables. *)
Lemma flow_normalize_agree s :
  Forall plain s →
  FlowText.normalize_text (Some s) = @FlowText.normalize_text latin1_db (Some s).
Proof.
  intros Hs. unfold FlowText.normalize_text.
  destruct (strip_agree s Hs) as [<- H1].
  destruct (lower_agree _ H1) as [<- H2].
  destruct (nfkd_agree _ H2) as [<- H3].
  rewrite <- (drop_combining_agree _ H3). apply collapse_agree.
Qed.

Lemma volume_normalize_agree s :
  Forall plain s →
  VolumeText.normalize_text (Some s) = @VolumeText.normalize_text latin1_db (Some s).
Proof.
  intros Hs. unfold VolumeText.normalize_text.
  destruct (strip_agree s Hs) as [<- H1].
  destruct (lower_agree _ H1) as [<- H2].
  destruct (nfkd_agree _ H2) as [<- H3].
  rewrite <- (drop_combining_agree _ H3). apply collapse_agree.
Qed.

Lemma ui_normalize_agree s :
  Forall plain s →
  UIText.normalize_text (Some s) = @UIText.normalize_text latin1_db (Some s).
Proof.
  intros Hs. unfold UIText.normalize_text.
  destruct (strip_agree s Hs) as [<- H1].
  destruct (lower_agree _ H1) as [<- H2].
  destruct (nfkd_agree _ H2) as [<- H3].
  rewrite <- (drop_combining_agree _ H3). apply collapse_agree.
Qed.

Lemma precip_obs_normalize_agree s :
  Forall plain s →
  PrecipObsText.normalize_text (Some s)
  = @PrecipObsText.normalize_text latin1_db (Some s).
Proof.
  intros Hs. unfold PrecipObsText.normalize_text.
  destruct (strip_agree s Hs) as [<- H1].
  destruct (lower_agree _ H1) as [<- H2].
  rewrite split_agree; [done|].
  apply replace_char_plain; [by left|done].
Qed.

End Agreement.

Lemma plain_debit_label : Forall plain debit_label.
Proof. apply (bool_decide_unpack _). by vm_compute. Qed.

Lemma plain_ascii_literal (s : string) :
  forallb (λ c, c <? 128)%N (u s) = true → Forall plain (u s).
Proof.
  intros Hall. rewrite Forall_forall. intros c Hc.
  left. apply N.ltb_lt.
  rewrite forallb_forall in Hall. apply Hall. by apply list_elem_of_In.
Qed.

(** C4, as the code has it.  The normalizers of the flow, volume and
    observed-precipitation scripts and of the front end are idempotent and
    ignore the case of the ASCII letters.  The flow normalizer and the one
    of the front end also drop diacritics and the unit [(m3/s)], so that
    [Débit (m3/s)] and [debit] both normalize to [debit]; the volume
    normalizer drops diacritics but knows the volume units only, giving
    [debit m3 s]; the observed-precipitation normalizer keeps diacritics
    and units and returns [débit (m3/s)]. *)
Theorem C4_text_normalizers `{UnicodeLaws} :
  (∀ normalize x,
     normalize ∈ normalizers → normalize (Some (normalize x)) = normalize x)
  ∧ (∀ normalize s,
       normalize ∈ normalizers →
       normalize (Some (upper_ascii s)) = normalize (Some s))
  ∧ FlowText.normalize_text (Some debit_label) = u "debit"
  ∧ FlowText.normalize_text (Some (u "debit")) = u "debit"
  ∧ UIText.normalize_text (Some debit_label) = u "debit"
  ∧ UIText.normalize_text (Some (u "debit")) = u "debit"
  ∧ VolumeText.normalize_text (Some (u "D" ++ e_acute :: u "bit")) = u "debit"
  ∧ VolumeText.normalize_text (Some (u "debit")) = u "debit"
  ∧ VolumeText.normalize_text (Some debit_label) = u "debit m3 s"
  ∧ PrecipObsText.normalize_text (Some debit_label)
    = u "d" ++ e_acute :: u "bit (m3/s)"
  ∧ PrecipObsText.normalize_text (Some (u "DEBIT")) = u "debit".
Proof.
  assert (Hd : Forall plain (u "debit")) by (by apply plain_ascii_literal).
  assert (Hacc : Forall plain (u "D" ++ e_acute :: u "bit"))
    by (apply (bool_decide_unpack _); by vm_compute).
  assert (Hup : Forall plain (u "DEBIT")) by (by apply plain_ascii_literal).
  split_and!.
  - intros normalize x Hn. by apply normalizers_idempotent.
  - intros normalize s Hn. by apply normalizers_ignore_case.
  - rewrite flow_normalize_agree by apply plain_debit_label. by vm_compute.
  - rewrite flow_normalize_agree by done. by vm_compute.
  - rewrite ui_normalize_agree by apply plain_debit_label. by vm_compute.
  - rewrite ui_normalize_agree by done. by vm_compute.
  - rewrite volume_normalize_agree by done. by vm_compute.
  - rewrite volume_normalize_agree by done. by vm_compute.
  - rewrite volume_normalize_agree by apply plain_debit_label. by vm_compute.
  - rewrite precip_obs_normalize_agree by apply plain_debit_label. by vm_compute.
  - rewrite precip_obs_normalize_agree by done. by vm_compute.
Qed.

Lemma C4_text_normalizers_witness :
  @FlowText.normalize_text latin1_db (Some debit_label) = u "debit"
  ∧ @FlowText.normalize_text latin1_db
      (Some (@FlowText.normalize_text latin1_db (Some debit_label)))
    = @FlowText.normalize_text latin1_db (Some debit_label).
Proof.
  pose proof (@C4_text_normalizers latin1_db latin1_laws) as (Hidem & _ & Hex & _).
  split; [exact Hex|].
  apply Hidem. unfold normalizers. by left.
Defined.

(** The observed-precipitation normalizer tells [Débit (m3/s)] from
    [debit], and even [Débit] from [debit]; the volume normalizer tells
    [Débit (m3/s)] from [debit]. *)
Lemma C4_precip_observed_keeps_diacritics :
  @PrecipObsText.normalize_text latin1_db ∈ @normalizers latin1_db
  ∧ @PrecipObsText.normalize_text latin1_db (Some debit_label)
    ≠ @PrecipObsText.normalize_text latin1_db (Some (u "debit"))
  ∧ @PrecipObsText.normalize_text latin1_db (Some (u "D" ++ e_acute :: u "bit"))
    ≠ @PrecipObsText.normalize_text latin1_db (Some (u "debit"))
  ∧ @VolumeText.normalize_text latin1_db (Some debit_label)
    ≠ @VolumeText.normalize_text latin1_db (Some (u "debit"))
  ∧ ¬ (∀ (db : UnicodeDB) (laws : @UnicodeLaws db) normalize,
         normalize ∈ @normalizers db →
         normalize (Some debit_label) = normalize (Some (u "debit"))).
Proof.
  assert (Hin : @PrecipObsText.normalize_text latin1_db ∈ @normalizers latin1_db).
  { unfold normalizers. do 2 right. by left. }
  split_and!; [done|by vm_compute|by vm_compute|by vm_compute|].
  intros Hall. specialize (Hall latin1_db latin1_laws _ Hin).
  by vm_compute in Hall.
Qed.

(** ** Format adapters *)

Lemma count_char_occ (ch : N) (s : list N) :
  FlowAdapter.count_char ch s = count_occ N.eq_dec s ch.
Proof.
  unfold FlowAdapter.count_char. induction s as [|c s IH]; [done|].
  rewrite filter_cons. simpl. destruct (N.eq_dec c ch) as [->|Hne].
  - rewrite decide_True by done. simpl. by rewrite IH.
  - by rewrite decide_False.
Qed.

Lemma parse_html_xls_few_rows (table_rows : list (list (list N))) :
  (length (kept_rows table_rows) < 2)%nat →
  FlowAdapter.parse_html_xls table_rows
  = Raise (ValueError "Could not parse HTML table from .xls input.").
Proof.
  intros Hlen. unfold FlowAdapter.parse_html_xls. fold (kept_rows table_rows).
  by rewrite bool_decide_true.
Qed.

Lemma parse_html_xls_rows (table_rows : list (list (list N))) header data :
  kept_rows table_rows = header :: data → data ≠ [] →
  FlowAdapter.parse_html_xls table_rows
  = Ok (mkWide header
          ((λ r : list (list N), CStr <$> r)
             <$> filter (λ r, length r = length header) data)).
Proof.
  intros Hrows Hdata. unfold FlowAdapter.parse_html_xls.
  fold (kept_rows table_rows). rewrite Hrows.
  rewrite bool_decide_false; [done|]. destruct data; [done|]. simpl. lia.
Qed.

Lemma parse_csv_spec (read_csv : list (list N) → N → wide_frame)
    (first_line : list N) (rest : list (list N)) :
  let lines := first_line :: rest in
  let raw := read_csv lines (inferred_sep first_line) in
  FlowAdapter.parse_csv read_csv lines
  = if bool_decide (wide_width raw < 2)%nat
    then Raise (ValueError "CSV needs one time column + station columns.")
    else Ok (melt raw).
Proof.
  unfold FlowAdapter.parse_csv, inferred_sep. by rewrite !count_char_occ.
Qed.

Lemma flow_main_uncaught (stages : workbook → result stage_outcome)
    (a : args) (run_id : string) (fs : gmap string file) :
  (∀ wb, raises (stages wb)) → (FlowMain.main stages a run_id fs).1 ≠ 0.
Proof.
  intros Hraise. unfold FlowMain.main, FlowMain.produce.
  repeat case_bool_decide; try done.
  destruct (load_workbook _ _) as [wb|]; [|done].
  repeat case_bool_decide; try done.
  destruct (Hraise wb) as [e ->]. done.
Qed.

(** C9, as the code has it.  The HTML-table adapter raises a
    [ValueError] when fewer than 2 non-empty table rows are parsed, and
    otherwise returns the first row as header with the later rows of the
    header's width, whatever that width, one column included.  The CSV
    adapter raises a [ValueError] when the table read with the inferred
    separator has fewer than 2 columns, and otherwise returns the melted
    table, whatever its number of rows; on a file without any line it
    raises an [IndexError].  An exception of the input stage is not
    caught and the run of that file ends with a non-zero status. *)
Theorem C9_adapter_errors :
  (∀ table_rows,
     (length (kept_rows table_rows) < 2)%nat →
     raises (FlowAdapter.parse_html_xls table_rows))
  ∧ (∀ table_rows header data,
       kept_rows table_rows = header :: data → data ≠ [] →
       FlowAdapter.parse_html_xls table_rows
       = Ok (mkWide header
               ((λ r : list (list N), CStr <$> r)
                  <$> filter (λ r, length r = length header) data)))
  ∧ (∀ read_csv first_line rest,
       (wide_width (read_csv (first_line :: rest) (inferred_sep first_line)) < 2)%nat →
       raises (FlowAdapter.parse_csv read_csv (first_line :: rest)))
  ∧ (∀ read_csv first_line rest,
       (2 ≤ wide_width (read_csv (first_line :: rest) (inferred_sep first_line)))%nat →
       FlowAdapter.parse_csv read_csv (first_line :: rest)
       = Ok (melt (read_csv (first_line :: rest) (inferred_sep first_line))))
  ∧ (∀ read_csv, FlowAdapter.parse_csv read_csv [] = Raise IndexError)
  ∧ (∀ stages a run_id fs,
       (∀ wb, raises (stages wb)) → (FlowMain.main stages a run_id fs).1 ≠ 0).
Proof.
  split_and!.
  - intros table_rows Hlen. eexists. by apply parse_html_xls_few_rows.
  - apply parse_html_xls_rows.
  - intros read_csv first_line rest Hw. rewrite parse_csv_spec.
    rewrite bool_decide_true by done. by eexists.
  - intros read_csv first_line rest Hw. rewrite parse_csv_spec.
    rewrite bool_decide_false by lia. done.
  - done.
  - apply flow_main_uncaught.
Qed.

Lemma C9_adapter_errors_witness :
  (length (kept_rows [[u "Date"; u "A"]; []]) < 2)%nat
  ∧ raises (FlowAdapter.parse_html_xls [[u "Date"; u "A"]; []]).
Proof.
  assert (Hlen : (length (kept_rows [[u "Date"; u "A"]; []]) < 2)%nat)
    by (vm_compute; lia).
  split; [exact Hlen|].
  exact (proj1 C9_adapter_errors [[u "Date"; u "A"]; []] Hlen).
Defined.

(** A table of one column and two rows: fewer than 2 columns, and the
    HTML-table adapter returns a frame instead of raising.  A CSV table
    of two columns without any data row: fewer than 2 rows, and the CSV
    adapter returns the empty long frame instead of raising. *)
Lemma C9_html_adapter_accepts_one_column :
  FlowAdapter.parse_html_xls [[u "Date"]; [u "01/01/2024"]]
  = Ok (mkWide [u "Date"] [[CStr (u "01/01/2024")]])
  ∧ (wide_width (mkWide [u "Date"] [[CStr (u "01/01/2024")]]) < 2)%nat
  ∧ ¬ raises (FlowAdapter.parse_html_xls [[u "Date"]; [u "01/01/2024"]])
  ∧ FlowAdapter.parse_csv (reads (mkWide [u "Date"; u "A"] [])) [u "Date;A"]
    = Ok []
  ∧ ¬ raises (FlowAdapter.parse_csv (reads (mkWide [u "Date"; u "A"] []))
                [u "Date;A"]).
Proof.
  split_and!.
  - by vm_compute.
  - vm_compute. lia.
  - intros [e He]. by vm_compute in He.
  - by vm_compute.
  - intros [e He]. by vm_compute in He.
Qed.

(** ** Strict mode *)

Lemma last_char_app_lit (s t : string) (c : ascii) :
  last_char t = Some c → last_char (s ++ t) = Some c.
Proof.
  intros Ht. induction s as [|x s IH]; [done|].
  change (String x s ++ t)%string with (String x (s ++ t)).
  simpl. destruct (s ++ t)%string eqn:E; [by simpl in IH|done].
Qed.

Lemma path_neq_suffix (p q : string) (c d : ascii) :
  last_char p = Some c → last_char q = Some d → c ≠ d → p ≠ q.
Proof. intros Hp Hq Hcd ->. congruence. Qed.

Ltac solve_last :=
  unfold FlowMain.out_xlsx, FlowMain.out_json, FlowMain.out_txt, FlowMain.log_path,
    FlowMain.base, PrecipObsMain.out_xlsx, PrecipObsMain.out_json,
    PrecipObsMain.out_txt, PrecipObsMain.log_path, PrecipObsMain.base,
    VolumeMain.out_xlsx, VolumeMain.out_json, VolumeMain.out_txt,
    VolumeMain.log_path, VolumeMain.base, PrecipModelMain.output_xlsx,
    PrecipModelMain.report_json, PrecipModelMain.report_txt,
    PrecipModelMain.log_path, PrecipModelMain.base_stem, path_join;
  repeat (apply last_char_app_lit); reflexivity.

Ltac path_neq :=
  eapply path_neq_suffix; [solve_last|solve_last|discriminate].

Lemma flow_paths_distinct a r :
  FlowMain.out_xlsx a r ≠ FlowMain.log_path a r
  ∧ FlowMain.out_json a r ≠ FlowMain.log_path a r
  ∧ FlowMain.out_txt a r ≠ FlowMain.log_path a r
  ∧ FlowMain.out_json a r ≠ FlowMain.out_xlsx a r
  ∧ FlowMain.out_txt a r ≠ FlowMain.out_xlsx a r
  ∧ FlowMain.out_txt a r ≠ FlowMain.out_json a r.
Proof. split_and!; path_neq. Qed.

Lemma precip_obs_paths_distinct a r :
  PrecipObsMain.out_xlsx a r ≠ PrecipObsMain.log_path a r
  ∧ PrecipObsMain.out_json a r ≠ PrecipObsMain.log_path a r
  ∧ PrecipObsMain.out_txt a r ≠ PrecipObsMain.log_path a r
  ∧ PrecipObsMain.out_json a r ≠ PrecipObsMain.out_xlsx a r
  ∧ PrecipObsMain.out_txt a r ≠ PrecipObsMain.out_xlsx a r
  ∧ PrecipObsMain.out_txt a r ≠ PrecipObsMain.out_json a r.
Proof. split_and!; path_neq. Qed.

Lemma volume_paths_distinct a r :
  VolumeMain.out_xlsx a r ≠ VolumeMain.log_path a r
  ∧ VolumeMain.out_json a r ≠ VolumeMain.log_path a r
  ∧ VolumeMain.out_txt a r ≠ VolumeMain.log_path a r
  ∧ VolumeMain.out_json a r ≠ VolumeMain.out_xlsx a r
  ∧ VolumeMain.out_txt a r ≠ VolumeMain.out_xlsx a r
  ∧ VolumeMain.out_txt a r ≠ VolumeMain.out_json a r.
Proof. split_and!; path_neq. Qed.

Lemma precip_model_paths_distinct a r :
  PrecipModelMain.output_xlsx a r ≠ PrecipModelMain.log_path a r
  ∧ PrecipModelMain.report_json a r ≠ PrecipModelMain.log_path a r
  ∧ PrecipModelMain.report_txt a r ≠ PrecipModelMain.log_path a r
  ∧ PrecipModelMain.report_json a r ≠ PrecipModelMain.output_xlsx a r
  ∧ PrecipModelMain.report_txt a r ≠ PrecipModelMain.output_xlsx a r
  ∧ PrecipModelMain.report_txt a r ≠ PrecipModelMain.report_json a r.
Proof. split_and!; path_neq. Qed.

Section Disk.

Implicit Types (fs : gmap string file) (log path : string).

Lemma lookup_log_to log lv msg fs path :
  path ≠ log → log_to log lv msg fs !! path = fs !! path.
Proof. intros Hne. unfold log_to. by rewrite lookup_alter_ne. Qed.

Lemma lookup_log_text log lv text fs path :
  path ≠ log → log_text log lv text fs !! path = fs !! path.
Proof. apply lookup_log_to. Qed.

Lemma lookup_log_warnings log lv ws fs path :
  path ≠ log → log_warnings log lv ws fs !! path = fs !! path.
Proof.
  intros Hne. unfold log_warnings. revert fs.
  induction ws as [|w ws IH]; intros fs; [done|].
  simpl. by rewrite IH, lookup_log_to.
Qed.

Lemma lookup_setup_logger log fs path :
  path ≠ log → setup_logger log fs !! path = fs !! path.
Proof.
  intros Hne. unfold setup_logger. destruct (fs !! log); [done|].
  by rewrite lookup_insert_ne.
Qed.

End Disk.

Ltac disk_lookup :=
  repeat first
    [ rewrite lookup_log_text by done
    | rewrite lookup_log_warnings by done
    | rewrite lookup_setup_logger by done
    | rewrite lookup_insert_eq
    | rewrite lookup_insert_ne by done ].

Lemma with_strict_fields b a :
  arg_input (with_strict b a) = arg_input a
  ∧ arg_template (with_strict b a) = arg_template a
  ∧ arg_outdir (with_strict b a) = arg_outdir a
  ∧ arg_sheet_data (with_strict b a) = arg_sheet_data a
  ∧ arg_sheet_stations (with_strict b a) = arg_sheet_stations a
  ∧ arg_model (with_strict b a) = arg_model a.
Proof. done. Qed.

Section FlowStrict.
Variable stages : workbook → result stage_outcome.

Lemma flow_produce_reached a run_id fs ws stats :
  (FlowMain.produce stages a run_id fs).1 = Reached ws stats →
  ∃ wb,
    (FlowMain.produce stages a run_id fs).2 !! FlowMain.out_xlsx a run_id
    = Some (FWorkbook wb)
    ∧ is_report ((FlowMain.produce stages a run_id fs).2 !! FlowMain.out_json a run_id) ws
    ∧ is_report ((FlowMain.produce stages a run_id fs).2 !! FlowMain.out_txt a run_id) ws.
Proof.
  destruct (flow_paths_distinct a run_id) as (? & ? & ? & ? & ? & ?).
  unfold FlowMain.produce.
  repeat case_bool_decide; try done.
  destruct (load_workbook _ _) as [wb|]; [|done].
  repeat case_bool_decide; try done.
  destruct (stages wb) as [[reason|wb' stats' ws']|e]; try done.
  cbn [fst snd]. intros [= -> ->]. exists wb'. split_and!.
  - by disk_lookup.
  - eexists. split; [left; by disk_lookup|done].
  - eexists. split; [right; by disk_lookup|done].
Qed.

Lemma flow_produce_strict b a run_id fs :
  (FlowMain.produce stages (with_strict b a) run_id fs).1
  = (FlowMain.produce stages a run_id fs).1.
Proof.
  unfold FlowMain.produce, FlowMain.log_path, FlowMain.out_xlsx, FlowMain.out_json,
    FlowMain.out_txt.
  destruct a; cbn [with_strict arg_input arg_template arg_outdir arg_sheet_data
                   arg_sheet_stations arg_model arg_strict].
  repeat case_bool_decide; try done.
  destruct (load_workbook _ _) as [wb|]; [|done].
  repeat case_bool_decide; try done.
  by destruct (stages wb) as [[reason|wb' stats' ws']|e].
Qed.

Lemma flow_strict_mode_ok :
  strict_mode_ok (FlowMain.produce stages) (FlowMain.main stages)
    FlowMain.log_path FlowMain.out_xlsx [FlowMain.out_json; FlowMain.out_txt] true.
Proof.
  intros a run_id fs p. subst p.
  assert (Hexit : ∀ a',
    (FlowMain.main stages a' run_id fs).1
    = match (FlowMain.produce stages a' run_id fs).1 with
      | Returned status => status
      | Reached ws _ => if arg_strict a' && nonempty ws then 1 else 0
      end).
  { intros a'. unfold FlowMain.main.
    destruct (FlowMain.produce stages a' run_id fs) as [[status|ws st] fs'];
      [done|]. cbn [fst]. by destruct (arg_strict a' && nonempty ws). }
  split_and!.
  - intros ws stats Hp Hws Hstrict.
    destruct (flow_produce_reached a run_id fs ws stats Hp) as (wb & Hx & Hj & Ht).
    split_and!.
    + rewrite Hexit, Hp, Hstrict. by destruct ws.
    + intros path Hpath. unfold FlowMain.main.
      destruct (FlowMain.produce stages a run_id fs) as [pr fs'].
      cbn [fst snd] in *. subst pr. rewrite Hstrict.
      destruct ws; [done|]. cbn [andb nonempty snd]. by disk_lookup.
    + by exists wb.
    + by repeat constructor.
  - intros stats Hp. rewrite Hexit, Hp. by rewrite andb_false_r.
  - intros status Hp. by rewrite Hexit, Hp.
  - intros b. apply flow_produce_strict.
  - intros b Hnone. rewrite !Hexit, flow_produce_strict.
    destruct (FlowMain.produce stages a run_id fs).1 as [status|ws st] eqn:E; [done|].
    rewrite (Hnone ws st eq_refl). by rewrite !andb_false_r.
Qed.

End FlowStrict.

Section PrecipObsStrict.
Variable stages : workbook → result stage_outcome.

Lemma precip_obs_produce_reached a run_id fs ws stats :
  (PrecipObsMain.produce stages a run_id fs).1 = Reached ws stats →
  ∃ wb,
    (PrecipObsMain.produce stages a run_id fs).2 !! PrecipObsMain.out_xlsx a run_id
    = Some (FWorkbook wb)
    ∧ is_report ((PrecipObsMain.produce stages a run_id fs).2 !! PrecipObsMain.out_json a run_id) ws
    ∧ is_report ((PrecipObsMain.produce stages a run_id fs).2 !! PrecipObsMain.out_txt a run_id) ws.
Proof.
  destruct (precip_obs_paths_distinct a run_id) as (? & ? & ? & ? & ? & ?).
  unfold PrecipObsMain.produce.
  repeat case_bool_decide; try done.
  destruct (load_workbook _ _) as [wb|]; [|done].
  repeat case_bool_decide; try done.
  destruct (stages wb) as [[reason|wb' stats' ws']|e]; try done.
  cbn [fst snd]. intros [= -> ->]. exists wb'. split_and!.
  - by disk_lookup.
  - eexists. split; [left; by disk_lookup|done].
  - eexists. split; [right; by disk_lookup|done].
Qed.

Lemma precip_obs_produce_strict b a run_id fs :
  (PrecipObsMain.produce stages (with_strict b a) run_id fs).1
  = (PrecipObsMain.produce stages a run_id fs).1.
Proof.
  unfold PrecipObsMain.produce, PrecipObsMain.log_path, PrecipObsMain.out_xlsx, PrecipObsMain.out_json,
    PrecipObsMain.out_txt.
  destruct a; cbn [with_strict arg_input arg_template arg_outdir arg_sheet_data
                   arg_sheet_stations arg_model arg_strict].
  repeat case_bool_decide; try done.
  destruct (load_workbook _ _) as [wb|]; [|done].
  repeat case_bool_decide; try done.
  by destruct (stages wb) as [[reason|wb' stats' ws']|e].
Qed.

Lemma precip_obs_strict_mode_ok :
  strict_mode_ok (PrecipObsMain.produce stages) (PrecipObsMain.main stages)
    PrecipObsMain.log_path PrecipObsMain.out_xlsx [PrecipObsMain.out_json; PrecipObsMain.out_txt] true.
Proof.
  intros a run_id fs p. subst p.
  assert (Hexit : ∀ a',
    (PrecipObsMain.main stages a' run_id fs).1
    = match (PrecipObsMain.produce stages a' run_id fs).1 with
      | Returned status => status
      | Reached ws _ => if arg_strict a' && nonempty ws then 1 else 0
      end).
  { intros a'. unfold PrecipObsMain.main.
    destruct (PrecipObsMain.produce stages a' run_id fs) as [[status|ws st] fs'];
      [done|]. cbn [fst]. by destruct (arg_strict a' && nonempty ws). }
  split_and!.
  - intros ws stats Hp Hws Hstrict.
    destruct (precip_obs_produce_reached a run_id fs ws stats Hp) as (wb & Hx & Hj & Ht).
    split_and!.
    + rewrite Hexit, Hp, Hstrict. by destruct ws.
    + intros path Hpath. unfold PrecipObsMain.main.
      destruct (PrecipObsMain.produce stages a run_id fs) as [pr fs'].
      cbn [fst snd] in *. subst pr. rewrite Hstrict.
      destruct ws; [done|]. cbn [andb nonempty snd]. by disk_lookup.
    + by exists wb.
    + by repeat constructor.
  - intros stats Hp. rewrite Hexit, Hp. by rewrite andb_false_r.
  - intros status Hp. by rewrite Hexit, Hp.
  - intros b. apply precip_obs_produce_strict.
  - intros b Hnone. rewrite !Hexit, precip_obs_produce_strict.
    destruct (PrecipObsMain.produce stages a run_id fs).1 as [status|ws st] eqn:E; [done|].
    rewrite (Hnone ws st eq_refl). by rewrite !andb_false_r.
Qed.

End PrecipObsStrict.

Section VolumeStrict.
Variable stages : workbook → result stage_outcome.

Lemma volume_produce_reached a run_id fs ws stats :
  (VolumeMain.produce stages a run_id fs).1 = Reached ws stats →
  ∃ wb,
    (VolumeMain.produce stages a run_id fs).2 !! VolumeMain.out_xlsx a run_id
    = Some (FWorkbook wb)
    ∧ is_report ((VolumeMain.produce stages a run_id fs).2 !! VolumeMain.out_json a run_id) ws
    ∧ is_report ((VolumeMain.produce stages a run_id fs).2 !! VolumeMain.out_txt a run_id) ws.
Proof.
  destruct (volume_paths_distinct a run_id) as (? & ? & ? & ? & ? & ?).
  unfold VolumeMain.produce.
  repeat case_bool_decide; try done.
  destruct (load_workbook _ _) as [wb|]; [|done].
  repeat case_bool_decide; try done.
  destruct (stages wb) as [[reason|wb' stats' ws']|e]; try done.
  cbn [fst snd]. intros [= -> ->]. exists wb'. split_and!.
  - by disk_lookup.
  - eexists. split; [left; by disk_lookup|done].
  - eexists. split; [right; by disk_lookup|done].
Qed.

Lemma volume_produce_strict b a run_id fs :
  (VolumeMain.produce stages (with_strict b a) run_id fs).1
  = (VolumeMain.produce stages a run_id fs).1.
Proof.
  unfold VolumeMain.produce, VolumeMain.log_path, VolumeMain.out_xlsx, VolumeMain.out_json,
    VolumeMain.out_txt.
  destruct a; cbn [with_strict arg_input arg_template arg_outdir arg_sheet_data
                   arg_sheet_stations arg_model arg_strict].
  repeat case_bool_decide; try done.
  destruct (load_workbook _ _) as [wb|]; [|done].
  repeat case_bool_decide; try done.
  by destruct (stages wb) as [[reason|wb' stats' ws']|e].
Qed.

Lemma volume_strict_mode_ok :
  strict_mode_ok (VolumeMain.produce stages) (VolumeMain.main stages)
    VolumeMain.log_path VolumeMain.out_xlsx [VolumeMain.out_json; VolumeMain.out_txt] true.
Proof.
  intros a run_id fs p. subst p.
  assert (Hexit : ∀ a',
    (VolumeMain.main stages a' run_id fs).1
    = match (VolumeMain.produce stages a' run_id fs).1 with
      | Returned status => status
      | Reached ws _ => if arg_strict a' && nonempty ws then 1 else 0
      end).
  { intros a'. unfold VolumeMain.main.
    destruct (VolumeMain.produce stages a' run_id fs) as [[status|ws st] fs'];
      [done|]. cbn [fst]. by destruct (arg_strict a' && nonempty ws). }
  split_and!.
  - intros ws stats Hp Hws Hstrict.
    destruct (volume_produce_reached a run_id fs ws stats Hp) as (wb & Hx & Hj & Ht).
    split_and!.
    + rewrite Hexit, Hp, Hstrict. by destruct ws.
    + intros path Hpath. unfold VolumeMain.main.
      destruct (VolumeMain.produce stages a run_id fs) as [pr fs'].
      cbn [fst snd] in *. subst pr. rewrite Hstrict.
      destruct ws; [done|]. cbn [andb nonempty snd]. by disk_lookup.
    + by exists wb.
    + by repeat constructor.
  - intros stats Hp. rewrite Hexit, Hp. by rewrite andb_false_r.
  - intros status Hp. by rewrite Hexit, Hp.
  - intros b. apply volume_produce_strict.
  - intros b Hnone. rewrite !Hexit, volume_produce_strict.
    destruct (VolumeMain.produce stages a run_id fs).1 as [status|ws st] eqn:E; [done|].
    rewrite (Hnone ws st eq_refl). by rewrite !andb_false_r.
Qed.

End VolumeStrict.

Section PrecipModelStrict.
Variable validation : result (list PrecipModel.error).
Variable stages : workbook → result stage_outcome.

Lemma foldl_log_text_lookup log (errors : list PrecipModel.error)
    (fs : gmap string file) path :
  path ≠ log →
  foldl (λ fs _, log_text log ERROR "validation error" fs) fs errors !! path
  = fs !! path.
Proof.
  intros Hne. revert fs. induction errors as [|e errors IH]; intros fs; [done|].
  simpl. by rewrite IH, lookup_log_text.
Qed.

Lemma precip_model_produce_reached a run_id fs ws stats :
  (PrecipModelMain.produce validation stages a run_id fs).1 = Reached ws stats →
  ∃ wb,
    (PrecipModelMain.produce validation stages a run_id fs).2
      !! PrecipModelMain.output_xlsx a run_id = Some (FWorkbook wb)
    ∧ (PrecipModelMain.produce validation stages a run_id fs).2
        !! PrecipModelMain.report_json a run_id
      = fs !! PrecipModelMain.report_json a run_id
    ∧ (PrecipModelMain.produce validation stages a run_id fs).2
        !! PrecipModelMain.report_txt a run_id
      = fs !! PrecipModelMain.report_txt a run_id.
Proof.
  destruct (precip_model_paths_distinct a run_id) as (? & ? & ? & ? & ? & ?).
  unfold PrecipModelMain.produce.
  repeat case_bool_decide; try done.
  destruct validation as [[|e errors]|e]; try done.
  destruct (load_workbook _ _) as [wb|]; [|done].
  repeat case_bool_decide; try done.
  destruct (stages wb) as [[reason|wb' stats' ws']|e]; try done.
  cbn [fst snd]. intros [= -> ->]. exists wb'. split_and!; by disk_lookup.
Qed.

Lemma precip_model_produce_strict b a run_id fs :
  (PrecipModelMain.produce validation stages (with_strict b a) run_id fs).1
  = (PrecipModelMain.produce validation stages a run_id fs).1.
Proof.
  by destruct a.
Qed.

Lemma precip_model_strict_mode_ok :
  strict_mode_ok (PrecipModelMain.produce validation stages)
    (PrecipModelMain.main validation stages)
    PrecipModelMain.log_path PrecipModelMain.output_xlsx
    [PrecipModelMain.report_json; PrecipModelMain.report_txt] false.
Proof.
  intros a run_id fs p. subst p.
  assert (Hexit : ∀ a',
    (PrecipModelMain.main validation stages a' run_id fs).1
    = match (PrecipModelMain.produce validation stages a' run_id fs).1 with
      | Returned status => status
      | Reached ws _ => if arg_strict a' && nonempty ws then 1 else 0
      end).
  { intros a'. unfold PrecipModelMain.main.
    destruct (PrecipModelMain.produce validation stages a' run_id fs)
      as [[status|ws st] fs']; [done|].
    cbn [fst]. by destruct (arg_strict a' && nonempty ws). }
  split_and!.
  - intros ws stats Hp Hws Hstrict.
    destruct (precip_model_produce_reached a run_id fs ws stats Hp)
      as (wb & Hx & Hj & Ht).
    split_and!.
    + rewrite Hexit, Hp, Hstrict. by destruct ws.
    + intros path Hpath. unfold PrecipModelMain.main.
      destruct (PrecipModelMain.produce validation stages a run_id fs) as [pr fs'].
      cbn [fst snd] in *. subst pr. rewrite Hstrict.
      destruct ws; [done|]. cbn [andb nonempty snd]. by disk_lookup.
    + by exists wb.
    + by repeat constructor.
  - intros stats Hp. rewrite Hexit, Hp. by rewrite andb_false_r.
  - intros status Hp. by rewrite Hexit, Hp.
  - intros b. apply precip_model_produce_strict.
  - intros b Hnone. rewrite !Hexit, precip_model_produce_strict.
    destruct (PrecipModelMain.produce validation stages a run_id fs).1
      as [status|ws st] eqn:E; [done|].
    rewrite (Hnone ws st eq_refl). by rewrite !andb_false_r.
Qed.

End PrecipModelStrict.

(** C6.  In each of the four scripts a run that reaches the strict-mode
    test with [--strict] and at least one warning exits with status 1, and
    every file written up to that point (all files but the log, which
    receives the error line) is left as it was: the output workbook in all
    four, and the two reports in the flow, volume and observed-precipitation
    scripts; the precipitation-model script makes the test right after
    saving the workbook, so that no report has been written at that point
    and none is touched.  Without warnings the exit status is 0 with or
    without [--strict], and the flag never changes the status of a run
    that returned earlier. *)
Theorem C6_strict_mode (validation : result (list PrecipModel.error))
    (stages : workbook → result stage_outcome) :
  strict_mode_ok (FlowMain.produce stages) (FlowMain.main stages)
    FlowMain.log_path FlowMain.out_xlsx [FlowMain.out_json; FlowMain.out_txt] true
  ∧ strict_mode_ok (VolumeMain.produce stages) (VolumeMain.main stages)
      VolumeMain.log_path VolumeMain.out_xlsx
      [VolumeMain.out_json; VolumeMain.out_txt] true
  ∧ strict_mode_ok (PrecipObsMain.produce stages) (PrecipObsMain.main stages)
      PrecipObsMain.log_path PrecipObsMain.out_xlsx
      [PrecipObsMain.out_json; PrecipObsMain.out_txt] true
  ∧ strict_mode_ok (PrecipModelMain.produce validation stages)
      (PrecipModelMain.main validation stages)
      PrecipModelMain.log_path PrecipModelMain.output_xlsx
      [PrecipModelMain.report_json; PrecipModelMain.report_txt] false.
Proof.
  split_and!.
  - apply flow_strict_mode_ok.
  - apply volume_strict_mode_ok.
  - apply precip_obs_strict_mode_ok.
  - apply precip_model_strict_mode_ok.
Qed.

(** A precipitation-model run with one warning under [--strict]. *)
Lemma C6_strict_mode_witness :
  (PrecipModelMain.produce (Ok []) example_stages example_args "r" example_disk).1
  = Reached [WTimeGaps 1] []
  ∧ [WTimeGaps 1] ≠ []
  ∧ arg_strict example_args = true
  ∧ (PrecipModelMain.main (Ok []) example_stages example_args "r" example_disk).1 = 1.
Proof.
  assert (Hp : (PrecipModelMain.produce (Ok []) example_stages example_args "r"
                  example_disk).1 = Reached [WTimeGaps 1] [])
    by (by vm_compute).
  assert (Hws : [WTimeGaps 1] ≠ []) by done.
  split_and!; [exact Hp|exact Hws|reflexivity|].
  exact (proj1 (proj1 (proj2 (proj2 (proj2 (C6_strict_mode (Ok []) example_stages)))
                         example_args "r"%string example_disk)
                  [WTimeGaps 1] [] Hp Hws eq_refl)).
Defined.

(** The same run in the four scripts: status 1 everywhere, the workbook
    on disk everywhere, the reports on disk except in the
    precipitation-model script. *)
Lemma strict_run_outputs :
  (FlowMain.main example_stages example_args "r" example_disk).1 = 1
  ∧ is_Some ((FlowMain.main example_stages example_args "r" example_disk).2
               !! FlowMain.out_json example_args "r")
  ∧ (PrecipModelMain.main (Ok []) example_stages example_args "r" example_disk).1 = 1
  ∧ is_Some ((PrecipModelMain.main (Ok []) example_stages example_args "r" example_disk).2
               !! PrecipModelMain.output_xlsx example_args "r")
  ∧ (PrecipModelMain.main (Ok []) example_stages example_args "r" example_disk).2
      !! PrecipModelMain.report_json example_args "r" = None
  ∧ is_Some ((PrecipModelMain.main (Ok []) example_stages
                (with_strict false example_args) "r" example_disk).2
               !! PrecipModelMain.report_json example_args "r").
Proof.
  split_and!; try (by vm_compute); by (vm_compute; eexists).
Qed.

(** ** Consolidation of the generated workbooks *)

Section LastLemmas.
Context {A B : Type}.

Lemma last_omap_app (f : A → option B) (l1 l2 : list A) :
  last (omap f (l1 ++ l2))
  = match last (omap f l2) with Some y => Some y | None => last (omap f l1) end.
Proof. by rewrite omap_app, last_app. Qed.

Lemma last_filter_bind (P : B → Prop) `{!∀ x, Decision (P x)}
    (f : A → list B) (l : list A) :
  last (filter P (l ≫= f)) = last (omap (λ x, last (filter P (f x))) l).
Proof.
  induction l as [|x l IH] using rev_ind; [done|].
  rewrite bind_app, filter_app, last_app, last_omap_app, <- IH.
  cbn [mbind list_bind omap list_omap]. rewrite app_nil_r.
  by destruct (last (filter P (f x))).
Qed.

Lemma last_omap_None (f : A → option B) (l : list A) :
  Forall (λ x, f x = None) l → last (omap f l) = None.
Proof.
  induction 1 as [|x l Hx _ IH]; [done|].
  cbn [omap list_omap]. by rewrite Hx.
Qed.

Lemma omap_filter_fmap (P : A → Prop) `{!∀ x, Decision (P x)}
    (Q : B → bool) (g : A → B) (l : list A) :
  omap (λ x, if decide (P x) then (if Q (g x) then Some (g x) else None) else None) l
  = filter (λ y, Q y = true) (g <$> filter P l).
Proof.
  induction l as [|x l IH]; [done|].
  cbn [omap list_omap]. rewrite filter_cons.
  destruct (decide (P x)) as [HP|HP].
  - rewrite fmap_cons, filter_cons. destruct (Q (g x)) eqn:HQ.
    + rewrite decide_True by done. by rewrite IH.
    + rewrite decide_False by done. by rewrite IH.
  - done.
Qed.

End LastLemmas.

Lemma last_omap_select {B : Type} (x : Z) (X : option B) (l : list Z) :
  last (omap (λ y, if decide (y = x) then X else None) l)
  = if decide (x ∈ l) then X else None.
Proof.
  induction l as [|y l IH] using rev_ind.
  - rewrite decide_False; [done|]. by intros ?%elem_of_nil.
  - rewrite last_omap_app, IH. cbn [omap list_omap].
    destruct (decide (y = x)) as [->|Hne].
    + rewrite (decide_True (P := x ∈ l ++ [x]))
        by (apply elem_of_app; right; by apply list_elem_of_singleton).
      destruct X; [done|]. cbn [last]. by destruct (decide (x ∈ l)).
    + cbn [last]. destruct (decide (x ∈ l)) as [Hin|Hin].
      * rewrite decide_True; [done|]. apply elem_of_app. by left.
      * rewrite decide_False; [done|].
        intros [?| ->%list_elem_of_singleton]%elem_of_app; done.
Qed.

Lemma sorted_elements (l : list Z) :
  Py.sorted (elements (list_to_set (C := gset Z) l ∪ ∅)) = Py.sorted_set l.
Proof.
  apply (StronglySorted_unique Z.le); try apply sorted_StronglySorted.
  rewrite sorted_Permutation. unfold Py.sorted_set. rewrite sorted_Permutation.
  apply NoDup_Permutation; [apply NoDup_elements|apply NoDup_remove_dups|].
  intros x. rewrite elem_of_elements, elem_of_remove_dups, elem_of_union,
    elem_of_list_to_set, elem_of_empty. tauto.
Qed.

Section Merging.
Variable to_datetime : cell → option Z.
Variable float_of_str : list N → option Q.

Lemma assign_all_Raise (e : exn) (l : list (Z * Z * cell)) :
  assign_all float_of_str (Raise e) l = Raise e.
Proof. by induction l. Qed.

Lemma assign_all_app acc (l1 l2 : list (Z * Z * cell)) :
  assign_all float_of_str acc (l1 ++ l2)
  = assign_all float_of_str (assign_all float_of_str acc l1) l2.
Proof. apply foldl_app. Qed.

Lemma merge_cells_assign (ws : sheet) (r : nat) (ts : Z) (codes : list Z)
    (values : gmap (Z * Z) Q) :
  Consolidate.merge_cells float_of_str ws (Consolidate.header_columns ws) r ts
    codes values
  = assign_all float_of_str (Ok values)
      (code ← codes;
       match column_cell ws code r with
       | Some val => if has_value val then [((ts, code), val)] else []
       | None => []
       end).
Proof.
  unfold Consolidate.merge_cells. generalize (Ok values : result (gmap (Z * Z) Q)).
  induction codes as [|code codes IH]; intros acc; [done|].
  cbn [foldl mbind list_bind]. rewrite assign_all_app, IH. f_equal.
  unfold column_cell.
  destruct (Consolidate.header_columns ws !! code) as [col|]; cbn;
    [|by destruct acc].
  destruct (cell_value ws r col); by destruct acc.
Qed.

Lemma merge_row_assign (ws : sheet) (codes : list Z)
    (acc : result Consolidate.accumulator) (r : nat) :
  Consolidate.merge_row to_datetime float_of_str ws
    (Consolidate.header_columns ws) codes acc r
  = (a ← acc;
     values ← assign_all float_of_str (Ok (Consolidate.values_by_ts_code a))
                (row_assignments to_datetime codes ws r);
     Ok (Consolidate.mkAcc values
           (list_to_set (option_list (row_timestamp to_datetime ws r))
            ∪ Consolidate.all_ts a))).
Proof.
  destruct acc as [[values ts_set]|e]; [|done].
  unfold Consolidate.merge_row, row_assignments, row_timestamp.
  assert (Hnone : Ok (Consolidate.mkAcc values ts_set)
                  = Ok (Consolidate.mkAcc values
                          (list_to_set (option_list None) ∪ ts_set))).
  { cbn. by rewrite (left_id_L ∅ (∪)). }
  assert (Hsome : ∀ ts : Z, {[ts]} ∪ ts_set
                            = list_to_set (option_list (Some ts)) ∪ ts_set).
  { intros ts. cbn. by rewrite (right_id_L ∅ (∪)). }
  cbn [mbind result_bind Consolidate.values_by_ts_code Consolidate.all_ts].
  destruct (cell_value ws r 1) as [|q|b|[|c s]]; try exact Hnone.
  all: match goal with
       | |- context [to_datetime ?v] =>
           destruct (to_datetime v) as [ts|]; [|exact Hnone]
       end.
  all: rewrite merge_cells_assign, <- Hsome; reflexivity.
Qed.

Lemma merge_rows_assign (ws : sheet) (codes : list Z) (rows : list nat)
    (acc : result Consolidate.accumulator) :
  foldl (Consolidate.merge_row to_datetime float_of_str ws
           (Consolidate.header_columns ws) codes) acc rows
  = (a ← acc;
     values ← assign_all float_of_str (Ok (Consolidate.values_by_ts_code a))
                (rows ≫= row_assignments to_datetime codes ws);
     Ok (Consolidate.mkAcc values
           (list_to_set (omap (row_timestamp to_datetime ws) rows)
            ∪ Consolidate.all_ts a))).
Proof.
  revert acc. induction rows as [|r rows IH]; intros acc.
  - destruct acc as [[values ts_set]|e]; [|done].
    cbn. by rewrite (left_id_L ∅ (∪)).
  - cbn [foldl]. rewrite IH, merge_row_assign.
    destruct acc as [[values ts_set]|e]; [|done].
    cbn [mbind result_bind list_bind Consolidate.values_by_ts_code
         Consolidate.all_ts].
    rewrite assign_all_app.
    destruct (assign_all float_of_str (Ok values)
                (row_assignments to_datetime codes ws r)) as [values'|e].
    + cbn [mbind result_bind Consolidate.values_by_ts_code Consolidate.all_ts].
      destruct (assign_all float_of_str (Ok values') _); [cbn|done].
      do 2 f_equal. cbn [omap list_omap].
      destruct (row_timestamp to_datetime ws r) as [ts|]; cbn.
      * rewrite (right_id_L ∅ (∪)), (assoc_L (∪)).
        f_equal. apply (comm_L (∪)).
      * by rewrite (left_id_L ∅ (∪)).
    + by rewrite assign_all_Raise.
Qed.

Lemma merge_file_assign (codes : list Z) (acc : result Consolidate.accumulator)
    (wb : workbook) :
  Consolidate.merge_file to_datetime float_of_str codes acc wb
  = (a ← acc;
     values ← assign_all float_of_str (Ok (Consolidate.values_by_ts_code a))
                (assignments to_datetime codes wb);
     Ok (Consolidate.mkAcc values
           (list_to_set (file_timestamps to_datetime wb) ∪ Consolidate.all_ts a))).
Proof.
  destruct acc as [[values ts_set]|e]; [|done].
  unfold Consolidate.merge_file, assignments, file_timestamps.
  cbn [mbind result_bind].
  destruct (get_sheet wb Donnees) as [ws|].
  - by rewrite merge_rows_assign.
  - cbn. by rewrite (left_id_L ∅ (∪)).
Qed.

Lemma merge_files_assign (codes : list Z) (files : list workbook)
    (acc : result Consolidate.accumulator) :
  foldl (Consolidate.merge_file to_datetime float_of_str codes) acc files
  = (a ← acc;
     values ← assign_all float_of_str (Ok (Consolidate.values_by_ts_code a))
                (files ≫= assignments to_datetime codes);
     Ok (Consolidate.mkAcc values
           (list_to_set (files ≫= file_timestamps to_datetime)
            ∪ Consolidate.all_ts a))).
Proof.
  revert acc. induction files as [|wb files IH]; intros acc.
  - destruct acc as [[values ts_set]|e]; [|done].
    cbn. by rewrite (left_id_L ∅ (∪)).
  - cbn [foldl]. rewrite IH, merge_file_assign.
    destruct acc as [[values ts_set]|e]; [|done].
    cbn [mbind result_bind list_bind Consolidate.values_by_ts_code
         Consolidate.all_ts].
    rewrite assign_all_app.
    destruct (assign_all float_of_str (Ok values)
                (assignments to_datetime codes wb)) as [values'|e].
    + cbn [mbind result_bind Consolidate.values_by_ts_code Consolidate.all_ts].
      destruct (assign_all float_of_str (Ok values') _); [cbn|done].
      do 2 f_equal. rewrite list_to_set_app_L, (assoc_L (∪)).
      f_equal. apply (comm_L (∪)).
    + by rewrite assign_all_Raise.
Qed.

(** The function as one run of assignments on the empty dictionary. *)
Lemma consolidate_outputs_assign (wb_tpl : workbook) (files : list workbook) :
  Consolidate._consolidate_outputs to_datetime float_of_str wb_tpl files
  = match get_sheet wb_tpl Donnees with
    | None => Raise (KeyError Donnees)
    | Some ws_tpl =>
        let codes := Consolidate.header_codes ws_tpl in
        let index := Py.sorted_set (files ≫= file_timestamps to_datetime) in
        values ← assign_all float_of_str (Ok ∅)
                   (files ≫= assignments to_datetime codes);
        Ok {| m_index := index;
              m_columns := codes;
              m_data := (λ ts, (λ code, values !! (ts, code)) <$> codes)
                          <$> index |}
    end.
Proof.
  unfold Consolidate._consolidate_outputs.
  destruct (get_sheet wb_tpl Donnees) as [ws_tpl|]; [|done].
  cbv zeta. rewrite merge_files_assign.
  cbn [mbind result_bind Consolidate.values_by_ts_code Consolidate.all_ts].
  destruct (assign_all float_of_str (Ok ∅) _) as [values|e]; [|done].
  cbn [mbind result_bind Consolidate.values_by_ts_code Consolidate.all_ts].
  by rewrite sorted_elements.
Qed.

End Merging.

Section AssignAll.
Variable float_of_str : list N → option Q.

Lemma float_value_Some (val : cell) (v : Q) :
  float_value float_of_str val = Some v
  ↔ Consolidate.to_float float_of_str val = Ok v.
Proof.
  unfold float_value.
  destruct (Consolidate.to_float float_of_str val); naive_solver.
Qed.

(** A run of convertible assignments succeeds, and leaves under each key
    the value of the last assignment to it. *)
Lemma assign_all_Ok (l : list (Z * Z * cell)) (m : gmap (Z * Z) Q) :
  Forall (λ w, is_Some (float_value float_of_str w.2)) l →
  ∃ m', assign_all float_of_str (Ok m) l = Ok m'
        ∧ ∀ k, m' !! k = match last (filter (λ w, w.1 = k) l) with
                         | Some w => float_value float_of_str w.2
                         | None => m !! k
                         end.
Proof.
  induction l as [|w l IH] using rev_ind; intros Hall.
  - by exists m.
  - apply Forall_app in Hall as [Hl Hw].
    apply Forall_singleton in Hw as [v Hv].
    destruct (IH Hl) as (m1 & Hm1 & Hlook).
    exists (<[w.1 := v]> m1). split.
    + rewrite assign_all_app, Hm1. cbn.
      apply float_value_Some in Hv. by rewrite Hv.
    + intros k. rewrite filter_app, last_app, filter_cons, filter_nil.
      destruct (decide (w.1 = k)) as [<-|Hne].
      * cbn [last]. by rewrite lookup_insert_eq.
      * cbn [last]. by rewrite lookup_insert_ne, Hlook.
Qed.

Lemma assign_all_Ok_inv (l : list (Z * Z * cell)) (m m' : gmap (Z * Z) Q) :
  assign_all float_of_str (Ok m) l = Ok m' →
  Forall (λ w, is_Some (float_value float_of_str w.2)) l.
Proof.
  revert m'. induction l as [|w l IH] using rev_ind; intros m' Hm'; [done|].
  rewrite assign_all_app in Hm'.
  destruct (assign_all float_of_str (Ok m) l) as [m1|e] eqn:Hm1; [|done].
  apply Forall_app. split; [by eapply IH|].
  apply Forall_singleton. cbn in Hm'. unfold float_value.
  by destruct (Consolidate.to_float float_of_str w.2).
Qed.

(** An assignment that does not convert raises [ValueError]. *)
Lemma assign_all_Raise_inv (l : list (Z * Z * cell)) (m : gmap (Z * Z) Q) (e : exn) :
  assign_all float_of_str (Ok m) l = Raise e → ∃ msg, e = ValueError msg.
Proof.
  revert e. induction l as [|w l IH] using rev_ind; intros e He; [done|].
  rewrite assign_all_app in He.
  destruct (assign_all float_of_str (Ok m) l) as [m1|e1] eqn:Hm1.
  - cbn in He. destruct w as [k [|q|b|s]]; cbn in He; try done.
    + injection He as <-. by eexists.
    + destruct (float_of_str s); [done|]. injection He as <-. by eexists.
  - cbn in He. injection He as <-. by eapply IH.
Qed.

End AssignAll.

Lemma fmap_last_omap {A B C : Type} (g : B → C) (f : A → option B) (l : list A) :
  g <$> last (omap f l) = last (omap (λ x, g <$> f x) l).
Proof. by rewrite <- fmap_last, list_fmap_omap. Qed.

Section Assignments.
Variable to_datetime : cell → option Z.
Variable float_of_str : list N → option Q.

(** The last assignment of a row to a key. *)
Lemma last_row_assignment (codes : list Z) (ws : sheet) (r : nat) (ts code : Z) :
  code ∈ codes →
  snd <$> last (filter (λ w, w.1 = (ts, code))
                  (row_assignments to_datetime codes ws r))
  = if decide (row_timestamp to_datetime ws r = Some ts)
    then match column_cell ws code r with
         | Some val => if has_value val then Some val else None
         | None => None
         end
    else None.
Proof.
  intros Hcode. unfold row_assignments.
  destruct (row_timestamp to_datetime ws r) as [ts'|]; [|done].
  rewrite last_filter_bind.
  rewrite (list_omap_ext _
             (λ y, if decide (y = code)
                   then (if decide (ts' = ts)
                         then match column_cell ws code r with
                              | Some val =>
                                  if has_value val then Some ((ts, code), val)
                                  else None
                              | None => None
                              end
                         else None)
                   else None) codes codes).
  - rewrite last_omap_select, decide_True by done.
    destruct (decide (ts' = ts)) as [->|Hne].
    + rewrite decide_True by done.
      destruct (column_cell ws code r) as [val|]; [|done].
      by destruct (has_value val).
    + rewrite decide_False by congruence. done.
  - apply Forall_Forall2_diag, Forall_forall. intros y _.
    destruct (decide (y = code)) as [->|Hne].
    + destruct (column_cell ws code r) as [val|].
      * destruct (has_value val); [|by destruct (decide (ts' = ts))].
        rewrite filter_cons, filter_nil. cbn [fst].
        destruct (decide (ts' = ts)) as [->|Hne].
        -- by rewrite decide_True.
        -- rewrite decide_False; [done|]. congruence.
      * by destruct (decide (ts' = ts)).
    + destruct (column_cell ws y r) as [val|]; [|done].
      destruct (has_value val); [|done].
      rewrite filter_cons, filter_nil. cbn [fst].
      rewrite decide_False; [done|]. congruence.
Qed.

(** The last assignment of a file to a key is the cell it contributes. *)
Lemma last_file_assignment (codes : list Z) (wb : workbook) (ts code : Z) :
  code ∈ codes →
  snd <$> last (filter (λ w, w.1 = (ts, code)) (assignments to_datetime codes wb))
  = file_cell to_datetime wb ts code.
Proof.
  intros Hcode. unfold assignments, file_cell.
  destruct (get_sheet wb Donnees) as [ws|]; [|done].
  cbn [mbind option_bind].
  rewrite last_filter_bind, fmap_last_omap.
  rewrite (list_omap_ext _
             (λ r, if decide (row_timestamp to_datetime ws r = Some ts)
                   then match column_cell ws code r with
                        | Some val => if has_value val then Some val else None
                        | None => None
                        end
                   else None) (data_rows ws) (data_rows ws)).
  2:{ apply Forall_Forall2_diag, Forall_forall. intros r _.
      by apply last_row_assignment. }
  unfold column_cell.
  destruct (Consolidate.header_columns ws !! code) as [col|]; cbn.
  - by rewrite <- omap_filter_fmap.
  - apply last_omap_None, Forall_forall. intros r _. by case_decide.
Qed.

(** The last assignment of all files to a key is the contribution of the
    last file that has one. *)
Lemma last_assignment_later (codes : list Z) (files : list workbook) (ts code : Z) :
  code ∈ codes →
  match last (filter (λ w, w.1 = (ts, code))
                (files ≫= assignments to_datetime codes)) with
  | Some w => float_value float_of_str w.2
  | None => None
  end = later_value to_datetime float_of_str files ts code.
Proof.
  intros Hcode. unfold later_value.
  rewrite (list_omap_ext _
             (λ wb, snd <$> last (filter (λ w, w.1 = (ts, code))
                                    (assignments to_datetime codes wb)))
             files files).
  2:{ apply Forall_Forall2_diag, Forall_forall. intros wb _.
      symmetry. by apply last_file_assignment. }
  rewrite <- fmap_last_omap, <- last_filter_bind.
  by destruct (last _).
Qed.

End Assignments.



Section Consolidation.
Variable to_datetime : cell → option Z.
Variable float_of_str : list N → option Q.





(** The consolidated matrix of convertible inputs. *)
Lemma consolidate_outputs_Ok (wb_tpl : workbook) (ws_tpl : sheet)
    (files : list workbook) :
  get_sheet wb_tpl Donnees = Some ws_tpl →
  convertible to_datetime float_of_str (Consolidate.header_codes ws_tpl) files →
  Consolidate._consolidate_outputs to_datetime float_of_str wb_tpl files
  = Ok {| m_index := Py.sorted_set (files ≫= file_timestamps to_datetime);
          m_columns := Consolidate.header_codes ws_tpl;
          m_data := (λ ts, later_value to_datetime float_of_str files ts
                             <$> Consolidate.header_codes ws_tpl)
                      <$> Py.sorted_set (files ≫= file_timestamps to_datetime) |}.
Proof.
  intros Htpl Hconv. rewrite consolidate_outputs_assign, Htpl. cbv zeta.
  destruct (assign_all_Ok float_of_str _ ∅ Hconv) as (values & -> & Hlook).
  cbn [mbind result_bind]. do 2 f_equal.
  apply Forall_fmap_ext_1, Forall_forall. intros ts _.
  apply Forall_fmap_ext_1, Forall_forall. intros code Hcode.
  rewrite Hlook, <- (last_assignment_later to_datetime float_of_str
                       (Consolidate.header_codes ws_tpl)) by done.
  by destruct (last _).
Qed.

Lemma consolidate_outputs_Ok_inv (wb_tpl : workbook) (ws_tpl : sheet)
    (files : list workbook) (m : matrix) :
  get_sheet wb_tpl Donnees = Some ws_tpl →
  Consolidate._consolidate_outputs to_datetime float_of_str wb_tpl files = Ok m →
  convertible to_datetime float_of_str (Consolidate.header_codes ws_tpl) files.
Proof.
  intros Htpl. rewrite consolidate_outputs_assign, Htpl. cbv zeta.
  destruct (assign_all float_of_str (Ok ∅) _) as [values|e] eqn:Hvalues; [|done].
  intros _. by eapply assign_all_Ok_inv.
Qed.


End Consolidation.



(** The two processing orders of the worked example, evaluated: the cell
    of code 101 at time 10 holds the value of the file supplied last. *)
Lemma consolidation_order_flips :
  Consolidate._consolidate_outputs example_datetime example_float
    example_template [example_file 1 10; example_file 2 10]
  = Ok (mkMatrix [10] [101; 102] [[Some 2%Q; None]])
  ∧ Consolidate._consolidate_outputs example_datetime example_float
      example_template [example_file 2 10; example_file 1 10]
    = Ok (mkMatrix [10] [101; 102] [[Some 1%Q; None]])
  ∧ Consolidate._consolidate_outputs example_datetime example_float
      example_template [example_file 1 10; example_file 2 20]
    = Ok (mkMatrix [10; 20] [101; 102] [[Some 1%Q; None]; [Some 2%Q; None]]).
Proof. split_and!; by vm_compute. Qed.

(** ** What consolidation leaves out *)

Section Exclusions.
Variable to_datetime : cell → option Z.
Variable float_of_str : list N → option Q.

Lemma no_sheet_no_assignments (codes : list Z) (wb : workbook) :
  get_sheet wb Donnees = None →
  assignments to_datetime codes wb = [] ∧ file_timestamps to_datetime wb = [].
Proof. intros Hwb. unfold assignments, file_timestamps. by rewrite Hwb. Qed.

Lemma consolidate_outputs_ext (wb_tpl : workbook) (files files' : list workbook) :
  (∀ ws_tpl, get_sheet wb_tpl Donnees = Some ws_tpl →
     files ≫= assignments to_datetime (Consolidate.header_codes ws_tpl)
     = files' ≫= assignments to_datetime (Consolidate.header_codes ws_tpl)) →
  files ≫= file_timestamps to_datetime = files' ≫= file_timestamps to_datetime →
  Consolidate._consolidate_outputs to_datetime float_of_str wb_tpl files
  = Consolidate._consolidate_outputs to_datetime float_of_str wb_tpl files'.
Proof.
  intros Hasg Hts. rewrite !consolidate_outputs_assign.
  destruct (get_sheet wb_tpl Donnees) as [ws_tpl|]; [|done].
  cbv zeta. by rewrite (Hasg ws_tpl eq_refl), Hts.
Qed.

Lemma consolidate_outputs_no_sheet (wb_tpl : workbook) (pre post : list workbook)
    (wb : workbook) :
  get_sheet wb Donnees = None →
  Consolidate._consolidate_outputs to_datetime float_of_str wb_tpl
    (pre ++ wb :: post)
  = Consolidate._consolidate_outputs to_datetime float_of_str wb_tpl
      (pre ++ post).
Proof.
  intros Hwb. apply consolidate_outputs_ext.
  - intros ws_tpl _. rewrite !bind_app, bind_cons.
    by rewrite (proj1 (no_sheet_no_assignments _ wb Hwb)).
  - rewrite !bind_app, bind_cons.
    by rewrite (proj2 (no_sheet_no_assignments [] wb Hwb)).
Qed.

Lemma agree_on_assignments (codes : list Z) (wb wb' : workbook) (ws ws' : sheet) :
  get_sheet wb Donnees = Some ws →
  get_sheet wb' Donnees = Some ws' →
  agree_on codes ws ws' →
  assignments to_datetime codes wb = assignments to_datetime codes wb'
  ∧ file_timestamps to_datetime wb = file_timestamps to_datetime wb'.
Proof.
  intros Hwb Hwb' (Hrows & Htime & Hcols).
  unfold assignments, file_timestamps. rewrite Hwb, Hwb'.
  assert (Hts : ∀ r, row_timestamp to_datetime ws r
                     = row_timestamp to_datetime ws' r).
  { intros r. unfold row_timestamp. by rewrite Htime. }
  unfold data_rows. rewrite Hrows. split.
  - apply Forall_bind_ext, Forall_forall. intros r _.
    unfold row_assignments. rewrite Hts.
    destruct (row_timestamp to_datetime ws' r) as [ts|]; [|done].
    apply Forall_bind_ext, Forall_forall. intros code Hcode.
    by rewrite Hcols.
  - apply list_omap_ext, Forall_Forall2_diag, Forall_forall. by intros r _.
Qed.

Lemma consolidate_outputs_agree (wb_tpl : workbook) (ws_tpl : sheet)
    (pre post : list workbook) (wb wb' : workbook) (ws ws' : sheet) :
  get_sheet wb_tpl Donnees = Some ws_tpl →
  get_sheet wb Donnees = Some ws →
  get_sheet wb' Donnees = Some ws' →
  agree_on (Consolidate.header_codes ws_tpl) ws ws' →
  Consolidate._consolidate_outputs to_datetime float_of_str wb_tpl
    (pre ++ wb :: post)
  = Consolidate._consolidate_outputs to_datetime float_of_str wb_tpl
      (pre ++ wb' :: post).
Proof.
  intros Htpl Hwb Hwb' Hagree.
  destruct (agree_on_assignments _ wb wb' ws ws' Hwb Hwb' Hagree) as [Hasg Hts].
  apply consolidate_outputs_ext.
  - intros ws_tpl' Htpl'. rewrite Htpl in Htpl'. injection Htpl' as <-.
    by rewrite !bind_app, !bind_cons, Hasg.
  - by rewrite !bind_app, !bind_cons, Hts.
Qed.

Lemma assignment_code (codes : list Z) (wb : workbook) (w : Z * Z * cell) :
  w ∈ assignments to_datetime codes wb → w.1.2 ∈ codes.
Proof.
  unfold assignments. destruct (get_sheet wb Donnees) as [ws|];
    [|by intros ?%elem_of_nil].
  intros (r & Hw & _)%list_elem_of_bind. unfold row_assignments in Hw.
  destruct (row_timestamp to_datetime ws r) as [ts|];
    [|by apply elem_of_nil in Hw].
  apply list_elem_of_bind in Hw as (code & Hw & Hcode).
  destruct (column_cell ws code r) as [val|]; [|by apply elem_of_nil in Hw].
  destruct (has_value val); [|by apply elem_of_nil in Hw].
  by apply list_elem_of_singleton in Hw as ->.
Qed.

(** Every key of the dictionary carries a code of [ordered_codes]. *)
Lemma merged_keys (codes : list Z) (files : list workbook)
    (a : Consolidate.accumulator) (ts code : Z) :
  foldl (Consolidate.merge_file to_datetime float_of_str codes)
    (Ok (Consolidate.mkAcc ∅ ∅)) files = Ok a →
  is_Some (Consolidate.values_by_ts_code a !! (ts, code)) →
  code ∈ codes.
Proof.
  rewrite merge_files_assign.
  cbn [mbind result_bind Consolidate.values_by_ts_code Consolidate.all_ts].
  destruct (assign_all float_of_str (Ok ∅) _) as [values|e] eqn:Hvalues;
    [|done].
  cbn [mbind result_bind]. intros [= <-].
  cbn [Consolidate.values_by_ts_code].
  destruct (assign_all_Ok float_of_str _ ∅ (assign_all_Ok_inv _ _ _ _ Hvalues))
    as (values' & Hvalues' & Hlook).
  rewrite Hvalues in Hvalues'. injection Hvalues' as <-.
  rewrite Hlook.
  destruct (last _) as [w|] eqn:Hlast; [|by intros [? ?]].
  intros _. apply last_Some_elem_of, list_elem_of_filter in Hlast as [Hk Hw].
  apply list_elem_of_bind in Hw as (wb & Hw%assignment_code & _).
  by rewrite Hk in Hw.
Qed.

(** The only errors are the missing data sheet of the template and a
    cell under a template code that does not convert. *)
Lemma consolidate_outputs_Raise (wb_tpl : workbook) (files : list workbook)
    (e : exn) :
  Consolidate._consolidate_outputs to_datetime float_of_str wb_tpl files
  = Raise e →
  (get_sheet wb_tpl Donnees = None ∧ e = KeyError Donnees)
  ∨ (∃ ws_tpl msg,
       get_sheet wb_tpl Donnees = Some ws_tpl ∧ e = ValueError msg
       ∧ ¬ convertible to_datetime float_of_str
             (Consolidate.header_codes ws_tpl) files).
Proof.
  destruct (get_sheet wb_tpl Donnees) as [ws_tpl|] eqn:Htpl.
  - intros He. right. exists ws_tpl.
    assert (Hnot : ¬ convertible to_datetime float_of_str
                       (Consolidate.header_codes ws_tpl) files).
    { intros Hconv.
      by rewrite (consolidate_outputs_Ok _ _ _ ws_tpl _ Htpl Hconv) in He. }
    rewrite consolidate_outputs_assign, Htpl in He. cbv zeta in He.
    destruct (assign_all float_of_str (Ok ∅) _) as [values|e'] eqn:Hvalues;
      [done|].
    cbn in He. injection He as ->.
    apply assign_all_Raise_inv in Hvalues as [msg ->]. by exists msg.
  - unfold Consolidate._consolidate_outputs. rewrite Htpl.
    intros [= <-]. by left.
Qed.

End Exclusions.

(** C10.  In [_consolidate_outputs] a generated workbook without the
    data sheet changes nothing: the result with it is the result without
    it.  The cells of a generated sheet are read through the template codes
    only: two sheets that agree on their rows, their time column and their
    columns of template codes give the same result, whatever else they
    hold, an unconvertible cell included; every key of the dictionary
    carries a template code, and a returned matrix has the template codes
    as columns and one cell per code in every row.  Neither exclusion is
    recorded: the function raises only for a template without the data
    sheet or a cell under a template code that does not convert, and when
    it returns the worker logs the success line only and counts no
    failure. *)
Theorem C10_silent_exclusions (to_datetime : cell → option Z)
    (float_of_str : list N → option Q) (wb_tpl : workbook) :
  let run := Consolidate._consolidate_outputs to_datetime float_of_str wb_tpl in
  (∀ pre wb post,
     get_sheet wb Donnees = None → run (pre ++ wb :: post) = run (pre ++ post))
  ∧ (∀ ws_tpl pre wb wb' post ws ws',
       get_sheet wb_tpl Donnees = Some ws_tpl →
       get_sheet wb Donnees = Some ws →
       get_sheet wb' Donnees = Some ws' →
       agree_on (Consolidate.header_codes ws_tpl) ws ws' →
       run (pre ++ wb :: post) = run (pre ++ wb' :: post))
  ∧ (∀ ws_tpl files a ts code,
       get_sheet wb_tpl Donnees = Some ws_tpl →
       foldl (Consolidate.merge_file to_datetime float_of_str
                (Consolidate.header_codes ws_tpl))
         (Ok (Consolidate.mkAcc ∅ ∅)) files = Ok a →
       is_Some (Consolidate.values_by_ts_code a !! (ts, code)) →
       code ∈ Consolidate.header_codes ws_tpl)
  ∧ (∀ ws_tpl files m,
       get_sheet wb_tpl Donnees = Some ws_tpl →
       run files = Ok m →
       m_columns m = Consolidate.header_codes ws_tpl
       ∧ length (m_data m) = length (m_index m)
       ∧ Forall (λ row, length row = length (m_columns m)) (m_data m))
  ∧ (∀ files e,
       run files = Raise e →
       (get_sheet wb_tpl Donnees = None ∧ e = KeyError Donnees)
       ∨ (∃ ws_tpl msg,
            get_sheet wb_tpl Donnees = Some ws_tpl ∧ e = ValueError msg
            ∧ ¬ convertible to_datetime float_of_str
                  (Consolidate.header_codes ws_tpl) files))
  ∧ (∀ consolidate ok ko files m,
       run files = Ok m →
       Consolidate.run_worker_tail to_datetime float_of_str consolidate ok ko
         (Some wb_tpl) files
       = (if consolidate && bool_decide (0 < ok)%nat && nonempty files
          then (Some m, ko, [Consolidate.LogConsolidated])
          else (None, ko, []))).
Proof.
  intros run. split_and!.
  - intros pre wb post Hwb. by apply consolidate_outputs_no_sheet.
  - intros ws_tpl pre wb wb' post ws ws' Htpl Hwb Hwb' Hagree.
    by eapply consolidate_outputs_agree.
  - intros ws_tpl files a ts code _. apply merged_keys.
  - intros ws_tpl files m Htpl Hm.
    pose proof (consolidate_outputs_Ok_inv _ _ _ _ _ _ Htpl Hm) as Hconv.
    unfold run in Hm.
    rewrite (consolidate_outputs_Ok _ _ _ _ _ Htpl Hconv) in Hm.
    injection Hm as <-. cbn [m_columns m_index m_data].
    split_and!; [done|by rewrite length_fmap|].
    apply Forall_fmap, Forall_forall. intros ts _. cbn.
    by rewrite length_fmap.
  - intros files e. apply consolidate_outputs_Raise.
  - intros consolidate ok ko files m Hm. unfold Consolidate.run_worker_tail.
    unfold run in Hm. by rewrite Hm.
Qed.

Lemma C10_silent_exclusions_witness :
  get_sheet example_other Donnees = None
  ∧ Consolidate._consolidate_outputs example_datetime example_float
      example_template ([example_file 1 10] ++ example_other :: [example_file 2 20])
    = Consolidate._consolidate_outputs example_datetime example_float
        example_template ([example_file 1 10] ++ [example_file 2 20]).
Proof.
  assert (Hwb : get_sheet example_other Donnees = None) by reflexivity.
  split; [exact Hwb|].
  exact (proj1 (C10_silent_exclusions example_datetime example_float
                  example_template)
           [example_file 1 10] example_other [example_file 2 20] Hwb).
Defined.

(** The worked example: a workbook without the data sheet and the column
    of code 999, whose cells do not convert, leave no trace; the same cell
    under a template code makes the run fail. *)
Lemma exclusions_leave_no_trace :
  Consolidate.run_worker_tail example_datetime example_float true 2 0
    (Some example_template) [example_file 1 10; example_other; example_file 2 20]
  = (Some (mkMatrix [10; 20] [101; 102] [[Some 1%Q; None]; [Some 2%Q; None]]),
     0%nat, [Consolidate.LogConsolidated])
  ∧ Consolidate.run_worker_tail example_datetime example_float true 1 0
      (Some [(Donnees, [[]; []; [CStr (u "timestamp"); CNum 101; CNum 999]])])
      [example_file 1 10]
    = (None, 1%nat,
       [Consolidate.LogConsolidationError
          (ValueError "could not convert string to float")]).
Proof. split; by vm_compute. Qed.

(** ** Writing a matrix into the data sheet *)

Section SetCell.

Lemma cell_value_lookup (ws : sheet) (r c : nat) :
  cell_value ws r c = default CNone (default [] (ws !! (r - 1)%nat) !! (c - 1)%nat).
Proof. unfold cell_value. by rewrite !nth_lookup. Qed.

Lemma lookup_pad {A} (l : list A) (n i : nat) (d : A) :
  default d ((l ++ replicate (n - length l) d) !! i) = default d (l !! i).
Proof.
  destruct (decide (i < length l)%nat) as [Hlt|Hge].
  - by rewrite lookup_app_l.
  - rewrite lookup_app_r by lia. rewrite (lookup_ge_None_2 l i) by lia.
    destruct (replicate _ _ !! _) as [x|] eqn:Hx; [|done].
    by apply lookup_replicate in Hx as [-> _].
Qed.

Lemma cell_value_set_cell (ws : sheet) (r c r' c' : nat) (v : cell) :
  (1 ≤ r)%nat → (1 ≤ c)%nat → (1 ≤ r')%nat → (1 ≤ c')%nat →
  cell_value (Openpyxl.set_cell ws r c v) r' c'
  = if decide (r' = r ∧ c' = c) then Openpyxl.assign v (cell_value ws r' c')
    else cell_value ws r' c'.
Proof.
  intros Hr Hc Hr' Hc'. rewrite !cell_value_lookup.
  unfold Openpyxl.set_cell, sheet in *.
  destruct (decide (r' = r)) as [->|Hne].
  - rewrite list_lookup_alter_eq.
    assert (Hrow : (ws ++ replicate (r - length ws) []) !! (r - 1)%nat
                   = Some (default [] (ws !! (r - 1)%nat))).
    { destruct (decide (r - 1 < length ws)%nat) as [Hlt|Hge].
      - rewrite lookup_app_l by done.
        by destruct (lookup_lt_is_Some_2 ws (r - 1)%nat Hlt) as [row ->].
      - rewrite lookup_app_r by lia. rewrite (lookup_ge_None_2 ws) by lia.
        apply lookup_replicate. split; [done|lia]. }
    rewrite Hrow. cbn [fmap option_fmap option_map from_option id].
    set (row := default [] (ws !! (r - 1)%nat)).
    destruct (decide (c' = c)) as [->|Hnec].
    + rewrite decide_True by done.
      rewrite list_lookup_alter_eq.
      assert (Hcell : (row ++ replicate (c - length row) CNone) !! (c - 1)%nat
                      = Some (default CNone (row !! (c - 1)%nat))).
      { destruct (decide (c - 1 < length row)%nat) as [Hlt|Hge].
        - rewrite lookup_app_l by done.
          by destruct (lookup_lt_is_Some_2 row (c - 1)%nat Hlt) as [x ->].
        - rewrite lookup_app_r by lia. rewrite (lookup_ge_None_2 row) by lia.
          apply lookup_replicate. split; [done|lia]. }
      by rewrite Hcell.
    + rewrite decide_False by tauto.
      rewrite list_lookup_alter_ne by lia.
      apply lookup_pad.
  - rewrite decide_False by tauto.
    rewrite list_lookup_alter_ne by lia.
    destruct (decide (r' - 1 < length ws)%nat) as [Hlt|Hge].
    + by rewrite lookup_app_l.
    + rewrite lookup_app_r by lia. rewrite (lookup_ge_None_2 ws) by lia.
      destruct (replicate _ _ !! _) as [x|] eqn:Hx; [|done].
      by apply lookup_replicate in Hx as [-> _].
Qed.

Lemma max_row_set_cell (ws : sheet) (r c : nat) (v : cell) :
  max_row (Openpyxl.set_cell ws r c v) = Nat.max (max_row ws) r.
Proof.
  unfold max_row, Openpyxl.set_cell, sheet in *.
  rewrite length_alter, length_app, length_replicate. lia.
Qed.

Lemma max_column_app (ws ws' : sheet) :
  max_column (ws ++ ws') = Nat.max (max_column ws) (max_column ws').
Proof.
  unfold max_column. induction ws as [|row ws IH]; [done|].
  cbn [foldr app]. rewrite IH. lia.
Qed.

Lemma max_column_replicate_nil (n : nat) : max_column (replicate n []) = 0%nat.
Proof. unfold max_column. induction n as [|n IH]; [done|]. cbn. by rewrite IH. Qed.

Lemma max_column_alter (f : list cell → list cell) (ws : sheet) (i c : nat) row :
  ws !! i = Some row →
  length (f row) = Nat.max (length row) c →
  max_column (alter f i ws) = Nat.max (max_column ws) c.
Proof.
  unfold max_column. revert i.
  induction ws as [|row' ws IH]; intros i Hi Hlen; [done|].
  destruct i as [|i]; cbn in Hi |- *.
  - injection Hi as ->. rewrite Hlen. lia.
  - rewrite (IH i Hi Hlen). lia.
Qed.

Lemma max_column_set_cell (ws : sheet) (r c : nat) (v : cell) :
  (1 ≤ r)%nat →
  max_column (Openpyxl.set_cell ws r c v) = Nat.max (max_column ws) c.
Proof.
  intros Hr. unfold Openpyxl.set_cell, sheet in *.
  assert (Hrow : is_Some ((ws ++ replicate (r - length ws) []) !! (r - 1)%nat)).
  { apply lookup_lt_is_Some_2. rewrite length_app, length_replicate. lia. }
  destruct Hrow as [row Hrow].
  rewrite (max_column_alter _ _ _ c row Hrow).
  - rewrite max_column_app, max_column_replicate_nil. lia.
  - rewrite length_alter, length_app, length_replicate. lia.
Qed.

End SetCell.

Section Writes.

Lemma apply_writes_app ws (w1 w2 : list (nat * nat * cell)) :
  apply_writes ws (w1 ++ w2) = apply_writes (apply_writes ws w1) w2.
Proof. apply foldl_app. Qed.

Lemma line_writes_cons {A} (value : A → cell) (r col : nat) (x : A) (xs : list A) :
  line_writes value r col (x :: xs)
  = (r, col, value x) :: line_writes value r (S col) xs.
Proof.
  unfold line_writes. rewrite imap_cons. f_equal.
  - by rewrite Nat.add_0_r.
  - apply imap_ext. intros j y _. cbn. do 2 f_equal. lia.
Qed.

(** A line of writes in one row: the cells it covers, and the extent of
    the sheet after it. *)
Lemma cell_value_line_writes {A} (value : A → cell) (r col : nat) (xs : list A)
    ws (r' c' : nat) :
  (1 ≤ r)%nat → (1 ≤ col)%nat → (1 ≤ r')%nat → (1 ≤ c')%nat →
  cell_value (apply_writes ws (line_writes value r col xs)) r' c'
  = if decide (r' = r ∧ col ≤ c')%nat
    then match xs !! (c' - col)%nat with
         | Some x => Openpyxl.assign (value x) (cell_value ws r' c')
         | None => cell_value ws r' c'
         end
    else cell_value ws r' c'.
Proof.
  intros Hr Hcol Hr' Hc'. revert ws col Hcol.
  induction xs as [|x xs IH]; intros ws col Hcol.
  - cbn. by case_decide.
  - rewrite line_writes_cons. cbn [apply_writes foldl fst snd].
    fold (apply_writes (Openpyxl.set_cell ws r col (value x))
            (line_writes value r (S col) xs)).
    rewrite IH by lia. rewrite cell_value_set_cell by done.
    destruct (decide (r' = r)) as [->|Hne].
    + destruct (decide (c' = col)) as [->|Hnec].
      * rewrite decide_False by lia. rewrite decide_True by done.
        rewrite decide_True by lia. by rewrite Nat.sub_diag.
      * destruct (decide (S col ≤ c')%nat) as [Hle|Hgt].
        -- rewrite decide_True by done. rewrite (decide_True (P := _ ∧ (col ≤ c')%nat)) by lia.
           replace (c' - col)%nat with (S (c' - S col)) by lia. cbn [lookup list_lookup].
           by rewrite decide_False by tauto.
        -- rewrite decide_False by lia. rewrite (decide_False (P := _ ∧ (col ≤ c')%nat)) by lia.
           by rewrite decide_False by tauto.
    + rewrite decide_False by tauto. rewrite decide_False by tauto.
      by rewrite decide_False by tauto.
Qed.

Lemma max_row_line_writes {A} (value : A → cell) (r col : nat) (xs : list A) ws :
  max_row (apply_writes ws (line_writes value r col xs))
  = match xs with [] => max_row ws | _ => Nat.max (max_row ws) r end.
Proof.
  revert ws col. induction xs as [|x xs IH]; intros ws col; [done|].
  rewrite line_writes_cons. cbn [apply_writes foldl fst snd].
  fold (apply_writes (Openpyxl.set_cell ws r col (value x))
          (line_writes value r (S col) xs)).
  rewrite IH, max_row_set_cell. destruct xs; lia.
Qed.

Lemma max_column_line_writes {A} (value : A → cell) (r col : nat) (xs : list A) ws :
  (1 ≤ r)%nat →
  max_column (apply_writes ws (line_writes value r col xs))
  = match xs with
    | [] => max_column ws
    | _ => Nat.max (max_column ws) (col + length xs - 1)
    end.
Proof.
  intros Hr. revert ws col. induction xs as [|x xs IH]; intros ws col; [done|].
  rewrite line_writes_cons. cbn [apply_writes foldl fst snd].
  fold (apply_writes (Openpyxl.set_cell ws r col (value x))
          (line_writes value r (S col) xs)).
  rewrite IH, max_column_set_cell by done. destruct xs; cbn [length]; lia.
Qed.

End Writes.

Section WriteRuns.
Variable strftime : Z → list N.

Lemma cell_value_header_writes (codes : list Z) ws (r c : nat) :
  (1 ≤ r)%nat → (1 ≤ c)%nat →
  cell_value (apply_writes ws (header_writes codes)) r c
  = if decide (r = 3%nat)
    then if decide (c = 1%nat) then CStr (u "timestamp")
         else match codes !! (c - 2)%nat with
              | Some code => CNum (inject_Z code)
              | None => cell_value ws r c
              end
    else cell_value ws r c.
Proof.
  intros Hr Hc. unfold header_writes. cbn [apply_writes foldl fst snd].
  fold (apply_writes (Openpyxl.set_cell ws 3 1 (CStr (u "timestamp")))
          (line_writes (λ code, CNum (inject_Z code)) 3 2 codes)).
  rewrite cell_value_line_writes by lia.
  rewrite cell_value_set_cell by lia.
  destruct (decide (r = 3%nat)) as [->|Hne].
  - destruct (decide (c = 1%nat)) as [->|Hne1].
    + rewrite decide_False by lia. by rewrite decide_True.
    + rewrite decide_True by lia. rewrite decide_False by lia. done.
  - rewrite decide_False by tauto. by rewrite decide_False by tauto.
Qed.

Lemma max_row_header_writes (codes : list Z) ws :
  max_row (apply_writes ws (header_writes codes)) = Nat.max (max_row ws) 3.
Proof.
  unfold header_writes. cbn [apply_writes foldl fst snd].
  fold (apply_writes (Openpyxl.set_cell ws 3 1 (CStr (u "timestamp")))
          (line_writes (λ code, CNum (inject_Z code)) 3 2 codes)).
  rewrite max_row_line_writes, max_row_set_cell. destruct codes; lia.
Qed.

Lemma max_column_header_writes (codes : list Z) ws :
  max_column (apply_writes ws (header_writes codes))
  = Nat.max (max_column ws) (length codes + 1).
Proof.
  unfold header_writes. cbn [apply_writes foldl fst snd].
  fold (apply_writes (Openpyxl.set_cell ws 3 1 (CStr (u "timestamp")))
          (line_writes (λ code, CNum (inject_Z code)) 3 2 codes)).
  rewrite max_column_line_writes, max_column_set_cell by lia.
  destruct codes; cbn [length]; lia.
Qed.

Lemma clear_row_line (r width : nat) :
  (λ c, (r, c, CNone)) <$> seq 1 width
  = line_writes (λ _ : nat, CNone) r 1 (seq 1 width).
Proof.
  unfold line_writes. apply list_eq. intros j.
  rewrite list_lookup_fmap, list_lookup_imap.
  destruct (seq 1 width !! j) as [c|] eqn:Hc; [|done].
  apply lookup_seq in Hc as [-> _]. done.
Qed.

(** The clearing loop writes [None] only: it creates cells and changes
    no value. *)
Lemma cell_value_clear_writes (first count width : nat) ws (r c : nat) :
  (1 ≤ first)%nat → (1 ≤ r)%nat → (1 ≤ c)%nat →
  cell_value (apply_writes ws (clear_writes first count width)) r c
  = cell_value ws r c.
Proof.
  intros Hfirst Hr Hc. unfold clear_writes. revert ws first Hfirst.
  induction count as [|count IH]; intros ws first Hfirst; [done|].
  cbn [seq mbind list_bind]. rewrite apply_writes_app, IH by lia.
  rewrite clear_row_line, cell_value_line_writes by lia.
  case_decide; [|done]. by destruct (seq 1 width !! _).
Qed.

Lemma max_row_clear_writes (first count width : nat) ws :
  (first + count ≤ max_row ws + 1)%nat →
  max_row (apply_writes ws (clear_writes first count width)) = max_row ws.
Proof.
  unfold clear_writes. revert ws first.
  induction count as [|count IH]; intros ws first Hle; [done|].
  cbn [seq mbind list_bind]. rewrite apply_writes_app, clear_row_line.
  rewrite IH; rewrite max_row_line_writes; destruct (seq 1 width); lia.
Qed.

Lemma max_column_clear_writes (first count width : nat) ws :
  (1 ≤ first)%nat →
  max_column (apply_writes ws (clear_writes first count width))
  = match count with
    | O => max_column ws
    | _ => Nat.max (max_column ws) width
    end.
Proof.
  intros Hfirst. unfold clear_writes. revert ws first Hfirst.
  induction count as [|count IH]; intros ws first Hfirst; [done|].
  cbn [seq mbind list_bind]. rewrite apply_writes_app, clear_row_line.
  rewrite IH by lia. rewrite max_column_line_writes by lia.
  destruct width as [|width]; [destruct count; cbn; lia|].
  cbn [seq]. rewrite length_cons, length_seq. destruct count; lia.
Qed.

Lemma cell_value_row_writes (r : nat) (item : Z * list (option Q)) ws (r' c' : nat) :
  (1 ≤ r)%nat → (1 ≤ r')%nat → (1 ≤ c')%nat →
  cell_value (apply_writes ws (row_writes strftime r item)) r' c'
  = if decide (r' = r)
    then if decide (c' = 1%nat) then CStr (strftime item.1)
         else match item.2 !! (c' - 2)%nat with
              | Some v => Openpyxl.assign (float_cell v) (cell_value ws r' c')
              | None => cell_value ws r' c'
              end
    else cell_value ws r' c'.
Proof.
  intros Hr Hr' Hc'. unfold row_writes. cbn [apply_writes foldl fst snd].
  fold (apply_writes (Openpyxl.set_cell ws r 1 (CStr (strftime item.1)))
          (line_writes float_cell r 2 item.2)).
  rewrite cell_value_line_writes by lia.
  rewrite cell_value_set_cell by lia.
  destruct (decide (r' = r)) as [->|Hne].
  - destruct (decide (c' = 1%nat)) as [->|Hne1].
    + rewrite decide_False by lia. by rewrite decide_True.
    + rewrite decide_True by lia. rewrite decide_False by lia. done.
  - rewrite decide_False by tauto. by rewrite decide_False by tauto.
Qed.

Lemma data_writes_cons (first : nat) item items :
  data_writes strftime first (item :: items)
  = row_writes strftime first item ++ data_writes strftime (S first) items.
Proof.
  unfold data_writes. rewrite imap_cons. cbn [concat].
  rewrite Nat.add_0_r. do 2 f_equal.
  apply imap_ext. intros k x _. cbn. f_equal. lia.
Qed.

Lemma cell_value_data_writes (first : nat) items ws (r c : nat) :
  (1 ≤ first)%nat → (1 ≤ r)%nat → (1 ≤ c)%nat →
  cell_value (apply_writes ws (data_writes strftime first items)) r c
  = if decide (first ≤ r)%nat
    then match items !! (r - first)%nat with
         | Some item =>
             if decide (c = 1%nat) then CStr (strftime item.1)
             else match item.2 !! (c - 2)%nat with
                  | Some v => Openpyxl.assign (float_cell v) (cell_value ws r c)
                  | None => cell_value ws r c
                  end
         | None => cell_value ws r c
         end
    else cell_value ws r c.
Proof.
  intros Hfirst Hr Hc. revert ws first Hfirst.
  induction items as [|item items IH]; intros ws first Hfirst.
  - cbn. by case_decide.
  - rewrite data_writes_cons, apply_writes_app, IH by lia.
    rewrite cell_value_row_writes by lia.
    destruct (decide (r = first)) as [->|Hne].
    + rewrite (decide_False (P := (S first ≤ first)%nat)) by lia.
      rewrite (decide_True (P := (first ≤ first)%nat)) by lia.
      by rewrite Nat.sub_diag.
    + destruct (decide (S first ≤ r)%nat) as [Hle|Hgt].
      * rewrite (decide_True (P := (first ≤ r)%nat)) by lia.
        replace (r - first)%nat with (S (r - S first)) by lia. done.
      * by rewrite (decide_False (P := (first ≤ r)%nat)) by lia.
Qed.

Lemma max_row_row_writes (r : nat) item ws :
  max_row (apply_writes ws (row_writes strftime r item)) = Nat.max (max_row ws) r.
Proof.
  unfold row_writes. cbn [apply_writes foldl fst snd].
  fold (apply_writes (Openpyxl.set_cell ws r 1 (CStr (strftime item.1)))
          (line_writes float_cell r 2 item.2)).
  rewrite max_row_line_writes, max_row_set_cell. destruct item.2; lia.
Qed.

Lemma max_row_data_writes (first : nat) items ws :
  max_row (apply_writes ws (data_writes strftime first items))
  = match items with
    | [] => max_row ws
    | _ => Nat.max (max_row ws) (first + length items - 1)
    end.
Proof.
  revert ws first. induction items as [|item items IH]; intros ws first; [done|].
  rewrite data_writes_cons, apply_writes_app, IH, max_row_row_writes.
  destruct items; cbn [length]; lia.
Qed.

Lemma max_column_row_writes (r : nat) item ws :
  (1 ≤ r)%nat →
  max_column (apply_writes ws (row_writes strftime r item))
  = Nat.max (max_column ws) (length item.2 + 1).
Proof.
  intros Hr. unfold row_writes. cbn [apply_writes foldl fst snd].
  fold (apply_writes (Openpyxl.set_cell ws r 1 (CStr (strftime item.1)))
          (line_writes float_cell r 2 item.2)).
  rewrite max_column_line_writes, max_column_set_cell by lia.
  destruct item.2; cbn [length]; lia.
Qed.

Lemma max_column_data_writes (first : nat) items ws (n : nat) :
  (1 ≤ first)%nat →
  Forall (λ item : Z * list (option Q), length item.2 = n) items →
  max_column (apply_writes ws (data_writes strftime first items))
  = match items with
    | [] => max_column ws
    | _ => Nat.max (max_column ws) (n + 1)
    end.
Proof.
  intros Hfirst Hall. revert ws first Hfirst.
  induction Hall as [|item items Hitem Hall IH]; intros ws first Hfirst; [done|].
  rewrite data_writes_cons, apply_writes_app, IH by lia.
  rewrite max_column_row_writes, Hitem by lia. destruct items; lia.
Qed.

Lemma max_column_data_writes_ge (first : nat) items ws :
  (1 ≤ first)%nat →
  (max_column ws
   ≤ max_column (apply_writes ws (data_writes strftime first items)))%nat.
Proof.
  intros Hfirst. revert ws first Hfirst.
  induction items as [|item items IH]; intros ws first Hfirst; [done|].
  rewrite data_writes_cons, apply_writes_app.
  etransitivity; [|apply IH; lia]. rewrite max_column_row_writes by lia. lia.
Qed.

End WriteRuns.

Section WriterRuns.
Variable strftime : Z → list N.

Lemma cell_set_Ok ws (r c : Z) (v : cell) :
  1 ≤ r → 1 ≤ c →
  Openpyxl.cell_set ws r c v = Ok (Openpyxl.set_cell ws (Z.to_nat r) (Z.to_nat c) v).
Proof. intros Hr Hc. unfold Openpyxl.cell_set. by rewrite bool_decide_false by lia. Qed.

Lemma foldl_cell_set_Raise {X} (g : result sheet → X → result sheet) (xs : list X)
    (e : exn) :
  (∀ x, g (Raise e) x = Raise e) → foldl g (Raise e) xs = Raise e.
Proof. intros Hg. induction xs as [|x xs IH]; [done|]. cbn. by rewrite Hg. Qed.

Lemma foldl_cell_set {X} (f : X → Z * Z * cell) (xs : list X) (acc : result sheet) :
  Forall (λ x, 1 ≤ (f x).1.1 ∧ 1 ≤ (f x).1.2) xs →
  foldl (λ acc x, ws ← acc; Openpyxl.cell_set ws (f x).1.1 (f x).1.2 (f x).2) acc xs
  = (ws ← acc;
     Ok (apply_writes ws
           ((λ x, (Z.to_nat (f x).1.1, Z.to_nat (f x).1.2, (f x).2)) <$> xs))).
Proof.
  intros Hall. revert acc.
  induction Hall as [|x xs [Hr Hc] _ IH]; intros acc.
  - by destruct acc.
  - cbn [foldl]. rewrite IH. destruct acc as [ws|e]; [|done].
    cbn [mbind result_bind]. by rewrite cell_set_Ok.
Qed.

Lemma to_nat_py_range (a b : Z) :
  0 ≤ a → Z.to_nat <$> py_range a b = seq (Z.to_nat a) (Z.to_nat (b - a)).
Proof.
  intros Ha. unfold py_range. rewrite <- list_fmap_compose.
  apply list_eq. intros i. rewrite list_lookup_fmap.
  destruct (decide (i < Z.to_nat (b - a))%nat) as [Hlt|Hge].
  - rewrite !lookup_seq_lt by done. cbn. f_equal. lia.
  - by rewrite !lookup_seq_ge by lia.
Qed.

Lemma py_range_ge (a b x : Z) : x ∈ py_range a b → a ≤ x.
Proof.
  unfold py_range. intros (k & -> & _)%list_elem_of_fmap. lia.
Qed.

Lemma header_loop (codes : list Z) ws :
  foldl (λ acc ic, ws ← acc;
                   Openpyxl.cell_set ws 3 ic.1 (CNum (inject_Z ic.2)))
        (Ok ws) (enumerate_from 2 codes)
  = Ok (apply_writes ws (line_writes (λ code, CNum (inject_Z code)) 3 2 codes)).
Proof.
  rewrite (foldl_cell_set (λ ic : Z * Z, (3, ic.1, CNum (inject_Z ic.2)))).
  - cbn [mbind result_bind]. do 2 f_equal.
    unfold enumerate_from, line_writes. apply list_eq. intros i.
    rewrite list_lookup_fmap, !list_lookup_imap.
    destruct (codes !! i) as [code|]; [|done]. cbn. do 3 f_equal. lia.
  - apply Forall_forall. intros [i code] Hin. cbn.
    unfold enumerate_from in Hin. apply elem_of_lookup_imap in Hin
      as (j & y & [= -> ->] & _). lia.
Qed.

Lemma values_loop (r : Z) (row : list (option Q)) ws :
  1 ≤ r →
  foldl (λ acc cv, ws ← acc; Openpyxl.cell_set ws r cv.1 (float_cell cv.2))
        (Ok ws) (enumerate_from 2 row)
  = Ok (apply_writes ws (line_writes float_cell (Z.to_nat r) 2 row)).
Proof.
  intros Hr.
  rewrite (foldl_cell_set (λ cv : Z * option Q, (r, cv.1, float_cell cv.2))).
  - cbn [mbind result_bind]. do 2 f_equal.
    unfold enumerate_from, line_writes. apply list_eq. intros i.
    rewrite list_lookup_fmap, !list_lookup_imap.
    destruct (row !! i) as [v|]; [|done]. cbn. do 3 f_equal. lia.
  - apply Forall_forall. intros [i v] Hin. cbn.
    unfold enumerate_from in Hin. apply elem_of_lookup_imap in Hin
      as (j & y & [= -> ->] & _). lia.
Qed.

Lemma clear_loop (rows : list Z) (max_col : Z) (acc : result sheet) :
  Forall (λ r, 1 ≤ r) rows →
  foldl (λ acc r,
           foldl (λ acc c, ws ← acc; Openpyxl.cell_set ws r c CNone)
                 acc (py_range 1 (max_col + 1)))
        acc rows
  = (ws ← acc;
     Ok (apply_writes ws
           (r ← Z.to_nat <$> rows;
            (λ c, (r, c, CNone)) <$> seq 1 (Z.to_nat max_col)))).
Proof.
  intros Hall. revert acc.
  induction Hall as [|r rows Hr _ IH]; intros acc.
  - by destruct acc.
  - cbn [foldl]. rewrite IH.
    rewrite (foldl_cell_set (λ c : Z, (r, c, CNone))).
    + destruct acc as [ws|e]; [|done]. cbn [mbind result_bind].
      f_equal. rewrite fmap_cons, bind_cons, apply_writes_app. do 2 f_equal.
      cbn [fst snd].
      rewrite (list_fmap_compose Z.to_nat (λ c : nat, (Z.to_nat r, c, CNone))).
      rewrite to_nat_py_range by lia.
      replace (Z.to_nat (max_col + 1 - 1)) with (Z.to_nat max_col) by lia.
      done.
    + apply Forall_forall. intros c Hc%py_range_ge. cbn. lia.
Qed.

Lemma clear_data_region_Ok ws (start_row max_col : Z) :
  1 ≤ start_row →
  FlowWriter.clear_data_region ws start_row max_col
  = Ok (apply_writes ws
          (clear_writes (Z.to_nat start_row)
                        (max_row ws + 1 - Z.to_nat start_row)
                        (Z.to_nat max_col))).
Proof.
  intros Hstart. unfold FlowWriter.clear_data_region.
  rewrite clear_loop.
  - cbn [mbind result_bind]. unfold clear_writes.
    rewrite to_nat_py_range by lia. do 4 f_equal. lia.
  - apply Forall_forall. intros r Hr%py_range_ge. lia.
Qed.

Lemma py_range_cons (a b : Z) : a < b → py_range a b = a :: py_range (a + 1) b.
Proof.
  intros Hlt. unfold py_range.
  replace (Z.to_nat (b - a)) with (S (Z.to_nat (b - (a + 1)))) by lia.
  cbn [seq fmap list_fmap]. f_equal; [lia|].
  rewrite <- fmap_S_seq, <- list_fmap_compose.
  apply list_fmap_ext. intros i k _. cbn. lia.
Qed.

Lemma clear_data_region_Raise ws (start_row max_col : Z) :
  start_row < 1 → start_row ≤ Z.of_nat (max_row ws) → 1 ≤ max_col →
  ∃ msg, FlowWriter.clear_data_region ws start_row max_col
         = Raise (ValueError msg).
Proof.
  intros Hstart Hrows Hcols. unfold FlowWriter.clear_data_region.
  rewrite (py_range_cons start_row) by lia.
  rewrite (py_range_cons 1) by lia.
  set (g := λ (acc : result sheet) (r : Z),
              foldl (λ acc c, ws ← acc; Openpyxl.cell_set ws r c CNone) acc
                    (1 :: py_range (1 + 1) (max_col + 1))).
  cbn [foldl].
  assert (Hg : ∀ e r, g (Raise e) r = Raise e).
  { intros e r. unfold g. by apply foldl_cell_set_Raise. }
  assert (Hfirst : ∃ msg, g (Ok ws) start_row = Raise (ValueError msg)).
  { unfold g. cbn [foldl mbind result_bind]. unfold Openpyxl.cell_set at 2.
    rewrite bool_decide_true by lia. eexists.
    by apply foldl_cell_set_Raise. }
  destruct Hfirst as [msg ->]. exists msg.
  by apply foldl_cell_set_Raise.
Qed.

Lemma write_rows_Ok (items : list (Z * list (option Q))) ws (r : Z) :
  1 ≤ r →
  foldl (FlowWriter.write_row strftime) (Ok (ws, r)) items
  = Ok (apply_writes ws (data_writes strftime (Z.to_nat r) items),
        r + Z.of_nat (length items)).
Proof.
  revert ws r. induction items as [|item items IH]; intros ws r Hr.
  - cbn. do 2 f_equal. lia.
  - cbn [foldl]. unfold FlowWriter.write_row at 2.
    cbn [mbind result_bind]. rewrite cell_set_Ok by lia.
    cbn [mbind result_bind]. rewrite values_loop by done.
    cbn [mbind result_bind]. rewrite IH by lia.
    rewrite data_writes_cons, apply_writes_app.
    do 2 f_equal.
    + replace (Z.to_nat (r + 1)) with (S (Z.to_nat r)) by lia. done.
    + cbn [length]. lia.
Qed.

(** [write_template] on an existing sheet and a start row from 1. *)
Lemma write_template_Ok (wb : workbook) (sheet_data : list N) (ws : sheet)
    (m : matrix) (codes : list Z) (start_row : Z) :
  get_sheet wb sheet_data = Some ws → 1 ≤ start_row →
  FlowWriter.write_template strftime wb sheet_data m codes start_row
  = Ok (Openpyxl.set_sheet wb sheet_data
          (written_sheet strftime ws m codes (Z.to_nat start_row)),
        {| written_rows := Pandas.shape0 m;
           written_station_columns := Pandas.shape1 m;
           first_output_row := start_row;
           last_output_row := start_row + Z.of_nat (length (m_index m)
                                                      `min` length (m_data m)) - 1 |}).
Proof.
  intros Hws Hstart. unfold FlowWriter.write_template. rewrite Hws.
  rewrite cell_set_Ok by lia. cbn [mbind result_bind].
  rewrite header_loop. cbn [mbind result_bind]. cbv zeta.
  rewrite clear_data_region_Ok by done. cbn [mbind result_bind].
  rewrite write_rows_Ok by done. cbn [mbind result_bind].
  rewrite length_zip. unfold written_sheet, header_writes.
  replace (Z.to_nat (Z.of_nat (length codes) + 1)) with (length codes + 1)%nat
    by lia.
  reflexivity.
Qed.

End WriterRuns.

Section Written.
Variable strftime : Z → list N.

Lemma cell_value_beyond_rows (ws : sheet) (r c : nat) :
  (max_row ws < r)%nat → cell_value ws r c = CNone.
Proof.
  intros Hr. rewrite cell_value_lookup. unfold max_row in Hr.
  rewrite (lookup_ge_None_2 ws) by lia. done.
Qed.

Lemma length_le_max_column (ws : sheet) (i : nat) row :
  ws !! i = Some row → (length row ≤ max_column ws)%nat.
Proof.
  unfold max_column. revert i. induction ws as [|row' ws IH]; intros i Hi; [done|].
  destruct i as [|i]; cbn in Hi |- *.
  - injection Hi as ->. lia.
  - specialize (IH i Hi). lia.
Qed.

Lemma cell_value_beyond_columns (ws : sheet) (r c : nat) :
  (max_column ws < c)%nat → cell_value ws r c = CNone.
Proof.
  intros Hc. rewrite cell_value_lookup.
  destruct (ws !! (r - 1)%nat) as [row|] eqn:Hrow; [|done].
  apply length_le_max_column in Hrow. cbn.
  rewrite (lookup_ge_None_2 row) by lia. done.
Qed.

Lemma get_sheet_set_sheet (wb : workbook) (name : list N) (ws ws' : sheet) :
  get_sheet wb name = Some ws →
  get_sheet (Openpyxl.set_sheet wb name ws') name = Some ws'.
Proof.
  unfold get_sheet, Openpyxl.set_sheet.
  induction wb as [|[n s] wb IH]; [done|].
  cbn. destruct (decide (n = name)) as [->|Hne].
  - intros _. cbn. by rewrite decide_True.
  - cbn. rewrite (decide_False (P := n = name)) by done.
    destruct (list_find _ wb) as [[i p]|]; [|done].
    cbn in IH |- *. intros [= <-].
    specialize (IH eq_refl).
    destruct (list_find _ (_ <$> wb)) as [[j q]|]; [|done].
    cbn in IH |- *. by injection IH as ->.
Qed.

Lemma get_sheet_set_sheet_ne (wb : workbook) (name other : list N) (ws' : sheet) :
  other ≠ name →
  get_sheet (Openpyxl.set_sheet wb name ws') other = get_sheet wb other.
Proof.
  intros Hne. unfold get_sheet, Openpyxl.set_sheet.
  induction wb as [|[n s] wb IH]; [done|].
  cbn. destruct (decide (n = name)) as [->|Hn].
  - cbn. rewrite !(decide_False (P := name = other)) by done.
    destruct (list_find _ wb) as [[i p]|], (list_find _ (_ <$> wb)) as [[j q]|];
      cbn in IH |- *; congruence.
  - cbn. destruct (decide (n = other)); [done|].
    destruct (list_find _ wb) as [[i p]|], (list_find _ (_ <$> wb)) as [[j q]|];
      cbn in IH |- *; congruence.
Qed.

Lemma sheetnames_set_sheet (wb : workbook) (name : list N) (ws' : sheet) :
  sheetnames (Openpyxl.set_sheet wb name ws') = sheetnames wb.
Proof.
  unfold sheetnames, Openpyxl.set_sheet. rewrite <- list_fmap_compose.
  apply list_fmap_ext. intros i [n s] _. cbn. by case_decide.
Qed.

Lemma int_inject_Z (z : Z) : Py.int (inject_Z z) = z.
Proof.
  unfold Py.int. destruct (Qle_bool 0 (inject_Z z)).
  - apply Qfloor_Z.
  - apply Qceiling_Z.
Qed.

Lemma omap_seq_lookup {A} (g : nat → option A) (a : nat) (l : list A) :
  (∀ i x, l !! i = Some x → g (a + i)%nat = Some x) →
  omap g (seq a (length l)) = l.
Proof.
  revert a. induction l as [|x l IH]; intros a Hg; [done|].
  cbn [length seq omap list_omap].
  rewrite <- (Nat.add_0_r a) at 1. rewrite (Hg 0%nat x eq_refl).
  f_equal. apply IH. intros i y Hy.
  replace (S a + i)%nat with (a + S i)%nat by lia. by apply Hg.
Qed.

Lemma omap_all_None {A B} (g : A → option B) (l : list A) :
  Forall (λ x, g x = None) l → omap g l = [].
Proof.
  induction 1 as [|x l Hx _ IH]; [done|]. cbn [omap list_omap]. by rewrite Hx.
Qed.

Lemma omap_seq_tail {A} (g : nat → option A) (a n n' : nat) :
  (n ≤ n')%nat → (∀ c, (a + n ≤ c)%nat → g c = None) →
  omap g (seq a n') = omap g (seq a n).
Proof.
  intros Hle Hg. replace n' with (n + (n' - n))%nat by lia.
  rewrite seq_app, omap_app.
  rewrite (omap_all_None g (seq (a + n) (n' - n))).
  - by rewrite app_nil_r.
  - apply Forall_forall. intros c Hc%elem_of_seq. apply Hg. lia.
Qed.

(** The header row of the written sheet, for a start row from 4. *)
Lemma written_header_cell ws m codes (start : nat) (c : nat) :
  (4 ≤ start)%nat → (1 ≤ c)%nat →
  cell_value (written_sheet strftime ws m codes start) 3 c
  = if decide (c = 1%nat) then CStr (u "timestamp")
    else match codes !! (c - 2)%nat with
         | Some code => CNum (inject_Z code)
         | None => cell_value ws 3 c
         end.
Proof.
  intros Hstart Hc. unfold written_sheet. cbv zeta.
  rewrite cell_value_data_writes by lia. rewrite decide_False by lia.
  rewrite cell_value_clear_writes by lia.
  rewrite cell_value_header_writes by lia. by rewrite decide_True.
Qed.

Lemma max_column_written_ge ws m codes (start : nat) :
  (1 ≤ start)%nat →
  (Nat.max (max_column ws) (length codes + 1)
   ≤ max_column (written_sheet strftime ws m codes start))%nat.
Proof.
  intros Hstart. unfold written_sheet. cbv zeta.
  etransitivity; [|apply max_column_data_writes_ge; lia].
  rewrite max_column_clear_writes by lia.
  rewrite max_column_header_writes. destruct (_ + 1 - start)%nat; lia.
Qed.

Lemma written_header_codes ws m codes (start : nat) :
  (4 ≤ start)%nat →
  Flow.extract_template_data_codes (written_sheet strftime ws m codes start)
  = codes ++ stale_codes ws (length codes).
Proof.
  intros Hstart. unfold Flow.extract_template_data_codes, data_columns, stale_codes.
  pose proof (max_column_written_ge ws m codes start ltac:(lia)) as Hmax.
  set (ws' := written_sheet strftime ws m codes start) in *.
  replace (max_column ws' - 1)%nat
    with (length codes + (max_column ws' - 1 - length codes))%nat by lia.
  rewrite seq_app, omap_app. f_equal.
  - apply omap_seq_lookup. intros i code Hi. unfold ws'.
    rewrite written_header_cell by lia. rewrite decide_False by lia.
    replace (2 + i - 2)%nat with i by lia. rewrite Hi. cbn.
    by rewrite int_inject_Z.
  - replace (2 + length codes)%nat with (length codes + 2)%nat by lia.
    rewrite (omap_seq_tail _ _ (max_column ws - (length codes + 1))).
    + apply list_omap_ext, Forall_Forall2_diag, Forall_forall.
      intros c Hc%elem_of_seq. unfold ws'.
      rewrite written_header_cell by lia. rewrite decide_False by lia.
      by rewrite (lookup_ge_None_2 codes) by lia.
    + lia.
    + intros c Hc. unfold ws'.
      rewrite written_header_cell by lia. rewrite decide_False by lia.
      rewrite (lookup_ge_None_2 codes) by lia.
      rewrite cell_value_beyond_columns by lia. done.
Qed.

Lemma stale_codes_nil ws (n : nat) :
  (max_column ws ≤ n + 1)%nat → stale_codes ws n = [].
Proof.
  intros Hle. unfold stale_codes.
  by replace (max_column ws - (n + 1))%nat with 0%nat by lia.
Qed.

Lemma stale_codes_header ws (n : nat) (code : Z) :
  code ∈ stale_codes ws n → code ∈ Flow.extract_template_data_codes ws.
Proof.
  unfold stale_codes, Flow.extract_template_data_codes, data_columns.
  rewrite !list_elem_of_omap. intros (c & Hc%elem_of_seq & Hcode).
  exists c. split; [|done]. apply elem_of_seq. lia.
Qed.

End Written.

Section Writers.
Variable strftime : Z → list N.

Lemma volume_writer_eq :
  VolumeWriter.write_template strftime = FlowWriter.write_template strftime.
Proof. reflexivity. Qed.

Lemma precip_obs_write_row_eq acc item :
  PrecipObsWriter.write_row strftime acc item
  = FlowWriter.write_row strftime acc item.
Proof.
  unfold PrecipObsWriter.write_row, FlowWriter.write_row.
  destruct acc as [[ws r]|e]; [|done]. cbn [mbind result_bind].
  destruct (Openpyxl.cell_set ws r 1 _) as [ws1|e]; [|done].
  cbn [mbind result_bind]. f_equal.
  generalize (Ok ws1 : result sheet).
  induction (enumerate_from 2 item.2) as [|[c v] l IH]; intros acc; [done|].
  cbn [foldl]. rewrite <- IH. f_equal.
  destruct acc as [ws2|e]; [|done]. by destruct v.
Qed.

Lemma precip_obs_writer_eq wb sheet_data m codes start_row :
  PrecipObsWriter.write_output_template strftime wb sheet_data m codes start_row
  = FlowWriter.write_template strftime wb sheet_data m codes start_row.
Proof.
  unfold PrecipObsWriter.write_output_template, FlowWriter.write_template.
  destruct (get_sheet wb sheet_data) as [ws|]; [|done].
  destruct (Openpyxl.cell_set ws 3 1 _) as [ws1|e]; [|done].
  cbn [mbind result_bind].
  destruct (foldl _ (Ok ws1) (enumerate_from 2 codes)) as [ws2|e]; [|done].
  cbn [mbind result_bind]. cbv zeta.
  change PrecipObsWriter.clear_data_region with FlowWriter.clear_data_region.
  destruct (FlowWriter.clear_data_region ws2 start_row _) as [ws3|e]; [|done].
  cbn [mbind result_bind].
  assert (Hfold : ∀ items acc,
            foldl (PrecipObsWriter.write_row strftime) acc items
            = foldl (FlowWriter.write_row strftime) acc items).
  { induction items as [|item items IH]; intros acc; [done|].
    cbn [foldl]. by rewrite precip_obs_write_row_eq, IH. }
  by rewrite Hfold.
Qed.

Lemma writers_eq write wb sheet_data m codes start_row :
  write ∈ writers strftime →
  write wb sheet_data m codes start_row
  = FlowWriter.write_template strftime wb sheet_data m codes start_row.
Proof.
  unfold writers. rewrite !elem_of_cons, elem_of_nil.
  intros [->|[->|[->|[]]]]; [done|done|apply precip_obs_writer_eq].
Qed.

Lemma header_readers_eq read ws :
  read ∈ header_readers → read ws = Flow.extract_template_data_codes ws.
Proof.
  unfold header_readers. rewrite !elem_of_cons, elem_of_nil.
  by intros [->|[->|[->|[]]]].
Qed.

Lemma write_template_Raise (wb : workbook) (sheet_data : list N) (ws : sheet)
    (m : matrix) (codes : list Z) (start_row : Z) :
  get_sheet wb sheet_data = Some ws → start_row < 1 →
  ∃ msg, FlowWriter.write_template strftime wb sheet_data m codes start_row
         = Raise (ValueError msg).
Proof.
  intros Hws Hstart. unfold FlowWriter.write_template. rewrite Hws.
  rewrite cell_set_Ok by lia. cbn [mbind result_bind].
  rewrite header_loop. cbn [mbind result_bind]. cbv zeta.
  destruct (clear_data_region_Raise
              (apply_writes (Openpyxl.set_cell ws (Z.to_nat 3) (Z.to_nat 1)
                               (CStr (u "timestamp")))
                 (line_writes (λ code, CNum (inject_Z code)) 3 2 codes))
              start_row (Z.of_nat (length codes) + 1)) as [msg Hmsg].
  - done.
  - rewrite max_row_line_writes, max_row_set_cell. destruct codes; lia.
  - lia.
  - rewrite Hmsg. by exists msg.
Qed.

End Writers.

Section WrittenData.
Variable strftime : Z → list N.

(** Every cell of the written sheet outside the header row: a timestamp
    or a number where a data row puts one, and what the sheet held
    before everywhere else. *)
Lemma written_sheet_cell ws m codes (start r c : nat) :
  (1 ≤ start)%nat → (1 ≤ r)%nat → r ≠ 3%nat → (1 ≤ c)%nat →
  cell_value (written_sheet strftime ws m codes start) r c
  = if decide (start ≤ r)%nat
    then match zip (m_index m) (m_data m) !! (r - start)%nat with
         | Some item =>
             if decide (c = 1%nat) then CStr (strftime item.1)
             else match item.2 !! (c - 2)%nat with
                  | Some v => Openpyxl.assign (float_cell v) (cell_value ws r c)
                  | None => cell_value ws r c
                  end
         | None => cell_value ws r c
         end
    else cell_value ws r c.
Proof.
  intros Hstart Hr Hrow Hc. unfold written_sheet. cbv zeta.
  rewrite cell_value_data_writes, cell_value_clear_writes,
    cell_value_header_writes by lia.
  by rewrite (decide_False (P := r = 3%nat)) by done.
Qed.

Lemma written_time_cell ws m codes (start k : nat) (ts : Z) (row : list (option Q)) :
  (1 ≤ start)%nat →
  zip (m_index m) (m_data m) !! k = Some (ts, row) →
  cell_value (written_sheet strftime ws m codes start) (start + k) 1
  = CStr (strftime ts).
Proof.
  intros Hstart Hk. unfold written_sheet. cbv zeta.
  rewrite cell_value_data_writes by lia. rewrite decide_True by lia.
  replace (start + k - start)%nat with k by lia. rewrite Hk.
  by rewrite decide_True.
Qed.

Lemma written_number_cell ws m codes (start k j : nat) (ts : Z)
    (row : list (option Q)) (q : Q) :
  (1 ≤ start)%nat →
  zip (m_index m) (m_data m) !! k = Some (ts, row) →
  row !! j = Some (Some q) →
  cell_value (written_sheet strftime ws m codes start) (start + k) (2 + j) = CNum q.
Proof.
  intros Hstart Hk Hj. unfold written_sheet. cbv zeta.
  rewrite cell_value_data_writes by lia. rewrite decide_True by lia.
  replace (start + k - start)%nat with k by lia. rewrite Hk.
  rewrite decide_False by lia. cbn [snd].
  replace (2 + j - 2)%nat with j by lia. by rewrite Hj.
Qed.

(** On a sheet without values from row 4 on, the written rows hold the
    matrix and nothing else. *)
Lemma written_data_cell ws m codes (start k : nat) (ts : Z) (row : list (option Q)) :
  (4 ≤ start)%nat → empty_from ws 4 →
  zip (m_index m) (m_data m) !! k = Some (ts, row) →
  cell_value (written_sheet strftime ws m codes start) (start + k) 1
  = CStr (strftime ts)
  ∧ ∀ j v, row !! j = Some v →
           cell_value (written_sheet strftime ws m codes start) (start + k) (2 + j)
           = float_cell v.
Proof.
  intros Hstart Hempty Hk. split; [eapply written_time_cell; [lia|done]|].
  intros j v Hj. rewrite written_sheet_cell by lia.
  rewrite decide_True by lia.
  replace (start + k - start)%nat with k by lia. rewrite Hk.
  rewrite decide_False by lia. cbn [snd].
  replace (2 + j - 2)%nat with j by lia. rewrite Hj.
  rewrite Hempty by lia. by destruct v.
Qed.

Lemma written_below ws m codes (start r c : nat) :
  (4 ≤ start)%nat → empty_from ws 4 →
  (start + length (zip (m_index m) (m_data m)) ≤ r)%nat →
  (1 ≤ c)%nat →
  cell_value (written_sheet strftime ws m codes start) r c = CNone.
Proof.
  intros Hstart Hempty Hr Hc. rewrite written_sheet_cell by lia.
  rewrite decide_True by lia.
  rewrite (lookup_ge_None_2 (zip _ _)) by lia.
  apply Hempty. lia.
Qed.

Lemma max_row_clear_region ws (start width : nat) :
  max_row (apply_writes ws (clear_writes start (max_row ws + 1 - start) width))
  = max_row ws.
Proof.
  destruct (decide (start ≤ max_row ws + 1)%nat) as [Hle|Hgt].
  - apply max_row_clear_writes. lia.
  - by replace (max_row ws + 1 - start)%nat with 0%nat by lia.
Qed.

Lemma max_row_written ws m codes (start : nat) :
  max_row (written_sheet strftime ws m codes start)
  = match zip (m_index m) (m_data m) with
    | [] => Nat.max (max_row ws) 3
    | items => Nat.max (Nat.max (max_row ws) 3) (start + length items - 1)
    end.
Proof.
  unfold written_sheet. cbv zeta.
  rewrite max_row_data_writes, max_row_clear_region, max_row_header_writes.
  by destruct (zip _ _).
Qed.

End WrittenData.

(** X1.  The header that [write_template] leaves.  For a start row from 4 the
    three writers return a workbook whose data sheet reads "timestamp" in
    the first header cell and whose header codes, as the scripts read
    them back, are the target codes followed by the codes that the
    template held to the right of the written columns; on a template
    that is no wider than the written columns they are the target
    codes. *)
Theorem write_template_header (strftime : Z → list N) write read
    (wb : workbook) (sheet_data : list N) (ws : sheet) (m : matrix)
    (codes : list Z) (start_row : Z) :
  write ∈ writers strftime → read ∈ header_readers →
  get_sheet wb sheet_data = Some ws → 4 ≤ start_row →
  ∃ wb' stats ws',
    write wb sheet_data m codes start_row = Ok (wb', stats)
    ∧ get_sheet wb' sheet_data = Some ws'
    ∧ cell_value ws' 3 1 = CStr (u "timestamp")
    ∧ read ws' = codes ++ stale_codes ws (length codes)
    ∧ ((max_column ws ≤ length codes + 1)%nat → read ws' = codes).
Proof.
  intros Hwrite Hread Hws Hstart.
  rewrite (writers_eq strftime write) by done.
  rewrite (write_template_Ok strftime wb sheet_data ws) by (done || lia).
  eexists _, _, _. split; [reflexivity|].
  split; [by eapply get_sheet_set_sheet|].
  rewrite (header_readers_eq read) by done.
  split_and!.
  - rewrite written_header_cell by lia. done.
  - apply written_header_codes. lia.
  - intros Hwide. rewrite written_header_codes by lia.
    rewrite stale_codes_nil by done. by rewrite app_nil_r.
Qed.

(** X2.  The errors of [write_template] and what it leaves alone.  The three
    writers raise [KeyError] when the workbook has no sheet of the given
    name and [ValueError] when the start row is below 1; otherwise they
    return, the workbook keeps its sheet names, every other sheet is
    unchanged, and the statistics count the rows and columns of the
    matrix, the last output row being the start row plus the number of
    rows minus one. *)
Theorem write_template_errors (strftime : Z → list N) write
    (wb : workbook) (sheet_data : list N) (m : matrix) (codes : list Z)
    (start_row : Z) :
  write ∈ writers strftime →
  (get_sheet wb sheet_data = None →
   write wb sheet_data m codes start_row = Raise (KeyError sheet_data))
  ∧ (∀ ws, get_sheet wb sheet_data = Some ws → start_row < 1 →
           ∃ msg, write wb sheet_data m codes start_row = Raise (ValueError msg))
  ∧ (∀ ws, get_sheet wb sheet_data = Some ws → 1 ≤ start_row →
           ∃ wb' stats,
             write wb sheet_data m codes start_row = Ok (wb', stats)
             ∧ sheetnames wb' = sheetnames wb
             ∧ (∀ other, other ≠ sheet_data →
                         get_sheet wb' other = get_sheet wb other)
             ∧ written_rows stats = length (m_index m)
             ∧ written_station_columns stats = length (m_columns m)
             ∧ first_output_row stats = start_row
             ∧ (length (m_data m) = length (m_index m) →
                last_output_row stats
                = start_row + Z.of_nat (length (m_index m)) - 1)).
Proof.
  intros Hwrite. rewrite (writers_eq strftime write) by done. split_and!.
  - intros Hws. unfold FlowWriter.write_template. by rewrite Hws.
  - intros ws Hws Hstart. by eapply write_template_Raise.
  - intros ws Hws Hstart.
    rewrite (write_template_Ok strftime wb sheet_data ws) by done.
    eexists _, _. split; [reflexivity|]. cbn [written_rows
      written_station_columns first_output_row last_output_row].
    split_and!; try done.
    + apply sheetnames_set_sheet.
    + intros other Hother. by apply get_sheet_set_sheet_ne.
    + intros Hlen. rewrite Hlen. do 3 f_equal. lia.
Qed.

(** X3.  The data region that [write_template] leaves.  For a start row from
    1, row [k] of the matrix is found in sheet row [start_row + k]: its
    timestamp, formatted, in column 1 and its numbers from column 2.  The
    writers erase nothing: [ws.cell(r, c, value=None)] assigns no value,
    so that, outside the header row, a null of the matrix, the cells that a
    row does not reach, the clearing loop and the rows above and below
    the matrix leave every cell as the template had it; the values of an
    earlier run stay in the output. *)
Theorem write_template_data (strftime : Z → list N) write
    (wb : workbook) (sheet_data : list N) (ws : sheet) (m : matrix)
    (codes : list Z) (start_row : Z) :
  write ∈ writers strftime →
  get_sheet wb sheet_data = Some ws → 1 ≤ start_row →
  ∃ wb' stats ws',
    write wb sheet_data m codes start_row = Ok (wb', stats)
    ∧ get_sheet wb' sheet_data = Some ws'
    ∧ (∀ k ts row,
         m_index m !! k = Some ts → m_data m !! k = Some row →
         cell_value ws' (Z.to_nat start_row + k) 1 = CStr (strftime ts)
         ∧ (∀ j q, row !! j = Some (Some q) →
                   cell_value ws' (Z.to_nat start_row + k) (2 + j) = CNum q)
         ∧ ((Z.to_nat start_row + k)%nat ≠ 3%nat →
            (∀ j, row !! j = Some None →
                  cell_value ws' (Z.to_nat start_row + k) (2 + j)
                  = cell_value ws (Z.to_nat start_row + k) (2 + j))
            ∧ (∀ c, (length row + 2 ≤ c)%nat →
                    cell_value ws' (Z.to_nat start_row + k) c
                    = cell_value ws (Z.to_nat start_row + k) c)))
    ∧ (∀ r c,
         (1 ≤ r)%nat → r ≠ 3%nat → (1 ≤ c)%nat →
         (r < Z.to_nat start_row ∨ Z.to_nat start_row + length (m_index m) ≤ r)%nat →
         cell_value ws' r c = cell_value ws r c).
Proof.
  intros Hwrite Hws Hstart. rewrite (writers_eq strftime write) by done.
  rewrite (write_template_Ok strftime wb sheet_data ws) by done.
  eexists _, _, _. split; [reflexivity|].
  split; [by eapply get_sheet_set_sheet|]. split.
  - intros k ts row Hts Hrow.
    assert (Hk : zip (m_index m) (m_data m) !! k = Some (ts, row))
      by by apply lookup_zip_Some.
    split_and!.
    + eapply written_time_cell; [lia|done].
    + intros j q Hj. eapply written_number_cell; [lia|done|done].
    + intros Hne. split.
      * intros j Hj. rewrite written_sheet_cell by lia.
        rewrite decide_True by lia.
        replace (Z.to_nat start_row + k - Z.to_nat start_row)%nat with k by lia.
        rewrite Hk. rewrite decide_False by lia. cbn [snd].
        replace (2 + j - 2)%nat with j by lia. by rewrite Hj.
      * intros c Hc. rewrite written_sheet_cell by lia.
        rewrite decide_True by lia.
        replace (Z.to_nat start_row + k - Z.to_nat start_row)%nat with k by lia.
        rewrite Hk. rewrite decide_False by lia. cbn [snd].
        by rewrite (lookup_ge_None_2 row) by lia.
  - intros r c Hr Hrow Hc Hout. rewrite written_sheet_cell by lia.
    case_decide; [|done].
    rewrite (lookup_ge_None_2 (zip _ _)); [done|].
    rewrite length_zip. lia.
Qed.

Lemma write_template_header_witness :
  FlowWriter.write_template example_strftime ∈ writers example_strftime
  ∧ Flow.extract_template_data_codes ∈ header_readers
  ∧ get_sheet example_template Donnees
    = Some [[]; []; [CStr (u "timestamp"); CNum 101; CNum 102]]
  ∧ 4 ≤ 4
  ∧ ∃ wb' stats ws',
      FlowWriter.write_template example_strftime example_template Donnees
        example_matrix [101; 102] 4 = Ok (wb', stats)
      ∧ get_sheet wb' Donnees = Some ws'
      ∧ cell_value ws' 3 1 = CStr (u "timestamp")
      ∧ Flow.extract_template_data_codes ws'
        = [101; 102]
          ++ stale_codes [[]; []; [CStr (u "timestamp"); CNum 101; CNum 102]]
               (length [101; 102])
      ∧ ((max_column [[]; []; [CStr (u "timestamp"); CNum 101; CNum 102]]
          ≤ length [101; 102] + 1)%nat →
         Flow.extract_template_data_codes ws' = [101; 102]).
Proof.
  assert (H1 : FlowWriter.write_template example_strftime ∈ writers example_strftime)
    by (by left).
  assert (H2 : Flow.extract_template_data_codes ∈ header_readers) by (by left).
  assert (H3 : get_sheet example_template Donnees
               = Some [[]; []; [CStr (u "timestamp"); CNum 101; CNum 102]])
    by reflexivity.
  assert (H4 : 4 ≤ 4) by lia.
  split_and!; [exact H1|exact H2|exact H3|exact H4|].
  exact (write_template_header example_strftime _ _ example_template Donnees _
           example_matrix [101; 102] 4 H1 H2 H3 H4).
Defined.

Lemma write_template_errors_witness :
  FlowWriter.write_template example_strftime ∈ writers example_strftime
  ∧ get_sheet example_template Donnees
    = Some [[]; []; [CStr (u "timestamp"); CNum 101; CNum 102]]
  ∧ 0 < 1
  ∧ ∃ msg, FlowWriter.write_template example_strftime example_template Donnees
             example_matrix [101; 102] 0 = Raise (ValueError msg).
Proof.
  assert (H1 : FlowWriter.write_template example_strftime ∈ writers example_strftime)
    by (by left).
  assert (H3 : get_sheet example_template Donnees
               = Some [[]; []; [CStr (u "timestamp"); CNum 101; CNum 102]])
    by reflexivity.
  assert (H4 : 0 < 1) by lia.
  split_and!; [exact H1|exact H3|exact H4|].
  exact (proj1 (proj2 (write_template_errors example_strftime _ example_template
                         Donnees example_matrix [101; 102] 0 H1)) _ H3 H4).
Defined.

Lemma write_template_data_witness :
  FlowWriter.write_template example_strftime ∈ writers example_strftime
  ∧ get_sheet example_template Donnees
    = Some [[]; []; [CStr (u "timestamp"); CNum 101; CNum 102]]
  ∧ 1 ≤ 4
  ∧ ∃ wb' stats ws',
      FlowWriter.write_template example_strftime example_template Donnees
        example_matrix [101; 102] 4 = Ok (wb', stats)
      ∧ get_sheet wb' Donnees = Some ws'
      ∧ (∀ k ts row,
           m_index example_matrix !! k = Some ts →
           m_data example_matrix !! k = Some row →
           cell_value ws' (Z.to_nat 4 + k) 1 = CStr (example_strftime ts)
           ∧ (∀ j q, row !! j = Some (Some q) →
                     cell_value ws' (Z.to_nat 4 + k) (2 + j) = CNum q)
           ∧ ((Z.to_nat 4 + k)%nat ≠ 3%nat →
              (∀ j, row !! j = Some None →
                    cell_value ws' (Z.to_nat 4 + k) (2 + j)
                    = cell_value [[]; []; [CStr (u "timestamp"); CNum 101; CNum 102]]
                        (Z.to_nat 4 + k) (2 + j))
              ∧ (∀ c, (length row + 2 ≤ c)%nat →
                      cell_value ws' (Z.to_nat 4 + k) c
                      = cell_value [[]; []; [CStr (u "timestamp"); CNum 101; CNum 102]]
                          (Z.to_nat 4 + k) c)))
      ∧ (∀ r c,
           (1 ≤ r)%nat → r ≠ 3%nat → (1 ≤ c)%nat →
           (r < Z.to_nat 4 ∨ Z.to_nat 4 + length (m_index example_matrix) ≤ r)%nat →
           cell_value ws' r c
           = cell_value [[]; []; [CStr (u "timestamp"); CNum 101; CNum 102]] r c).
Proof.
  assert (H1 : FlowWriter.write_template example_strftime ∈ writers example_strftime)
    by (by left).
  assert (H3 : get_sheet example_template Donnees
               = Some [[]; []; [CStr (u "timestamp"); CNum 101; CNum 102]])
    by reflexivity.
  assert (H4 : 1 ≤ 4) by lia.
  split_and!; [exact H1|exact H3|exact H4|].
  exact (write_template_data example_strftime _ example_template Donnees _
           example_matrix [101; 102] 4 H1 H3 H4).
Defined.

(** The written sheet of the worked example; a template whose header
    is wider than the target codes: the codes to the right stay; and a
    template that holds two rows of an earlier run: the null of the new
    row leaves the old value 7, and the old second row stays. *)
Lemma write_template_example :
  (∃ stats,
     FlowWriter.write_template example_strftime example_template Donnees
       example_matrix [101; 102] 4
     = Ok ([(Donnees,
             [[]; []; [CStr (u "timestamp"); CNum 101; CNum 102];
              [CStr (example_strftime 10); CNum 1; CNone];
              [CStr (example_strftime 20); CNum 2; CNum 3]])], stats))
  ∧ (∃ wb' stats ws',
       FlowWriter.write_template example_strftime
         [(Donnees, [[]; []; [CStr (u "timestamp"); CNum 5; CNum 5; CNum 7]])]
         Donnees (mkMatrix [] [5; 7] []) [5; 7] 4 = Ok (wb', stats)
       ∧ get_sheet wb' Donnees = Some ws'
       ∧ Flow.extract_template_data_codes ws' = [5; 7; 7])
  ∧ (∃ stats,
       FlowWriter.write_template example_strftime
         [(Donnees, [[]; []; [CStr (u "timestamp"); CNum 101; CNum 102];
                     [CStr (example_strftime 5); CNum 6; CNum 7];
                     [CStr (example_strftime 8); CNum 9; CNone]])]
         Donnees (mkMatrix [10] [101; 102] [[Some 1%Q; None]]) [101; 102] 4
       = Ok ([(Donnees,
               [[]; []; [CStr (u "timestamp"); CNum 101; CNum 102];
                [CStr (example_strftime 10); CNum 1; CNum 7];
                [CStr (example_strftime 8); CNum 9; CNone]])], stats)).
Proof.
  split_and!.
  - eexists. vm_compute. reflexivity.
  - eexists _, _, _. split; [vm_compute; reflexivity|].
    split; [reflexivity|]. vm_compute. reflexivity.
  - eexists. vm_compute. reflexivity.
Qed.

(** ** From the written files to the consolidated matrix *)

Lemma filter_none {A} (P : A → Prop) `{!∀ x, Decision (P x)} (l : list A) :
  (∀ y, y ∈ l → ¬ P y) → filter P l = [].
Proof.
  induction l as [|y l IH]; intros HP; [done|].
  rewrite filter_cons, decide_False by (apply HP; by left).
  apply IH. intros z Hz. apply HP. by right.
Qed.

Lemma filter_unique {A} (P : A → Prop) `{!∀ x, Decision (P x)} (l : list A) (x : A) :
  NoDup l → x ∈ l → (∀ y, y ∈ l → P y ↔ y = x) → filter P l = [x].
Proof.
  intros Hnd Hx HP. induction Hnd as [|y l Hy Hnd IH].
  - by apply elem_of_nil in Hx.
  - rewrite filter_cons. destruct (decide (P y)) as [HPy|HPy].
    + apply HP in HPy as ->; [|by left]. f_equal.
      apply filter_none. intros z Hz HPz.
      apply HP in HPz; [|by right]. by subst.
    + apply IH.
      * apply elem_of_cons in Hx as [->|Hx]; [|done].
        exfalso. apply HPy, HP; [by left|done].
      * intros z Hz. apply HP. by right.
Qed.

Lemma position_NoDup (l : list Z) (i : nat) (x : Z) :
  NoDup l → l !! i = Some x → position x l = Some i.
Proof.
  intros Hnd Hi. unfold position.
  destruct (list_find_elem_of (λ y, y = x) l x) as [[j y] Hfind];
    [by eapply list_elem_of_lookup_2|done|].
  rewrite Hfind. cbn. f_equal.
  apply list_find_Some in Hfind as (Hj & -> & _).
  by eapply NoDup_lookup.
Qed.

Lemma position_None (l : list Z) (x : Z) : x ∉ l → position x l = None.
Proof.
  intros Hx. unfold position.
  destruct (list_find _ l) as [[j y]|] eqn:Hfind; [|done].
  apply list_find_Some in Hfind as (Hj & -> & _).
  exfalso. apply Hx. by eapply list_elem_of_lookup_2.
Qed.

Lemma header_columns_foldl (ws : sheet) (cols : list nat) (init : gmap Z nat)
    (code : Z) :
  foldl (λ code_to_col c,
           match cell_number (cell_value ws 3 c) with
           | Some v => <[Py.int v := c]> code_to_col
           | None => code_to_col
           end) init cols !! code
  = match last (filter (λ c, Py.int <$> cell_number (cell_value ws 3 c) = Some code)
                  cols) with
    | Some c => Some c
    | None => init !! code
    end.
Proof.
  induction cols as [|c cols IH] using rev_ind; [done|].
  rewrite foldl_app, filter_app, last_app. cbn [foldl].
  rewrite filter_cons, filter_nil.
  destruct (cell_number (cell_value ws 3 c)) as [v|]; cbn [fmap option_fmap option_map].
  - destruct (decide (Some (Py.int v) = Some code)) as [[= <-]|Hne].
    + cbn [last]. by rewrite lookup_insert_eq.
    + cbn [last]. rewrite lookup_insert_ne by congruence. apply IH.
  - rewrite decide_False by done. cbn [last]. apply IH.
Qed.

(** The column that the consolidator reads a code from: the last column
    of the header row that holds it. *)
Lemma header_columns_last (ws : sheet) (code : Z) :
  Consolidate.header_columns ws !! code
  = last (filter (λ c, Py.int <$> cell_number (cell_value ws 3 c) = Some code)
            (data_columns ws)).
Proof.
  unfold Consolidate.header_columns. rewrite header_columns_foldl.
  by destruct (last _).
Qed.

Section RoundTrip.
Variable strftime : Z → list N.
Variable to_datetime : cell → option Z.
Variable float_of_str : list N → option Q.

Section OneFile.
Variable ws : sheet.
Variable m : matrix.
Hypothesis Hempty : empty_from ws 4.
Hypothesis Hwide : (max_column ws ≤ length (m_columns m) + 1)%nat.
Hypothesis Hcodes : NoDup (m_columns m).
Hypothesis Hindex : NoDup (m_index m).
Hypothesis Hshape : well_shaped m.
Hypothesis Htime :
  Forall (λ ts, strftime ts ≠ [] ∧ to_datetime (CStr (strftime ts)) = Some ts)
         (m_index m).

Lemma written_header_code (c : nat) :
  (2 ≤ c)%nat →
  Py.int <$> cell_number (cell_value (written_sheet strftime ws m (m_columns m) 4) 3 c) = m_columns m !! (c - 2)%nat.
Proof.
  intros Hc. rewrite written_header_cell by lia.
  rewrite decide_False by lia.
  destruct (m_columns m !! (c - 2)%nat) as [code|] eqn:Hcode.
  - cbn. by rewrite int_inject_Z.
  - apply lookup_ge_None in Hcode.
    rewrite cell_value_beyond_columns by lia. done.
Qed.

Lemma written_header_columns (j : nat) (code : Z) :
  m_columns m !! j = Some code →
  Consolidate.header_columns (written_sheet strftime ws m (m_columns m) 4) !! code = Some (2 + j)%nat.
Proof.
  intros Hj. rewrite header_columns_last.
  rewrite (filter_unique _ _ (2 + j)%nat); [done|apply NoDup_seq| |].
  - unfold data_columns. apply elem_of_seq.
    pose proof (max_column_written_ge strftime ws m (m_columns m) 4 ltac:(lia)).
    apply lookup_lt_Some in Hj. lia.
  - intros c Hc%elem_of_seq. rewrite written_header_code by lia. split.
    + intros Hcode. pose proof (NoDup_lookup _ _ _ _ Hcodes Hcode Hj). lia.
    + intros ->. by replace (2 + j - 2)%nat with j by lia.
Qed.

Lemma written_header_columns_None (code : Z) :
  code ∉ m_columns m → Consolidate.header_columns (written_sheet strftime ws m (m_columns m) 4) !! code = None.
Proof.
  intros Hcode. rewrite header_columns_last. rewrite filter_none; [done|].
  intros c Hc%elem_of_seq. rewrite written_header_code by lia.
  intros Hc'. apply Hcode. by eapply list_elem_of_lookup_2.
Qed.

Lemma zip_lookup_index (k : nat) (ts : Z) :
  m_index m !! k = Some ts →
  ∃ row, zip (m_index m) (m_data m) !! k = Some (ts, row)
         ∧ length row = length (m_columns m).
Proof.
  intros Hk. destruct Hshape as [Hlen Hrows].
  destruct (lookup_lt_is_Some_2 (m_data m) k) as [row Hrow].
  { rewrite Hlen. by eapply lookup_lt_Some. }
  exists row. split; [by apply lookup_zip_Some|].
  rewrite Forall_forall in Hrows. apply Hrows. by eapply list_elem_of_lookup_2.
Qed.

Lemma written_row_timestamp (r : nat) :
  (4 ≤ r)%nat → row_timestamp to_datetime (written_sheet strftime ws m (m_columns m) 4) r = m_index m !! (r - 4)%nat.
Proof.
  intros Hr. unfold row_timestamp.
  destruct (m_index m !! (r - 4)%nat) as [ts|] eqn:Hts.
  - destruct (zip_lookup_index _ _ Hts) as (row & Hzip & _).
    destruct (written_data_cell strftime ws m (m_columns m) 4 (r - 4) ts row)
      as [Hcell _]; [lia|done|done|].
    replace (4 + (r - 4))%nat with r in Hcell by lia.
    rewrite Hcell.
    rewrite Forall_forall in Htime.
    destruct (Htime ts) as [Hne Hparse]; [by eapply list_elem_of_lookup_2|].
    revert Hne Hparse. destruct (strftime ts) as [|c s]; intros Hne Hparse; done.
  - apply lookup_ge_None in Hts.
    rewrite written_below; [done|lia|done| |lia].
    rewrite length_zip. lia.
Qed.

Lemma written_rows_ge : (length (m_index m) ≤ max_row (written_sheet strftime ws m (m_columns m) 4) - 3)%nat.
Proof.
  rewrite max_row_written.
  destruct Hshape as [Hlen _].
  destruct (zip (m_index m) (m_data m)) as [|item items] eqn:Hzip.
  - apply (f_equal length) in Hzip. rewrite length_zip in Hzip. cbn in Hzip. lia.
  - rewrite <- Hzip, length_zip. lia.
Qed.

Lemma written_timestamps :
  omap (row_timestamp to_datetime (written_sheet strftime ws m (m_columns m) 4)) (data_rows (written_sheet strftime ws m (m_columns m) 4)) = m_index m.
Proof.
  unfold data_rows.
  rewrite (omap_seq_tail _ 4 (length (m_index m))).
  - apply omap_seq_lookup. intros k ts Hk.
    rewrite written_row_timestamp by lia.
    by replace (4 + k - 4)%nat with k by lia.
  - apply written_rows_ge.
  - intros r Hr. rewrite written_row_timestamp by lia.
    apply lookup_ge_None. lia.
Qed.

Lemma written_rows_of (k : nat) (ts : Z) :
  m_index m !! k = Some ts →
  filter (λ r, row_timestamp to_datetime (written_sheet strftime ws m (m_columns m) 4) r = Some ts) (data_rows (written_sheet strftime ws m (m_columns m) 4))
  = [(4 + k)%nat].
Proof.
  intros Hk. apply filter_unique; [apply NoDup_seq| |].
  - unfold data_rows. apply elem_of_seq.
    pose proof written_rows_ge. apply lookup_lt_Some in Hk. lia.
  - intros r Hr%elem_of_seq. rewrite written_row_timestamp by lia. split.
    + intros Hr'. pose proof (NoDup_lookup _ _ _ _ Hindex Hr' Hk). lia.
    + intros ->. by replace (4 + k - 4)%nat with k by lia.
Qed.

Lemma written_rows_of_None (ts : Z) :
  ts ∉ m_index m →
  filter (λ r, row_timestamp to_datetime (written_sheet strftime ws m (m_columns m) 4) r = Some ts) (data_rows (written_sheet strftime ws m (m_columns m) 4)) = [].
Proof.
  intros Hts. apply filter_none. intros r Hr%elem_of_seq.
  rewrite written_row_timestamp by lia. intros Hr'.
  apply Hts. by eapply list_elem_of_lookup_2.
Qed.

(** The cell that a written sheet holds for a row label and a code. *)
Lemma written_cell (ts code : Z) :
  (col ← Consolidate.header_columns (written_sheet strftime ws m (m_columns m) 4) !! code;
   last (filter (λ val, has_value val = true)
           ((λ r, cell_value (written_sheet strftime ws m (m_columns m) 4) r col)
              <$> filter (λ r, row_timestamp to_datetime (written_sheet strftime ws m (m_columns m) 4) r = Some ts)
                    (data_rows (written_sheet strftime ws m (m_columns m) 4)))))
  = CNum <$> cell_at m ts code.
Proof.
  unfold cell_at.
  destruct (decide (ts ∈ m_index m)) as [Hts|Hts];
    [apply list_elem_of_lookup_1 in Hts as [k Hk]|].
  2:{ rewrite (position_None _ _ Hts). cbn [mbind option_bind].
      rewrite (written_rows_of_None _ Hts).
      by destruct (Consolidate.header_columns (written_sheet strftime ws m (m_columns m) 4) !! code). }
  rewrite (position_NoDup _ _ _ Hindex Hk). cbn [mbind option_bind].
  rewrite (written_rows_of _ _ Hk).
  destruct (decide (code ∈ m_columns m)) as [Hcode|Hcode];
    [apply list_elem_of_lookup_1 in Hcode as [j Hj]|].
  2:{ rewrite (position_None _ _ Hcode), (written_header_columns_None _ Hcode).
      done. }
  rewrite (position_NoDup _ _ _ Hcodes Hj), (written_header_columns _ _ Hj).
  cbn [mbind option_bind fmap list_fmap].
  destruct (zip_lookup_index _ _ Hk) as (row & Hzip & Hlen).
  apply lookup_zip_Some in Hzip as Hrow. destruct Hrow as [_ Hrow].
  rewrite Hrow. cbn [mbind option_bind].
  destruct (lookup_lt_is_Some_2 row j) as [v Hv].
  { rewrite Hlen. by eapply lookup_lt_Some. }
  destruct (written_data_cell strftime ws m (m_columns m) 4 k ts row)
    as [_ Hcell]; [lia|done|done|].
  rewrite (Hcell j v Hv), Hv.
  by destruct v.
Qed.

Lemma written_row_assignments (codes : list Z) (r : nat) (w : Z * Z * cell) :
  (4 ≤ r)%nat →
  w ∈ row_assignments to_datetime codes (written_sheet strftime ws m (m_columns m) 4) r → ∃ q, w.2 = CNum q.
Proof.
  intros Hr. unfold row_assignments.
  rewrite written_row_timestamp by done.
  destruct (m_index m !! (r - 4)%nat) as [ts|] eqn:Hts;
    [|by intros ?%elem_of_nil].
  intros (code & Hw & _)%list_elem_of_bind. unfold column_cell in Hw.
  destruct (decide (code ∈ m_columns m)) as [Hcode|Hcode];
    [apply list_elem_of_lookup_1 in Hcode as [j Hj]|].
  2:{ rewrite (written_header_columns_None _ Hcode) in Hw.
      by apply elem_of_nil in Hw. }
  rewrite (written_header_columns _ _ Hj) in Hw.
  cbn [fmap option_fmap option_map] in Hw.
  destruct (zip_lookup_index _ _ Hts) as (row & Hzip & Hlen).
  destruct (lookup_lt_is_Some_2 row j) as [v Hv].
  { rewrite Hlen. by eapply lookup_lt_Some. }
  destruct (written_data_cell strftime ws m (m_columns m) 4 (r - 4) ts row)
    as [_ Hcell]; [lia|done|done|].
  replace (4 + (r - 4))%nat with r in Hcell by lia.
  rewrite (Hcell j v Hv) in Hw.
  destruct v as [q|]; cbn in Hw.
  - apply list_elem_of_singleton in Hw as ->. by exists q.
  - by apply elem_of_nil in Hw.
Qed.

End OneFile.
End RoundTrip.

Section WrittenFiles.
Variable strftime : Z → list N.
Variable to_datetime : cell → option Z.
Variable float_of_str : list N → option Q.

Lemma written_by_sheet job file :
  written_by strftime to_datetime job file →
  ∃ ws,
    empty_from ws 4
    ∧ (max_column ws ≤ length (m_columns job.2) + 1)%nat
    ∧ NoDup (m_columns job.2) ∧ NoDup (m_index job.2) ∧ well_shaped job.2
    ∧ Forall (λ ts, strftime ts ≠ [] ∧ to_datetime (CStr (strftime ts)) = Some ts)
             (m_index job.2)
    ∧ get_sheet file Donnees
      = Some (written_sheet strftime ws job.2 (m_columns job.2) 4).
Proof.
  intros (ws & stats & Hws & Hempty & Hwide & Hcodes & Hindex & Hshape & Htime
          & Hwrite).
  exists ws. split_and!; try done.
  rewrite (write_template_Ok strftime job.1 Donnees ws) in Hwrite by (done || lia).
  injection Hwrite as <- _. by eapply get_sheet_set_sheet.
Qed.

Lemma written_by_timestamps job file :
  written_by strftime to_datetime job file →
  file_timestamps to_datetime file = m_index job.2.
Proof.
  intros (ws & Hempty & Hwide & Hcodes & Hindex & Hshape & Htime & Hfile)%written_by_sheet.
  unfold file_timestamps. rewrite Hfile. by apply written_timestamps.
Qed.

Lemma written_by_cell job file (ts code : Z) :
  written_by strftime to_datetime job file →
  file_cell to_datetime file ts code = CNum <$> cell_at job.2 ts code.
Proof.
  intros (ws & Hempty & Hwide & Hcodes & Hindex & Hshape & Htime & Hfile)%written_by_sheet.
  unfold file_cell. rewrite Hfile. cbn [mbind option_bind].
  by apply written_cell.
Qed.

Lemma written_by_convertible (codes : list Z) job file :
  written_by strftime to_datetime job file →
  Forall (λ w, is_Some (float_value float_of_str w.2))
         (assignments to_datetime codes file).
Proof.
  intros (ws & Hempty & Hwide & Hcodes & Hindex & Hshape & Htime & Hfile)%written_by_sheet.
  unfold assignments. rewrite Hfile. apply Forall_forall.
  intros w (r & Hw & Hr%elem_of_seq)%list_elem_of_bind.
  destruct (written_row_assignments strftime to_datetime ws job.2
              Hempty Hwide Hcodes Hshape Htime codes r w) as [q Hq]; [lia|done|].
  rewrite Hq. by eexists.
Qed.

Lemma written_files_timestamps jobs files :
  Forall2 (written_by strftime to_datetime) jobs files →
  files ≫= file_timestamps to_datetime = jobs ≫= λ job, m_index job.2.
Proof.
  induction 1 as [|job file jobs files Hjob _ IH]; [done|].
  by rewrite !bind_cons, IH, (written_by_timestamps job file).
Qed.

Lemma written_files_convertible (codes : list Z) jobs files :
  Forall2 (written_by strftime to_datetime) jobs files →
  convertible to_datetime float_of_str codes files.
Proof.
  unfold convertible. induction 1 as [|job file jobs files Hjob _ IH]; [done|].
  rewrite bind_cons. apply Forall_app. split; [|done].
  by eapply written_by_convertible.
Qed.

Lemma written_files_later_value jobs files (ts code : Z) :
  Forall2 (written_by strftime to_datetime) jobs files →
  later_value to_datetime float_of_str files ts code
  = last_value (jobs.*2) ts code.
Proof.
  intros Hall. unfold later_value, last_value.
  assert (Hcells : omap (λ wb, file_cell to_datetime wb ts code) files
                   = CNum <$> omap (λ m, cell_at m ts code) (jobs.*2)).
  { induction Hall as [|job file jobs files Hjob _ IH]; [done|].
    cbn [omap list_omap fmap list_fmap].
    rewrite (written_by_cell job file ts code Hjob), IH.
    by destruct (cell_at job.2 ts code). }
  rewrite Hcells, fmap_last. by destruct (last _).
Qed.

(** The consolidated matrix of files written by [write_template]. *)
Lemma consolidate_written (wb_tpl : workbook) (ws_tpl : sheet) jobs files :
  get_sheet wb_tpl Donnees = Some ws_tpl →
  Forall2 (written_by strftime to_datetime) jobs files →
  Consolidate._consolidate_outputs to_datetime float_of_str wb_tpl files
  = Ok {| m_index := Py.sorted_set (jobs ≫= λ job, m_index job.2);
          m_columns := Consolidate.header_codes ws_tpl;
          m_data := (λ ts, last_value (jobs.*2) ts
                             <$> Consolidate.header_codes ws_tpl)
                      <$> Py.sorted_set (jobs ≫= λ job, m_index job.2) |}.
Proof.
  intros Htpl Hall.
  rewrite (consolidate_outputs_Ok to_datetime float_of_str wb_tpl ws_tpl files Htpl)
    by by eapply written_files_convertible.
  rewrite (written_files_timestamps jobs files Hall). do 2 f_equal.
  apply Forall_fmap_ext_1, Forall_forall. intros ts _.
  apply Forall_fmap_ext_1, Forall_forall. intros code _.
  by apply written_files_later_value.
Qed.

Lemma sorted_set_sorted (l : list Z) :
  StronglySorted Z.lt l → Py.sorted_set l = l.
Proof.
  intros Hl. apply (StronglySorted_unique Z.le).
  - apply sorted_StronglySorted.
  - clear -Hl. induction Hl as [|x l _ IH Hall]; constructor; [done|].
    eapply Forall_impl; [exact Hall|]. intros y Hy. cbn in Hy. lia.
  - apply NoDup_Permutation; [apply NoDup_sorted_set| |].
    + clear -Hl. induction Hl as [|x l _ IH Hall]; constructor; [|done].
      intros Hx. rewrite Forall_forall in Hall. specialize (Hall x Hx). lia.
    + intros x. apply elem_of_sorted_set.
Qed.

Lemma tabulate_cell_at (m : matrix) :
  NoDup (m_index m) → NoDup (m_columns m) → well_shaped m →
  (λ ts, (λ code, cell_at m ts code) <$> m_columns m) <$> m_index m = m_data m.
Proof.
  intros Hindex Hcodes [Hlen Hrows]. apply list_eq. intros k.
  rewrite list_lookup_fmap.
  destruct (m_index m !! k) as [ts|] eqn:Hts; cbn.
  2:{ symmetry. apply lookup_ge_None. apply lookup_ge_None in Hts. lia. }
  destruct (lookup_lt_is_Some_2 (m_data m) k) as [row Hrow].
  { rewrite Hlen. by eapply lookup_lt_Some. }
  rewrite Hrow. f_equal.
  assert (Hrowlen : length row = length (m_columns m)).
  { rewrite Forall_forall in Hrows. apply Hrows. by eapply list_elem_of_lookup_2. }
  apply list_eq. intros j. rewrite list_lookup_fmap.
  destruct (m_columns m !! j) as [code|] eqn:Hcode; cbn.
  2:{ symmetry. apply lookup_ge_None. apply lookup_ge_None in Hcode. lia. }
  destruct (lookup_lt_is_Some_2 row j) as [v Hv].
  { rewrite Hrowlen. by eapply lookup_lt_Some. }
  rewrite Hv. f_equal. unfold cell_at.
  rewrite (position_NoDup _ _ _ Hindex Hts), (position_NoDup _ _ _ Hcodes Hcode).
  cbn [mbind option_bind]. rewrite Hrow. cbn [mbind option_bind]. by rewrite Hv.
Qed.

End WrittenFiles.

(** X4.  Batch consolidation of written files.  When every generated file is
    a matrix written by [write_template] from row 4 into the data sheet
    of a template that holds no value from row 4 on and is no wider than
    the columns of the matrix, with distinct row labels and distinct
    codes, and the timestamps it formats are parsed back,
    [_consolidate_outputs] returns: as columns the header codes of the
    consolidation template, as rows the ascending distinct union of the
    row labels of the matrices, and in each cell the value of the last
    matrix, in processing order, that holds one for that label and that
    code, an empty cell when none does. *)
Theorem consolidation_of_written_files (strftime : Z → list N)
    (to_datetime : cell → option Z) (float_of_str : list N → option Q)
    (wb_tpl : workbook) (ws_tpl : sheet)
    (jobs : list (workbook * matrix)) (files : list workbook) :
  get_sheet wb_tpl Donnees = Some ws_tpl →
  Forall2 (written_by strftime to_datetime) jobs files →
  Consolidate._consolidate_outputs to_datetime float_of_str wb_tpl files
  = Ok {| m_index := Py.sorted_set (jobs ≫= λ job, m_index job.2);
          m_columns := Consolidate.header_codes ws_tpl;
          m_data := (λ ts, last_value (jobs.*2) ts
                             <$> Consolidate.header_codes ws_tpl)
                      <$> Py.sorted_set (jobs ≫= λ job, m_index job.2) |}.
Proof.
  intros Htpl Hall.
  rewrite (consolidate_outputs_Ok to_datetime float_of_str wb_tpl ws_tpl files Htpl)
    by by eapply written_files_convertible.
  rewrite (written_files_timestamps strftime to_datetime jobs files Hall).
  do 2 f_equal.
  apply Forall_fmap_ext_1, Forall_forall. intros ts _.
  apply Forall_fmap_ext_1, Forall_forall. intros code _.
  by eapply written_files_later_value.
Qed.

(** X5.  Round trip of one matrix.  A matrix with ascending row labels,
    written by [write_template] into a template that holds no value from
    row 4 on, and consolidated alone against a template whose header
    holds the codes of the matrix, is returned as it was.  (On a template
    that holds rows of an earlier run the writer leaves them in place and
    the consolidation reads them too.) *)
Theorem written_matrix_round_trip (strftime : Z → list N)
    (to_datetime : cell → option Z) (float_of_str : list N → option Q)
    (wb_tpl : workbook) (ws_tpl : sheet) (wb : workbook) (m : matrix)
    (file : workbook) :
  get_sheet wb_tpl Donnees = Some ws_tpl →
  Consolidate.header_codes ws_tpl = m_columns m →
  StronglySorted Z.lt (m_index m) →
  written_by strftime to_datetime (wb, m) file →
  Consolidate._consolidate_outputs to_datetime float_of_str wb_tpl [file] = Ok m.
Proof.
  intros Htpl Hheader Hsorted Hfile.
  rewrite (consolidate_written strftime to_datetime float_of_str wb_tpl ws_tpl
             [(wb, m)] [file] Htpl) by (by repeat constructor).
  destruct Hfile as (ws & stats & _ & _ & _ & Hcodes & Hindex & Hshape & _).
  cbn [snd] in *. f_equal. rewrite bind_singleton. cbn [snd fmap list_fmap].
  rewrite (sorted_set_sorted (m_index m) Hsorted), Hheader.
  pose proof (tabulate_cell_at m Hindex Hcodes Hshape) as Hdata.
  destruct m as [index columns data]. cbn [m_index m_columns m_data] in *.
  f_equal. etransitivity; [|exact Hdata].
  apply Forall_fmap_ext_1, Forall_forall. intros ts _.
  apply Forall_fmap_ext_1, Forall_forall. intros code _.
  unfold last_value. cbn [omap list_omap].
  by destruct (cell_at _ ts code).
Qed.

Lemma example_written_by :
  written_by example_strftime example_strptime
    (example_template, example_matrix) example_written.
Proof.
  exists [[]; []; [CStr (u "timestamp"); CNum 101; CNum 102]].
  eexists. split_and!.
  - reflexivity.
  - intros r c Hr. apply cell_value_beyond_rows. cbn. lia.
  - vm_compute. lia.
  - apply (bool_decide_unpack _). by vm_compute.
  - apply (bool_decide_unpack _). by vm_compute.
  - split; [reflexivity|]. by repeat constructor.
  - by repeat constructor.
  - vm_compute. reflexivity.
Defined.

Lemma consolidation_of_written_files_witness :
  get_sheet example_template Donnees
  = Some [[]; []; [CStr (u "timestamp"); CNum 101; CNum 102]]
  ∧ Forall2 (written_by example_strftime example_strptime)
      [(example_template, example_matrix)] [example_written]
  ∧ Consolidate._consolidate_outputs example_strptime example_float
      example_template [example_written]
    = Ok {| m_index := Py.sorted_set
                         ([(example_template, example_matrix)]
                            ≫= λ job, m_index job.2);
            m_columns := Consolidate.header_codes
                           [[]; []; [CStr (u "timestamp"); CNum 101; CNum 102]];
            m_data := (λ ts, last_value
                               ([(example_template, example_matrix)].*2) ts
                               <$> Consolidate.header_codes
                                     [[]; []; [CStr (u "timestamp"); CNum 101;
                                               CNum 102]])
                        <$> Py.sorted_set
                              ([(example_template, example_matrix)]
                                 ≫= λ job, m_index job.2) |}.
Proof.
  assert (H1 : get_sheet example_template Donnees
               = Some [[]; []; [CStr (u "timestamp"); CNum 101; CNum 102]])
    by reflexivity.
  assert (H2 : Forall2 (written_by example_strftime example_strptime)
                 [(example_template, example_matrix)] [example_written]).
  { constructor; [exact example_written_by|constructor]. }
  split_and!; [exact H1|exact H2|].
  exact (consolidation_of_written_files example_strftime example_strptime
           example_float example_template _ _ _ H1 H2).
Defined.

Lemma written_matrix_round_trip_witness :
  get_sheet example_template Donnees
  = Some [[]; []; [CStr (u "timestamp"); CNum 101; CNum 102]]
  ∧ Consolidate.header_codes [[]; []; [CStr (u "timestamp"); CNum 101; CNum 102]]
    = m_columns example_matrix
  ∧ StronglySorted Z.lt (m_index example_matrix)
  ∧ written_by example_strftime example_strptime
      (example_template, example_matrix) example_written
  ∧ Consolidate._consolidate_outputs example_strptime example_float
      example_template [example_written] = Ok example_matrix.
Proof.
  assert (H1 : get_sheet example_template Donnees
               = Some [[]; []; [CStr (u "timestamp"); CNum 101; CNum 102]])
    by reflexivity.
  assert (H2 : Consolidate.header_codes
                 [[]; []; [CStr (u "timestamp"); CNum 101; CNum 102]]
               = m_columns example_matrix) by (vm_compute; reflexivity).
  assert (H3 : StronglySorted Z.lt (m_index example_matrix)).
  { repeat constructor; cbn; lia. }
  split_and!; [exact H1|exact H2|exact H3|exact example_written_by|].
  exact (written_matrix_round_trip example_strftime example_strptime example_float
           example_template _ example_template example_matrix example_written
           H1 H2 H3 example_written_by).
Defined.

(** Two written files that hold a value for the same label and code:
    the consolidated cell has the value of the file supplied last, and a
    cell that only the first file fills keeps its value. *)
Lemma consolidation_of_two_written_files :
  ∃ file1 file2 stats1 stats2,
    FlowWriter.write_template example_strftime example_template Donnees
      (mkMatrix [10] [101; 102] [[Some 1%Q; Some 5%Q]]) [101; 102] 4
    = Ok (file1, stats1)
    ∧ FlowWriter.write_template example_strftime example_template Donnees
        (mkMatrix [10; 20] [101; 102] [[Some 2%Q; None]; [None; Some 7%Q]])
        [101; 102] 4
      = Ok (file2, stats2)
    ∧ Consolidate._consolidate_outputs example_strptime example_float
        example_template [file1; file2]
      = Ok (mkMatrix [10; 20] [101; 102]
              [[Some 2%Q; Some 5%Q]; [None; Some 7%Q]]).
Proof.
  eexists _, _, _, _. split_and!; vm_compute; reflexivity.
Qed.

(** A template that still holds a row of an earlier run, at the label 5:
    the writer leaves the row below the new one, and the consolidation
    of the written file returns both labels. *)
Lemma consolidation_reads_earlier_rows :
  ∃ file stats,
    FlowWriter.write_template example_strftime
      [(Donnees, [[]; []; [CStr (u "timestamp"); CNum 101; CNum 102];
                  [CStr (example_strftime 7); CNum 8; CNone];
                  [CStr (example_strftime 5); CNum 6; CNone]])]
      Donnees (mkMatrix [10] [101; 102] [[Some 1%Q; Some 2%Q]]) [101; 102] 4
    = Ok (file, stats)
    ∧ Consolidate._consolidate_outputs example_strptime example_float
        example_template [file]
      = Ok (mkMatrix [5; 10] [101; 102]
              [[Some 6%Q; None]; [Some 1%Q; Some 2%Q]]).
Proof.
  eexists _, _. split; vm_compute; reflexivity.
Qed.

(** X6.  Stability of the station columns.  When a script is fed its own
    output workbook as template, with the same station sheet, the target
    codes it computes are the target codes of the first run, whatever
    the first template held to the right of the written columns. *)
Theorem target_codes_stable (strftime : Z → list N) write read target
    (wb : workbook) (sheet_data : list N) (ws : sheet) (m : matrix)
    (station_codes : list Z) (start_row : Z) :
  write ∈ writers strftime → read ∈ header_readers → target ∈ target_coders →
  get_sheet wb sheet_data = Some ws → 4 ≤ start_row →
  ∃ wb' stats ws',
    write wb sheet_data m (target station_codes (read ws)) start_row
    = Ok (wb', stats)
    ∧ get_sheet wb' sheet_data = Some ws'
    ∧ target station_codes (read ws') = target station_codes (read ws).
Proof.
  intros Hwrite Hread Htarget Hws Hstart.
  rewrite (writers_eq strftime write) by done.
  rewrite (write_template_Ok strftime wb sheet_data ws) by (done || lia).
  eexists _, _, _. split; [reflexivity|].
  split; [by eapply get_sheet_set_sheet|].
  rewrite !(header_readers_eq read) by done.
  rewrite written_header_codes by lia.
  assert (Ht : target = Py.sorted_union).
  { revert Htarget. unfold target_coders. rewrite !elem_of_cons, elem_of_nil.
    by intros [->|[->|[->|[]]]]. }
  subst target. unfold Py.sorted_union at 1 3.
  apply sorted_set_ext. intros x. rewrite !elem_of_app, elem_of_sorted_union.
  split; [|tauto].
  intros [Hx|[[Hx|Hx]|Hx%stale_codes_header]]; tauto.
Qed.

Lemma target_codes_stable_witness :
  FlowWriter.write_template example_strftime ∈ writers example_strftime
  ∧ Flow.extract_template_data_codes ∈ header_readers
  ∧ Flow.target_codes ∈ target_coders
  ∧ get_sheet example_template Donnees
    = Some [[]; []; [CStr (u "timestamp"); CNum 101; CNum 102]]
  ∧ 4 ≤ 4
  ∧ ∃ wb' stats ws',
      FlowWriter.write_template example_strftime example_template Donnees
        example_matrix
        (Flow.target_codes [103]
           (Flow.extract_template_data_codes
              [[]; []; [CStr (u "timestamp"); CNum 101; CNum 102]])) 4
      = Ok (wb', stats)
      ∧ get_sheet wb' Donnees = Some ws'
      ∧ Flow.target_codes [103] (Flow.extract_template_data_codes ws')
        = Flow.target_codes [103]
            (Flow.extract_template_data_codes
               [[]; []; [CStr (u "timestamp"); CNum 101; CNum 102]]).
Proof.
  assert (H1 : FlowWriter.write_template example_strftime ∈ writers example_strftime)
    by (by left).
  assert (H2 : Flow.extract_template_data_codes ∈ header_readers) by (by left).
  assert (H3 : Flow.target_codes ∈ target_coders) by (by left).
  assert (H4 : get_sheet example_template Donnees
               = Some [[]; []; [CStr (u "timestamp"); CNum 101; CNum 102]])
    by reflexivity.
  assert (H5 : 4 ≤ 4) by lia.
  split_and!; [exact H1|exact H2|exact H3|exact H4|exact H5|].
  exact (target_codes_stable example_strftime _ _ _ example_template Donnees _
           example_matrix [103] 4 H1 H2 H3 H4 H5).
Defined.

(** ** Order and uniqueness of the cleaned rows *)

Section InsertionSort.
Context {A : Type} (le : A → A → bool).
Hypothesis le_total : ∀ a b, le a b = true ∨ le b a = true.
Hypothesis le_trans : ∀ a b c, le a b = true → le b c = true → le a c = true.

Lemma insert_by_sorted (x : A) (l : list A) :
  StronglySorted (λ a b, le a b = true) l →
  StronglySorted (λ a b, le a b = true) (insert_by le x l).
Proof.
  induction 1 as [|y l Hl IH Hall]; [by repeat constructor|].
  cbn [insert_by]. destruct (le x y) eqn:Hxy.
  - constructor; [by constructor|]. constructor; [done|].
    eapply Forall_impl; [exact Hall|]. intros z Hz. by eapply le_trans.
  - constructor; [done|].
    assert (Hyx : le y x = true) by (destruct (le_total x y); congruence).
    rewrite insert_by_Permutation. by constructor.
Qed.

Lemma stable_sort_sorted (l : list A) :
  StronglySorted (λ a b, le a b = true) (stable_sort le l).
Proof.
  induction l as [|x l IH]; [constructor|]. by apply insert_by_sorted.
Qed.

End InsertionSort.

Section Keys.
Implicit Types (l : list record) (r : record).

Lemma le_time_station_total r1 r2 :
  le_time_station r1 r2 = true ∨ le_time_station r2 r1 = true.
Proof. unfold le_time_station. lia. Qed.

Lemma le_time_station_trans r1 r2 r3 :
  le_time_station r1 r2 = true → le_time_station r2 r3 = true →
  le_time_station r1 r3 = true.
Proof. unfold le_time_station. lia. Qed.

Lemma le_time_station_key r1 r2 :
  le_time_station r1 r2 = true →
  key_lt (key_of r1) (key_of r2) ∨ key_of r1 = key_of r2.
Proof.
  unfold le_time_station, key_lt, key_of. cbn. intros Hle.
  destruct (decide (r_time r1 = r_time r2 ∧ r_station r1 = r_station r2))
    as [[-> ->]|Hne]; [by right|left; lia].
Qed.

Lemma sorted_keys_strict l :
  NoDup (key_of <$> l) →
  StronglySorted (λ a b, le_time_station a b = true) l →
  ascending_keys l.
Proof.
  unfold ascending_keys. intros Hnd Hs.
  induction Hs as [|r l Hl IH Hall]; [constructor|].
  rewrite fmap_cons in Hnd |- *. apply NoDup_cons in Hnd as [Hr Hnd].
  constructor; [by apply IH|].
  apply Forall_fmap, Forall_forall. intros r' Hr'. cbn.
  rewrite Forall_forall in Hall.
  destruct (le_time_station_key r r' (Hall r' Hr')) as [Hlt|Heq]; [done|].
  exfalso. apply Hr. rewrite Heq. by apply list_elem_of_fmap_2.
Qed.

Lemma NoDup_keys_loc_not l :
  NoDup (key_of <$> loc_not (duplicated_last l) l).
Proof.
  induction l as [|r l IH]; [constructor|].
  rewrite loc_not_duplicated_cons. case_bool_decide as Hin; [done|].
  rewrite fmap_cons. apply NoDup_cons. split; [|done].
  intros (r' & Hkey & Hr'%elem_of_loc_not)%list_elem_of_fmap.
  apply Hin. rewrite Hkey. by apply list_elem_of_fmap_2.
Qed.

Lemma mask_sum_NoDup l :
  NoDup (key_of <$> l) → mask_sum (duplicated_last l) = 0%nat.
Proof.
  induction l as [|r l IH]; [done|].
  rewrite fmap_cons. intros [Hr Hnd]%NoDup_cons.
  cbn [duplicated_last]. rewrite mask_sum_cons, bool_decide_false by done.
  by rewrite IH.
Qed.

(** Drop of the duplicates, then sort by time and station. *)
Lemma cleaned_ascending l :
  ascending_keys (stable_sort le_time_station (loc_not (duplicated_last l) l)).
Proof.
  apply sorted_keys_strict.
  - rewrite stable_sort_Permutation. apply NoDup_keys_loc_not.
  - apply stable_sort_sorted.
    + apply le_time_station_total.
    + apply le_time_station_trans.
Qed.

Lemma key_lt_NoDup (keys : list (Z * Z)) : StronglySorted key_lt keys → NoDup keys.
Proof.
  induction 1 as [|k keys _ IH Hall]; constructor; [|done].
  intros Hk. rewrite Forall_forall in Hall. specialize (Hall k Hk).
  unfold key_lt in Hall. lia.
Qed.

End Keys.

Section ResampleKeys.

Lemma StronglySorted_app_2 {A} (R : relation A) (l1 l2 : list A) :
  StronglySorted R l1 → StronglySorted R l2 →
  (∀ x y, x ∈ l1 → y ∈ l2 → R x y) →
  StronglySorted R (l1 ++ l2).
Proof.
  intros H1 H2 H12. induction H1 as [|x l1 _ IH Hall]; [done|].
  cbn. constructor.
  - apply IH. intros a b Ha Hb. apply H12; [by right|done].
  - apply Forall_app. split; [done|].
    apply Forall_forall. intros y Hy. apply H12; [by left|done].
Qed.

Lemma buckets_ascending (w : Z) (times : list Z) :
  0 < w → StronglySorted Z.lt (Resample.buckets w times).
Proof.
  intros Hw. unfold Resample.buckets.
  destruct (list_min times) as [tmin|]; [|constructor].
  destruct (list_max times) as [tmax|]; [|constructor].
  cbv zeta. eapply StronglySorted_fmap; [|apply seq_ascending].
  intros i j Hij. cbn. nia.
Qed.

Lemma resample_group_keys w reduce (s : Z) (group : list record) :
  key_of <$> Resample.resample_group w reduce s group
  = (λ b, (b, s)) <$> Resample.buckets w (r_time <$> group).
Proof.
  unfold Resample.resample_group. rewrite <- list_fmap_compose.
  by apply list_fmap_ext.
Qed.

Lemma groupby_resample_ascending w reduce (df : list record) :
  0 < w → ascending_station_keys (Resample.groupby_resample w reduce df).
Proof.
  intros Hw. unfold ascending_station_keys, Resample.groupby_resample.
  pose proof (sorted_set_ascending (r_station <$> df)) as Hs.
  induction Hs as [|s stations _ IH Hall]; [constructor|].
  rewrite bind_cons, fmap_app. apply StronglySorted_app_2; [|done|].
  - rewrite resample_group_keys.
    eapply StronglySorted_fmap; [|by apply buckets_ascending].
    intros b1 b2 Hb. right. by split.
  - intros k1 k2. rewrite resample_group_keys.
    intros (b & -> & _)%list_elem_of_fmap (r & -> & Hr)%list_elem_of_fmap.
    apply list_elem_of_bind in Hr as (s' & Hr & Hs').
    assert (Hstation : r_station r = s').
    { unfold Resample.resample_group in Hr.
      by apply list_elem_of_fmap in Hr as (b' & -> & _). }
    rewrite Forall_forall in Hall. specialize (Hall s' Hs').
    left. unfold key_of. cbn. lia.
Qed.

Lemma key_lt_station_NoDup (keys : list (Z * Z)) :
  StronglySorted key_lt_station keys → NoDup keys.
Proof.
  induction 1 as [|k keys _ IH Hall]; constructor; [|done].
  intros Hk. rewrite Forall_forall in Hall. specialize (Hall k Hk).
  unfold key_lt_station in Hall. lia.
Qed.

Lemma groupby_resample_no_duplicates w reduce (df : list record) :
  0 < w →
  mask_sum (duplicated_last (Resample.groupby_resample w reduce df)) = 0%nat.
Proof.
  intros Hw. apply mask_sum_NoDup, key_lt_station_NoDup.
  by apply groupby_resample_ascending.
Qed.

End ResampleKeys.

(** X7.  The rows that the cleaning functions return come in strictly
    ascending order of their keys, so that no (time, station) pair is
    carried by two rows: by time then station in the two precipitation
    scripts and in the flow script, by station then time in the volume
    script, whose resampled frame is returned as the groups come. *)
Theorem cleaned_rows_ascending (to_datetime : cell → option Z)
    (to_numeric : cell → option Q) (to_timedelta : string → Z) :
  (∀ df,
     (∀ c, c ∈ PrecipModel.REQUIRED_COLUMNS → c ∈ PrecipModel.columns df) →
     let out := (PrecipModel.validate_and_clean_input to_datetime to_numeric df).1.1 in
     ascending_keys out ∧ NoDup (key_of <$> out))
  ∧ (∀ df ws,
       let out := (PrecipObs.clean_values to_datetime to_numeric df ws).1.1 in
       ascending_keys out ∧ NoDup (key_of <$> out))
  ∧ (∀ df rule agg ws out stats ws',
       FlowClean.clean_and_resample to_datetime to_numeric to_timedelta
         df rule agg ws = Ok (out, stats, ws') →
       ascending_keys out ∧ NoDup (key_of <$> out))
  ∧ (∀ df rule agg ws,
       0 < to_timedelta rule →
       let out := (Volume.clean_and_resample to_datetime to_numeric to_timedelta
                     df rule agg ws).1.1 in
       ascending_station_keys out ∧ NoDup (key_of <$> out)).
Proof.
  split_and!.
  - intros df Hcols out. subst out.
    unfold PrecipModel.validate_and_clean_input.
    rewrite (no_missing_columns df Hcols). cbn [fst].
    rewrite conditional_drop_decide.
    split; [apply cleaned_ascending|apply key_lt_NoDup, cleaned_ascending].
  - intros df ws out. subst out. unfold PrecipObs.clean_values. cbn [fst].
    rewrite conditional_drop.
    split; [apply cleaned_ascending|apply key_lt_NoDup, cleaned_ascending].
  - intros df rule agg ws out stats ws'. unfold FlowClean.clean_and_resample.
    destruct (if bool_decide (rule ≠ ""%string) then _ else _) as [rs|e]; [|done].
    cbn [mbind result_bind mret result_ret]. rewrite conditional_drop.
    intros [= <- _ _].
    split; [apply cleaned_ascending|apply key_lt_NoDup, cleaned_ascending].
  - intros df rule agg ws Hw out. subst out.
    unfold Volume.clean_and_resample. cbn [fst].
    split; [|apply key_lt_station_NoDup]; by apply groupby_resample_ascending.
Qed.

Lemma cleaned_rows_ascending_witness :
  0 < hourly "1h"
  ∧ ascending_station_keys
      (Volume.clean_and_resample timestamp_cell numeric_cell hourly
         two_buckets "1h" "mean" []).1.1
  ∧ NoDup (key_of <$> (Volume.clean_and_resample timestamp_cell numeric_cell hourly
                         two_buckets "1h" "mean" []).1.1).
Proof.
  assert (Hw : 0 < hourly "1h") by done.
  split; [exact Hw|].
  exact (proj2 (proj2 (proj2 (cleaned_rows_ascending timestamp_cell numeric_cell
                                hourly)))
           two_buckets "1h"%string "mean"%string [] Hw).
Defined.

(** X8.  In the flow script a run with a resample rule never drops a
    row as a duplicate: the resampled frame has one row per station and
    bucket, so the count of removed duplicates is 0, no duplicate warning
    is added, and the rows returned are the resampled rows, reordered by
    time and station. *)
Theorem flow_resample_no_duplicates (to_datetime : cell → option Z)
    (to_numeric : cell → option Q) (to_timedelta : string → Z)
    (df : list mapped_row) (rule agg : string) (ws : list warning)
    out stats ws' :
  rule ≠ ""%string → 0 < to_timedelta rule →
  FlowClean.clean_and_resample to_datetime to_numeric to_timedelta df rule agg ws
  = Ok (out, stats, ws') →
  proc_duplicate_rows_removed stats = 0%nat
  ∧ no_new_duplicate_warning ws ws'
  ∧ rows_after_cleaning_and_resample stats = length out
  ∧ ∃ reduce,
      FlowClean.select_agg agg = Ok reduce
      ∧ out ≡ₚ Resample.groupby_resample (to_timedelta rule) reduce
                 (sorted_input to_datetime to_numeric df).
Proof.
  intros Hrule Hw. unfold FlowClean.clean_and_resample.
  rewrite bool_decide_true by done.
  destruct (FlowClean.select_agg agg) as [reduce|e]; [|done].
  cbn [mbind result_bind mret result_ret].
  fold (sorted_input to_datetime to_numeric df).
  rewrite (groupby_resample_no_duplicates _ reduce _ Hw).
  intros [= <- <- <-]. cbn [proc_duplicate_rows_removed
    rows_after_cleaning_and_resample warn_when].
  split_and!; [done| |done|].
  - intros n. rewrite !app_nil_r, !elem_of_app. intros [?|[H|[H|H]]]; [done|..].
    + unfold warn_when in H. destruct (count_bad_time _); [by apply elem_of_nil in H|].
      by apply list_elem_of_singleton in H.
    + unfold warn_when in H. destruct (count_null _); [by apply elem_of_nil in H|].
      by apply list_elem_of_singleton in H.
    + unfold warn_when in H. destruct (count_negative _); [by apply elem_of_nil in H|].
      by apply list_elem_of_singleton in H.
  - exists reduce. split; [done|]. apply stable_sort_Permutation.
Qed.

Lemma flow_resample_no_duplicates_witness :
  ("1h" ≠ "")%string ∧ 0 < hourly "1h"
  ∧ ∃ out stats ws',
      FlowClean.clean_and_resample timestamp_cell numeric_cell hourly
        two_buckets "1h" "mean" [] = Ok (out, stats, ws')
      ∧ proc_duplicate_rows_removed stats = 0%nat
      ∧ no_new_duplicate_warning [] ws'.
Proof.
  assert (H1 : ("1h" ≠ "")%string) by done.
  assert (H2 : 0 < hourly "1h") by done.
  split_and!; [exact H1|exact H2|].
  destruct (flow_clean_and_resample_ok timestamp_cell numeric_cell hourly
              two_buckets "1h" "mean" [] Series.mean H1 eq_refl)
    as (out & stats & ws' & Hrun & _).
  exists out, stats, ws'. split; [exact Hrun|].
  destruct (flow_resample_no_duplicates timestamp_cell numeric_cell hourly
              two_buckets "1h" "mean" [] out stats ws' H1 H2 Hrun) as (Hd & Hws & _).
  by split.
Defined.

(** ** Accounts of the cleaning *)

Lemma length_omap_split {A B} (f : A → option B) (P : A → Prop)
    `{!∀ x, Decision (P x)} (l : list A) :
  (∀ x, P x ↔ f x = None) →
  (length (omap f l) + length (filter P l))%nat = length l.
Proof.
  intros HP. induction l as [|x l IH]; [done|].
  cbn [omap list_omap]. rewrite filter_cons.
  destruct (f x) as [y|] eqn:Hx.
  - rewrite decide_False by (rewrite HP; congruence). cbn [length]. lia.
  - rewrite decide_True by (by apply HP). cbn [length]. lia.
Qed.

Lemma warn_if_nil (n : nat) (w : nat → warning) :
  PrecipModel.warn_if n w = [] ↔ n = 0%nat.
Proof. unfold PrecipModel.warn_if. case_bool_decide; split; (done || lia). Qed.

Lemma warn_when_nil (n : nat) (w : nat → warning) : warn_when n w = [] ↔ n = 0%nat.
Proof. by destruct n. Qed.

Lemma app_nil_iff {A} (l1 l2 : list A) : l1 ++ l2 = [] ↔ l1 = [] ∧ l2 = [].
Proof. split; [apply app_eq_nil|by intros [-> ->]]. Qed.

(** X9.  The statistics of the precipitation cleaning add up.  In the
    precipitation-model script every raw row is either kept, or dropped
    for its timestamp, or dropped for its station code, or dropped as a
    duplicate; in the observed-precipitation script every input row is
    kept, dropped for its timestamp or dropped as a duplicate.  In both,
    no warning is raised exactly when all the counters are zero, and the
    model script reports the error of an empty result exactly when no
    row is left. *)
Theorem cleaning_accounts (to_datetime : cell → option Z)
    (to_numeric : cell → option Q) :
  (∀ df,
     (∀ c, c ∈ PrecipModel.REQUIRED_COLUMNS → c ∈ PrecipModel.columns df) →
     let res := PrecipModel.validate_and_clean_input to_datetime to_numeric df in
     ∃ stats,
       res.2 = Some stats
       ∧ PrecipModel.raw_rows stats = length (PrecipModel.rows df)
       ∧ PrecipModel.rows_after_cleaning stats = length res.1.1
       ∧ PrecipModel.raw_rows stats
         = (PrecipModel.rows_after_cleaning stats
            + PrecipModel.invalid_time_rows stats
            + PrecipModel.invalid_station_rows stats
            + PrecipModel.duplicate_rows_removed stats)%nat
       ∧ (PrecipModel.warnings res.1.2 = [] ↔
          PrecipModel.invalid_time_rows stats = 0%nat
          ∧ PrecipModel.invalid_station_rows stats = 0%nat
          ∧ PrecipModel.invalid_rr_rows stats = 0%nat
          ∧ PrecipModel.negative_rr_rows stats = 0%nat
          ∧ PrecipModel.duplicate_rows_removed stats = 0%nat)
       ∧ (PrecipModel.errors res.1.2 = [] ↔
          PrecipModel.rows_after_cleaning stats ≠ 0%nat)
       ∧ (PrecipModel.rows_after_cleaning stats = 0%nat →
          PrecipModel.errors res.1.2 = [PrecipModel.NoValidRows]))
  ∧ (∀ df ws,
       let res := PrecipObs.clean_values to_datetime to_numeric df ws in
       PrecipObs.rows_after_cleaning res.1.2 = length res.1.1
       ∧ length df
         = (PrecipObs.rows_after_cleaning res.1.2
            + PrecipObs.invalid_time_rows res.1.2
            + PrecipObs.duplicate_rows_removed res.1.2)%nat
       ∧ (res.2 = ws ↔
          PrecipObs.invalid_time_rows res.1.2 = 0%nat
          ∧ PrecipObs.invalid_rr_rows res.1.2 = 0%nat
          ∧ PrecipObs.negative_rr_rows res.1.2 = 0%nat
          ∧ PrecipObs.duplicate_rows_removed res.1.2 = 0%nat)).
Proof.
  split.
  - intros df Hcols res. subst res.
    unfold PrecipModel.validate_and_clean_input.
    rewrite (no_missing_columns df Hcols). cbn [fst snd].
    eexists. split; [reflexivity|].
    cbn [PrecipModel.raw_rows PrecipModel.rows_after_cleaning
         PrecipModel.invalid_time_rows PrecipModel.invalid_station_rows
         PrecipModel.invalid_rr_rows PrecipModel.negative_rr_rows
         PrecipModel.duplicate_rows_removed PrecipModel.warnings
         PrecipModel.errors].
    rewrite conditional_drop_decide.
    set (timed := PrecipModel.coerce_time to_datetime (PrecipModel.rows df)).
    set (coded := PrecipModel.coerce_station to_numeric (PrecipModel.valid_time timed)).
    set (clean := PrecipModel.coerce_rr to_numeric (PrecipModel.valid_station coded)).
    split_and!; [done|done| | | |].
    + pose proof (length_cleaned clean) as Hclean.
      assert (Hrr : length clean = length (PrecipModel.valid_station coded))
        by apply length_fmap.
      assert (Hst : (length (PrecipModel.valid_station coded)
                     + length (filter (λ p, p.1.2 = None) coded))%nat
                    = length coded).
      { apply length_omap_split. intros p. by destruct p.1.2. }
      assert (Hcoded : length coded = length (PrecipModel.valid_time timed))
        by apply length_fmap.
      assert (Htm : (length (PrecipModel.valid_time timed)
                     + length (filter (λ p, p.1 = None) timed))%nat
                    = length timed).
      { apply length_omap_split. intros p. by destruct p.1. }
      assert (Htimed : length timed = length (PrecipModel.rows df))
        by apply length_fmap.
      lia.
    + rewrite !app_nil_iff, !warn_if_nil. tauto.
    + destruct (stable_sort _ _); cbn [length]; split; (done || lia).
    + by destruct (stable_sort _ _).
  - intros df ws res. subst res. unfold PrecipObs.clean_values. cbn [fst snd].
    cbn [PrecipObs.rows_after_cleaning PrecipObs.invalid_time_rows
         PrecipObs.invalid_rr_rows PrecipObs.negative_rr_rows
         PrecipObs.duplicate_rows_removed].
    rewrite conditional_drop.
    set (timed := coerce_times to_datetime df).
    set (clean := coerce_values to_numeric timed).
    split_and!; [done| |].
    + pose proof (length_cleaned clean) as Hclean.
      assert (Htm : (length clean + count_bad_time timed)%nat = length timed).
      { apply length_omap_split. intros p. by destruct p.1. }
      assert (Htimed : length timed = length df) by apply length_fmap.
      lia.
    + rewrite <- (app_nil_r ws) at 2. rewrite (inj_iff (app ws)).
      rewrite !app_nil_iff, !warn_when_nil. tauto.
Qed.

Lemma cleaning_accounts_witness :
  let df := PrecipModel.mkFrame PrecipModel.REQUIRED_COLUMNS
              [PrecipModel.mkInput (CNum 3600) (CNum 1) (CNum 10);
               PrecipModel.mkInput (CStr (u "x")) (CNum 1) (CNum 11);
               PrecipModel.mkInput (CNum 3600) (CNum 1) (CNum 12)] in
  (∀ c, c ∈ PrecipModel.REQUIRED_COLUMNS → c ∈ PrecipModel.columns df)
  ∧ ∃ stats,
      (PrecipModel.validate_and_clean_input timestamp_cell numeric_cell df).2
      = Some stats
      ∧ PrecipModel.raw_rows stats
        = (PrecipModel.rows_after_cleaning stats
           + PrecipModel.invalid_time_rows stats
           + PrecipModel.invalid_station_rows stats
           + PrecipModel.duplicate_rows_removed stats)%nat.
Proof.
  cbv zeta.
  assert (Hcols : ∀ c, c ∈ PrecipModel.REQUIRED_COLUMNS →
            c ∈ PrecipModel.columns
                  (PrecipModel.mkFrame PrecipModel.REQUIRED_COLUMNS
                     [PrecipModel.mkInput (CNum 3600) (CNum 1) (CNum 10);
                      PrecipModel.mkInput (CStr (u "x")) (CNum 1) (CNum 11);
                      PrecipModel.mkInput (CNum 3600) (CNum 1) (CNum 12)]))
    by done.
  split; [exact Hcols|].
  destruct (proj1 (cleaning_accounts timestamp_cell numeric_cell) _ Hcols)
    as (stats & Hstats & _ & _ & Hsum & _).
  by exists stats.
Defined.

(** ** Time gaps *)

Section Gaps.

Lemma gaps_between_spec (target prev : Z) (uniq : list Z) :
  gaps_between target prev uniq
  = omap (λ p, if bool_decide (p.2 - p.1 ≠ target)
               then Some (mkGap (p.2 - p.1) p.1 p.2) else None)
         (neighbours (prev :: uniq)).
Proof.
  revert prev. induction uniq as [|t uniq IH]; intros prev; [done|].
  cbn [gaps_between]. rewrite IH. unfold neighbours. cbn.
  by case_bool_decide.
Qed.

Lemma regular_grid_S (t0 step : Z) (n : nat) :
  regular_grid t0 step (S n) = t0 :: regular_grid (t0 + step) step n.
Proof.
  unfold regular_grid. cbn [seq fmap list_fmap]. f_equal; [lia|].
  rewrite <- fmap_S_seq, <- list_fmap_compose.
  apply list_fmap_ext. intros i k _. cbn. lia.
Qed.

Lemma gaps_between_nil (target prev : Z) (uniq : list Z) :
  gaps_between target prev uniq = []
  ↔ prev :: uniq = regular_grid prev target (S (length uniq)).
Proof.
  revert prev. induction uniq as [|t uniq IH]; intros prev.
  - cbn. split; [intros _|done]. unfold regular_grid. cbn. f_equal. lia.
  - cbn [gaps_between length]. rewrite app_nil_iff, IH.
    rewrite (regular_grid_S prev), (regular_grid_S (prev + target)).
    rewrite (regular_grid_S t).
    split.
    + intros [Hgap Hrest]. case_bool_decide as Hd; [done|].
      assert (t = prev + target) by lia. subst t.
      f_equal. exact Hrest.
    + intros [= Ht Hrest]. subst t.
      rewrite bool_decide_false by lia. split; [done|].
      f_equal. exact Hrest.
Qed.

Lemma gaps_between_length (target prev : Z) (uniq : list Z) :
  (length (gaps_between target prev uniq) ≤ length uniq)%nat.
Proof.
  revert prev. induction uniq as [|t uniq IH]; intros prev; [done|].
  cbn [gaps_between]. rewrite length_app. specialize (IH t).
  case_bool_decide; cbn [length]; lia.
Qed.

Lemma gaps_between_elem (target prev : Z) (uniq : list Z) (g : gap) :
  g ∈ gaps_between target prev uniq ↔
  (gap_prev g, gap_curr g) ∈ neighbours (prev :: uniq)
  ∧ gap_delta g = gap_curr g - gap_prev g
  ∧ gap_delta g ≠ target.
Proof.
  rewrite gaps_between_spec, list_elem_of_omap. split.
  - intros ([a b] & Hin & Hg). cbn in Hg. case_bool_decide; [|done].
    injection Hg as <-. done.
  - intros (Hin & Hd & Hne). exists (gap_prev g, gap_curr g). split; [done|].
    cbn. rewrite bool_decide_true by lia. destruct g. cbn in *. by subst.
Qed.

Lemma sorted_set_nil (times : list Z) : Py.sorted_set times = [] → times = [].
Proof.
  intros Hnil. destruct times as [|t times]; [done|].
  assert (Ht : t ∈ Py.sorted_set (t :: times))
    by (apply elem_of_sorted_set; by left).
  rewrite Hnil in Ht. by apply elem_of_nil in Ht.
Qed.

Lemma flow_gaps_eq to_timedelta (times : list Z) (expected : string) :
  FlowGaps.compute_time_gaps to_timedelta times expected
  = match Py.sorted_set times with
    | [] => []
    | t0 :: uniq => gaps_between (to_timedelta expected) t0 uniq
    end.
Proof. unfold FlowGaps.compute_time_gaps. by destruct times. Qed.

Lemma gap_detectors_eq to_timedelta expected detect (times : list Z) :
  detect ∈ gap_detectors to_timedelta expected →
  detect times
  = match Py.sorted_set times with
    | [] => []
    | t0 :: uniq => gaps_between (to_timedelta expected) t0 uniq
    end.
Proof.
  unfold gap_detectors. rewrite !elem_of_cons, elem_of_nil.
  intros [->|[->|[]]]; apply flow_gaps_eq.
Qed.

Lemma hourly_gap_detectors_eq detect (times : list Z) :
  detect ∈ hourly_gap_detectors →
  detect times
  = match Py.sorted_set times with
    | [] => []
    | t0 :: uniq => gaps_between 3600 t0 uniq
    end.
Proof.
  unfold hourly_gap_detectors. rewrite !elem_of_cons, elem_of_nil.
  intros [->|[->|[]]].
  - unfold PrecipObsGaps.compute_time_gaps. by destruct times.
  - unfold PrecipModelGaps.compute_time_gaps. destruct times; [done|].
    destruct (Py.sorted_set _); [done|]. by destruct (gaps_between _ _ _).
Qed.

(** The characterisation shared by the four detectors. *)
Lemma gaps_spec (target : Z) (times : list Z) :
  let uniq := Py.sorted_set times in
  let gaps := match uniq with
              | [] => []
              | t0 :: rest => gaps_between target t0 rest
              end in
  (∀ g, g ∈ gaps ↔
        (gap_prev g, gap_curr g) ∈ neighbours uniq
        ∧ gap_delta g = gap_curr g - gap_prev g
        ∧ gap_delta g ≠ target)
  ∧ (gaps = [] ↔
     ∀ t0, head uniq = Some t0 → uniq = regular_grid t0 target (length uniq))
  ∧ (length gaps ≤ length uniq - 1)%nat.
Proof.
  intros uniq gaps. subst gaps. destruct uniq as [|t0 rest] eqn:Huniq.
  - split_and!; [|done|done].
    intros g. split; [by intros ?%elem_of_nil|].
    intros [Hin _]. by apply elem_of_nil in Hin.
  - split_and!.
    + intros g. apply gaps_between_elem.
    + rewrite gaps_between_nil. cbn [head length]. split.
      * by intros H t [= <-].
      * intros H. by apply H.
    + pose proof (gaps_between_length target t0 rest). cbn [length]. lia.
Qed.

End Gaps.

(** X10.  The gap detectors of the four scripts report exactly the
    pairs of neighbouring distinct timestamps, in ascending order, whose
    difference is not the expected step, each with that difference.  They
    report nothing exactly when the distinct timestamps form the regular
    grid that starts at the earliest one, and never more gaps than
    distinct timestamps minus one; the report depends on the set of the
    timestamps only, not on their order or their repetitions. *)
Theorem time_gaps_spec (to_timedelta : string → Z) (expected : string)
    (detect : list Z → list gap) (target : Z) :
  (detect ∈ gap_detectors to_timedelta expected ∧ target = to_timedelta expected)
  ∨ (detect ∈ hourly_gap_detectors ∧ target = 3600) →
  ∀ times,
    let uniq := Py.sorted_set times in
    (∀ g, g ∈ detect times ↔
          (gap_prev g, gap_curr g) ∈ neighbours uniq
          ∧ gap_delta g = gap_curr g - gap_prev g
          ∧ gap_delta g ≠ target)
    ∧ (detect times = [] ↔
       ∀ t0, head uniq = Some t0 → uniq = regular_grid t0 target (length uniq))
    ∧ (length (detect times) ≤ length uniq - 1)%nat
    ∧ (∀ times', (∀ t, t ∈ times ↔ t ∈ times') → detect times' = detect times).
Proof.
  intros Hdetect times uniq.
  assert (Heq : ∀ l, detect l
                     = match Py.sorted_set l with
                       | [] => []
                       | t0 :: rest => gaps_between target t0 rest
                       end).
  { intros l. destruct Hdetect as [[Hd ->]|[Hd ->]].
    - by apply gap_detectors_eq.
    - by apply hourly_gap_detectors_eq. }
  rewrite !Heq. destruct (gaps_spec target times) as (H1 & H2 & H3).
  split_and!; [exact H1|exact H2|exact H3|].
  intros times' Hsame. rewrite Heq. by rewrite (sorted_set_ext times' times).
Qed.

Lemma time_gaps_spec_witness :
  (PrecipObsGaps.compute_time_gaps ∈ hourly_gap_detectors ∧ 3600 = 3600)
  ∧ (PrecipObsGaps.compute_time_gaps [7200; 0; 3600; 0; 14400] = []
     ↔ ∀ t0, head (Py.sorted_set [7200; 0; 3600; 0; 14400]) = Some t0 →
             Py.sorted_set [7200; 0; 3600; 0; 14400]
             = regular_grid t0 3600
                 (length (Py.sorted_set [7200; 0; 3600; 0; 14400]))).
Proof.
  assert (H1 : PrecipObsGaps.compute_time_gaps ∈ hourly_gap_detectors ∧ 3600 = 3600).
  { split; [by left|done]. }
  split; [exact H1|].
  exact (proj1 (proj2 (time_gaps_spec hourly "1h" _ 3600 (or_intror H1)
                         [7200; 0; 3600; 0; 14400]))).
Defined.

(** The timestamps 0 h, 1 h, 2 h and 4 h, in any order and repeated:
    one gap, of two hours, between 2 h and 4 h. *)
Lemma time_gaps_example :
  FlowGaps.compute_time_gaps hourly [7200; 0; 3600; 0; 14400] "1h"
  = [mkGap 7200 7200 14400]
  ∧ PrecipModelGaps.compute_time_gaps [0; 3600; 7200] = []
  ∧ PrecipModelGaps.compute_time_gaps [] = [].
Proof. split_and!; vm_compute; reflexivity. Qed.

(** ** Time gaps of a resampled frame *)

Section ResampledGaps.

Lemma groupby_resample_times w reduce (df : list record) :
  r_time <$> Resample.groupby_resample w reduce df
  = Py.sorted_set (r_station <$> df)
      ≫= λ s, Resample.buckets w (r_time <$> Resample.group_of s df).
Proof.
  unfold Resample.groupby_resample.
  induction (Py.sorted_set (r_station <$> df)) as [|s l IH]; [done|].
  rewrite !bind_cons, fmap_app, IH. f_equal.
  unfold Resample.resample_group. rewrite <- list_fmap_compose.
  by rewrite list_fmap_id.
Qed.

Lemma buckets_regular (w : Z) (times : list Z) :
  ∃ t0 n, Resample.buckets w times = regular_grid t0 w n.
Proof.
  unfold Resample.buckets.
  destruct (list_min times) as [tmin|]; [|by exists 0, 0%nat].
  destruct (list_max times) as [tmax|]; [|by exists 0, 0%nat].
  by eexists _, _.
Qed.

Lemma buckets_multiple (w : Z) (times : list Z) (t : Z) :
  (w | Resample.day) → t ∈ Resample.buckets w times → (w | t).
Proof.
  intros Hday. unfold Resample.buckets.
  destruct (list_min times) as [tmin|]; [|by intros ?%elem_of_nil].
  destruct (list_max times) as [tmax|]; [|by intros ?%elem_of_nil].
  cbv zeta. intros (k & -> & _)%list_elem_of_fmap.
  unfold Resample.bucket_of, Resample.origin_of.
  repeat apply Z.divide_add_r;
    try (apply Z.divide_mul_r; apply Z.divide_refl).
  by apply Z.divide_mul_r.
Qed.

Lemma regular_grid_ascending (t0 step : Z) (n : nat) :
  0 < step → StronglySorted Z.lt (regular_grid t0 step n).
Proof.
  intros Hstep. unfold regular_grid.
  eapply StronglySorted_fmap; [|apply seq_ascending].
  intros i j Hij. cbn. nia.
Qed.

Lemma length_regular_grid (t0 step : Z) (n : nat) :
  length (regular_grid t0 step n) = n.
Proof. unfold regular_grid. by rewrite length_fmap, length_seq. Qed.

(** No gap on a regular grid of the expected step. *)
Lemma regular_grid_no_gap (t0 step : Z) (n : nat) :
  0 < step →
  match Py.sorted_set (regular_grid t0 step n) with
  | [] => []
  | t :: uniq => gaps_between step t uniq
  end = [].
Proof.
  intros Hstep.
  rewrite sorted_set_sorted by by apply regular_grid_ascending.
  destruct n as [|n]; [done|].
  rewrite regular_grid_S. apply gaps_between_nil.
  by rewrite length_regular_grid, regular_grid_S.
Qed.

Lemma neighbours_ascending (l : list Z) (a b : Z) :
  StronglySorted Z.lt l → (a, b) ∈ neighbours l → a < b ∧ a ∈ l ∧ b ∈ l.
Proof.
  unfold neighbours. induction 1 as [|x l Hs IH Hall]; [by intros ?%elem_of_nil|].
  cbn. rewrite drop_0. destruct l as [|y l]; [by intros ?%elem_of_nil|].
  cbn. intros [[= -> ->]|Hin]%elem_of_cons.
  - split_and!; [|by left|by right; left]. by inversion Hall.
  - cbn in IH. rewrite drop_0 in IH. destruct (IH Hin) as (? & ? & ?).
    split_and!; [done|by right|by right].
Qed.

(** Every gap between multiples of the step is a whole number of steps,
    two at least. *)
Lemma gaps_of_multiples (step : Z) (times : list Z) (g : gap) :
  0 < step → (∀ t, t ∈ times → (step | t)) →
  g ∈ match Py.sorted_set times with
      | [] => []
      | t :: uniq => gaps_between step t uniq
      end →
  ∃ k, 2 ≤ k ∧ gap_delta g = k * step.
Proof.
  intros Hstep Hmult Hg.
  pose proof (sorted_set_ascending times) as Hsorted.
  assert (Hin : (gap_prev g, gap_curr g) ∈ neighbours (Py.sorted_set times)
                ∧ gap_delta g = gap_curr g - gap_prev g
                ∧ gap_delta g ≠ step).
  { destruct (Py.sorted_set times) as [|t uniq]; [by apply elem_of_nil in Hg|].
    by apply gaps_between_elem. }
  destruct Hin as (Hn & Hdelta & Hne).
  destruct (neighbours_ascending _ _ _ Hsorted Hn) as (Hlt & Ha & Hb).
  apply elem_of_sorted_set, Hmult in Ha as [ka Ha].
  apply elem_of_sorted_set, Hmult in Hb as [kb Hb].
  exists (kb - ka).
  assert (0 < kb - ka) by nia.
  assert (kb - ka ≠ 1) by (intros Hk; apply Hne; rewrite Hdelta; nia).
  split; lia.
Qed.

Lemma single_station_times w reduce (df : list record) :
  (∀ r r', r ∈ df → r' ∈ df → r_station r = r_station r') →
  ∃ t0 n, r_time <$> Resample.groupby_resample w reduce df = regular_grid t0 w n.
Proof.
  intros Hone. rewrite groupby_resample_times.
  destruct df as [|r df]; [by exists 0, 0%nat|].
  assert (Hs : Py.sorted_set (r_station <$> r :: df) = [r_station r]).
  { rewrite <- (sorted_set_sorted [r_station r])
      by (repeat constructor).
    apply sorted_set_ext. intros s. rewrite list_elem_of_singleton. split.
    - intros (r' & -> & Hr')%list_elem_of_fmap. apply Hone; [done|by left].
    - intros ->. apply list_elem_of_fmap. exists r. split; [done|by left]. }
  rewrite Hs, bind_singleton. apply buckets_regular.
Qed.

Lemma sorted_input_station to_datetime to_numeric (df : list mapped_row) r :
  r ∈ sorted_input to_datetime to_numeric df →
  ∃ m, m ∈ df ∧ r_station r = station_id m.
Proof.
  unfold sorted_input. rewrite stable_sort_Permutation.
  unfold coerce_values, coerce_times.
  intros ([t m] & Hin & Hr)%list_elem_of_omap.
  apply list_elem_of_fmap in Hin as (m' & [= -> ->] & Hm').
  exists m'. split; [done|]. cbn in Hr.
  destruct (to_datetime _); [|done]. by injection Hr as <-.
Qed.

(** The times that the two resampling scripts hand to their gap
    detector. *)
Lemma resampled_times_spec to_datetime to_numeric to_timedelta
    (df : list mapped_row) (rule agg : string) (ws : list warning) (times : list Z) :
  0 < to_timedelta rule →
  times = r_time <$> (Volume.clean_and_resample to_datetime to_numeric
                        to_timedelta df rule agg ws).1.1
  ∨ (rule ≠ ""%string
     ∧ ∃ out stats ws',
         FlowClean.clean_and_resample to_datetime to_numeric to_timedelta
           df rule agg ws = Ok (out, stats, ws')
         ∧ times = r_time <$> out) →
  ∃ reduce,
    times ≡ₚ r_time <$> Resample.groupby_resample (to_timedelta rule) reduce
                          (sorted_input to_datetime to_numeric df).
Proof.
  intros Hw [->|(Hrule & out & stats & ws' & Hrun & ->)].
  - by exists (Volume.select_agg agg).
  - revert Hrun. unfold FlowClean.clean_and_resample.
    rewrite bool_decide_true by done.
    destruct (FlowClean.select_agg agg) as [reduce|e]; [|done].
    cbn [mbind result_bind mret result_ret].
    fold (sorted_input to_datetime to_numeric df).
    rewrite (groupby_resample_no_duplicates _ reduce _ Hw).
    intros [= <- _ _]. exists reduce. by rewrite stable_sort_Permutation.
Qed.

End ResampledGaps.

(** X11.  The gaps that the flow and volume scripts report are computed
    on the resampled frame with the resample rule as the expected step.
    When all the rows belong to one station no gap is reported, whatever
    the input times: the resampling emits every bucket between the first
    and the last one.  With several stations, and a rule that divides the
    day, every reported gap is a whole number of steps, two at least. *)
Theorem resampled_time_gaps (to_datetime : cell → option Z)
    (to_numeric : cell → option Q) (to_timedelta : string → Z)
    (df : list mapped_row) (rule agg : string) (ws : list warning)
    (times : list Z) (detect : list Z → list gap) :
  0 < to_timedelta rule →
  times = r_time <$> (Volume.clean_and_resample to_datetime to_numeric
                        to_timedelta df rule agg ws).1.1
  ∨ (rule ≠ ""%string
     ∧ ∃ out stats ws',
         FlowClean.clean_and_resample to_datetime to_numeric to_timedelta
           df rule agg ws = Ok (out, stats, ws')
         ∧ times = r_time <$> out) →
  detect ∈ gap_detectors to_timedelta rule →
  ((∀ m m', m ∈ df → m' ∈ df → station_id m = station_id m') →
   detect times = [])
  ∧ ((to_timedelta rule | Resample.day) →
     ∀ g, g ∈ detect times →
          ∃ k, 2 ≤ k ∧ gap_delta g = k * to_timedelta rule).
Proof.
  intros Hw Htimes Hdetect.
  destruct (resampled_times_spec _ _ _ _ _ _ _ _ Hw Htimes) as [reduce Hperm].
  rewrite (gap_detectors_eq _ _ _ _ Hdetect).
  split.
  - intros Hone.
    destruct (single_station_times (to_timedelta rule) reduce
                (sorted_input to_datetime to_numeric df)) as (t0 & n & Hgrid).
    { intros r r' (m & Hm & ->)%sorted_input_station
        (m' & Hm' & ->)%sorted_input_station. by apply Hone. }
    rewrite (sorted_set_ext times (regular_grid t0 (to_timedelta rule) n)).
    + by apply regular_grid_no_gap.
    + intros t. by rewrite Hperm, Hgrid.
  - intros Hday g Hg. apply (gaps_of_multiples _ times); [done| |done].
    intros t. rewrite Hperm, groupby_resample_times.
    intros (s & Ht & _)%list_elem_of_bind. by eapply buckets_multiple.
Qed.

Lemma resampled_time_gaps_witness :
  0 < hourly "1h"
  ∧ (∀ m m', m ∈ sparse_station → m' ∈ sparse_station →
             station_id m = station_id m')
  ∧ VolumeGaps.time_gaps hourly
      (r_time <$> (Volume.clean_and_resample timestamp_cell numeric_cell hourly
                     sparse_station "1h" "mean" []).1.1) "1h" = [].
Proof.
  assert (Hw : 0 < hourly "1h") by done.
  assert (Hone : ∀ m m', m ∈ sparse_station → m' ∈ sparse_station →
                         station_id m = station_id m').
  { intros m m' Hm Hm'.
    assert (Hall : Forall (λ r, station_id r = 1) sparse_station)
      by (repeat constructor).
    rewrite Forall_forall in Hall. by rewrite (Hall m Hm), (Hall m' Hm'). }
  split_and!; [exact Hw|exact Hone|].
  refine (proj1 (resampled_time_gaps timestamp_cell numeric_cell hourly
                   sparse_station "1h" "mean" [] _
                   (λ times, VolumeGaps.time_gaps hourly times "1h")
                   Hw (or_introl eq_refl) _) Hone).
  right. by left.
Defined.

(** The four-hour hole of the input is filled by the resampling, with
    nulls, and so is not reported. *)
Lemma resampled_time_gaps_example :
  (Volume.clean_and_resample timestamp_cell numeric_cell hourly
     sparse_station "1h" "mean" []).1.1
  = [mkRecord 3600 1 (Some 1%Q); mkRecord 7200 1 None; mkRecord 10800 1 None;
     mkRecord 14400 1 None; mkRecord 18000 1 (Some 2%Q)].
Proof. vm_compute. reflexivity. Qed.

(** ** Exit status and files of a run *)

Lemma not_elem_of_four (p a b c d : string) :
  p ∉ [a; b; c; d] → p ≠ a ∧ p ≠ b ∧ p ≠ c ∧ p ≠ d.
Proof. rewrite !not_elem_of_cons. tauto. Qed.

Section FlowOutcome.
Variable stages : workbook → result stage_outcome.

Lemma flow_run_outcome_ok :
  run_outcome_ok (FlowMain.main stages) FlowMain.log_path FlowMain.out_xlsx
    FlowMain.out_json FlowMain.out_txt false.
Proof.
  intros a run_id fs status fs'. subst status fs'.
  destruct (flow_paths_distinct a run_id) as (? & ? & ? & ? & ? & ?).
  unfold FlowMain.main, FlowMain.produce.
  case_bool_decide as Hin.
  { cbn [fst snd]. split_and!; try done; auto. }
  case_bool_decide as Htpl.
  { cbn [fst snd]. split_and!; try done; auto. }
  assert (Hboth : ¬ (fs !! arg_input a = None ∨ fs !! arg_template a = None)) by tauto.
  destruct (load_workbook _ _) as [wb|].
  2:{ cbn [fst snd]. split_and!; try done; auto.
      intros path (? & _)%not_elem_of_four. by disk_lookup. }
  case_bool_decide.
  { cbn [fst snd]. split_and!; try done; auto.
    intros path (? & _)%not_elem_of_four. by disk_lookup. }
  case_bool_decide.
  { cbn [fst snd]. split_and!; try done; auto.
    intros path (? & _)%not_elem_of_four. by disk_lookup. }
  destruct (stages wb) as [[reason|wb' stats ws]|e].
  - cbn [fst snd]. split_and!; try done; auto.
    intros path (? & _)%not_elem_of_four. by disk_lookup.
  - destruct (arg_strict a && nonempty ws); cbn [fst snd].
    + split_and!; try done; auto.
      intros path (? & ? & ? & ?)%not_elem_of_four. by disk_lookup.
    + split_and!; try done; auto.
      * intros _. exists wb', ws. split_and!.
        -- by disk_lookup.
        -- eexists. split; [left; by disk_lookup|done].
        -- eexists. split; [right; by disk_lookup|done].
      * intros path (? & ? & ? & ?)%not_elem_of_four. by disk_lookup.
  - cbn [fst snd]. split_and!; try done; auto.
    intros path (? & _)%not_elem_of_four. by disk_lookup.
Qed.

End FlowOutcome.

Section PrecipObsOutcome.
Variable stages : workbook → result stage_outcome.

Lemma precip_obs_run_outcome_ok :
  run_outcome_ok (PrecipObsMain.main stages) PrecipObsMain.log_path
    PrecipObsMain.out_xlsx PrecipObsMain.out_json PrecipObsMain.out_txt false.
Proof.
  intros a run_id fs status fs'. subst status fs'.
  destruct (precip_obs_paths_distinct a run_id) as (? & ? & ? & ? & ? & ?).
  unfold PrecipObsMain.main, PrecipObsMain.produce.
  case_bool_decide as Hin.
  { cbn [fst snd]. split_and!; try done; auto. }
  case_bool_decide as Htpl.
  { cbn [fst snd]. split_and!; try done; auto. }
  assert (Hboth : ¬ (fs !! arg_input a = None ∨ fs !! arg_template a = None)) by tauto.
  destruct (load_workbook _ _) as [wb|].
  2:{ cbn [fst snd]. split_and!; try done; auto.
      intros path (? & _)%not_elem_of_four. by disk_lookup. }
  case_bool_decide.
  { cbn [fst snd]. split_and!; try done; auto.
    intros path (? & _)%not_elem_of_four. by disk_lookup. }
  case_bool_decide.
  { cbn [fst snd]. split_and!; try done; auto.
    intros path (? & _)%not_elem_of_four. by disk_lookup. }
  destruct (stages wb) as [[reason|wb' stats ws]|e].
  - cbn [fst snd]. split_and!; try done; auto.
    intros path (? & _)%not_elem_of_four. by disk_lookup.
  - destruct (arg_strict a && nonempty ws); cbn [fst snd].
    + split_and!; try done; auto.
      intros path (? & ? & ? & ?)%not_elem_of_four. by disk_lookup.
    + split_and!; try done; auto.
      * intros _. exists wb', ws. split_and!.
        -- by disk_lookup.
        -- eexists. split; [left; by disk_lookup|done].
        -- eexists. split; [right; by disk_lookup|done].
      * intros path (? & ? & ? & ?)%not_elem_of_four. by disk_lookup.
  - cbn [fst snd]. split_and!; try done; auto.
    intros path (? & _)%not_elem_of_four. by disk_lookup.
Qed.

End PrecipObsOutcome.

Section VolumeOutcome.
Variable stages : workbook → result stage_outcome.

Lemma volume_run_outcome_ok :
  run_outcome_ok (VolumeMain.main stages) VolumeMain.log_path
    VolumeMain.out_xlsx VolumeMain.out_json VolumeMain.out_txt false.
Proof.
  intros a run_id fs status fs'. subst status fs'.
  destruct (volume_paths_distinct a run_id) as (? & ? & ? & ? & ? & ?).
  unfold VolumeMain.main, VolumeMain.produce.
  case_bool_decide as Hin.
  { cbn [fst snd]. split_and!; try done; auto. }
  case_bool_decide as Htpl.
  { cbn [fst snd]. split_and!; try done; auto. }
  assert (Hboth : ¬ (fs !! arg_input a = None ∨ fs !! arg_template a = None)) by tauto.
  destruct (load_workbook _ _) as [wb|].
  2:{ cbn [fst snd]. split_and!; try done; auto.
      intros path (? & _)%not_elem_of_four. by disk_lookup. }
  case_bool_decide.
  { cbn [fst snd]. split_and!; try done; auto.
    intros path (? & _)%not_elem_of_four. by disk_lookup. }
  destruct (stages wb) as [[reason|wb' stats ws]|e].
  - cbn [fst snd]. split_and!; try done; auto.
    intros path (? & _)%not_elem_of_four. by disk_lookup.
  - destruct (arg_strict a && nonempty ws); cbn [fst snd].
    + split_and!; try done; auto.
      intros path (? & ? & ? & ?)%not_elem_of_four. by disk_lookup.
    + split_and!; try done; auto.
      * intros _. exists wb', ws. split_and!.
        -- by disk_lookup.
        -- eexists. split; [left; by disk_lookup|done].
        -- eexists. split; [right; by disk_lookup|done].
      * intros path (? & ? & ? & ?)%not_elem_of_four. by disk_lookup.
  - cbn [fst snd]. split_and!; try done; auto.
    intros path (? & _)%not_elem_of_four. by disk_lookup.
Qed.

End VolumeOutcome.

Section PrecipModelOutcome.
Variable validation : result (list PrecipModel.error).
Variable stages : workbook → result stage_outcome.

Lemma lookup_setup_logger_None (log path : string) (fs : gmap string file) :
  setup_logger log fs !! path = None → fs !! path = None.
Proof.
  unfold setup_logger. destruct (fs !! log) eqn:Hlog; [done|].
  destruct (decide (path = log)) as [->|Hne]; [done|].
  by rewrite lookup_insert_ne.
Qed.

Lemma lookup_foldl_log_text (log path : string) {A} (l : list A)
    (fs : gmap string file) :
  path ≠ log →
  foldl (λ fs _, log_text log ERROR "validation error" fs) fs l !! path = fs !! path.
Proof.
  intros Hne. revert fs. induction l as [|x l IH]; intros fs; [done|].
  cbn [foldl]. by rewrite IH, lookup_log_text.
Qed.

Lemma precip_model_run_outcome_ok :
  run_outcome_ok (PrecipModelMain.main validation stages) PrecipModelMain.log_path
    PrecipModelMain.output_xlsx PrecipModelMain.report_json
    PrecipModelMain.report_txt true.
Proof.
  intros a run_id fs status fs'. subst status fs'.
  destruct (precip_model_paths_distinct a run_id) as (? & ? & ? & ? & ? & ?).
  unfold PrecipModelMain.main, PrecipModelMain.produce, PrecipModelMain.write_reports.
  case_bool_decide as Hin.
  { cbn [fst snd]. apply lookup_setup_logger_None in Hin.
    split_and!; try done; auto.
    - intros _ path Hpath. specialize (Hpath eq_refl). by disk_lookup.
    - intros path (? & _)%not_elem_of_four. by disk_lookup. }
  case_bool_decide as Htpl.
  { cbn [fst snd]. apply lookup_setup_logger_None in Htpl.
    split_and!; try done; auto.
    - intros _ path Hpath. specialize (Hpath eq_refl). by disk_lookup.
    - intros path (? & _)%not_elem_of_four. by disk_lookup. }
  assert (Hmissing : fs !! arg_input a = None ∨ fs !! arg_template a = None →
            (true = true → arg_input a ≠ PrecipModelMain.log_path a run_id
                           ∧ arg_template a ≠ PrecipModelMain.log_path a run_id) →
            False).
  { intros Hnone Hne. destruct (Hne eq_refl) as [Hi Ht].
    rewrite lookup_setup_logger in Hin, Htpl by done. tauto. }
  destruct validation as [[|err errors]|e].
  - destruct (load_workbook _ _) as [wb|].
    2:{ cbn [fst snd]. split_and!; try done; auto.
        - intros ??. by exfalso; eapply Hmissing.
        - intros path (? & _)%not_elem_of_four. by disk_lookup. }
    case_bool_decide.
    { cbn [fst snd]. split_and!; try done; auto.
      - intros ??. by exfalso; eapply Hmissing.
      - intros path (? & _)%not_elem_of_four. by disk_lookup. }
    case_bool_decide.
    { cbn [fst snd]. split_and!; try done; auto.
      - intros ??. by exfalso; eapply Hmissing.
      - intros path (? & _)%not_elem_of_four. by disk_lookup. }
    destruct (stages wb) as [[reason|wb' stats ws]|e].
    + cbn [fst snd]. split_and!; try done; auto.
      * intros ??. by exfalso; eapply Hmissing.
      * intros path (? & _)%not_elem_of_four. by disk_lookup.
    + destruct (arg_strict a && nonempty ws); cbn [fst snd].
      * split_and!; try done; auto.
        -- intros ??. by exfalso; eapply Hmissing.
        -- intros path (? & ? & ? & ?)%not_elem_of_four. by disk_lookup.
      * split_and!; try done; auto.
        -- intros ??. by exfalso; eapply Hmissing.
        -- intros _. exists wb', ws. split_and!.
           ++ by disk_lookup.
           ++ eexists. split; [left; by disk_lookup|done].
           ++ eexists. split; [right; by disk_lookup|done].
        -- intros path (? & ? & ? & ?)%not_elem_of_four. by disk_lookup.
    + cbn [fst snd]. split_and!; try done; auto.
      * intros ??. by exfalso; eapply Hmissing.
      * intros path (? & _)%not_elem_of_four. by disk_lookup.
  - cbn [fst snd]. split_and!; try done; auto.
    + intros ??. by exfalso; eapply Hmissing.
    + intros path (? & _)%not_elem_of_four.
      rewrite lookup_foldl_log_text by done. by disk_lookup.
  - cbn [fst snd]. split_and!; try done; auto.
    + intros ??. by exfalso; eapply Hmissing.
    + intros path (? & _)%not_elem_of_four. by disk_lookup.
Qed.

End PrecipModelOutcome.

Section ScriptOutcome.
Context `{UnicodeDB}.
Variable parse_args : list string → command_line.
Variable float_of_str : list N → option Q.
Variable mkdir : gmap string file → string → bool.

Lemma observed_outcome_ok main log_path xlsx json txt :
  run_outcome_ok main log_path xlsx json txt false →
  script_outcome_ok parse_args
    (λ a raw fs, Script.fill_accepted float_of_str raw && mkdir fs (arg_outdir a))
    (Script.observed parse_args float_of_str mkdir main)
    log_path xlsx json txt false.
Proof.
  intros Hmain argv run_id fs. cbv zeta. unfold Script.observed, Script.fill_accepted.
  destruct (parse_args argv) as [code|a raw]; [done|].
  destruct (Script.parse_fill_value float_of_str raw) as [fill|e]; [|done].
  destruct (mkdir fs (arg_outdir a)); [|done].
  apply (Hmain a run_id fs).
Qed.

Lemma precip_model_outcome_ok main log_path xlsx json txt :
  run_outcome_ok main log_path xlsx json txt true →
  script_outcome_ok parse_args (λ a raw fs, mkdir fs (arg_outdir a))
    (Script.precip_model parse_args mkdir main) log_path xlsx json txt true.
Proof.
  intros Hmain argv run_id fs. cbv zeta. unfold Script.precip_model.
  destruct (parse_args argv) as [code|a raw]; [done|].
  destruct (mkdir fs (arg_outdir a)); [|done].
  apply (Hmain a run_id fs).
Qed.

End ScriptOutcome.

(** X12.  The exit status and the files of a run of each of the four
    scripts, from the command line on.  When [argparse] ends the process
    (status 2 for a command line it rejects) nothing is written; when the
    text of [--fill-missing] does not convert (observed-data scripts) or
    the output directory cannot be made, the uncaught exception gives
    status 1 and nothing is written.  Otherwise the run ends with status
    0, 1 or 2; 2 exactly when the input or the template path does not
    exist, and nothing is written then (in the precipitation-model script
    the log file, which is opened before the two tests, and only it).
    With status 0 the output workbook and the JSON and text reports are
    on disk, the two reports listing the same warnings.  Whatever the
    status, the run writes no path other than its log, its workbook and
    its two reports: the input and the template are left as they are. *)
Theorem run_outcomes `{UnicodeDB} (parse_args : list string → command_line)
    (float_of_str : list N → option Q) (mkdir : gmap string file → string → bool)
    (validation : result (list PrecipModel.error))
    (stages : workbook → result stage_outcome) :
  script_outcome_ok parse_args
    (λ a raw fs, Script.fill_accepted float_of_str raw && mkdir fs (arg_outdir a))
    (Script.observed parse_args float_of_str mkdir (FlowMain.main stages))
    FlowMain.log_path FlowMain.out_xlsx FlowMain.out_json FlowMain.out_txt false
  ∧ script_outcome_ok parse_args
      (λ a raw fs, Script.fill_accepted float_of_str raw && mkdir fs (arg_outdir a))
      (Script.observed parse_args float_of_str mkdir (VolumeMain.main stages))
      VolumeMain.log_path VolumeMain.out_xlsx VolumeMain.out_json
      VolumeMain.out_txt false
  ∧ script_outcome_ok parse_args
      (λ a raw fs, Script.fill_accepted float_of_str raw && mkdir fs (arg_outdir a))
      (Script.observed parse_args float_of_str mkdir (PrecipObsMain.main stages))
      PrecipObsMain.log_path PrecipObsMain.out_xlsx PrecipObsMain.out_json
      PrecipObsMain.out_txt false
  ∧ script_outcome_ok parse_args (λ a raw fs, mkdir fs (arg_outdir a))
      (Script.precip_model parse_args mkdir
         (PrecipModelMain.main validation stages))
      PrecipModelMain.log_path PrecipModelMain.output_xlsx
      PrecipModelMain.report_json PrecipModelMain.report_txt true.
Proof.
  split_and!.
  - apply observed_outcome_ok, flow_run_outcome_ok.
  - apply observed_outcome_ok, volume_run_outcome_ok.
  - apply observed_outcome_ok, precip_obs_run_outcome_ok.
  - apply precip_model_outcome_ok, precip_model_run_outcome_ok.
Qed.

(** A lenient precipitation-model run with one warning: status 0, the
    workbook and the two reports on disk. *)
Lemma run_outcomes_witness :
  (Script.precip_model example_parse_args any_directory
     (PrecipModelMain.main (Ok []) example_stages) ["--input"%string] "r"
     example_disk).1 = 0
  ∧ ∃ wb ws,
      (Script.precip_model example_parse_args any_directory
         (PrecipModelMain.main (Ok []) example_stages) ["--input"%string] "r"
         example_disk).2
      !! PrecipModelMain.output_xlsx lenient_args "r" = Some (FWorkbook wb)
      ∧ is_report ((Script.precip_model example_parse_args any_directory
                      (PrecipModelMain.main (Ok []) example_stages)
                      ["--input"%string] "r" example_disk).2
                   !! PrecipModelMain.report_json lenient_args "r") ws
      ∧ is_report ((Script.precip_model example_parse_args any_directory
                      (PrecipModelMain.main (Ok []) example_stages)
                      ["--input"%string] "r" example_disk).2
                   !! PrecipModelMain.report_txt lenient_args "r") ws.
Proof.
  assert (Hstatus : (Script.precip_model example_parse_args any_directory
                       (PrecipModelMain.main (Ok []) example_stages)
                       ["--input"%string] "r" example_disk).1 = 0)
    by (vm_compute; reflexivity).
  split; [exact Hstatus|].
  destruct (proj2 (proj2 (proj2 (@run_outcomes latin1_db example_parse_args
                                   example_float any_directory (Ok [])
                                   example_stages)))
              ["--input"%string] "r"%string example_disk)
    as (_ & _ & _ & _ & Hok & _).
  exact (Hok Hstatus).
Defined.

(** A volume run asked for [--agg sum], or an observed-data run whose
    [--fill-missing] does not convert: status 2 and status 1, with the
    input and the template on disk and nothing written. *)
Lemma run_outcomes_example :
  Script.observed (λ _, ArgparseExit 2) example_float any_directory
    (VolumeMain.main example_stages) ["--agg"; "sum"]%string "r" example_disk
  = (2, example_disk)
  ∧ @Script.observed latin1_db (λ _, Namespace lenient_args (u "abc"))
      example_float any_directory (FlowMain.main example_stages) [] "r" example_disk
    = (1, example_disk).
Proof. split; reflexivity. Qed.

(** ** Observed precipitation: mapping stations *)

Section SortedLabels.

Lemma ltb_trichotomy (a b : list N) :
  Str.ltb a b = true ∨ a = b ∨ Str.ltb b a = true.
Proof.
  revert b. induction a as [|x a IH]; intros [|y b]; auto.
  rewrite !ltb_cons.
  destruct (N.lt_trichotomy x y) as [?|[->|?]]; [by left; left| |by right; right; left].
  destruct (IH b) as [?|[->|?]]; [left|right; left|right; right]; auto.
Qed.

#[local] Instance leb_transitive : Transitive (λ a b, Is_true (Str.leb a b)).
Proof.
  intros a b c. unfold Str.leb. rewrite !Is_true_true, !negb_true_iff.
  intros Hab Hbc. destruct (Str.ltb c a) eqn:Hca; [|done].
  destruct (ltb_neg_trans c b a Hca); congruence.
Qed.

#[local] Instance leb_total : Total (λ a b, Is_true (Str.leb a b)).
Proof.
  intros a b. unfold Str.leb. rewrite !Is_true_true, !negb_true_iff.
  destruct (Str.ltb b a) eqn:Hba; [|by left]. right.
  destruct (Str.ltb a b) eqn:Hab; [|done].
  pose proof (ltb_trans _ _ _ Hab Hba) as Haa. by rewrite ltb_irrefl in Haa.
Qed.

Lemma NoDup_sorted_labels (l : list (list N)) : NoDup (sorted_labels l).
Proof.
  unfold sorted_labels. rewrite merge_sort_Permutation. apply NoDup_remove_dups.
Qed.

(** The labels come in strictly ascending order of their code points. *)
Lemma sorted_labels_ascending (l : list (list N)) :
  StronglySorted (λ a b, Str.ltb a b = true) (sorted_labels l).
Proof.
  pose proof (NoDup_sorted_labels l) as Hnd.
  assert (Hs : StronglySorted (λ a b, Is_true (Str.leb a b)) (sorted_labels l)).
  { unfold sorted_labels. apply StronglySorted_merge_sort; apply _. }
  induction Hs as [|x xs _ IH Hall]; [constructor|].
  apply NoDup_cons in Hnd as [Hx Hnd]. constructor; [by apply IH|].
  rewrite Forall_forall in Hall |- *. intros y Hy. specialize (Hall y Hy).
  unfold Str.leb in Hall. apply Is_true_true, negb_true_iff in Hall.
  destruct (ltb_trichotomy x y) as [?|[->|?]]; [done|done|congruence].
Qed.

Lemma sorted_labels_nil (l : list (list N)) : sorted_labels l = [] ↔ l = [].
Proof.
  split; [|by intros ->].
  intros Hnil. destruct l as [|x l]; [done|].
  assert (Hx : x ∈ sorted_labels (x :: l)) by (apply elem_of_sorted_labels; by left).
  rewrite Hnil in Hx. by apply elem_of_nil in Hx.
Qed.

End SortedLabels.

Section MapStations.
Context `{UnicodeDB}.
Import PrecipObsInput.

Lemma length_filter_split {A} (P : A → Prop) `{!∀ x, Decision (P x)} (l : list A) :
  (length (filter P l) + length (filter (λ x, ¬ P x) l))%nat = length l.
Proof.
  induction l as [|x l IH]; [done|]. rewrite !filter_cons.
  destruct (decide (P x)).
  - rewrite decide_False by tauto. cbn [length]. lia.
  - rewrite decide_True by done. cbn [length]. lia.
Qed.

Lemma resolved_None_no_code name_to_code (r : obs_row) :
  resolved name_to_code r = None → obs_station r = None.
Proof. unfold resolved. by destruct (obs_station r). Qed.

Lemma length_unresolved name_to_code (rows : list obs_row) :
  (length (filter (λ r, resolved name_to_code r = None) rows)
   ≤ length (filter (λ r, obs_station r = None) rows))%nat.
Proof.
  induction rows as [|r rows IH]; [done|]. rewrite !filter_cons.
  destruct (decide (resolved name_to_code r = None)) as [Hr|Hr].
  - rewrite decide_True by by eapply resolved_None_no_code. cbn [length]. lia.
  - destruct (decide (obs_station r = None)); cbn [length]; lia.
Qed.

End MapStations.

(** X13.  [map_stations] of the observed-precipitation script.  A frame
    without columns (the DataFrame of an input with no record) raises
    KeyError.  Otherwise the rows are kept in order, a row that carries a
    code keeps it whatever its label, a row without code takes the code
    that the name table holds for its normalized label (exact lookup, no
    fuzzy matching) and is dropped when there is none.  The three counters
    add up to the number of rows, the unmapped labels are reported once
    each in ascending order, and a warning is added exactly when a row is
    dropped. *)
Theorem precip_obs_map_stations `{UnicodeDB} (df : PrecipObsInput.obs_frame)
    (name_to_code : gmap (list N) Z) (warnings : list warning) :
  (PrecipObsInput.obs_columns df = false →
   PrecipObsInput.map_stations df name_to_code warnings
   = Raise (KeyError (u "station_id")))
  ∧ (PrecipObsInput.obs_columns df = true →
     ∃ out stats ws',
       PrecipObsInput.map_stations df name_to_code warnings = Ok (out, stats, ws')
       ∧ out = omap (λ r, (λ code, mkMapped (PrecipObsInput.obs_time r)
                                     (PrecipObsInput.obs_source_col r)
                                     (PrecipObsInput.obs_rr r) code)
                            <$> match PrecipObsInput.obs_station r with
                                | Some code => Some code
                                | None => name_to_code
                                            !! PrecipObsText.normalize_text
                                                 (Some (PrecipObsInput.obs_source_col r))
                                end)
                    (PrecipObsInput.obs_rows df)
       ∧ length (PrecipObsInput.obs_rows df)
         = (PrecipObsInput.rows_with_code_from_input stats
            + PrecipObsInput.rows_mapped_by_name stats
            + PrecipObsInput.rows_unmapped_dropped stats)%nat
       ∧ length out
         = (PrecipObsInput.rows_with_code_from_input stats
            + PrecipObsInput.rows_mapped_by_name stats)%nat
       ∧ (∀ l, l ∈ PrecipObsInput.unmapped_input_columns stats ↔
               ∃ r, r ∈ PrecipObsInput.obs_rows df
                    ∧ PrecipObsInput.obs_source_col r = l
                    ∧ PrecipObsInput.obs_station r = None
                    ∧ name_to_code !! PrecipObsText.normalize_text (Some l) = None)
       ∧ StronglySorted (λ a b, Str.ltb a b = true)
           (PrecipObsInput.unmapped_input_columns stats)
       ∧ (PrecipObsInput.rows_unmapped_dropped stats = 0%nat ↔ ws' = warnings)
       ∧ (PrecipObsInput.rows_unmapped_dropped stats ≠ 0%nat →
          ws' = warnings
                ++ [WUnmapped (PrecipObsInput.unmapped_input_columns stats)])).
Proof.
  unfold PrecipObsInput.map_stations. split.
  - by intros ->.
  - intros ->. cbn [negb].
    set (rows := PrecipObsInput.obs_rows df).
    set (unresolved := filter (λ r, PrecipObsInput.resolved name_to_code r = None) rows).
    eexists _, _, _. split; [reflexivity|].
    cbn [PrecipObsInput.rows_with_code_from_input PrecipObsInput.rows_mapped_by_name
         PrecipObsInput.rows_unmapped_dropped PrecipObsInput.unmapped_input_columns].
    assert (Hcode : (length (filter (λ r, PrecipObsInput.obs_station r ≠ None) rows)
                     + length (filter (λ r, PrecipObsInput.obs_station r = None) rows))%nat
                    = length rows).
    { rewrite Nat.add_comm. apply length_filter_split. }
    pose proof (length_unresolved name_to_code rows) as Hle.
    assert (Hout : (length (omap (λ r, (λ code, mkMapped (PrecipObsInput.obs_time r)
                                          (PrecipObsInput.obs_source_col r)
                                          (PrecipObsInput.obs_rr r) code)
                                   <$> PrecipObsInput.resolved name_to_code r) rows)
                    + length unresolved)%nat = length rows).
    { apply length_omap_split. intros r.
      by destruct (PrecipObsInput.resolved name_to_code r). }
    fold unresolved in Hle.
    split_and!.
    + done.
    + lia.
    + lia.
    + intros l. rewrite elem_of_sorted_labels, list_elem_of_fmap. split.
      * intros (r & -> & Hr). apply list_elem_of_filter in Hr as [Hr Hin].
        exists r. split_and!; [done|done|by eapply resolved_None_no_code|].
        unfold PrecipObsInput.resolved in Hr.
        by destruct (PrecipObsInput.obs_station r).
      * intros (r & Hin & <- & Hst & Hlook). exists r. split; [done|].
        apply list_elem_of_filter. split; [|done].
        unfold PrecipObsInput.resolved. by rewrite Hst.
    + apply sorted_labels_ascending.
    + destruct (sorted_labels _) as [|x xs] eqn:Hs.
      * apply sorted_labels_nil, fmap_nil_inv in Hs. rewrite Hs. done.
      * split.
        -- intros Hlen. apply length_zero_iff_nil in Hlen.
           rewrite Hlen in Hs. done.
        -- intros Heq. apply (f_equal length) in Heq.
           rewrite length_app in Heq. cbn in Heq. lia.
    + intros Hne. destruct (sorted_labels _) as [|x xs] eqn:Hs; [|done].
      apply sorted_labels_nil, fmap_nil_inv in Hs. by rewrite Hs in Hne.
Qed.

Lemma precip_obs_map_stations_witness :
  PrecipObsInput.obs_columns example_obs_frame = true
  ∧ ∃ out stats ws',
      PrecipObsInput.map_stations example_obs_frame example_name_table []
      = Ok (out, stats, ws')
      ∧ length (PrecipObsInput.obs_rows example_obs_frame)
        = (PrecipObsInput.rows_with_code_from_input stats
           + PrecipObsInput.rows_mapped_by_name stats
           + PrecipObsInput.rows_unmapped_dropped stats)%nat.
Proof.
  split; [reflexivity|].
  destruct (proj2 (precip_obs_map_stations example_obs_frame example_name_table [])
              eq_refl)
    as (out & stats & ws' & Hrun & _ & Hsum & _).
  by exists out, stats, ws'.
Defined.

(** The record with code 7 keeps it although its label names station
    12; the second record is mapped by its label, the third is dropped. *)
Lemma precip_obs_map_stations_example :
  PrecipObsInput.map_stations example_obs_frame example_name_table []
  = Ok ([mkMapped (CNum 3600) (u "Ain Sebou") (CNum 1) 7;
         mkMapped (CNum 3600) (u "Ain_Sebou") (CNum 2) 12],
        PrecipObsInput.mkMappingStats 1 1 1 [u "Zrarda"],
        [WUnmapped [u "Zrarda"]]).
Proof. vm_compute. reflexivity. Qed.

(** ** Observed precipitation: reading the DataTable *)

Section Datatable.
Context `{UnicodeDB}.
Variable repr : cell → list N.
Import PrecipObsInput.

Lemma get_sheet_Some_elem_of (wb : workbook) (name : list N) (ws : sheet) :
  get_sheet wb name = Some ws → name ∈ sheetnames wb.
Proof.
  unfold get_sheet, sheetnames.
  destruct (list_find _ wb) as [[i p]|] eqn:Hfind; [|done].
  intros _. apply list_find_Some in Hfind as (Hi & <- & _).
  apply list_elem_of_fmap. exists p. split; [done|].
  by eapply list_elem_of_lookup_2.
Qed.

Lemma length_bind_const {A B} (f : A → list B) (n : nat) (l : list A) :
  (∀ x, x ∈ l → length (f x) = n) → length (l ≫= f) = (length l * n)%nat.
Proof.
  induction l as [|x l IH]; intros Hf; [done|].
  rewrite bind_cons, length_app, IH, Hf; [cbn; lia|by left|].
  intros y Hy. apply Hf. by right.
Qed.

Lemma length_omap_fmap {A B C} (g : A → option B) (f : A → B → C) (l : list A) :
  length (omap (λ x, f x <$> g x) l) = length (filter (λ x, g x ≠ None) l).
Proof.
  induction l as [|x l IH]; [done|].
  cbn [omap list_omap]. rewrite filter_cons.
  destruct (g x) as [y|]; cbn [fmap option_fmap option_map].
  - rewrite decide_True by done. cbn [length]. by rewrite IH.
  - rewrite decide_False by (intros Hn; by apply Hn). done.
Qed.

Lemma nonempty_true {A} (l : list A) : nonempty l = true ↔ l ≠ [].
Proof. by destruct l. Qed.

End Datatable.

(** X14.  [parse_excel_datatable] raises ValueError when the workbook has
    no sheet of the given name.  Otherwise it returns one record per data
    row with a timestamp and per column read; [input_rows_raw] is their
    number and the frame has columns only when there is a record.  With
    [code] in cell (1,1) the columns read are those with a number in row
    1, every record carries that code, no warning is added, and
    [map_stations] then keeps every record without consulting the name
    table; columns without a number in row 1 are skipped silently.
    Without a code row every column from the second one is read, empty
    header or not, no record carries a code and the warning about the
    missing code row is added. *)
Theorem precip_obs_datatable `{UnicodeDB} (repr : cell → list N)
    (wb : workbook) (input_sheet : list N) (warnings : list warning) :
  (input_sheet ∉ sheetnames wb →
   PrecipObsInput.parse_excel_datatable repr wb input_sheet warnings
   = Raise (ValueError "Input sheet not found"))
  ∧ (∀ ws,
       get_sheet wb input_sheet = Some ws →
       ∃ frame stats ws',
         PrecipObsInput.parse_excel_datatable repr wb input_sheet warnings
         = Ok (frame, stats, ws')
         ∧ PrecipObsInput.input_rows_raw stats
           = length (PrecipObsInput.obs_rows frame)
         ∧ (PrecipObsInput.obs_columns frame = true
            ↔ PrecipObsInput.obs_rows frame ≠ [])
         ∧ (PrecipObsText.normalize_text (cell_arg repr (cell_value ws 1 1)) = u "code" →
            ws' = warnings
            ∧ PrecipObsInput.input_station_cols_raw stats
              = length (filter (λ col, cell_number (cell_value ws 1 col) ≠ None)
                          (data_columns ws))
            ∧ length (PrecipObsInput.obs_rows frame)
              = (length (PrecipObsInput.timed_rows ws 3)
                 * PrecipObsInput.input_station_cols_raw stats)%nat
            ∧ (∀ r, r ∈ PrecipObsInput.obs_rows frame →
                    ∃ col code,
                      col ∈ data_columns ws
                      ∧ cell_number (cell_value ws 1 col) = Some code
                      ∧ PrecipObsInput.obs_station r = Some (Py.int code))
            ∧ (PrecipObsInput.obs_rows frame ≠ [] →
               ∀ name_to_code,
                 ∃ out mstats,
                   PrecipObsInput.map_stations frame name_to_code ws'
                   = Ok (out, mstats, ws')
                   ∧ length out = PrecipObsInput.input_rows_raw stats
                   ∧ PrecipObsInput.rows_with_code_from_input mstats
                     = PrecipObsInput.input_rows_raw stats
                   ∧ PrecipObsInput.rows_mapped_by_name mstats = 0%nat
                   ∧ PrecipObsInput.rows_unmapped_dropped mstats = 0%nat))
         ∧ (PrecipObsText.normalize_text (cell_arg repr (cell_value ws 1 1)) ≠ u "code" →
            ws' = warnings ++ [WNoCodeRow]
            ∧ length (PrecipObsInput.obs_rows frame)
              = (length (PrecipObsInput.timed_rows ws 2)
                 * length (data_columns ws))%nat
            ∧ (PrecipObsInput.input_station_cols_raw stats
               ≤ length (data_columns ws))%nat
            ∧ (∀ r, r ∈ PrecipObsInput.obs_rows frame →
                    PrecipObsInput.obs_station r = None))).
Proof.
  unfold PrecipObsInput.parse_excel_datatable. split.
  - intros Hno. by rewrite bool_decide_true.
  - intros ws Hws.
    rewrite bool_decide_false
      by (intros Hno; apply Hno; by eapply get_sheet_Some_elem_of).
    rewrite Hws. case_bool_decide as Hcode.
    + eexists _, _, _. split; [reflexivity|].
      cbn [PrecipObsInput.input_rows_raw PrecipObsInput.input_station_cols_raw
           PrecipObsInput.obs_rows PrecipObsInput.obs_columns].
      split_and!; [done|apply nonempty_true| |done].
      intros _.
      set (col_meta := (λ col, (col, Py.int <$> cell_number (cell_value ws 1 col),
                                label_of repr (cell_value ws 2 col)))
                         <$> data_columns ws).
      set (records := PrecipObsInput.timed_rows ws 3 ≫= _).
      assert (Hcols : length (filter (λ m : nat * option Z * list N, m.1.2 ≠ None)
                                col_meta)
                      = length (filter (λ col, cell_number (cell_value ws 1 col) ≠ None)
                                  (data_columns ws))).
      { subst col_meta. clear. induction (data_columns ws) as [|c l IH]; [done|].
        rewrite fmap_cons, !filter_cons. cbn [fst snd].
        destruct (cell_number (cell_value ws 1 c)) as [q|]; cbn [fmap option_fmap option_map].
        - rewrite !decide_True by done. cbn [length]. by rewrite IH.
        - rewrite !decide_False by (intros Hn; by apply Hn). done. }
      assert (Hstation : ∀ r, r ∈ records →
                ∃ col code, col ∈ data_columns ws
                            ∧ cell_number (cell_value ws 1 col) = Some code
                            ∧ PrecipObsInput.obs_station r = Some (Py.int code)).
      { intros r (row & Hr & _)%list_elem_of_bind.
        apply list_elem_of_omap in Hr as (m & Hm & Hr).
        apply list_elem_of_fmap in Hm as (col & -> & Hcol). cbn [fst snd] in Hr.
        destruct (cell_number (cell_value ws 1 col)) as [q|] eqn:Hq; [|done].
        injection Hr as <-. by exists col, q. }
      split_and!; [done|done| |done|].
      * subst records. apply length_bind_const.
        intros row _. apply length_omap_fmap.
      * intros Hne name_to_code. unfold PrecipObsInput.map_stations.
        cbn [PrecipObsInput.obs_columns PrecipObsInput.obs_rows].
        apply nonempty_true in Hne. rewrite Hne. cbn [negb].
        assert (Hall : ∀ r, r ∈ records → PrecipObsInput.obs_station r ≠ None).
        { intros r Hr. destruct (Hstation r Hr) as (? & ? & _ & _ & ->). done. }
        assert (Hres : filter (λ r, PrecipObsInput.resolved name_to_code r = None) records
                       = []).
        { apply filter_none. intros r Hr Hnone. apply (Hall r Hr).
          unfold PrecipObsInput.resolved in Hnone.
          by destruct (PrecipObsInput.obs_station r). }
        assert (Hno : filter (λ r, PrecipObsInput.obs_station r = None) records = []).
        { apply filter_none. intros r Hr Hnone. by apply (Hall r Hr). }
        assert (Hyes : filter (λ r, PrecipObsInput.obs_station r ≠ None) records = records).
        { clear -Hall. induction records as [|r l IH]; [done|].
          rewrite filter_cons, decide_True by (apply Hall; by left).
          f_equal. apply IH. intros r' Hr'. apply Hall. by right. }
        rewrite Hres, Hno, Hyes. cbn [fmap list_fmap].
        eexists _, _. split; [reflexivity|].
        cbn [PrecipObsInput.rows_with_code_from_input PrecipObsInput.rows_mapped_by_name
             PrecipObsInput.rows_unmapped_dropped length].
        split_and!; [|done|done|done].
        pose proof (length_omap_split
                      (λ r, (λ code, mkMapped (PrecipObsInput.obs_time r)
                               (PrecipObsInput.obs_source_col r)
                               (PrecipObsInput.obs_rr r) code)
                            <$> PrecipObsInput.resolved name_to_code r)
                      (λ r, PrecipObsInput.resolved name_to_code r = None) records)
          as Hsplit.
        rewrite Hres in Hsplit. cbn [length] in Hsplit. rewrite <- Hsplit; [lia|].
        intros r. by destruct (PrecipObsInput.resolved name_to_code r).
    + eexists _, _, _. split; [reflexivity|].
      cbn [PrecipObsInput.input_rows_raw PrecipObsInput.input_station_cols_raw
           PrecipObsInput.obs_rows PrecipObsInput.obs_columns].
      split_and!; [done|apply nonempty_true|done|].
      intros _. split_and!; [done| | |].
      * rewrite (length_bind_const _ (length (data_columns ws))); [done|].
        intros row _. by rewrite !length_fmap.
      * apply length_filter.
      * intros r (row & Hr & _)%list_elem_of_bind.
        by apply list_elem_of_fmap in Hr as (m & -> & _).
Qed.

Lemma precip_obs_datatable_witness :
  (∃ ws, get_sheet example_datatable (u "DataTable") = Some ws
         ∧ PrecipObsText.normalize_text (cell_arg text_only (cell_value ws 1 1))
           = u "code")
  ∧ ∃ frame stats ws',
      PrecipObsInput.parse_excel_datatable text_only example_datatable
        (u "DataTable") [] = Ok (frame, stats, ws')
      ∧ ws' = []
      ∧ length (PrecipObsInput.obs_rows frame) = 4%nat.
Proof.
  assert (Hws : ∃ ws, get_sheet example_datatable (u "DataTable") = Some ws
                      ∧ PrecipObsText.normalize_text
                          (cell_arg text_only (cell_value ws 1 1)) = u "code").
  { eexists. split; [reflexivity|]. vm_compute. reflexivity. }
  split; [exact Hws|].
  destruct Hws as (ws & Hws & Hcode).
  destruct (proj2 (precip_obs_datatable text_only example_datatable (u "DataTable") [])
              ws Hws)
    as (frame & stats & ws' & Hrun & _ & _ & Hyes & _).
  destruct (Hyes Hcode) as (Hw & Hcols & Hlen & _).
  exists frame, stats, ws'. split_and!; [exact Hrun|exact Hw|].
  rewrite Hlen, Hcols.
  assert (Hsheet : get_sheet example_datatable (u "DataTable")
                   = Some [[CStr (u "Code"); CNum 101; CStr (u "n/a"); CNum 102];
                           [CStr (u "Date"); CStr (u "A"); CStr (u "B"); CStr (u "C")];
                           [CNum 3600; CNum 1; CNum 9; CNum 2];
                           [CNone; CNum 1; CNum 1; CNum 1];
                           [CNum 7200; CNum 0; CNum 0; CNone]])
    by reflexivity.
  rewrite Hsheet in Hws. injection Hws as <-.
  vm_compute. reflexivity.
Defined.

(** The records of the example: rows 3 and 5, columns 2 and 4. *)
Lemma precip_obs_datatable_example :
  PrecipObsInput.parse_excel_datatable text_only example_datatable (u "DataTable") []
  = Ok (PrecipObsInput.mkObsFrame true
          [PrecipObsInput.mkObs (CNum 3600) (Some 101) (CNum 1) (u "A");
           PrecipObsInput.mkObs (CNum 3600) (Some 102) (CNum 2) (u "C");
           PrecipObsInput.mkObs (CNum 7200) (Some 101) (CNum 0) (u "A");
           PrecipObsInput.mkObs (CNum 7200) (Some 102) CNone (u "C")],
        PrecipObsInput.mkInputStats 4 2, []).
Proof. vm_compute. reflexivity. Qed.

(** ** The alias tables of the station sheet *)

Section AliasTables.

Lemma add_aliases_lookup (m : gmap (list N) Z) (l : list (list N)) (c : Z)
    (a : list N) :
  add_aliases m l c !! a
  = match m !! a with
    | Some c' => Some c'
    | None => if decide (a ∈ l ∧ a ≠ []) then Some c else None
    end.
Proof.
  unfold add_aliases. revert m. induction l as [|x l IH]; intros m.
  - cbn. destruct (m !! a); [done|].
    rewrite decide_False; [done|]. intros [?%elem_of_nil _]. done.
  - cbn [foldl]. rewrite IH. clear IH.
    destruct x as [|x0 x].
    + destruct (m !! a); [done|].
      destruct (decide (a ∈ l ∧ a ≠ [])) as [Hl|Hl].
      * rewrite decide_True; [done|]. destruct Hl. split; [by right|done].
      * rewrite decide_False; [done|].
        intros [[->|?]%elem_of_cons ?]; [done|]. by apply Hl.
    + destruct (m !! (x0 :: x)) as [c0|] eqn:Hx.
      * destruct (m !! a) as [c'|] eqn:Ha; [done|].
        assert (a ≠ x0 :: x) by congruence.
        destruct (decide (a ∈ l ∧ a ≠ [])) as [Hl|Hl].
        -- rewrite decide_True; [done|]. destruct Hl. split; [by right|done].
        -- rewrite decide_False; [done|].
           intros [[->|?]%elem_of_cons ?]; [done|]. by apply Hl.
      * destruct (decide (a = x0 :: x)) as [->|Hne].
        -- rewrite lookup_insert_eq, Hx.
           rewrite decide_True; [done|]. split; [by left|done].
        -- rewrite lookup_insert_ne by done.
           destruct (m !! a) as [c'|] eqn:Ha; [done|].
           destruct (decide (a ∈ l ∧ a ≠ [])) as [Hl|Hl].
           ++ rewrite decide_True; [done|]. destruct Hl. split; [by right|done].
           ++ rewrite decide_False; [done|].
              intros [[->|?]%elem_of_cons ?]; [done|]. by apply Hl.
Qed.

(** The aliases of a row are a set in the source: the order in which
    they are visited does not change the table. *)
Lemma add_aliases_Permutation (m : gmap (list N) Z) (l l' : list (list N)) (c : Z) :
  l ≡ₚ l' → add_aliases m l c = add_aliases m l' c.
Proof.
  intros Hperm. apply map_eq. intros a. rewrite !add_aliases_lookup.
  destruct (m !! a); [done|].
  destruct (decide (a ∈ l ∧ a ≠ [])) as [Hl|Hl].
  - rewrite decide_True; [done|]. by rewrite <- Hperm.
  - rewrite decide_False; [done|]. by rewrite <- Hperm.
Qed.

(** The table built from the entries [(code, aliases)] in order. *)
Lemma add_aliases_fold {A} (aliases_of : A → list (list N))
    (entries : list (Z * A)) (m : gmap (list N) Z) (a : list N) :
  foldl (λ m e, add_aliases m (aliases_of e.2) e.1) m entries !! a
  = match m !! a with
    | Some c => Some c
    | None => match a with
              | [] => None
              | _ => first_with_alias aliases_of entries a
              end
    end.
Proof.
  unfold first_with_alias. revert m.
  induction entries as [|e entries IH]; intros m.
  - cbn. destruct (m !! a); [done|]. by destruct a.
  - cbn [foldl]. rewrite IH, add_aliases_lookup. clear IH.
    destruct (m !! a) as [c|]; [done|].
    cbn [list_find]. destruct a as [|a0 a].
    + rewrite decide_False; [done|]. by intros [_ ?].
    + destruct (decide (a0 :: a ∈ aliases_of e.2)) as [Hin|Hin].
      * rewrite decide_True by done. done.
      * rewrite decide_False by tauto.
        by destruct (list_find _ entries) as [[i p]|].
Qed.

Lemma first_with_alias_elem_of {A} (aliases_of : A → list (list N))
    (entries : list (Z * A)) (a : list N) (c : Z) :
  first_with_alias aliases_of entries a = Some c →
  ∃ name, (c, name) ∈ entries ∧ a ∈ aliases_of name.
Proof.
  unfold first_with_alias.
  destruct (list_find _ entries) as [[i [c' name]]|] eqn:Hfind; [|done].
  intros [= <-]. apply list_find_Some in Hfind as (Hi & Ha & _).
  exists name. split; [by eapply list_elem_of_lookup_2|done].
Qed.

Lemma first_with_alias_is_Some {A} (aliases_of : A → list (list N))
    (entries : list (Z * A)) (a : list N) (e : Z * A) :
  e ∈ entries → a ∈ aliases_of e.2 →
  is_Some (first_with_alias aliases_of entries a).
Proof.
  intros He Ha. unfold first_with_alias.
  destruct (list_find_elem_of (λ e, a ∈ aliases_of e.2) entries e He Ha) as [p Hp].
  rewrite Hp. by eexists.
Qed.

End AliasTables.

Section StationLoop.
Context `{UnicodeDB}.
Variable repr : cell → list N.
Variable int_of_str : list N → option Z.
Variable aliases_of : list N → list (list N).
Variable ws_st : sheet.

Variable step : result (list Z * list (Z * list N) * gmap (list N) Z) → nat
                → result (list Z * list (Z * list N) * gmap (list N) Z).
Hypothesis step_Raise : ∀ e r, step (Raise e) r = Raise e.
Hypothesis step_Ok : ∀ codes code_to_name alias_to_code r,
  step (Ok (codes, code_to_name, alias_to_code)) r
  = if is_none (cell_value ws_st r 1) || is_none (cell_value ws_st r 2)
    then Ok (codes, code_to_name, alias_to_code)
    else match int_of_str (Str.strip (py_str repr (cell_value ws_st r 1))) with
         | None => Raise (ValueError "invalid literal for int()")
         | Some code =>
             let name := Str.strip (py_str repr (cell_value ws_st r 2)) in
             Ok (codes ++ [code], dict_set code name code_to_name,
                 add_aliases alias_to_code (aliases_of name) code)
         end.

Lemma foldl_step_Raise e (rows : list nat) : foldl step (Raise e) rows = Raise e.
Proof. induction rows as [|r rows IH]; [done|]. cbn. by rewrite step_Raise. Qed.

Lemma station_loop (rows : list nat) codes code_to_name alias_to_code :
  foldl step (Ok (codes, code_to_name, alias_to_code)) rows
  = match mapM (station_entry repr int_of_str)
            (omap (λ r, if is_none (cell_value ws_st r 1)
                           || is_none (cell_value ws_st r 2)
                        then None
                        else Some (cell_value ws_st r 1, cell_value ws_st r 2)) rows) with
    | None => Raise (ValueError "invalid literal for int()")
    | Some entries =>
        Ok (codes ++ entries.*1,
            foldl (λ d e, dict_set e.1 e.2 d) code_to_name entries,
            foldl (λ m e, add_aliases m (aliases_of e.2) e.1) alias_to_code entries)
    end.
Proof.
  revert codes code_to_name alias_to_code.
  induction rows as [|r rows IH]; intros codes code_to_name alias_to_code.
  - cbn. by rewrite app_nil_r.
  - cbn [foldl omap list_omap]. rewrite step_Ok.
    destruct (is_none (cell_value ws_st r 1) || is_none (cell_value ws_st r 2));
      [apply IH|].
    cbn [mapM]. unfold station_entry. cbn [fst snd].
    destruct (int_of_str _) as [code|]; cbn.
    + rewrite IH. destruct (mapM _ _) as [entries|]; cbn; [|done].
      by rewrite <- app_assoc.
    + apply foldl_step_Raise.
Qed.

End StationLoop.

Section Dict.

Lemma dict_get_set_eq (k : Z) (v : list N) (d : list (Z * list N)) :
  dict_get k (dict_set k v d) = Some v.
Proof.
  unfold dict_get. induction d as [|[k' v'] d IH]; cbn.
  - by rewrite decide_True.
  - destruct (decide (k' = k)) as [->|Hne]; cbn.
    + by rewrite decide_True.
    + rewrite decide_False by done.
      destruct (list_find _ (dict_set k v d)) as [[i p]|]; [|done].
      cbn in IH |- *. done.
Qed.

Lemma dict_get_set_ne (k k' : Z) (v : list N) (d : list (Z * list N)) :
  k ≠ k' → dict_get k (dict_set k' v d) = dict_get k d.
Proof.
  intros Hne. unfold dict_get. induction d as [|[k0 v0] d IH]; cbn.
  - by rewrite decide_False.
  - destruct (decide (k0 = k')) as [->|Hk0]; cbn.
    + rewrite !decide_False by done. done.
    + destruct (decide (k0 = k)); [done|].
      destruct (list_find _ (dict_set k' v d)) as [[i p]|],
               (list_find _ d) as [[j q]|]; cbn in IH |- *; congruence.
Qed.

(** The name a code is bound to is the one of the last row with that
    code. *)
Lemma dict_get_fold (k : Z) (entries : list (Z * list N)) (d : list (Z * list N)) :
  dict_get k (foldl (λ d e, dict_set e.1 e.2 d) d entries)
  = match last (filter (λ e, e.1 = k) entries) with
    | Some e => Some e.2
    | None => dict_get k d
    end.
Proof.
  revert d. induction entries as [|[k' v'] entries IH]; intros d; [done|].
  cbn [foldl fst snd]. rewrite IH, filter_cons. cbn [fst].
  destruct (decide (k' = k)) as [->|Hne].
  - destruct (filter _ entries) as [|e l] eqn:Hf.
    + cbn. apply dict_get_set_eq.
    + change (last ((k, v') :: e :: l)) with (last (e :: l)).
      destruct (last (e :: l)) eqn:Hl; [done|]. by apply last_None in Hl.
  - destruct (last _); [done|]. by apply dict_get_set_ne.
Qed.

End Dict.

Section FlowTable.
Context `{UnicodeDB}.

Lemma elem_of_dict_set (p : Z * list N) k v (d : list (Z * list N)) :
  p ∈ dict_set k v d → p = (k, v) ∨ p ∈ d.
Proof.
  induction d as [|[k' v'] d IH]; cbn.
  - intros ?%list_elem_of_singleton. by left.
  - destruct (decide (k' = k)) as [->|Hne].
    + intros [->|Hp]%elem_of_cons; [by left|]. right. by right.
    + intros [->|Hp]%elem_of_cons; [right; by left|].
      destruct (IH Hp) as [->|?]; [by left|]. right. by right.
Qed.

Lemma elem_of_dict_fold (p : Z * list N) (entries d : list (Z * list N)) :
  p ∈ foldl (λ d e, dict_set e.1 e.2 d) d entries → p ∈ entries ∨ p ∈ d.
Proof.
  revert d. induction entries as [|[k v] entries IH]; intros d; cbn [foldl fst snd].
  - by right.
  - intros [Hp|Hp]%IH; [left; by right|].
    apply elem_of_dict_set in Hp as [->|Hp]; [left; by left|by right].
Qed.

Lemma name_to_code_lookup (norm : list N → list N) (d : list (Z * list N))
    (m : gmap (list N) Z) (n : list N) (c : Z) :
  foldl (λ m kv, <[norm kv.2 := kv.1]> m) m d !! n = Some c →
  m !! n = Some c ∨ ∃ name, (c, name) ∈ d ∧ norm name = n.
Proof.
  revert m. induction d as [|[k v] d IH]; intros m; cbn [foldl fst snd]; [by left|].
  intros [Hm|(name & Hin & Hn)]%IH.
  - destruct (decide (norm v = n)) as [<-|Hne].
    + rewrite lookup_insert_eq in Hm. injection Hm as ->.
      right. exists v. split; [by left|done].
    + rewrite lookup_insert_ne in Hm by done. by left.
  - right. exists name. split; [by right|done].
Qed.

Lemma add_manual_step (name_to_code m : gmap (list N) Z) (p : list N * list N)
    (a : list N) :
  FlowStations.add_manual name_to_code m p !! a
  = match m !! a with
    | Some c => Some c
    | None => if decide (FlowText.normalize_text (Some p.1) = a ∧ a ≠ [])
              then name_to_code !! FlowText.normalize_text (Some p.2)
              else None
    end.
Proof.
  unfold FlowStations.add_manual.
  destruct (name_to_code !! FlowText.normalize_text (Some p.2)) as [target|] eqn:Ht.
  2:{ destruct (m !! a); [done|]. by destruct (decide _). }
  destruct (FlowText.normalize_text (Some p.1)) as [|x0 x] eqn:Hn.
  { destruct (m !! a); [done|]. rewrite decide_False; [done|]. by intros [<- ?]. }
  destruct (m !! (x0 :: x)) as [c0|] eqn:Hx.
  { destruct (m !! a) eqn:Ha; [done|]. rewrite decide_False; [done|].
    intros [<- _]. congruence. }
  destruct (decide (a = x0 :: x)) as [->|Hne].
  - rewrite lookup_insert_eq, Hx. by rewrite decide_True.
  - rewrite lookup_insert_ne by done. destruct (m !! a); [done|].
    rewrite decide_False; [done|]. by intros [<- _].
Qed.

Lemma add_manual_lookup (name_to_code m : gmap (list N) Z)
    (manual : list (list N * list N)) (a : list N) :
  match m !! a with
  | Some c => foldl (FlowStations.add_manual name_to_code) m manual !! a = Some c
  | None =>
      ∀ c, foldl (FlowStations.add_manual name_to_code) m manual !! a = Some c →
           a ≠ []
           ∧ ∃ p, p ∈ manual
                  ∧ FlowText.normalize_text (Some p.1) = a
                  ∧ name_to_code !! FlowText.normalize_text (Some p.2) = Some c
  end.
Proof.
  revert m. induction manual as [|p manual IH]; intros m.
  - cbn. destruct (m !! a) eqn:Hm; [done|]. by intros c.
  - cbn [foldl]. specialize (IH (FlowStations.add_manual name_to_code m p)).
    rewrite add_manual_step in IH.
    destruct (m !! a) as [c0|] eqn:Hm; [done|].
    destruct (decide _) as [[Hp Hne]|Hno].
    + destruct (name_to_code !! FlowText.normalize_text (Some p.2)) as [t|] eqn:Ht.
      * intros c Hc. rewrite IH in Hc. injection Hc as <-.
        split; [done|]. exists p. split; [by left|done].
      * intros c Hc. destruct (IH c Hc) as (_ & q & Hq & ? & ?).
        split; [done|]. exists q. split; [by right|done].
    + intros c Hc. destruct (IH c Hc) as (? & q & Hq & ? & ?).
      split; [done|]. exists q. split; [by right|done].
Qed.

Context `{!UnicodeLaws}.

Lemma flow_aliases_normalized (name a : list N) :
  a ∈ FlowStations.aliases_of name → FlowText.normalize_text (Some a) = a.
Proof.
  unfold FlowStations.aliases_of. rewrite !elem_of_cons, elem_of_nil.
  intros [->|[->|[->|[->|[->|[]]]]]]; apply flow_normalize_idempotent; done.
Qed.

Lemma volume_aliases_normalized (name a : list N) :
  a ∈ VolumeStations.aliases_of name → VolumeText.normalize_text (Some a) = a.
Proof.
  unfold VolumeStations.aliases_of. rewrite !elem_of_cons, elem_of_nil.
  intros [->|[->|[->|[->|[]]]]]; apply volume_normalize_idempotent; done.
Qed.

End FlowTable.

(** X15.  The alias tables that the flow and volume scripts build from
    the station sheet.  A station row is a row from the second one with a
    code and a name; if the code of one of them is not an integer literal
    the function raises ValueError.  Otherwise the codes returned are the
    ascending distinct codes of the rows, a code is named after the last
    row that carries it, and an alias is bound to the code of the first
    row that yields it: later rows and, in the flow script, the
    hand-written aliases never replace a binding.  Every key is a fixed
    point of the normalizer and is not empty, and a source column whose
    normalized label is an alias of a station row is resolved by the
    exact lookup, to the code of the first such row. *)
Theorem template_alias_tables `{UnicodeDB} `{!UnicodeLaws} `{SequenceMatcher}
    (repr : cell → list N) (int_of_str : list N → option Z) (ws_st : sheet) :
  match mapM (station_entry repr int_of_str) (station_rows repr ws_st) with
  | None =>
      FlowStations.extract_template_stations repr int_of_str ws_st
      = Raise (ValueError "invalid literal for int()")
      ∧ VolumeStations.extract_template_stations repr int_of_str ws_st
        = Raise (ValueError "invalid literal for int()")
  | Some entries =>
      (∃ code_to_name alias_to_code,
         FlowStations.extract_template_stations repr int_of_str ws_st
         = Ok (Py.sorted_set entries.*1, code_to_name, alias_to_code)
         ∧ (∀ code, dict_get code code_to_name
                    = (λ e, e.2) <$> last (filter (λ e, e.1 = code) entries))
         ∧ alias_to_code !! [] = None
         ∧ (∀ a c, a ≠ [] →
                   first_with_alias FlowStations.aliases_of entries a = Some c →
                   alias_to_code !! a = Some c)
         ∧ (∀ a c, alias_to_code !! a = Some c →
                   first_with_alias FlowStations.aliases_of entries a = Some c
                   ∨ (first_with_alias FlowStations.aliases_of entries a = None
                      ∧ ∃ p name,
                          p ∈ FlowStations.manual_alias_to_station
                          ∧ (c, name) ∈ entries
                          ∧ FlowText.normalize_text (Some p.1) = a
                          ∧ FlowText.normalize_text (Some name)
                            = FlowText.normalize_text (Some p.2)))
         ∧ (∀ a c, alias_to_code !! a = Some c →
                   FlowText.normalize_text (Some a) = a)
         ∧ (∀ col c names known st,
              FlowText.normalize_text (Some col) ≠ [] →
              first_with_alias FlowStations.aliases_of entries
                (FlowText.normalize_text (Some col)) = Some c →
              FlowResolver.resolve_column alias_to_code names known st col
              = record_exact st col c))
      ∧ (∃ code_to_name alias_to_code,
           VolumeStations.extract_template_stations repr int_of_str ws_st
           = Ok (Py.sorted_set entries.*1, code_to_name, alias_to_code)
           ∧ (∀ code, dict_get code code_to_name
                      = (λ e, e.2) <$> last (filter (λ e, e.1 = code) entries))
           ∧ (∀ a, alias_to_code !! a
                   = match a with
                     | [] => None
                     | _ => first_with_alias VolumeStations.aliases_of entries a
                     end)
           ∧ (∀ a c, alias_to_code !! a = Some c →
                     VolumeText.normalize_text (Some a) = a)
           ∧ (∀ col c names known st,
                VolumeText.normalize_text (Some col) ≠ [] →
                first_with_alias VolumeStations.aliases_of entries
                  (VolumeText.normalize_text (Some col)) = Some c →
                VolumeResolver.resolve_column alias_to_code names known st col
                = record_exact st col c))
  end.
Proof.
  unfold FlowStations.extract_template_stations,
    VolumeStations.extract_template_stations, station_rows.
  rewrite (station_loop repr int_of_str FlowStations.aliases_of ws_st
             (FlowStations.station_step repr int_of_str ws_st))
    by done.
  rewrite (station_loop repr int_of_str VolumeStations.aliases_of ws_st
             (VolumeStations.station_step repr int_of_str ws_st))
    by done.
  destruct (mapM _ _) as [entries|]; [|done].
  cbn [mbind result_bind app]. split.
  - eexists _, _. split; [reflexivity|].
    set (table := foldl (λ m e, add_aliases m (FlowStations.aliases_of e.2) e.1)
                        ∅ entries).
    set (names := foldl (λ d e, dict_set e.1 e.2 d) [] entries).
    set (name_to_code := foldl _ ∅ names).
    assert (Htable : ∀ a, table !! a
                          = match a with
                            | [] => None
                            | _ => first_with_alias FlowStations.aliases_of entries a
                            end).
    { intros a. subst table. by rewrite add_aliases_fold, lookup_empty. }
    assert (Hfinal : ∀ a c,
              foldl (FlowStations.add_manual name_to_code) table
                FlowStations.manual_alias_to_station !! a = Some c →
              table !! a = Some c
              ∨ (table !! a = None ∧ a ≠ []
                 ∧ ∃ p, p ∈ FlowStations.manual_alias_to_station
                        ∧ FlowText.normalize_text (Some p.1) = a
                        ∧ name_to_code !! FlowText.normalize_text (Some p.2) = Some c)).
    { intros a c Hc.
      pose proof (add_manual_lookup name_to_code table
                    FlowStations.manual_alias_to_station a) as Hm.
      destruct (table !! a) as [c'|] eqn:Ha.
      - left. congruence.
      - right. split; [done|]. by apply Hm. }
    assert (Hkeep : ∀ a c, table !! a = Some c →
              foldl (FlowStations.add_manual name_to_code) table
                FlowStations.manual_alias_to_station !! a = Some c).
    { intros a c Ha.
      pose proof (add_manual_lookup name_to_code table
                    FlowStations.manual_alias_to_station a) as Hm.
      by rewrite Ha in Hm. }
    assert (Hauto : ∀ a c, a ≠ [] →
              first_with_alias FlowStations.aliases_of entries a = Some c →
              foldl (FlowStations.add_manual name_to_code) table
                FlowStations.manual_alias_to_station !! a = Some c).
    { intros a c Hne Hfirst. apply Hkeep. rewrite Htable. by destruct a. }
    split_and!.
    + intros code. subst names. rewrite dict_get_fold.
      by destruct (last _).
    + destruct (foldl _ table _ !! []) as [c|] eqn:Hc; [|done].
      destruct (Hfinal [] c Hc) as [Ht|(_ & Hne & _)]; [|done].
      by rewrite Htable in Ht.
    + exact Hauto.
    + intros a c Hc. destruct (Hfinal a c Hc) as [Ht|(Ht & Hne & p & Hp & Ha & Hn)].
      * left. rewrite Htable in Ht. by destruct a.
      * right. split; [rewrite Htable in Ht; by destruct a|].
        unfold name_to_code in Hn.
        apply (name_to_code_lookup (λ v, FlowText.normalize_text (Some v))) in Hn
          as [Hn|(name & Hname & Hnorm)];
          [by rewrite lookup_empty in Hn|].
        apply elem_of_dict_fold in Hname as [Hname|Hname];
          [|by apply elem_of_nil in Hname].
        by exists p, name.
    + intros a c Hc. destruct (Hfinal a c Hc) as [Ht|(Ht & Hne & p & Hp & <- & Hn)].
      * rewrite Htable in Ht. destruct a as [|a0 a]; [done|].
        apply first_with_alias_elem_of in Ht as (name & _ & Ha).
        by eapply flow_aliases_normalized.
      * by apply flow_normalize_idempotent.
    + intros col c names' known st Hne Hfirst.
      unfold FlowResolver.resolve_column. cbv zeta.
      by rewrite (Hauto _ c Hne Hfirst).
  - eexists _, _. split; [reflexivity|].
    set (table := foldl (λ m e, add_aliases m (VolumeStations.aliases_of e.2) e.1)
                        ∅ entries).
    assert (Htable : ∀ a, table !! a
                          = match a with
                            | [] => None
                            | _ => first_with_alias VolumeStations.aliases_of entries a
                            end).
    { intros a. subst table. by rewrite add_aliases_fold, lookup_empty. }
    split_and!.
    + intros code. rewrite dict_get_fold. by destruct (last _).
    + exact Htable.
    + intros a c Ha. rewrite Htable in Ha. destruct a as [|a0 a]; [done|].
      apply first_with_alias_elem_of in Ha as (name & _ & Ha).
      by eapply volume_aliases_normalized.
    + intros col c names' known st Hne Hfirst.
      unfold VolumeResolver.resolve_column. cbv zeta.
      rewrite Htable. destruct (VolumeText.normalize_text (Some col)); [done|].
      by rewrite Hfirst.
Qed.

Lemma template_alias_tables_witness :
  ∃ code_to_name alias_to_code,
    FlowStations.extract_template_stations text_only decimal example_station_sheet
    = Ok ([7; 12], code_to_name, alias_to_code)
    ∧ dict_get 12 code_to_name = Some (u "Ain_Sebou")
    ∧ alias_to_code !! u "ain sebou debit" = Some 12
    ∧ alias_to_code !! [] = None.
Proof.
  pose proof (@template_alias_tables latin1_db latin1_laws py_difflib
                text_only decimal example_station_sheet) as Hthm.
  assert (Hentries : mapM (station_entry text_only decimal)
                       (station_rows text_only example_station_sheet)
                     = Some [(12, u "Ain Sebou"); (7, u "El Malha");
                             (12, u "Ain_Sebou")])
    by (vm_compute; reflexivity).
  rewrite Hentries in Hthm.
  destruct Hthm as [(code_to_name & alias_to_code & Hrun & Hnames & Hempty & Hauto & _) _].
  exists code_to_name, alias_to_code. split_and!.
  - exact Hrun.
  - by rewrite Hnames.
  - apply Hauto; [done|]. vm_compute. reflexivity.
  - exact Hempty.
Defined.

(** The hand-written alias [pont sebbou debit] is bound to the code of
    [Ain Sebou]; [barrage de garde debit] has no station to point to. *)
Lemma template_alias_tables_example :
  (λ aliases, match FlowStations.extract_template_stations text_only decimal
                      example_station_sheet with
              | Ok (_, _, alias_to_code) => (λ a, alias_to_code !! a) <$> aliases
              | Raise _ => []
              end)
    [u "pont sebbou debit"; u "pont el malha debit"; u "barrage de garde debit"]
  = [Some 12; Some 7; None].
Proof. vm_compute. reflexivity. Qed.

Section PrecipObsTable.
Context `{UnicodeDB}.
Variable repr : cell → list N.

Lemma precip_station_loop (ws_st : sheet) (rows : list nat) codes labels table :
  foldl (PrecipObsStations.station_step repr ws_st) (codes, labels, table) rows
  = let entries :=
      omap (λ row, (λ code, (Py.int code,
                             (cell_value ws_st row 2, cell_value ws_st row 4)))
                     <$> cell_number (cell_value ws_st row 1)) rows in
    (codes ++ entries.*1,
     foldl (λ d e, dict_set e.1
                     (if truthy e.2.2 then py_str repr e.2.2
                      else if truthy e.2.1 then py_str repr e.2.1
                      else repr (CNum (inject_Z e.1))) d) labels entries,
     foldl (λ m e, add_aliases m (PrecipObsStations.variants repr e.2.1 e.2.2) e.1)
           table entries).
Proof.
  revert codes labels table. induction rows as [|r rows IH]; intros codes labels table.
  - cbn. by rewrite app_nil_r.
  - cbn [foldl omap list_omap]. unfold PrecipObsStations.station_step at 2.
    destruct (cell_number (cell_value ws_st r 1)) as [q|].
    + rewrite IH. cbn. by rewrite <- app_assoc.
    + apply IH.
Qed.

Context `{!UnicodeLaws}.

Lemma precip_variants_normalized (nom var_name : cell) (a : list N) :
  a ∈ PrecipObsStations.variants repr nom var_name →
  PrecipObsText.normalize_text (Some a) = a.
Proof.
  unfold PrecipObsStations.variants. rewrite !elem_of_cons, elem_of_nil.
  intros [->|[->|[->|[->|[]]]]]; apply precip_obs_normalize_idempotent; done.
Qed.

End PrecipObsTable.

(** X16.  The name table that the observed-precipitation script builds
    from the station sheet.  The station rows are the rows from the second
    one whose first cell is a number; the codes returned are their
    ascending distinct codes.  A name is bound to the code of the first
    station row that has it among its four variants (the variable name,
    the station name, and the station name followed by [_Pluie 1hr (mm)]
    or [ Pluie 1hr (mm)]), never to a later one; no key is empty and every
    key is a fixed point of the normalizer.  So [map_stations] gives a
    record without code whose normalized label is a variant of a station
    row the code of the first such row. *)
Theorem precip_obs_name_table `{UnicodeDB} `{!UnicodeLaws} (repr : cell → list N)
    (ws_st : sheet) :
  let entries := precip_station_entries ws_st in
  let '(codes, code_to_label, name_to_code) :=
    PrecipObsStations.extract_template_stations repr ws_st in
  codes = Py.sorted_set entries.*1
  ∧ (∀ a, name_to_code !! a
          = match a with
            | [] => None
            | _ => first_with_alias
                     (λ e, PrecipObsStations.variants repr e.1 e.2) entries a
            end)
  ∧ (∀ a c, name_to_code !! a = Some c →
            PrecipObsText.normalize_text (Some a) = a)
  ∧ (∀ code, is_Some (dict_get code code_to_label) ↔ code ∈ codes)
  ∧ (∀ r c,
       PrecipObsInput.obs_station r = None →
       PrecipObsText.normalize_text (Some (PrecipObsInput.obs_source_col r)) ≠ [] →
       first_with_alias (λ e, PrecipObsStations.variants repr e.1 e.2) entries
         (PrecipObsText.normalize_text (Some (PrecipObsInput.obs_source_col r)))
       = Some c →
       PrecipObsInput.resolved name_to_code r = Some c).
Proof.
  intros entries. unfold PrecipObsStations.extract_template_stations.
  rewrite precip_station_loop. cbv zeta. fold (precip_station_entries ws_st).
  fold entries. cbn [app].
  set (table := foldl _ ∅ entries).
  assert (Htable : ∀ a, table !! a
            = match a with
              | [] => None
              | _ => first_with_alias
                       (λ e, PrecipObsStations.variants repr e.1 e.2) entries a
              end).
  { intros a. subst table.
    rewrite (add_aliases_fold (λ e, PrecipObsStations.variants repr e.1 e.2)).
    by rewrite lookup_empty. }
  split_and!.
  - done.
  - exact Htable.
  - intros a c Ha. rewrite Htable in Ha. destruct a as [|a0 a]; [done|].
    apply first_with_alias_elem_of in Ha as ([nom var] & _ & Ha).
    by eapply precip_variants_normalized.
  - intros code. rewrite elem_of_sorted_set.
    assert (Hgen : ∀ d, is_Some (dict_get code
                (foldl (λ d e, dict_set e.1
                          (if truthy e.2.2 then py_str repr e.2.2
                           else if truthy e.2.1 then py_str repr e.2.1
                           else repr (CNum (inject_Z e.1))) d) d entries))
              ↔ code ∈ entries.*1 ∨ is_Some (dict_get code d)).
    { clear. induction entries as [|[k v] l IH]; intros d.
      - cbn. rewrite elem_of_nil. tauto.
      - cbn [foldl fmap list_fmap fst snd]. rewrite IH, elem_of_cons.
        destruct (decide (code = k)) as [->|Hne].
        + rewrite dict_get_set_eq. split; [|intros _; right; by eexists].
          intros _. by left; left.
        + rewrite dict_get_set_ne by done. tauto. }
    rewrite Hgen. split; [|by left].
    intros [?|[? Hd]]; [done|]. by cbn in Hd.
  - intros r c Hst Hne Hfirst. unfold PrecipObsInput.resolved.
    rewrite Hst, Htable.
    by destruct (PrecipObsText.normalize_text _).
Qed.

Lemma precip_obs_name_table_witness :
  (PrecipObsStations.extract_template_stations text_only example_precip_stations).1.1
  = [101; 102]
  ∧ (PrecipObsStations.extract_template_stations text_only example_precip_stations).2
    !! u "ain sebou pluie 1hr (mm)" = Some 101
  ∧ (PrecipObsStations.extract_template_stations text_only example_precip_stations).2
    !! u "zrarda" = None.
Proof.
  pose proof (@precip_obs_name_table latin1_db latin1_laws text_only
                example_precip_stations) as Hthm.
  cbv zeta in Hthm.
  destruct (PrecipObsStations.extract_template_stations text_only
              example_precip_stations) as [[codes labels] table].
  destruct Hthm as (Hcodes & Htable & _). cbn [fst snd].
  split_and!.
  - rewrite Hcodes. vm_compute. reflexivity.
  - rewrite Htable. vm_compute. reflexivity.
  - rewrite Htable. vm_compute. reflexivity.
Defined.

(** ** The cells of the built matrix *)

Section MatrixCells.

Lemma pivot_cells_fold (df : list record) (m : gmap (Z * Z) Q) (k : Z * Z) :
  foldl (λ m r, match r_value r with
                | Some v => <[(r_time r, r_station r) := v]> m
                | None => m
                end) m df !! k
  = match last (omap r_value (with_key k df)) with
    | Some v => Some v
    | None => m !! k
    end.
Proof.
  revert m. induction df as [|r df IH]; intros m; [done|].
  cbn [foldl]. rewrite IH. unfold with_key. rewrite filter_cons.
  fold (with_key k df).
  destruct (decide (key_of r = k)) as [Hk|Hne]; unfold key_of in *.
  - cbn [omap list_omap]. destruct (r_value r) as [v|] eqn:Hv; [|done].
    destruct (omap r_value (with_key k df)) as [|x l] eqn:Hl.
    + cbn. by rewrite Hk, lookup_insert_eq.
    + change (last (v :: x :: l)) with (last (x :: l)).
      destruct (last (x :: l)) eqn:Hlast; [done|]. by apply last_None in Hlast.
  - destruct (last _); [done|].
    destruct (r_value r); [|done]. by rewrite lookup_insert_ne.
Qed.

Lemma pivot_cells_lookup (df : list record) (ts code : Z) :
  Pandas.pivot_cells df !! (ts, code) = group_last df ts code.
Proof.
  unfold Pandas.pivot_cells, group_last. rewrite pivot_cells_fold.
  by destruct (last _).
Qed.

Lemma elem_of_pivot_index (df : list record) (ts : Z) :
  ts ∈ Pandas.pivot_index df
  ↔ ∃ r v, r ∈ df ∧ r_time r = ts ∧ r_value r = Some v.
Proof.
  unfold Pandas.pivot_index. rewrite elem_of_sorted_set, list_elem_of_omap. split.
  - intros (r & Hr & Hts). destruct (r_value r) as [v|] eqn:Hv; [|done].
    injection Hts as <-. by exists r, v.
  - intros (r & v & Hr & <- & Hv). exists r. by rewrite Hv.
Qed.

Lemma filled_index fill (m : matrix) : m_index (filled fill m) = m_index m.
Proof. by destruct fill. Qed.

Lemma filled_columns fill (m : matrix) : m_columns (filled fill m) = m_columns m.
Proof. by destruct fill. Qed.

Lemma filled_cell fill (m : matrix) (k j : nat) :
  cell_by_position (filled fill m) k j = fill_value fill <$> cell_by_position m k j.
Proof.
  unfold cell_by_position. destruct fill as [f|]; cbn [filled fill_value].
  - unfold Pandas.fillna. cbn [m_data]. rewrite (list_lookup_fmap _ (m_data m)).
    destruct (m_data m !! k) as [row|]; [|done]. cbn.
    by rewrite list_lookup_fmap.
  - destruct (m_data m !! k) as [row|]; [|done]. cbn. by destruct (row !! j).
Qed.

Lemma filled_well_shaped fill (m : matrix) : well_shaped m → well_shaped (filled fill m).
Proof.
  destruct fill as [f|]; [|done]. intros [Hlen Hrows]. split.
  - cbn. by rewrite length_map.
  - cbn. rewrite Forall_fmap. eapply Forall_impl; [exact Hrows|].
    intros row Hrow. cbn. by rewrite length_map.
Qed.

Lemma reindex_well_shaped (df : list record) (cols : list Z) :
  well_shaped (Pandas.reindex_columns df cols).
Proof.
  split.
  - cbn. by rewrite length_map.
  - cbn. rewrite Forall_fmap. apply Forall_forall. intros t _. cbn.
    by rewrite length_map.
Qed.

Lemma reindex_cell (df : list record) (cols : list Z) (k j : nat) (ts c : Z) :
  Pandas.pivot_index df !! k = Some ts → cols !! j = Some c →
  cell_by_position (Pandas.reindex_columns df cols) k j
  = Some (group_last df ts c).
Proof.
  intros Hk Hj. unfold cell_by_position, Pandas.reindex_columns. cbn [m_data].
  rewrite (list_lookup_fmap _ (Pandas.pivot_index df)), Hk. cbn.
  rewrite list_lookup_fmap, Hj. cbn. by rewrite pivot_cells_lookup.
Qed.

Lemma group_last_unique (df : list record) (r : record) :
  NoDup (key_of <$> df) → r ∈ df →
  group_last df (r_time r) (r_station r) = r_value r.
Proof.
  intros Hnd Hr. unfold group_last.
  assert (Hkey : with_key (r_time r, r_station r) df = [r]).
  { clear -Hnd Hr. induction df as [|x df IH]; [by apply elem_of_nil in Hr|].
    rewrite fmap_cons in Hnd. apply NoDup_cons in Hnd as [Hx Hnd].
    unfold with_key. rewrite filter_cons. fold (with_key (r_time r, r_station r) df).
    apply elem_of_cons in Hr as [->|Hr].
    - rewrite decide_True by done. f_equal.
      apply filter_none. intros y Hy Hkey. apply Hx.
      apply list_elem_of_fmap. exists y. split; [|done]. by rewrite Hkey.
    - rewrite decide_False; [by apply IH|].
      intros Hkey. apply Hx. apply list_elem_of_fmap. exists r. split; [|done].
      by rewrite Hkey. }
  rewrite Hkey. cbn. by destruct (r_value r).
Qed.

End MatrixCells.

(** X17.  The matrix that the builders of the four scripts return.  Its
    columns are the target codes; its row labels are, in ascending order
    and once each, the times at which some record has a non-null value,
    so that a time whose records are all null has no row; every row has
    one cell per column.  The cell of a row label and a target code holds
    the last non-null value among the records of that time and station,
    and the fill value, if one is given, when there is none.  On a frame
    without duplicate keys the cell of a record holds its value. *)
Theorem matrix_cells (b : list record → list Z → option Q → matrix * matrix_stats)
    (df : list record) (codes : list Z) (fill : option Q) :
  b ∈ builders →
  let m := (b df codes fill).1 in
  m_columns m = codes
  ∧ StronglySorted Z.lt (m_index m)
  ∧ (∀ ts, ts ∈ m_index m ↔ ∃ r v, r ∈ df ∧ r_time r = ts ∧ r_value r = Some v)
  ∧ well_shaped m
  ∧ (∀ k j ts c,
       m_index m !! k = Some ts → codes !! j = Some c →
       cell_by_position m k j = Some (fill_value fill (group_last df ts c)))
  ∧ (NoDup (key_of <$> df) →
     ∀ r, r ∈ df → group_last df (r_time r) (r_station r) = r_value r).
Proof.
  intros Hb m. subst m. destruct (builder_matrix b df codes fill Hb) as [-> _].
  rewrite filled_index, filled_columns. split_and!.
  - done.
  - apply sorted_set_ascending.
  - apply elem_of_pivot_index.
  - apply filled_well_shaped, reindex_well_shaped.
  - intros k j ts c Hk Hj. rewrite filled_cell.
    by rewrite (reindex_cell df codes k j ts c).
  - intros Hnd r Hr. by apply group_last_unique.
Qed.

Lemma matrix_cells_witness :
  PrecipObs.build_matrix ∈ builders
  ∧ m_index (PrecipObs.build_matrix example_records [101; 102] (Some 0%Q)).1 = [10]
  ∧ cell_by_position (PrecipObs.build_matrix example_records [101; 102] (Some 0%Q)).1
      0 1
    = Some (Some 0%Q).
Proof.
  assert (Hb : PrecipObs.build_matrix ∈ builders) by (do 2 right; by left).
  destruct (matrix_cells PrecipObs.build_matrix example_records [101; 102]
              (Some 0%Q) Hb) as (_ & _ & _ & _ & Hcell & _).
  split_and!; [exact Hb|reflexivity|].
  by rewrite (Hcell 0%nat 1%nat 10 102 eq_refl eq_refl).
Defined.

(** The matrix of the example: the value 2 of the later record at
    (10, 101), the fill value at (10, 102), and no row for the time 20. *)
Lemma matrix_cells_example :
  (PrecipObs.build_matrix example_records [101; 102] (Some 0%Q)).1
  = mkMatrix [10] [101; 102] [[Some 2%Q; Some 0%Q]].
Proof. vm_compute. reflexivity. Qed.

(** ** Observed precipitation: from the input to the saved workbook *)

Section LoadThroughLog.

Lemma load_workbook_log_to (log path : string) lv msg (fs : gmap string file) :
  load_workbook (log_to log lv msg fs) path = load_workbook fs path.
Proof.
  unfold load_workbook, log_to.
  destruct (decide (path = log)) as [->|Hne].
  - rewrite lookup_alter_eq. by destruct (fs !! log) as [[]|].
  - by rewrite lookup_alter_ne.
Qed.

Lemma load_workbook_setup_logger (log path : string) (fs : gmap string file) :
  load_workbook (setup_logger log fs) path = load_workbook fs path.
Proof.
  unfold load_workbook, setup_logger.
  destruct (fs !! log) eqn:Hlog; [done|].
  destruct (decide (path = log)) as [->|Hne].
  - by rewrite lookup_insert_eq, Hlog.
  - by rewrite lookup_insert_ne.
Qed.

End LoadThroughLog.

Section PrecipObsRun.
Variable stages : workbook → result stage_outcome.

(** A run that ends with status 0 has saved the workbook that the
    stages produced from the template on disk. *)
Lemma precip_obs_main_success (a : args) (run_id : string)
    (fs fs' : gmap string file) :
  PrecipObsMain.main stages a run_id fs = (0, fs') →
  ∃ wb_tpl wb' stats warnings,
    load_workbook fs (arg_template a) = Some wb_tpl
    ∧ arg_sheet_data a ∈ sheetnames wb_tpl
    ∧ arg_sheet_stations a ∈ sheetnames wb_tpl
    ∧ stages wb_tpl = Ok (Produced wb' stats warnings)
    ∧ fs' !! PrecipObsMain.out_xlsx a run_id = Some (FWorkbook wb')
    ∧ is_report (fs' !! PrecipObsMain.out_json a run_id) warnings
    ∧ (arg_strict a = true → warnings = []).
Proof.
  destruct (precip_obs_paths_distinct a run_id) as (? & ? & ? & ? & ? & ?).
  unfold PrecipObsMain.main, PrecipObsMain.produce.
  case_bool_decide; [done|]. case_bool_decide; [done|].
  unfold log_text at 1. rewrite load_workbook_log_to, load_workbook_setup_logger.
  destruct (load_workbook fs (arg_template a)) as [wb_tpl|]; [|done].
  case_bool_decide as Hdata; [done|]. case_bool_decide as Hst; [done|].
  destruct (stages wb_tpl) as [[reason|wb' stats ws]|e] eqn:Hstages; [done| |done].
  destruct (arg_strict a) eqn:Hstrict; cbn [andb].
  - destruct ws as [|w ws]; [|done]. cbn [nonempty]. intros [= <-].
    exists wb_tpl, wb', stats, []. split_and!; try done.
    + by disk_lookup.
    + eexists. split; [left; by disk_lookup|done].
  - intros [= <-]. exists wb_tpl, wb', stats, ws. split_and!; try done.
    + by disk_lookup.
    + eexists. split; [left; by disk_lookup|done].
Qed.

End PrecipObsRun.

Section SheetHolds.
Variable strftime : Z → list N.

Lemma written_sheet_holds (ws : sheet) (m : matrix) (codes : list Z) (start : nat) :
  (1 ≤ start)%nat → well_shaped m →
  sheet_holds strftime ws (written_sheet strftime ws m codes start) start m.
Proof.
  intros Hstart [Hlen Hrows]. split.
  - intros k ts Hk.
    destruct (lookup_lt_is_Some_2 (m_data m) k) as [row Hrow].
    { rewrite Hlen. by eapply lookup_lt_Some. }
    assert (Hzip : zip (m_index m) (m_data m) !! k = Some (ts, row))
      by by apply lookup_zip_Some.
    split_and!.
    + by eapply written_time_cell.
    + intros j q. unfold cell_by_position. rewrite Hrow. cbn. intros Hj.
      by eapply written_number_cell.
    + intros Hne j. unfold cell_by_position. rewrite Hrow.
      cbn [mbind option_bind]. intros Hj.
      rewrite written_sheet_cell by lia. rewrite decide_True by lia.
      replace (start + k - start)%nat with k by lia. rewrite Hzip.
      rewrite decide_False by lia. cbn [snd].
      replace (2 + j - 2)%nat with j by lia. by rewrite Hj.
  - intros r c Hr Hne Hc. rewrite written_sheet_cell by lia.
    rewrite decide_True by lia.
    rewrite (lookup_ge_None_2 (zip _ _)); [done|].
    rewrite length_zip, Hlen. lia.
Qed.

Lemma written_header_holds (ws : sheet) (m : matrix) (codes : list Z) (start : nat) :
  (4 ≤ start)%nat →
  header_holds (written_sheet strftime ws m codes start) codes.
Proof.
  intros Hstart. split.
  - by rewrite written_header_cell by lia.
  - intros j c Hj. rewrite written_header_cell by lia.
    rewrite decide_False by lia.
    replace (2 + j - 2)%nat with j by lia. by rewrite Hj.
Qed.

End SheetHolds.

Section CleanedCells.
Variable to_datetime : cell → option Z.
Variable to_numeric : cell → option Q.

(** After the cleaning, the value at a time and a station is the one of
    the last input record with that key. *)
Lemma group_last_cleaned (mapped : list mapped_row) (warnings : list warning)
    (ts code : Z) :
  group_last (PrecipObs.clean_values to_datetime to_numeric mapped warnings).1.1
    ts code
  = last_record_value (coerce_values to_numeric (coerce_times to_datetime mapped))
      ts code.
Proof.
  unfold PrecipObs.clean_values. cbn [fst]. rewrite conditional_drop.
  unfold group_last, last_record_value. rewrite with_key_cleaned.
  destruct (last_occurrence _ _) as [r|]; [|done]. cbn.
  by destruct (r_value r).
Qed.

End CleanedCells.

(** X18.  A run of the observed-precipitation script that ends with
    status 0, from the input to the saved workbook.  The template on disk
    had both sheets, the input was parsed and mapped without error, some
    record was left after the cleaning and the start row is 1 or more.
    The workbook saved under the output name is the template with its
    data sheet rewritten, the other sheets as they were.  The rows of the
    data sheet from the start row are the times, ascending and once each,
    at which some station has a value, each formatted in column 1; the
    cell of a time and of the j-th target code (the ascending union of the
    codes of the station sheet and of the template header) holds the value
    of the last input record of that time and station, the fill value
    when that record has none or is missing.  The writer erases nothing:
    outside the header row, a cell that has neither a value nor a fill
    value keeps what the template held, and so do the rows below the
    matrix.  From start row 4 the header row reads the target codes.
    Under [--strict] the run has raised no warning. *)
Theorem precip_obs_end_to_end `{UnicodeDB} (repr : cell → list N)
    (to_datetime : cell → option Z) (to_numeric : cell → option Q)
    (strftime : Z → list N) (opts : PrecipObsPipeline.options)
    (input : PrecipObsPipeline.input_table) (a : args) (run_id : string)
    (fs fs' : gmap string file) :
  PrecipObsMain.main
    (PrecipObsPipeline.stages repr to_datetime to_numeric strftime opts a input)
    a run_id fs = (0, fs') →
  ∃ wb_tpl ws_data ws_st frame parse_warnings mapped mapping_stats warnings
    wb' ws' stats final_warnings,
    load_workbook fs (arg_template a) = Some wb_tpl
    ∧ get_sheet wb_tpl (arg_sheet_data a) = Some ws_data
    ∧ get_sheet wb_tpl (arg_sheet_stations a) = Some ws_st
    ∧ PrecipObsPipeline.parse_input repr opts input = Ok (Some (frame, parse_warnings))
    ∧ PrecipObsInput.map_stations frame
        (PrecipObsStations.extract_template_stations repr ws_st).2 parse_warnings
      = Ok (mapped, mapping_stats, warnings)
    ∧ 1 ≤ PrecipObsPipeline.opt_data_start_row opts
    ∧ fs' !! PrecipObsMain.out_xlsx a run_id = Some (FWorkbook wb')
    ∧ is_report (fs' !! PrecipObsMain.out_json a run_id) final_warnings
    ∧ (arg_strict a = true → final_warnings = [])
    ∧ get_sheet wb' (arg_sheet_data a) = Some ws'
    ∧ (∀ other, other ≠ arg_sheet_data a → get_sheet wb' other = get_sheet wb_tpl other)
    ∧ let records := PrecipObsPipeline.coerced to_datetime to_numeric mapped in
      let clean := (PrecipObs.clean_values to_datetime to_numeric mapped warnings).1.1 in
      let target_codes :=
        Py.sorted_union (PrecipObsStations.extract_template_stations repr ws_st).1.1
          (PrecipObs.extract_template_data_codes ws_data) in
      let m := (PrecipObs.build_matrix clean target_codes
                  (PrecipObsPipeline.opt_fill_missing opts)).1 in
      let start := Z.to_nat (PrecipObsPipeline.opt_data_start_row opts) in
      clean ≠ []
      ∧ stats = [(PrecipObs.build_matrix clean target_codes
                    (PrecipObsPipeline.opt_fill_missing opts)).2]
      ∧ sheet_holds strftime ws_data ws' start m
      ∧ StronglySorted Z.lt (m_index m)
      ∧ (∀ ts, ts ∈ m_index m ↔
               ∃ code v, last_record_value records ts code = Some v)
      ∧ (∀ k j ts code,
           m_index m !! k = Some ts → target_codes !! j = Some code →
           match fill_value (PrecipObsPipeline.opt_fill_missing opts)
                   (last_record_value records ts code) with
           | Some q => cell_value ws' (start + k) (2 + j) = CNum q
           | None => (start + k)%nat ≠ 3%nat →
                     cell_value ws' (start + k) (2 + j)
                     = cell_value ws_data (start + k) (2 + j)
           end)
      ∧ (4 ≤ PrecipObsPipeline.opt_data_start_row opts →
         header_holds ws' target_codes).
Proof.
  intros Hmain.
  apply precip_obs_main_success in Hmain
    as (wb_tpl & wb' & stats & final & Hload & Hdata & Hst & Hstages & Hx & Hj & Hstrict).
  revert Hstages. unfold PrecipObsPipeline.stages.
  destruct (get_sheet wb_tpl (arg_sheet_data a)) as [ws_data|] eqn:Hwsd; [|done].
  destruct (get_sheet wb_tpl (arg_sheet_stations a)) as [ws_st|] eqn:Hwss; [|done].
  destruct (PrecipObsStations.extract_template_stations repr ws_st)
    as [[station_codes labels] table] eqn:Hextract.
  destruct (PrecipObsPipeline.parse_input repr opts input)
    as [[[frame pw]|]|e] eqn:Hparse; cbn [mbind result_bind]; [|done|done].
  destruct (PrecipObsInput.map_stations frame table pw)
    as [[[mapped mstats] mws]|e] eqn:Hmap; cbn [mbind result_bind]; [|done].
  destruct (PrecipObs.clean_values to_datetime to_numeric mapped mws)
    as [[clean cstats] cws] eqn:Hclean.
  destruct clean as [|r0 clean']; [done|].
  set (clean := r0 :: clean') in *.
  set (target := PrecipObs.target_codes station_codes
                   (PrecipObs.extract_template_data_codes ws_data)).
  destruct (PrecipObs.build_matrix clean target (PrecipObsPipeline.opt_fill_missing opts))
    as [m ostats] eqn:Hbuild.
  rewrite precip_obs_writer_eq.
  destruct (decide (1 ≤ PrecipObsPipeline.opt_data_start_row opts)) as [Hstart|Hstart].
  2:{ destruct (write_template_Raise strftime wb_tpl (arg_sheet_data a) ws_data m target
                  (PrecipObsPipeline.opt_data_start_row opts) Hwsd) as [msg Hmsg];
        [lia|].
      by rewrite Hmsg. }
  rewrite (write_template_Ok strftime wb_tpl (arg_sheet_data a) ws_data) by done.
  cbn [mbind result_bind]. intros [= <- <- <-].
  assert (Hb : PrecipObs.build_matrix ∈ builders) by (do 2 right; by left).
  destruct (matrix_cells PrecipObs.build_matrix clean target
              (PrecipObsPipeline.opt_fill_missing opts) Hb)
    as (Hcols & Hsorted & Hindex & Hshape & Hcell & _).
  rewrite Hbuild in Hcols, Hsorted, Hindex, Hshape, Hcell. cbn [fst] in *.
  assert (Hgroup : ∀ ts code,
            group_last clean ts code
            = last_record_value (PrecipObsPipeline.coerced to_datetime to_numeric mapped)
                ts code).
  { intros ts code.
    pose proof (group_last_cleaned to_datetime to_numeric mapped mws ts code) as Hg.
    by rewrite Hclean in Hg. }
  assert (Hkeys : NoDup (key_of <$> clean)).
  { apply key_lt_NoDup.
    assert (Hc : clean = (PrecipObs.clean_values to_datetime to_numeric
                            mapped mws).1.1) by by rewrite Hclean.
    rewrite Hc. unfold PrecipObs.clean_values. cbn [fst].
    rewrite conditional_drop. apply cleaned_ascending. }
  assert (Hholds : sheet_holds strftime ws_data
            (written_sheet strftime ws_data m target
               (Z.to_nat (PrecipObsPipeline.opt_data_start_row opts)))
            (Z.to_nat (PrecipObsPipeline.opt_data_start_row opts)) m)
    by (apply written_sheet_holds; [lia|done]).
  assert (Htimes : ∀ ts, ts ∈ m_index m ↔
            ∃ code v,
              last_record_value (PrecipObsPipeline.coerced to_datetime to_numeric mapped)
                ts code = Some v).
  { intros ts. rewrite Hindex. split.
    - intros (r & v & Hr & Hts & Hv).
      exists (r_station r), v. rewrite <- Hgroup, <- Hts.
      by rewrite (group_last_unique clean r Hkeys Hr).
    - intros (code & v & Hv). rewrite <- Hgroup in Hv.
      unfold group_last in Hv. apply last_Some_elem_of in Hv.
      apply list_elem_of_omap in Hv as (r & Hr & Hv).
      unfold with_key in Hr. apply list_elem_of_filter in Hr as [Hkey Hr].
      exists r, v. split_and!; [done| |done].
      unfold key_of in Hkey. by injection Hkey. }
  assert (Hcells : ∀ k j ts code,
            m_index m !! k = Some ts → target !! j = Some code →
            match fill_value (PrecipObsPipeline.opt_fill_missing opts)
                    (last_record_value
                       (PrecipObsPipeline.coerced to_datetime to_numeric mapped)
                       ts code) with
            | Some q =>
                cell_value (written_sheet strftime ws_data m target
                              (Z.to_nat (PrecipObsPipeline.opt_data_start_row opts)))
                  (Z.to_nat (PrecipObsPipeline.opt_data_start_row opts) + k) (2 + j)
                = CNum q
            | None =>
                (Z.to_nat (PrecipObsPipeline.opt_data_start_row opts) + k)%nat ≠ 3%nat →
                cell_value (written_sheet strftime ws_data m target
                              (Z.to_nat (PrecipObsPipeline.opt_data_start_row opts)))
                  (Z.to_nat (PrecipObsPipeline.opt_data_start_row opts) + k) (2 + j)
                = cell_value ws_data
                    (Z.to_nat (PrecipObsPipeline.opt_data_start_row opts) + k) (2 + j)
            end).
  { intros k j ts code Hk Hcode. destruct Hholds as [Hrows _].
    destruct (Hrows k ts Hk) as (_ & Hnumbers & Hnulls).
    pose proof (Hcell k j ts code Hk Hcode) as Hpos. rewrite Hgroup in Hpos.
    destruct (fill_value _ _) as [q|].
    - by apply Hnumbers.
    - intros Hne. by apply Hnulls. }
  exists wb_tpl, ws_data, ws_st, frame, pw, mapped, mstats, mws.
  eexists _, _, _, _.
  rewrite Hextract, Hclean. cbn [fst snd].
  change (Py.sorted_union station_codes
            (PrecipObs.extract_template_data_codes ws_data)) with target.
  rewrite Hbuild. cbn [fst snd].
  split_and!; try done.
  - by eapply get_sheet_set_sheet.
  - intros other Hother. by apply get_sheet_set_sheet_ne.
  - intros H4. apply written_header_holds. lia.
Qed.

Lemma precip_obs_end_to_end_witness :
  example_precip_run = (0, example_precip_run.2)
  ∧ ∃ wb' ws',
      example_precip_run.2 !! PrecipObsMain.out_xlsx lenient_args "r"
      = Some (FWorkbook wb')
      ∧ get_sheet wb' (arg_sheet_data lenient_args) = Some ws'
      ∧ 1 ≤ PrecipObsPipeline.opt_data_start_row example_options.
Proof.
  assert (Hstatus : example_precip_run.1 = 0) by (vm_compute; reflexivity).
  assert (Hrun : example_precip_run = (0, example_precip_run.2))
    by (apply injective_projections; [exact Hstatus|reflexivity]).
  split; [exact Hrun|].
  destruct (precip_obs_end_to_end text_only timestamp_cell numeric_cell
              example_strftime example_options
              (PrecipObsPipeline.InputXlsx example_datatable) lenient_args "r"
              example_precip_disk example_precip_run.2 Hrun)
    as (wb_tpl & ws_data & ws_st & frame & pw & mapped & mstats & ws & wb' & ws'
        & stats & final & _ & _ & _ & _ & _ & Hstart & Hx & _ & _ & Hws' & _).
  exists wb', ws'. split; [exact Hx|]. split; [exact Hws'|exact Hstart].
Defined.

(** The data sheet that the example run saves: the two hours of the
    DataTable under the codes 101 and 102, and below them the third row
    of the earlier run, which the writer leaves in place. *)
Lemma precip_obs_end_to_end_example :
  match example_precip_run.2 !! PrecipObsMain.out_xlsx lenient_args "r" with
  | Some (FWorkbook wb') => get_sheet wb' Donnees
  | _ => None
  end
  = Some [[]; []; [CStr (u "timestamp"); CNum 101; CNum 102];
          [CStr (example_strftime 3600); CNum 1; CNum 2];
          [CStr (example_strftime 7200); CNum 0; CNone];
          [CStr (example_strftime 2); CNum 7; CNone]].
Proof. vm_compute. reflexivity. Qed.

(** ** The worker of the front end *)

Section Globbing.

Lemma strip_prefix_app (pre s : string) :
  Worker.strip_prefix pre (pre ++ s) = Some s.
Proof.
  induction pre as [|c pre IH]; [done|].
  change (String c pre +:+ s) with (String c (pre +:+ s)).
  cbn [Worker.strip_prefix]. by rewrite bool_decide_true.
Qed.

Lemma string_app_assoc (s t v : string) : ((s ++ t) ++ v = s ++ (t ++ v))%string.
Proof.
  induction s as [|c s IH]; [done|].
  change (String c s +:+ t) with (String c (s +:+ t)).
  change (String c (s +:+ t) +:+ v) with (String c ((s +:+ t) +:+ v)).
  change (String c s +:+ (t +:+ v)) with (String c (s +:+ (t +:+ v))).
  by rewrite IH.
Qed.

Lemma entry_name_join (outdir name : string) :
  Worker.entry_name outdir (path_join outdir name)
  = if Worker.has_slash name then None else Some name.
Proof.
  unfold Worker.entry_name, path_join.
  by rewrite <- string_app_assoc, strip_prefix_app.
Qed.

Lemma matches_join (outdir pattern name : string) :
  Worker.matches outdir pattern (path_join outdir name)
  = negb (Worker.has_slash name) && Worker.glob_match pattern name.
Proof.
  unfold Worker.matches. rewrite entry_name_join.
  by destruct (Worker.has_slash name).
Qed.

Lemma glob_match_star_unfold (pattern name : string) :
  Worker.glob_match (String "*" pattern) name
  = Worker.glob_match pattern name
    || match name with
       | EmptyString => false
       | String _ name' => Worker.glob_match (String "*" pattern) name'
       end.
Proof. by destruct name. Qed.

(** A star matches any text that is followed by a match of the rest. *)
Lemma glob_match_star (pattern mid rest : string) :
  Worker.glob_match pattern rest = true →
  Worker.glob_match (String "*" pattern) (mid ++ rest) = true.
Proof.
  intros Hrest. induction mid as [|c mid IH].
  - change (EmptyString +:+ rest) with rest.
    rewrite glob_match_star_unfold, Hrest. done.
  - change (String c mid +:+ rest) with (String c (mid +:+ rest)).
    rewrite glob_match_star_unfold, IH. apply orb_true_r.
Qed.

Lemma elem_of_glob (outdir pattern path : string) (fs : gmap string file) :
  path ∈ Worker.glob outdir pattern fs
  ↔ is_Some (fs !! path) ∧ Worker.matches outdir pattern path = true.
Proof.
  unfold Worker.glob. rewrite list_elem_of_filter, list_elem_of_fmap. split.
  - intros [Hm ([p f] & -> & Hin)]. apply elem_of_map_to_list in Hin.
    split; [by eexists|done].
  - intros [[f Hf] Hm]. split; [done|]. exists (path, f).
    split; [done|]. by apply elem_of_map_to_list.
Qed.

Lemma NoDup_glob (outdir pattern : string) (fs : gmap string file) :
  NoDup (Worker.glob outdir pattern fs).
Proof. apply NoDup_filter, NoDup_fst_map_to_list. Qed.

Lemma NoDup_only {A} (l : list A) (x : A) :
  NoDup l → x ∈ l → (∀ y, y ∈ l → y = x) → l = [x].
Proof.
  intros Hnd Hx Hall. destruct l as [|y l]; [by apply elem_of_nil in Hx|].
  assert (y = x) by (apply Hall; by left). subst y.
  apply NoDup_cons in Hnd as [Hnot _].
  destruct l as [|z l]; [done|].
  assert (z = x) by (apply Hall; right; by left). subst z.
  exfalso. apply Hnot. by left.
Qed.

Lemma not_any {A} (l : list A) : (∀ y, y ∉ l) → l = [].
Proof.
  intros Hall. destruct l as [|y l]; [done|]. exfalso. apply (Hall y). by left.
Qed.

End Globbing.

Section Detection.
Variable st_mtime : gmap string file → string → Z.
Variable main : args → string → gmap string file → Z * gmap string file.
Variables log_path xlsx json txt : args → string → string.
Variable early : bool.
Variable xlsx_name : args → string → string.
Variable workflow_key : string.

Hypothesis main_ok : run_outcome_ok main log_path xlsx json txt early.
Hypothesis pattern_given : Worker._output_pattern_for_workflow workflow_key ≠ ""%string.
Hypothesis xlsx_path : ∀ a r, xlsx a r = path_join (arg_outdir a) (xlsx_name a r).
Hypothesis xlsx_matches : ∀ a r,
  Worker.glob_match (Worker._output_pattern_for_workflow workflow_key)
    (xlsx_name a r) = true.
Hypothesis others_differ : ∀ a r,
  Forall (λ path, Worker.matches (arg_outdir a)
                    (Worker._output_pattern_for_workflow workflow_key) path = false)
         [log_path a r; json a r; txt a r].

Lemma script_detects_outputs : detects_outputs st_mtime workflow_key main xlsx_name.
Proof.
  intros a run_id st Hslash xlsx_p st'. subst st' xlsx_p.
  set (pattern := Worker._output_pattern_for_workflow workflow_key) in *.
  destruct (main_ok a run_id (Worker.disk st))
    as (_ & _ & _ & _ & Hsaved & Hframe).
  rewrite <- xlsx_path in *.
  unfold Worker.run_job. rewrite !bool_decide_true by done.
  destruct (main a run_id (Worker.disk st)) as [rc fs] eqn:Hrun.
  cbn [fst snd] in *.
  case_bool_decide as Hrc.
  - subst rc. destruct (Hsaved eq_refl) as (wb & ws & Hwb & _).
    set (fresh := filter (λ p, p ∉ Worker.glob (arg_outdir a) pattern (Worker.disk st))
                         (Worker.glob (arg_outdir a) pattern fs)).
    assert (Hxm : Worker.matches (arg_outdir a) pattern (xlsx a run_id) = true).
    { rewrite xlsx_path, matches_join, Hslash. apply xlsx_matches. }
    assert (Hfresh : ∀ p, p ∈ fresh ↔
              p = xlsx a run_id ∧ Worker.disk st !! xlsx a run_id = None).
    { intros p. subst fresh. rewrite list_elem_of_filter, !elem_of_glob. split.
      - intros [Hold [Hsome Hm]].
        assert (Hnone : Worker.disk st !! p = None).
        { destruct (Worker.disk st !! p) eqn:Hp; [|done].
          exfalso. apply Hold. split; [by eexists|done]. }
        destruct (decide (p ∈ [log_path a run_id; xlsx a run_id; json a run_id;
                               txt a run_id])) as [Hin|Hout].
        + pose proof (others_differ a run_id) as Hothers.
          rewrite !Forall_cons in Hothers. destruct Hothers as (Hl & Hj & Ht & _).
          rewrite !elem_of_cons, elem_of_nil in Hin.
          destruct Hin as [->|[->|[->|[->|[]]]]]; [congruence|done|congruence|congruence].
        + rewrite (Hframe p Hout), Hnone in Hsome. by destruct Hsome.
      - intros [-> Hnone]. split; [|split; [by eexists|done]].
        intros [Hsome _]. rewrite Hnone in Hsome. by destruct Hsome. }
    assert (Hnd : NoDup fresh) by apply NoDup_filter, NoDup_glob.
    split; [by destruct fresh|].
    split; [|done]. intros _.
    split_and!; [by destruct fresh|by destruct fresh|destruct fresh; by exists wb| |].
    + intros Hnone.
      assert (Hone : fresh = [xlsx a run_id]).
      { apply NoDup_only; [done|by apply Hfresh|]. intros y Hy. by apply Hfresh. }
      by rewrite Hone.
    + intros Hsome.
      assert (Hnil : fresh = []).
      { apply not_any. intros y Hy. apply Hfresh in Hy as [_ Hnone]. done. }
      by rewrite Hnil.
  - cbn. split; [done|]. split; [done|]. by intros _.
Qed.

End Detection.

Section Patterns.

Lemma glob_match_prefix (pre pattern name : string) :
  no_star pre = true →
  Worker.glob_match (pre ++ pattern) (pre ++ name) = Worker.glob_match pattern name.
Proof.
  induction pre as [|c pre IH]; [done|].
  cbn [no_star]. rewrite andb_true_iff, negb_true_iff.
  intros [Hc Hpre].
  change (String c pre +:+ pattern) with (String c (pre +:+ pattern)).
  change (String c pre +:+ name) with (String c (pre +:+ name)).
  cbn [Worker.glob_match]. rewrite Hc, bool_decide_true by done.
  by apply IH.
Qed.

(** A name made of the text before the star, anything, and the text
    after the star matches the pattern. *)
Lemma glob_match_around (pre suf mid : string) :
  no_star pre = true → Worker.glob_match suf suf = true →
  Worker.glob_match (pre ++ String "*" suf) (pre ++ mid ++ suf) = true.
Proof.
  intros Hpre Hsuf. rewrite glob_match_prefix by done. by apply glob_match_star.
Qed.

(** A name that starts with another letter than the pattern does not
    match it. *)
Lemma matches_other_letter (outdir : string) (c d : ascii) (pattern name : string) :
  c ≠ d → c ≠ "*"%char →
  Worker.matches outdir (String c pattern) (path_join outdir (String d name)) = false.
Proof.
  intros Hcd Hc. rewrite matches_join. cbn [Worker.glob_match].
  rewrite !bool_decide_false by done. apply andb_false_r.
Qed.

End Patterns.

(** X19.  How the worker of the front end finds the workbook of a
    command.  For each of the four scripts, whose saved workbook has a
    name without [/]: a command that returns 0 counts as a success and
    leaves its workbook on disk; the workbook is added to the list of
    generated files exactly when no file of that name existed before the
    command, so that a workbook that replaces an earlier one of the same
    name (the same run identifier) is not listed; the log and the reports
    are never taken for an output.  A command that returns another
    status counts as a failure and adds nothing. *)
Theorem worker_detects_outputs (st_mtime : gmap string file → string → Z)
    (validation : result (list PrecipModel.error))
    (stages : workbook → result stage_outcome) :
  detects_outputs st_mtime "flow_observed" (FlowMain.main stages) flow_xlsx_name
  ∧ detects_outputs st_mtime "volume_observed" (VolumeMain.main stages)
      volume_xlsx_name
  ∧ detects_outputs st_mtime "precip_observed" (PrecipObsMain.main stages)
      precip_obs_xlsx_name
  ∧ detects_outputs st_mtime "precip_model" (PrecipModelMain.main validation stages)
      precip_model_xlsx_name.
Proof.
  split_and!.
  - apply (script_detects_outputs st_mtime _ FlowMain.log_path FlowMain.out_xlsx
             FlowMain.out_json FlowMain.out_txt false).
    + apply flow_run_outcome_ok.
    + done.
    + done.
    + intros a r.
      apply (glob_match_around "template_multi_station_flow_m3s_observed_" ".xlsx" r);
        reflexivity.
    + intros a r. repeat constructor; by apply matches_other_letter.
  - apply (script_detects_outputs st_mtime _ VolumeMain.log_path VolumeMain.out_xlsx
             VolumeMain.out_json VolumeMain.out_txt false).
    + apply volume_run_outcome_ok.
    + done.
    + done.
    + intros a r.
      apply (glob_match_around "template_multi_station_volume_hm3_observed_" ".xlsx" r);
        reflexivity.
    + intros a r. repeat constructor; by apply matches_other_letter.
  - apply (script_detects_outputs st_mtime _ PrecipObsMain.log_path
             PrecipObsMain.out_xlsx PrecipObsMain.out_json PrecipObsMain.out_txt false).
    + apply precip_obs_run_outcome_ok.
    + done.
    + done.
    + intros a r.
      apply (glob_match_around "template_multi_station_precip_mm_observed_" ".xlsx" r);
        reflexivity.
    + intros a r. repeat constructor; by apply matches_other_letter.
  - apply (script_detects_outputs st_mtime _ PrecipModelMain.log_path
             PrecipModelMain.output_xlsx PrecipModelMain.report_json
             PrecipModelMain.report_txt true).
    + apply precip_model_run_outcome_ok.
    + done.
    + done.
    + intros a r. unfold precip_model_xlsx_name.
      rewrite <- (string_app_assoc (arg_model a) "_" (r +:+ ".xlsx")).
      rewrite <- (string_app_assoc (arg_model a +:+ "_") r ".xlsx").
      apply (glob_match_around "template_multi_station_precip_mm_" ".xlsx");
        reflexivity.
    + intros a r. repeat constructor; by apply matches_other_letter.
Qed.

Lemma worker_detects_outputs_witness :
  Worker.has_slash (flow_xlsx_name lenient_args "r") = false
  ∧ (FlowMain.main example_stages lenient_args "r" example_disk).1 = 0
  ∧ example_disk !! path_join (arg_outdir lenient_args)
                      (flow_xlsx_name lenient_args "r") = None
  ∧ Worker.generated_xlsx
      (Worker.run_job still_clock (arg_outdir lenient_args)
         (Worker._output_pattern_for_workflow "flow_observed")
         (Worker.mkState 0 0 [] example_disk)
         (FlowMain.main example_stages lenient_args "r"))
    = [path_join (arg_outdir lenient_args) (flow_xlsx_name lenient_args "r")].
Proof.
  assert (Hslash : Worker.has_slash (flow_xlsx_name lenient_args "r") = false)
    by (vm_compute; reflexivity).
  assert (Hstatus : (FlowMain.main example_stages lenient_args "r" example_disk).1 = 0)
    by (vm_compute; reflexivity).
  assert (Hfresh : example_disk !! path_join (arg_outdir lenient_args)
                                     (flow_xlsx_name lenient_args "r") = None)
    by (vm_compute; reflexivity).
  split_and!; [exact Hslash|exact Hstatus|exact Hfresh|].
  destruct (proj1 (worker_detects_outputs still_clock (Ok []) example_stages)
              lenient_args "r"%string (Worker.mkState 0 0 [] example_disk) Hslash)
    as (_ & Hzero & _).
  destruct (Hzero Hstatus) as (_ & _ & _ & Hadd & _).
  exact (Hadd Hfresh).
Defined.

Section Batch.
Variable st_mtime : gmap string file → string → Z.
Variable main : (workbook → result stage_outcome) → args → string
                → gmap string file → Z * gmap string file.
Variables log_path xlsx json txt : args → string → string.
Variable early : bool.
Variable xlsx_name : args → string → string.
Variable workflow_key : string.

Hypothesis main_ok : ∀ s, run_outcome_ok (main s) log_path xlsx json txt early.
Hypothesis detects : ∀ s, detects_outputs st_mtime workflow_key (main s) xlsx_name.
Hypothesis xlsx_path : ∀ a r, xlsx a r = path_join (arg_outdir a) (xlsx_name a r).
Hypothesis apart : ∀ a r a' r',
  xlsx a r ≠ log_path a' r' ∧ xlsx a r ≠ json a' r' ∧ xlsx a r ≠ txt a' r'.

Lemma path_join_inj (outdir n n' : string) :
  path_join outdir n = path_join outdir n' → n = n'.
Proof.
  unfold path_join. induction outdir as [|c outdir IH].
  - intros [= ?]. done.
  - intros [= ?]. by apply IH.
Qed.

Lemma script_batch_detection :
  batch_detection st_mtime workflow_key main xlsx_name
    (λ a r, [log_path a r; xlsx a r; json a r; txt a r]).
Proof.
  unfold batch_detection. intros jobs outdir fs. unfold Worker.run_jobs. cbv zeta.
  induction jobs as [|j jobs IH] using rev_ind; intros Hjobs Hnd.
  { cbn. split_and!; try done. intros p Hp. by apply elem_of_nil in Hp. }
  rewrite fmap_app, foldl_app. cbn [fmap list_fmap foldl].
  apply Forall_app in Hjobs as [Hjobs Hj].
  apply Forall_singleton in Hj as (Hdir & Hslash & Hfresh).
  rewrite fmap_app in Hnd. apply NoDup_app in Hnd as (Hnd & Hnew & _).
  specialize (IH Hjobs Hnd).
  set (st := foldl _ _ ((λ j, main j.1.1 j.1.2 j.2) <$> jobs)) in *.
  destruct IH as (Hcount & Hlen & Hsub & Hheld & Hframe).
  destruct j as [[s a] r]. cbn [fst snd] in *. subst outdir.
  assert (Hxlsx_new : xlsx a r ∉ jobs ≫= (λ j, [log_path j.1.2 j.2; xlsx j.1.2 j.2;
                                                json j.1.2 j.2; txt j.1.2 j.2])).
  { intros (j' & Hin & Hj')%list_elem_of_bind.
    destruct (apart a r j'.1.2 j'.2) as (Hl & Hjs & Ht).
    rewrite !elem_of_cons, elem_of_nil in Hin.
    destruct Hin as [?|[Heq|[?|[?|[]]]]]; try done.
    apply (Hnew (xlsx_name j'.1.2 j'.2)).
    - apply list_elem_of_fmap. by exists j'.
    - rewrite !xlsx_path in Heq.
      rewrite Forall_forall in Hjobs. destruct (Hjobs j' Hj') as (Hd & _).
      rewrite Hd in Heq. apply path_join_inj in Heq. rewrite <- Heq. by left. }
  assert (Hbefore : Worker.disk st !! path_join (arg_outdir a) (xlsx_name a r) = None).
  { rewrite <- xlsx_path, (Hframe _ Hxlsx_new), xlsx_path. done. }
  destruct (detects s a r st Hslash) as (Hdisk & Hzero & Hfail).
  destruct (main_ok s a r (Worker.disk st)) as (_ & _ & _ & _ & _ & Hwritten).
  set (st' := Worker.run_job st_mtime (arg_outdir a)
                (Worker._output_pattern_for_workflow workflow_key) st (main s a r)) in *.
  assert (Hkept : ∀ p, p ∈ Worker.generated_xlsx st →
            ∃ wb, Worker.disk st' !! p = Some (FWorkbook wb)).
  { intros p Hp. destruct (Hheld p Hp) as [wb Hwb]. exists wb.
    rewrite Hdisk, Hwritten; [done|].
    assert (Hin : p ∈ (λ j, path_join (arg_outdir a) (xlsx_name j.1.2 j.2)) <$> jobs)
      by (eapply elem_of_submseteq; [exact Hp|by apply sublist_submseteq]).
    apply list_elem_of_fmap in Hin as (j' & -> & Hj').
    rewrite Forall_forall in Hjobs. destruct (Hjobs j' Hj') as (Hd & _).
    rewrite <- Hd, <- xlsx_path.
    destruct (apart j'.1.2 j'.2 a r) as (Hl & Hjs & Ht).
    rewrite !elem_of_cons, elem_of_nil.
    intros [?|[Heq|[?|[?|[]]]]]; try done.
    apply (Hnew (xlsx_name j'.1.2 j'.2)).
    - apply list_elem_of_fmap. by exists j'.
    - rewrite !xlsx_path, Hd in Heq. apply path_join_inj in Heq.
      rewrite Heq. by left. }
  assert (Hframe' : ∀ p,
            p ∉ (jobs ++ [(s, a, r)]) ≫= (λ j, [log_path j.1.2 j.2; xlsx j.1.2 j.2;
                                                 json j.1.2 j.2; txt j.1.2 j.2]) →
            Worker.disk st' !! p = fs !! p).
  { intros p Hp. rewrite bind_app, elem_of_app in Hp.
    rewrite Hdisk, Hwritten.
    - apply Hframe. tauto.
    - intros Hin. apply Hp. right. rewrite bind_singleton. done. }
  rewrite length_app, fmap_app. cbn [length fmap list_fmap fst snd].
  destruct (decide ((main s a r (Worker.disk st)).1 = 0)) as [Hrc|Hrc].
  - destruct (Hzero Hrc) as (Hok & Hko & Hwb & Hadd & _).
    specialize (Hadd Hbefore). rewrite Hok, Hko, Hadd, length_app. cbn [length].
    split_and!; [lia|lia| | |done].
    + by apply sublist_app.
    + intros p [Hp|Hp%list_elem_of_singleton]%elem_of_app; [by apply Hkept|].
      by subst p.
  - destruct (Hfail Hrc) as (Hok & Hko & Hsame). rewrite Hok, Hko, Hsame.
    split_and!; [lia|lia| |done|done].
    apply sublist_inserts_r. done.
Qed.

End Batch.

(** X20.  A batch run by the worker, for the two scripts whose batches
    are consolidated.  When the jobs write into one directory, save
    workbooks of pairwise distinct names and none of these names exists
    beforehand, every command is counted once, as a success or as a
    failure; the list handed to the consolidation holds one workbook per
    success, in the order of the jobs, each workbook being the one its job
    saved and still on disk at the end of the batch; and the batch changes
    no path other than the logs, workbooks and reports of its jobs. *)
Theorem worker_batch (st_mtime : gmap string file → string → Z) :
  batch_detection st_mtime "flow_observed" FlowMain.main flow_xlsx_name
    (λ a r, [FlowMain.log_path a r; FlowMain.out_xlsx a r; FlowMain.out_json a r;
             FlowMain.out_txt a r])
  ∧ batch_detection st_mtime "volume_observed" VolumeMain.main volume_xlsx_name
      (λ a r, [VolumeMain.log_path a r; VolumeMain.out_xlsx a r;
               VolumeMain.out_json a r; VolumeMain.out_txt a r]).
Proof.
  split.
  - apply (script_batch_detection st_mtime FlowMain.main FlowMain.log_path
             FlowMain.out_xlsx FlowMain.out_json FlowMain.out_txt false).
    + intros s. apply flow_run_outcome_ok.
    + intros s. apply (script_detects_outputs st_mtime _ FlowMain.log_path
                         FlowMain.out_xlsx FlowMain.out_json FlowMain.out_txt false).
      * apply flow_run_outcome_ok.
      * done.
      * done.
      * intros a r.
        apply (glob_match_around "template_multi_station_flow_m3s_observed_"
                 ".xlsx" r); reflexivity.
      * intros a r. repeat constructor; by apply matches_other_letter.
    + done.
    + intros a r a' r'. split_and!; path_neq.
  - apply (script_batch_detection st_mtime VolumeMain.main VolumeMain.log_path
             VolumeMain.out_xlsx VolumeMain.out_json VolumeMain.out_txt false).
    + intros s. apply volume_run_outcome_ok.
    + intros s. apply (script_detects_outputs st_mtime _ VolumeMain.log_path
                         VolumeMain.out_xlsx VolumeMain.out_json VolumeMain.out_txt false).
      * apply volume_run_outcome_ok.
      * done.
      * done.
      * intros a r.
        apply (glob_match_around "template_multi_station_volume_hm3_observed_"
                 ".xlsx" r); reflexivity.
      * intros a r. repeat constructor; by apply matches_other_letter.
    + done.
    + intros a r a' r'. split_and!; path_neq.
Qed.

Lemma worker_batch_witness :
  Forall (λ j, arg_outdir j.1.2 = "out"%string
               ∧ Worker.has_slash (flow_xlsx_name j.1.2 j.2) = false
               ∧ example_disk !! path_join "out" (flow_xlsx_name j.1.2 j.2) = None)
         example_jobs
  ∧ NoDup ((λ j, flow_xlsx_name j.1.2 j.2) <$> example_jobs)
  ∧ (Worker.ok (Worker.run_jobs still_clock "out" "flow_observed" example_disk
                  ((λ j, FlowMain.main j.1.1 j.1.2 j.2) <$> example_jobs))
     + Worker.ko (Worker.run_jobs still_clock "out" "flow_observed" example_disk
                    ((λ j, FlowMain.main j.1.1 j.1.2 j.2) <$> example_jobs)))%nat
    = length example_jobs.
Proof.
  assert (Hjobs : Forall (λ j, arg_outdir j.1.2 = "out"%string
                    ∧ Worker.has_slash (flow_xlsx_name j.1.2 j.2) = false
                    ∧ example_disk !! path_join "out" (flow_xlsx_name j.1.2 j.2) = None)
                    example_jobs).
  { repeat constructor; vm_compute; reflexivity. }
  assert (Hnd : NoDup ((λ j, flow_xlsx_name j.1.2 j.2) <$> example_jobs)).
  { apply (bool_decide_unpack (NoDup _)). vm_compute. exact I. }
  split_and!; [exact Hjobs|exact Hnd|].
  exact (proj1 (proj1 (worker_batch still_clock) example_jobs "out"%string
                  example_disk Hjobs Hnd)).
Defined.

(** The two jobs of the example succeed and their workbooks are listed in
    the order of the jobs. *)
Lemma worker_batch_example :
  Worker.generated_xlsx
    (Worker.run_jobs still_clock "out" "flow_observed" example_disk
       ((λ j, FlowMain.main j.1.1 j.1.2 j.2) <$> example_jobs))
  = ["out/template_multi_station_flow_m3s_observed_r1.xlsx";
     "out/template_multi_station_flow_m3s_observed_r2.xlsx"]%string.
Proof. vm_compute. reflexivity. Qed.
